(* ===== verification/_CoqProject ===== *)
-Q . S2P
Prelude.v
PyStr.v
PyDatetime.v
PyObj.v
Binary64.v
Config.v
Dotenv.v
Intent.v
History.v
News.v
Adapters.v
Store.v
Companies.v
Frames.v
Dashboard.v
Notebook.v
Pipeline.v
App.v
View.v
Setup.v
