(* ===== verification/Prelude.v ===== *)
(** * A verification development of the MSME RAG chatbot (ayyosumanth/RAG)

    ** The program

    The repository is a set of Python scripts.  The ones that matter
    write three modules to disk as Python string literals, and a
    Streamlit front end drives them:

    - [news_fetcher.py] (written by [src/script_4.py]): class
      [NewsAggregator].  Four provider adapters ([fetch_newsdata_io],
      [fetch_finnhub], [fetch_alpha_vantage], [fetch_marketaux]) turn a
      provider's JSON into article dicts and any exception into [[]];
      [fetch_sector_news] and [fetch_all_news] call the four adapters one
      after the other, then [_filter_by_relevance] (keyword filter) or
      [_deduplicate_articles] (first-seen dedup by normalised title, then
      a date sort inside a bare [try]), then slice to [limit].
    - [vector_store.py] (written by [src/script_5.py]): class
      [MSMEVectorStore] over a persistent ChromaDB collection: loading
      the company CSV files ([load_company_data], with the document text
      of [_create_company_document]), adding news
      ([add_news_articles], [_create_news_document]), the searches
      ([search_similar], [search_by_sector]) and [get_collection_stats].
    - [rag_pipeline.py] (the "Fixed version" written by
      [src/script_7.py]; [src/script_6.py], an older writer of the same
      file, is a syntax error and writes nothing): class [MSMERAGPipeline].  [process_query] =
      [_analyze_query] -> [_retrieve_context] -> [_should_include_news] /
      [_get_relevant_news] -> [_build_context] -> [_generate_response] ->
      [_update_conversation_history].  Its state is the vector store and
      [conversation_history].
    - [config.py] (= [src/config.py]): [SECTOR_KEYWORDS], [NEWS_APIS]
      and the API keys, read from the environment when it is imported.
    - [src/app.py]: the Streamlit session ([rag_pipeline],
      [chat_history], [knowledge_base_loaded], [latest_news]) that creates
      the pipeline and sends it the user's queries; every run handles one
      interaction and then draws the page: the setup preview, or four
      tabs (chat, a dashboard and an analytics tab computed with pandas
      from the two CSV files, the news feed).
    - The setup: [config.py] starts with [load_dotenv()], which reads
      [.env] (python-dotenv 1.0.0, the version [src/script_2.py] pins)
      into the environment; [src/script_9.py] writes the template
      [.env.example].  The data scripts are cells of one notebook kernel:
      [src/script.py] reads the two source CSV files, [src/script_1.py]
      drops the unnamed columns and writes [cleaned_companies.csv] and
      [cleaned_financial.csv], the files [app.py] reads;
      [src/script_11.py] is the system test.

    ** The library, in dependency order

    - [Prelude] (this file): the exception monad [exc] in which Python's
      raise and [try] are written ([py_try], [exc_map] for a loop that
      may raise), list slicing with Python's rules ([py_slice_to],
      [py_slice_from]), the first-seen deduplication [uniq_by] shared by
      the title dedup and the document-id dedup, shared list lemmas, the
      hint database [rag] and the tactic [exc_simpl].
    - [PyStr]: [str] as a list of code points: [lower], [title], [strip]
      (the CPython whitespace table), [in], [replace], [join].
    - [PyDatetime]: [datetime.fromisoformat] as CPython 3.7-3.10
      implement it in C, naive and aware values, and [isoformat()].
    - [PyObj]: the values [response.json()] produces ([pyval]), [dict.get],
      [.lower()] on a value, iteration, indexing, slicing, [str()] and
      [repr()], and [float()] with [repr] of floats.
    - [Binary64]: IEEE 754 binary64 as numpy computes with it: rounding
      to nearest even of an exact fraction ([round_rat]), [+ - * /] with
      signed zeros, infinities and NaN, [int64] wrap-around, and
      CPython's correctly rounded [format(x, '.2f')].
    - [Config]: [SECTOR_KEYWORDS] and [NEWS_APIS] ([news_api], [getenv]).
    - [Dotenv]: [load_dotenv] as python-dotenv computes it: the [.env]
      parser as a parser monad over the text ([parse_binding],
      [parse_stream]), the [${VAR:-default}] interpolation
      ([resolve_variables]) and [override=False]; the template
      [env_example] of [script_9.py].
    - [Intent]: [_analyze_query], [_should_include_news],
      [_build_system_prompt], against the design's ordered rule table.
    - [History]: the bounded conversation log and its specification as
      the log of turns since the last clear.
    - [News]: the aggregator; the adapters are the interface
      [NewsAdapters], the state the sort leaves when a comparison raises
      is the interface [ListSortRuntime].
    - [Adapters]: the four adapters over [NewsWorld] (environment, HTTP
      responses, the local time zone's UTC offset at each instant), and the instance of [NewsAdapters]
      they make.
    - [Store]: the vector store.  Chroma's [add] and [query] checks are
      modelled; the embedding search is the interface [SimilaritySearch]
      with an exact instance ([exact_knn]).
    - [Companies]: the DataFrame cells, [_create_company_document] (the
      latest year by [Series.max()], the figures with [:.2f], the revenue
      growth in numpy arithmetic) and [load_company_data].
    - [Pipeline]: the query pipeline over [SimilaritySearch],
      [NewsAdapters], [ListSortRuntime] and the language model [LLM]; the
      session as a step relation ([session]).
    - [Frames]: the pandas and numpy calls of [app.py]: [read_csv] with
      its dtypes ([of_csv]), column access and boolean masks ([df_col],
      [df_where]), [sum] and [mean] as numpy's [add.reduce]
      ([add_reduce]: [0.0] plus the eight-lane pairwise summation
      [pairwise_sum]), [groupby(...).mean()] with its Kahan
      loop ([groupby_mean]), the inner [merge], [unique], [value_counts]
      and [round(2)].
    - [Dashboard]: the dashboard and analytics tabs as computations of
      the render monad [render] (the widgets drawn so far and the
      outcome), each inside its [try] ([try_render]).
    - [Notebook]: [script.py], [script_1.py] and [script_11.py] as cells
      of one Jupyter kernel ([kernel]: the global variables, whether
      [pd] is bound, the CSV files on disk, the output), written in a
      state and exception monad [nb]; [run_cells] runs cells one after
      the other; [to_csv] stores the table [read_csv] reads back.
    - [App]: one Streamlit run per interaction ([app_step]).
    - [View]: the page a run draws ([page]): the setup preview, the chat
      history, the news feed (outside any [try]) and the two tabs of
      [Dashboard]; [run] is the interaction followed by the page, [runs]
      a session of runs.
    - [Setup]: an unedited copy of [.env.example] followed through
      [load_dotenv], the sidebar's key fields ([sidebar_status]),
      [MSMERAGPipeline()] and the news requests.

    ** What the theorems show

    - [News]: the dedup returns distinct, non-empty normalised titles,
      the first article of each; it returns normally exactly when every
      title is a string; the sort is stable and descending when all dates
      parse with one kind (naive or aware); one unparsable date cancels
      the sort, and mixed kinds leave the order of the interrupted sort;
      the limits hold; [fetch_sector_news] returns normally exactly when
      every article has string text fields, and then returns the relevant
      articles of the four providers in fetch order, duplicates kept.
    - [Adapters]: failing providers yield no article; NewsData.io
      payloads decode field by field.
    - [Store]: search hits are unchanged records of the collection that
      pass the filter, at most [n], with distinct ids; adding articles is
      all or nothing, and what is added can be found again.
    - [Binary64]: every operation yields a canonical double; a rounded
      result is within half a unit in
      the last place; [float()] of the [:.2f] text reads back the value
      rounded to hundredths.
    - [Companies]: the company document exists for well-formed rows; the
      growth is measured from the first financial row of the file, not
      the earliest year; every loaded company has its record.
    - [Pipeline]: the retrieval keeps the first document of each id, at
      most 15; a failing sector only removes its own news; the context
      has no size budget; a query raises only [TypeError] and only on
      the general-news path, and otherwise appends one turn; a failing
      generation call becomes the apology; along a session the history
      refines [History]'s model and the store's ids stay unique.
    - [App]: the chat and the pipeline agree until a second
      initialisation; the handling of an interaction never raises (the
      page drawn afterwards can, see [View]); a key typed only in the
      sidebar is never used; every initialisation that loads news under
      fresh ids stores each fetched article once more and no stored
      company again, so a second one duplicates the news.
    - [Intent] and [History]: every analysis is well formed; Technology
      is detected only through its name and seven lower-case keywords
      (the keywords [IT] and [AI] never match); the classifier follows
      the rule table and decides the news need as the design says; the history holds the
      last ten turns since the last clear and a query sees the last four.
    - [Frames]: the pairwise summation terminates (it satisfies numpy's
      recursion), is exact on integers whose absolute sum is below [2^53],
      so the mean of such a column is its exact mean rounded once;
      [value_counts] of strings counts each value once, most frequent
      first.
    - [Dashboard]: on well-formed files the dashboard draws its four
      metrics, the pie, the table and the trend chart, the revenue metric
      labelled 2024 whatever the latest year; without a [Sector] column
      the metrics are drawn before the error; a sector without 2022
      revenue is left out of the growth chart.
    - [View]: with a pipeline, a run draws the analytics tab exactly when
      every stored article is displayable; once an undisplayable article
      is stored (and a refresh would store one again) every later run
      aborts in the news feed; Initialize System with a key always brings
      up the tabs.
    - [Dotenv]: a file of plain [KEY=value] lines reads back as its
      pairs, in order, whatever the environment; the parser terminates.
    - [Notebook]: [script.py] then [script_1.py] write the two cleaned
      files (as [read_csv] reads them back), which the dashboard accepts ([Dashboard.dashboard_input]);
      [script_1.py] alone raises [NameError]; the system test prints
      that the system is ready whatever its steps find, and without the
      cleaned files ends in [NameError].
    - [Setup]: the placeholders of [.env.example] count as configured
      keys: every provider is shown as connected and the pipeline
      starts.

    ** Bounds and fuel

    No definition runs out of fuel on the inputs it is applied to:
    [n_digits_aux] gets one step per binary digit, more than the decimal
    digits of its argument, and [normalize_dec] as many as the bits of
    the mantissa, more than its trailing zeros.  [digits_of] (years of
    [isoformat], fuel 20) is used on four-digit years.  Every other
    recursion is structural.  numpy's [pairwise_sum] halves its list
    above 128 elements; [pairwise_sum] gives it the list's length as
    fuel, and [pairwise_sum_unfold] shows it then satisfies the
    recursion without fuel.  The binary64 model needs no fuel: the
    exponent of a result is computed from [Z.log2] of the exact fraction
    ([ilog]), and [ulp_exp_frac] shows the 53-bit mantissa it yields.
    The [.env] parser ([parse_stream_fuel]) and the interpolation
    parser ([parse_variables_fuel]) consume at least one character per
    step, so one step more than the length of the text is enough:
    [parse_fuel_enough] shows more fuel changes nothing.  The notebook
    cells have no unbounded loop.

    ** Modelling conventions

    - A Python exception is a value [Raise e] of [exc A]; [try/except]
      is [py_try] or a [match].  Functions that cannot raise are plain
      functions.
    - [str] is [list N], one code point per element; literals are
      [str_of] of an ASCII string.
    - A dict with fixed keys is a [Record]; a dict the code iterates over
      or builds keeps its insertion order as an association list; a [set]
      of seen keys is a [gset].
    - JSON numbers are integers ([VNum]); a Python float is the decimal
      [float()] read ([pyfloat]), exact up to 15 significant digits, where
      [repr] of it is the decimal; where the code computes with floats
      the decimal is rounded to the binary64 it denotes ([b64_of_float]).
      pandas reads CSV decimals with its own parser, taken here to round
      correctly.
    - The network, the language model, the clock, [uuid4] and the
      embedding search are inputs or interfaces; the persistent
      collection is part of the state.

    ** What is not modelled

    How plotly draws a chart (the model keeps the data handed to it); the
    CSS and header markdown of [app.py], which do not depend on the
    state; pandas beyond the calls [app.py] makes; the sentiment score of
    Alpha Vantage is a float, and [pyval] has no float, so the feed's
    score line is modelled on [int] and [bool] scores;
    [search_companies_by_criteria] and [get_recent_news], queries that
    nothing calls; [script_2.py] and [script_10.py], which write the
    constant texts [requirements.txt] and [README.md] that nothing
    reads, and [script_6], whose nested triple quotes make it a syntax
    error; how [print] lays out a DataFrame or an array (the notebook
    keeps them as items) and the order [sorted] gives the years; where
    [load_dotenv] finds [.env] (its text is an input); the internals of
    ChromaDB and of the OpenAI client; the failures of the OpenAI,
    chromadb and [NewsFetcher] constructors inside
    [MSMERAGPipeline.__init__], of which only the key check is modelled
    ([initialize_system] catches every exception, so such a failure
    leaves the session as a missing key does); the imports of
    [script.py] and [script_1.py], taken to succeed; the CSV text
    [to_csv] writes: a float cell is read back from its [repr], any
    other cell is assumed to come back unchanged; the vector store's
    [query] never fails (its errors are not modelled).  A row of an all-numeric frame,
    which pandas would upcast to [float64], does not arise: the company
    ids are strings.  [str.lower] and [str.title] are modelled on ASCII
    letters,
    [repr] treats the code points outside Latin-1 and General
    Punctuation as printable. *)

From Stdlib Require Export ZArith NArith Ascii String.
From stdpp Require Export base list gmap strings.

Declare Scope py_scope.
Delimit Scope py_scope with py.

(** ** Exceptions *)

(** The Python exceptions the modelled code can raise. *)
Inductive pyexc : Type :=
  | AttributeError    (** a method called on [None] or a non-string *)
  | TypeError         (** e.g. comparing naive and aware datetimes *)
  | ValueError        (** e.g. [datetime.fromisoformat] on bad input *)
  | KeyError
  | IndexError
  | RequestError      (** [requests.get] failed or timed out *)
  | OverflowError     (** [int()] of an infinite float *)
  | FileNotFoundError  (** [pd.read_csv] of a missing file *)
  | NameError          (** a variable no notebook cell has assigned *)
  | ImportError        (** an [import] that finds no module *)
  | RuntimeError.      (** e.g. [import chromadb] on an old sqlite3 *)

#[export] Instance pyexc_eq_dec : EqDecision pyexc.
Proof. solve_decision. Defined.

(** A computation that returns an [A] or raises. *)
Inductive exc (A : Type) : Type :=
  | Ok (a : A)
  | Raise (e : pyexc).
Arguments Ok {A} a.
Arguments Raise {A} e.

#[export] Instance exc_ret : MRet exc := fun A a => Ok a.
#[export] Instance exc_bind : MBind exc :=
  fun A B f m => match m with Ok a => f a | Raise e => Raise e end.
#[export] Instance exc_fmap : FMap exc :=
  fun A B f m => match m with Ok a => Ok (f a) | Raise e => Raise e end.

(** [try: body except: handler] where the handler returns a value. *)
Definition py_try {A} (m : exc A) (handler : pyexc -> A) : A :=
  match m with Ok a => a | Raise e => handler e end.

(** [all_ok] iterates a raising function over a list, left to right,
    stopping at the first exception, as a Python [for] loop does. *)
Fixpoint exc_map {A B} (f : A -> exc B) (l : list A) : exc (list B) :=
  match l with
  | [] => Ok []
  | x :: l' => y ← f x; ys ← exc_map f l'; mret (y :: ys)
  end.

(** ** Python list slicing *)

(** [l[:n]] *)
Definition py_slice_to {A} (n : Z) (l : list A) : list A :=
  if (0 <=? n)%Z then take (Z.to_nat n) l
  else take (length l - Z.to_nat (- n)) l.

(** [l[n:]] *)
Definition py_slice_from {A} (n : Z) (l : list A) : list A :=
  if (0 <=? n)%Z then drop (Z.to_nat n) l
  else drop (length l - Z.to_nat (- n)) l.

(** ** Dictionaries with fixed insertion order

    [d.get(k)] on a dict literal, kept as its list of items. *)
Fixpoint assoc_get {K V} `{EqDecision K} (k : K) (l : list (K * V)) : option V :=
  match l with
  | [] => None
  | (k', v) :: l' => if decide (k = k') then Some v else assoc_get k l'
  end.

Lemma assoc_unique {K V} (l : list (K * V)) k v1 v2 :
  NoDup (fst <$> l) -> (k, v1) ∈ l -> (k, v2) ∈ l -> v1 = v2.
Proof.
  induction l as [|[k' v] l IH]; intros Hnd H1 H2; [by apply elem_of_nil in H1|].
  rewrite fmap_cons in Hnd. apply NoDup_cons in Hnd as [Hk Hnd].
  apply elem_of_cons in H1 as [H1|H1]; apply elem_of_cons in H2 as [H2|H2];
    simplify_eq; try done; try by apply IH.
  all: destruct Hk; apply list_elem_of_fmap; eexists; split; [|eassumption]; done.
Qed.

(** ** Decidable sublist (greedy matching) *)
Fixpoint sublistb {A} `{EqDecision A} (l1 l2 : list A) : bool :=
  match l1, l2 with
  | [], _ => true
  | _ :: _, [] => false
  | x :: l1', y :: l2' =>
      if decide (x = y) then sublistb l1' l2' else sublistb l1 l2'
  end.

Lemma sublistb_spec {A} `{EqDecision A} (l1 l2 : list A) :
  sublistb l1 l2 = true <-> l1 `sublist_of` l2.
Proof.
  revert l1; induction l2 as [|y l2 IH]; intros [|x l1]; simpl.
  - split; constructor.
  - rewrite sublist_nil_r. split; [done|discriminate].
  - split; [intros; apply sublist_nil_l|done].
  - case_decide as Hxy; [subst y|]; rewrite ?IH, sublist_cons_r; split.
    + intros. right. eauto.
    + intros [Hs|(l' & [= ->] & Hs)]; [|done].
      etrans; [|exact Hs]. by apply sublist_cons.
    + by left.
    + by intros [Hs|(l' & [= -> ->] & Hs)].
Qed.

#[export] Instance sublist_dec {A} `{EqDecision A} (l1 l2 : list A) :
  Decision (l1 `sublist_of` l2).
Proof.
  destruct (sublistb l1 l2) eqn:E; [left | right]; rewrite <-sublistb_spec; congruence.
Defined.

Lemma py_slice_to_nil {A} n : py_slice_to n (@nil A) = [].
Proof. unfold py_slice_to. case_match; apply take_nil. Qed.

Lemma py_slice_to_sublist {A} n (l : list A) : py_slice_to n l `sublist_of` l.
Proof. unfold py_slice_to. case_match; apply sublist_take. Qed.

Lemma length_py_slice_to {A} n (l : list A) :
  (0 <= n)%Z -> length (py_slice_to n l) ≤ Z.to_nat n.
Proof.
  intros Hn. unfold py_slice_to. rewrite (proj2 (Z.leb_le _ _) Hn), length_take. lia.
Qed.

(** ** First-seen deduplication

    The loop [for x in xs: if key(x) not in seen: seen.add(key(x));
    out.append(x)], with [seen] a Python [set]. *)
Section UniqBy.
Context {A K : Type} `{Countable K}.
Variable key : A -> K.

Fixpoint uniq_by (seen : gset K) (l : list A) : list A :=
  match l with
  | [] => []
  | x :: l' =>
      if decide (key x ∈ seen) then uniq_by seen l'
      else x :: uniq_by ({[key x]} ∪ seen) l'
  end.

Lemma uniq_by_sublist seen l : uniq_by seen l `sublist_of` l.
Proof.
  revert seen; induction l as [|x l IH]; intros seen; simpl; [done|].
  case_decide; [by apply sublist_cons | by apply sublist_skip].
Qed.

Lemma uniq_by_fresh seen l x : x ∈ uniq_by seen l -> key x ∉ seen.
Proof.
  revert seen; induction l as [|y l IH]; intros seen Hx; simpl in Hx;
    [by apply elem_of_nil in Hx|].
  case_decide; [by apply IH|].
  apply elem_of_cons in Hx as [->|Hx]; [done|].
  apply IH in Hx. set_solver.
Qed.

Lemma uniq_by_NoDup seen l : NoDup (key <$> uniq_by seen l).
Proof.
  revert seen; induction l as [|x l IH]; intros seen; simpl; [constructor|].
  case_decide; [done|]. rewrite fmap_cons. constructor; [|done].
  intros Hin. apply list_elem_of_fmap in Hin as (y & Hy & Hin).
  apply uniq_by_fresh in Hin. set_solver.
Qed.

(** Every key of the input that was not seen before is kept. *)
Lemma uniq_by_complete seen l x :
  x ∈ l -> key x ∉ seen -> ∃ y, y ∈ uniq_by seen l ∧ key y = key x.
Proof.
  revert seen; induction l as [|z l IH]; intros seen Hx Hs;
    [by apply elem_of_nil in Hx|].
  simpl. apply elem_of_cons in Hx as [<-|Hx].
  - rewrite decide_False by done. exists x. split; [left|done].
  - case_decide.
    + by apply IH.
    + destruct (decide (key z = key x)) as [E|Hne].
      * exists z. split; [left|done].
      * destruct (IH ({[key z]} ∪ seen) Hx) as (y & ? & ?); [set_solver|].
        exists y. split; [by right|done].
Qed.

(** The element kept for a key is its first occurrence in the input. *)
Lemma uniq_by_first seen l y :
  y ∈ uniq_by seen l ->
  ∃ l1 l2, l = l1 ++ y :: l2 ∧ ∀ z, z ∈ l1 -> key z ≠ key y.
Proof.
  revert seen; induction l as [|x l IH]; intros seen Hy; simpl in Hy;
    [by apply elem_of_nil in Hy|].
  case_decide as Hs.
  - destruct (IH _ Hy) as (l1 & l2 & -> & Hl1).
    exists (x :: l1), l2. split; [done|].
    intros z [->|?]%elem_of_cons; [|by auto].
    intros E. apply uniq_by_fresh in Hy. by rewrite <-E in Hy.
  - apply elem_of_cons in Hy as [->|Hy].
    + exists [], l. split; [done|]. intros z ?%elem_of_nil. done.
    + destruct (IH _ Hy) as (l1 & l2 & -> & Hl1).
      exists (x :: l1), l2. split; [done|].
      intros z [->|?]%elem_of_cons; [|by auto].
      intros E. apply uniq_by_fresh in Hy. rewrite <-E in Hy. set_solver.
Qed.
End UniqBy.

(** ** Loops that may raise *)

Lemma length_exc_map {A B} (f : A -> exc B) l out : exc_map f l = Ok out -> length out = length l.
Proof.
  revert out; induction l as [|x l IH]; intros out H; simpl in H; [by injection H as <-|].
  destruct (f x); [|done]. cbn [mbind exc_bind] in H.
  destruct (exc_map f l) as [ys|]; [|done]. cbn [mbind exc_bind mret exc_ret] in H.
  injection H as <-. simpl. by rewrite (IH ys).
Qed.

Lemma exc_map_raise {A B} (f : A -> exc B) l x e :
  x ∈ l -> f x = Raise e -> ∃ e', exc_map f l = Raise e'.
Proof.
  induction l as [|y l IH]; intros Hx Hf; [by apply elem_of_nil in Hx|]. simpl.
  apply elem_of_cons in Hx as [->|Hx].
  - rewrite Hf. eauto.
  - destruct (f y); cbn [mbind exc_bind]; [|eauto].
    destruct (IH Hx Hf) as [e' ->]. eauto.
Qed.

Lemma exc_map_fmap_ok {A B C} (f : B -> exc C) (g : A -> B) (h : A -> C) l :
  (∀ x, f (g x) = Ok (h x)) -> exc_map f (g <$> l) = Ok (h <$> l).
Proof.
  intros Hf. induction l as [|x l IH]; [done|]. rewrite !fmap_cons. cbn [exc_map].
  rewrite Hf. cbn [mbind exc_bind]. by rewrite IH.
Qed.

Lemma exc_map_ok_iff {A B} (f : A -> exc B) l :
  (∃ ys, exc_map f l = Ok ys) <-> Forall (fun x => ∃ y, f x = Ok y) l.
Proof.
  induction l as [|x l IH]; simpl; [split; eauto|]. rewrite Forall_cons, <-IH.
  destruct (f x) as [y|e]; cbn [mbind exc_bind].
  - destruct (exc_map f l); cbn [mbind exc_bind]; naive_solver.
  - naive_solver.
Qed.

(** [exc_map] over the indices [k, k+1, ...] of a list. *)
Lemma exc_map_seq {A B} (f : nat -> exc B) (g : A -> B) (l : list A) k :
  (∀ i x, l !! i = Some x -> f (k + i) = Ok (g x)) ->
  exc_map f (seq k (length l)) = Ok (g <$> l).
Proof.
  revert k; induction l as [|x l IH]; intros k Hf; [done|].
  cbn [length seq exc_map]. rewrite <-(Nat.add_0_r k), (Hf 0 x), Nat.add_0_r by done.
  cbn [mbind exc_bind]. rewrite IH; [done|].
  intros i y Hi. replace (S k + i) with (k + S i) by lia. by apply (Hf (S i)).
Qed.

(** A sub-multiset of a list with distinct keys has distinct keys. *)
Lemma submseteq_NoDup_fmap {A B} (f : A -> B) (l k : list A) :
  l ⊆+ k -> NoDup (f <$> k) -> NoDup (f <$> l).
Proof.
  intros [r Hr]%submseteq_Permutation Hk. rewrite Hr, fmap_app in Hk.
  by apply NoDup_app in Hk as [? _].
Qed.

(** A property of every list of a concatenation. *)
Lemma Forall_concat_fmap {A B} (P : B -> Prop) (f : A -> list B) l :
  (∀ x, x ∈ l -> Forall P (f x)) -> Forall P (concat (f <$> l)).
Proof.
  induction l as [|x l IH]; intros Hf; [constructor|]. simpl. apply Forall_app.
  split; [apply Hf; left|apply IH; intros y Hy; apply Hf; by right].
Qed.

(** Splitting a list around an element of its filtered sublist. *)
Lemma filter_eq_app_cons {A} (P : A -> Prop) `{∀ x, Decision (P x)} l l1' b l2' :
  filter P l = l1' ++ b :: l2' -> ∃ l1 l2, l = l1 ++ b :: l2 ∧ filter P l1 = l1' ∧ P b.
Proof.
  revert l1'; induction l as [|x l IH]; intros l1' Hl; [by destruct l1'|].
  rewrite filter_cons in Hl. case_decide as Hx.
  - destruct l1' as [|y l1']; simpl in Hl; injection Hl as <- Hl.
    + by exists [], l.
    + destruct (IH _ Hl) as (l1 & l2 & -> & Hf & Hb). exists (x :: l1), l2.
      rewrite filter_cons, decide_True by done. by rewrite Hf.
  - destruct (IH _ Hl) as (l1 & l2 & -> & Hf & Hb). exists (x :: l1), l2.
    rewrite filter_cons, decide_False by done. done.
Qed.

Lemma exc_map_elem_of {A B} (f : A -> exc B) l ys y :
  exc_map f l = Ok ys -> y ∈ ys -> ∃ x, x ∈ l ∧ f x = Ok y.
Proof.
  revert ys; induction l as [|x l IH]; intros ys Hm Hy; cbn in Hm.
  - injection Hm as <-. by apply elem_of_nil in Hy.
  - destruct (f x) as [z|] eqn:Hx; [|done]. cbn [mbind exc_bind] in Hm.
    destruct (exc_map f l) as [zs|]; [|done]. injection Hm as <-.
    apply elem_of_cons in Hy as [->|Hy]; [exists x; split; [left|]; done|].
    destruct (IH zs eq_refl Hy) as (x' & ? & ?). exists x'. split; [by right|done].
Qed.

(** [exc_map] succeeds exactly with the results of [f], in order. *)
Lemma exc_map_Forall2 {A B} (f : A -> exc B) l ys :
  exc_map f l = Ok ys <-> Forall2 (fun x y => f x = Ok y) l ys.
Proof.
  revert ys; induction l as [|x l IH]; intros ys; cbn.
  - split; [by intros [= <-]|by intros ->%Forall2_nil_inv_l].
  - split.
    + destruct (f x) as [y|] eqn:Hx; [|done]. cbn [mbind exc_bind].
      destruct (exc_map f l) as [zs|] eqn:Hl; [|done]. intros [= <-].
      constructor; [done|]. by apply IH.
    + intros (y & ys' & Hy & Hys & ->)%Forall2_cons_inv_l. rewrite Hy. cbn [mbind exc_bind].
      apply IH in Hys. by rewrite Hys.
Qed.

(** Two association lists with the same keys in the same order have
    the same keys present. *)
Lemma assoc_get_keys {K V W} `{EqDecision K} (k : K) (r : list (K * V)) (cols : list (K * W)) :
  fst <$> r = fst <$> cols -> (is_Some (assoc_get k r) <-> is_Some (assoc_get k cols)).
Proof.
  revert cols. induction r as [|[k1 v] r IH]; intros [|[k2 w] cols] Hk; cbn in *; try done.
  injection Hk as <- Hk. case_decide; [done|]. by apply IH.
Qed.

Lemma assoc_get_app_l {K V} `{EqDecision K} (k : K) (l1 l2 : list (K * V)) :
  is_Some (assoc_get k l1) -> assoc_get k (l1 ++ l2) = assoc_get k l1.
Proof.
  induction l1 as [|[k1 v] l1 IH]; intros Hs; cbn in *; [by destruct Hs|].
  case_decide; [done|]. by apply IH.
Qed.

Lemma assoc_get_app_r {K V} `{EqDecision K} (k : K) (l1 l2 : list (K * V)) :
  k ∉ fst <$> l1 -> assoc_get k (l1 ++ l2) = assoc_get k l2.
Proof.
  induction l1 as [|[k1 v] l1 IH]; intros Hk; cbn in *; [done|].
  rewrite not_elem_of_cons in Hk. case_decide; [naive_solver|]. apply IH. naive_solver.
Qed.

Lemma assoc_get_app_is_Some {K V} `{EqDecision K} (k : K) (l1 l2 : list (K * V)) :
  is_Some (assoc_get k l2) -> is_Some (assoc_get k (l1 ++ l2)).
Proof. induction l1 as [|[k1 v] l1 IH]; intros Hs; cbn; [done|]. case_decide; [done|]. by apply IH. Qed.

Lemma assoc_get_is_Some {K V} `{EqDecision K} (k : K) (l : list (K * V)) :
  is_Some (assoc_get k l) <-> k ∈ fst <$> l.
Proof.
  induction l as [|[k1 v] l IH]; cbn.
  - split; [by intros []|intros Hk; by apply elem_of_nil in Hk].
  - rewrite elem_of_cons, <- IH. case_decide; naive_solver.
Qed.

(** A relation carries a property from one list to the other. *)
Lemma Forall2_transport {A B} (R : A -> B -> Prop) (P : A -> Prop) (Q : B -> Prop) l k :
  Forall2 R l k -> Forall P l -> (∀ x y, R x y -> P x -> Q y) -> Forall Q k.
Proof. intros HR HP HQ. induction HR; inversion HP; constructor; eauto. Qed.

(** A left fold that keeps one of its two arguments at each step ends
    on an element of the list (the running maximum of [max()]). *)
Lemma foldl_choose_elem {A} (choose : A -> A -> A) x l :
  (∀ a b, choose a b = a ∨ choose a b = b) -> foldl choose x l ∈ x :: l.
Proof.
  intros Hc. revert x; induction l as [|y l IH]; intros x; cbn; [left|].
  destruct (Hc x y) as [-> | ->].
  - pose proof (IH x) as Hx. apply elem_of_cons in Hx as [->|?]; [left|right; right]; done.
  - right. apply IH.
Qed.

(** ** Automation *)

Create HintDb rag discriminated.
#[export] Hint Resolve uniq_by_sublist uniq_by_NoDup : rag.
#[export] Hint Resolve sublist_take sublist_drop sublist_filter : rag.

(** Evaluate the exception monad's binds on known results. *)
Ltac exc_simpl :=
  repeat match goal with
  | |- context [mbind _ (Ok _)] => cbn [mbind exc_bind]
  | |- context [mbind _ (Raise _)] => cbn [mbind exc_bind]
  | H : Ok _ = Ok _ |- _ => injection H as H
  | H : Ok _ = Raise _ |- _ => discriminate H
  | H : Raise _ = Ok _ |- _ => discriminate H
  end.

(** Decides a closed decidable goal (or its negation) by evaluating its
    [bool_decide]. *)
Ltac decide_vm :=
  match goal with
  | |- ¬ ?P => apply (bool_decide_eq_false_1 P); vm_compute; reflexivity
  | |- ?P => apply (bool_decide_eq_true_1 P); vm_compute; reflexivity
  end.
