(* ===== verification/PyStr.v ===== *)
(** * Python strings

    A Python [str] is a sequence of code points: here [list N].  This
    file gives the string methods the modelled code calls
    ([str.lower], [str.title], [str.strip], [str.replace], the substring test
    [a in b], [sep.join(parts)], slicing [s[:n]]) and
    their characterising lemmas. *)

From S2P Require Import Prelude.

Abbreviation pystr := (list N).

(** An ASCII literal as a Python string. *)
Definition str_of (s : string) : pystr :=
  (fun c => N_of_ascii c) <$> list_ascii_of_string s.

(** The empty string [""]. *)
Abbreviation py_empty := (@nil N).

(** ["\n"] *)
Definition newline : pystr := [10%N].

(** ** [str.lower]: ASCII upper-case letters map to lower case. *)
Definition is_upper (c : N) : bool := (65 <=? c)%N && (c <=? 90)%N.

Definition lower_char (c : N) : N := if is_upper c then (c + 32)%N else c.

Definition py_lower (s : pystr) : pystr := lower_char <$> s.

(** ** [str.isspace] on one code point, as CPython's table has it:
    the ASCII separators and the Unicode white-space characters. *)
Definition py_isspace (c : N) : bool :=
  ((9 <=? c)%N && (c <=? 13)%N) || ((28 <=? c)%N && (c <=? 32)%N)
  || (c =? 133)%N || (c =? 160)%N || (c =? 5760)%N
  || ((8192 <=? c)%N && (c <=? 8202)%N)
  || (c =? 8232)%N || (c =? 8233)%N || (c =? 8239)%N || (c =? 8287)%N
  || (c =? 12288)%N.

Fixpoint lstrip_ws (s : pystr) : pystr :=
  match s with
  | [] => []
  | c :: s' => if py_isspace c then lstrip_ws s' else s
  end.

(** [str.strip()] with no argument. *)
Definition py_strip (s : pystr) : pystr := reverse (lstrip_ws (reverse (lstrip_ws s))).

(** ** The substring test [needle in hay]. *)
Fixpoint is_prefix (p s : pystr) : bool :=
  match p, s with
  | [], _ => true
  | _ :: _, [] => false
  | a :: p', b :: s' => (a =? b)%N && is_prefix p' s'
  end.

Fixpoint py_contains (needle hay : pystr) : bool :=
  is_prefix needle hay ||
  match hay with
  | [] => false
  | _ :: hay' => py_contains needle hay'
  end.

(** [any(w in s for w in ws)] *)
Definition contains_any (ws : list pystr) (s : pystr) : bool :=
  existsb (fun w => py_contains w s) ws.

(** [s.replace(c, rep)] for a one-character pattern [c]. *)
Definition py_replace_char (c : N) (rep : pystr) (s : pystr) : pystr :=
  flat_map (fun x => if (x =? c)%N then rep else [x]) s.

(** [str.title] on ASCII: a cased letter is upper-cased after an
    uncased character and lower-cased after a cased one. *)
Definition is_lower (c : N) : bool := (97 <=? c)%N && (c <=? 122)%N.

Definition upper_char (c : N) : N := if is_lower c then (c - 32)%N else c.

Fixpoint title_from (prev_cased : bool) (s : pystr) : pystr :=
  match s with
  | [] => []
  | c :: s' => (if prev_cased then lower_char c else upper_char c)
                 :: title_from (is_upper c || is_lower c) s'
  end.

Definition py_title (s : pystr) : pystr := title_from false s.

(** [s.replace(old, new)] for a non-empty [old]: the occurrences from
    the left, without overlap; the fuel is the length of [s], each step
    consuming at least one code point. *)
Fixpoint replace_from (fuel : nat) (old new s : pystr) : pystr :=
  match fuel, s with
  | O, _ => s
  | _, [] => []
  | S f, c :: s' =>
      if is_prefix old s then new ++ replace_from f old new (drop (length old) s)
      else c :: replace_from f old new s'
  end.

(** [s.replace(old, new)]; an empty [old] inserts [new] around every
    code point. *)
Definition py_replace (old new s : pystr) : pystr :=
  match old with
  | [] => new ++ concat ((fun c => c :: new) <$> s)
  | _ => replace_from (length s) old new s
  end.

(** [sep.join(parts)] *)
Fixpoint py_join (sep : pystr) (parts : list pystr) : pystr :=
  match parts with
  | [] => []
  | [p] => p
  | p :: ps => p ++ sep ++ py_join sep ps
  end.

(** ** Lemmas *)

Lemma is_prefix_spec p s : is_prefix p s = true <-> ∃ r, s = p ++ r.
Proof.
  revert s; induction p as [|a p IH]; intros [|b s]; simpl.
  - split; eauto.
  - split; eauto.
  - split; [done|]. intros [r Hr]. discriminate.
  - rewrite andb_true_iff, N.eqb_eq, IH. split.
    + intros [-> [r ->]]. eauto.
    + intros [r Hr]. injection Hr as -> ->. eauto.
Qed.

(** [needle in hay] holds exactly when [hay] has [needle] as a factor. *)
Lemma py_contains_spec n h : py_contains n h = true <-> ∃ a b, h = a ++ n ++ b.
Proof.
  induction h as [|c h IH]; simpl; rewrite orb_true_iff, is_prefix_spec.
  - split.
    + intros [[r Hr]|Hf]; [by exists [], r | discriminate].
    + intros (a & b & Hab). symmetry in Hab.
      apply app_eq_nil in Hab as [-> [-> ->]%app_eq_nil]. left. by exists [].
  - rewrite IH. split.
    + intros [[r Hr]|(a & b & ->)].
      * by exists [], r.
      * by exists (c :: a), b.
    + intros ([|d a] & b & Hab); simpl in Hab; [left; eauto|].
      injection Hab as -> ->. right. eauto.
Qed.

Lemma py_contains_refl s : py_contains s s = true.
Proof. apply py_contains_spec. exists [], []. by rewrite app_nil_r. Qed.

Lemma py_contains_app_l n a b : py_contains n b = true -> py_contains n (a ++ b) = true.
Proof.
  rewrite !py_contains_spec. intros (x & y & ->). exists (a ++ x), y.
  by rewrite app_assoc.
Qed.

Lemma lower_char_not_upper c : is_upper (lower_char c) = false.
Proof.
  unfold lower_char, is_upper.
  destruct ((65 <=? c)%N) eqn:E1, ((c <=? 90)%N) eqn:E2; simpl;
    rewrite ?E1, ?E2; try done;
    apply andb_false_iff; rewrite ?N.leb_gt, ?N.leb_le in *; lia.
Qed.

Lemma length_py_lower s : length (py_lower s) = length s.
Proof. apply length_fmap. Qed.

Lemma py_lower_app a b : py_lower (a ++ b) = py_lower a ++ py_lower b.
Proof. apply fmap_app. Qed.

Lemma py_lower_idem s : py_lower (py_lower s) = py_lower s.
Proof.
  unfold py_lower. rewrite <-list_fmap_compose. apply list_fmap_ext.
  intros _ c _. unfold compose. unfold lower_char at 1.
  by rewrite lower_char_not_upper.
Qed.

(** A needle with an upper-case letter never occurs in a lower-cased
    string. *)
Lemma py_contains_lower_upper n s :
  existsb is_upper n = true -> py_contains n (py_lower s) = false.
Proof.
  intros Hn. apply not_true_iff_false. rewrite py_contains_spec.
  intros (a & b & Hab). apply existsb_exists in Hn as (c & Hc & Hu).
  rewrite <-list_elem_of_In in Hc.
  assert (Hin : c ∈ py_lower s) by (rewrite Hab; set_solver).
  apply list_elem_of_fmap in Hin as (d & -> & _).
  by rewrite lower_char_not_upper in Hu.
Qed.

Lemma contains_any_spec ws s :
  contains_any ws s = true <-> ∃ w, w ∈ ws ∧ py_contains w s = true.
Proof.
  unfold contains_any. rewrite existsb_exists. split;
    intros (w & ? & ?); exists w; rewrite list_elem_of_In in *; auto.
Qed.

Lemma lstrip_ws_head s c r : lstrip_ws s = c :: r -> py_isspace c = false.
Proof.
  induction s as [|d s IH]; simpl; [done|].
  destruct (py_isspace d) eqn:E; [done|]. by intros [= -> ->].
Qed.

Lemma lstrip_ws_suffix s : ∃ p, s = p ++ lstrip_ws s.
Proof.
  induction s as [|d s [p Hp]]; simpl; [by exists []|].
  destruct (py_isspace d); [exists (d :: p); by rewrite Hp at 1 | by exists []].
Qed.

Lemma py_strip_prefix s : ∃ q, lstrip_ws s = py_strip s ++ q.
Proof.
  destruct (lstrip_ws_suffix (reverse (lstrip_ws s))) as [p Hp].
  exists (reverse p). unfold py_strip.
  by rewrite <-reverse_app, <-Hp, reverse_involutive.
Qed.

(** [strip()] leaves no white space at either end. *)
Lemma py_strip_head s c r : py_strip s = c :: r -> py_isspace c = false.
Proof.
  intros H. destruct (py_strip_prefix s) as [q Hq]. rewrite H in Hq.
  by eapply lstrip_ws_head.
Qed.

Lemma py_strip_last s c r : py_strip s = r ++ [c] -> py_isspace c = false.
Proof.
  unfold py_strip. intros H.
  apply (f_equal reverse) in H.
  rewrite reverse_involutive, reverse_app, reverse_singleton in H.
  by eapply lstrip_ws_head.
Qed.

Create Rewrite HintDb pystr.
#[export] Hint Rewrite length_py_lower py_lower_app py_lower_idem : pystr.
#[export] Hint Resolve py_contains_refl py_contains_app_l : rag.
