(* ===== verification/PyDatetime.v ===== *)
(** * [datetime.fromisoformat] (CPython 3.10, C implementation)

    The aggregator sorts articles by
    [datetime.fromisoformat(published_at.replace("Z", "+00:00"))].  This
    file models that library call as CPython 3.7-3.10 implement it in
    [_datetimemodule.c] ([parse_isoformat_date], [parse_isoformat_time],
    [parse_hh_mm_ss_ff]): a fixed [YYYY-MM-DD] date, any one separator
    character, then [HH[:MM[:SS[.fff[fff]]]]] and an optional
    [+HH:MM[:SS[.ffffff]]] offset.  Python 3.11 accepts more formats;
    the choice of 3.10 is documented in the root file.

    A parsed value is a [stamp]: naive (no offset) or aware (with an
    offset, normalised to UTC), in microseconds.  Python refuses to
    compare a naive with an aware datetime. *)

From S2P Require Import Prelude PyStr.

Local Open Scope Z_scope.

Inductive stamp : Type :=
  | Naive (us : Z)
  | Aware (us : Z).

#[export] Instance stamp_eq_dec : EqDecision stamp.
Proof. solve_decision. Defined.

(** [a < b] on datetimes; [TypeError] between naive and aware. *)
Definition stamp_lt (a b : stamp) : exc bool :=
  match a, b with
  | Naive x, Naive y | Aware x, Aware y => Ok (x <? y)%Z
  | _, _ => Raise TypeError
  end.

Definition digit (c : N) : option Z :=
  if (48 <=? c)%N && (c <=? 57)%N then Some (Z.of_N (c - 48)) else None.

Fixpoint digits_val (acc : Z) (s : pystr) : option Z :=
  match s with
  | [] => Some acc
  | c :: s' => d ← digit c; digits_val (acc * 10 + d) s'
  end.

(** [parse_digits(p, &v, n)] with [n = length s]. *)
Definition parse_digits (s : pystr) : option Z := digits_val 0 s.

Definition two_digits (s : pystr) : option (Z * pystr) :=
  match s with
  | a :: b :: r => v ← parse_digits [a; b]; Some (v, r)
  | _ => None
  end.

(** The fraction [.fff] or [.ffffff], in microseconds. *)
Definition parse_frac (s : pystr) : option Z :=
  if decide (length s = 3%nat) then v ← parse_digits s; Some (v * 1000)%Z
  else if decide (length s = 6%nat) then parse_digits s
  else None.

(** [parse_hh_mm_ss_ff] on the characters up to [p_end].  It returns
    the components read, the microseconds, and the character that ended
    the loop when one single character was left before [p_end] (the C
    code accepts any such character and reports it). *)
Fixpoint parse_hms (i : nat) (s : pystr) : option (list Z * Z * option N) :=
  match i with
  | O => us ← parse_frac s; Some ([], us, None)
  | S i' =>
      '(v, r) ← two_digits s;
      match r with
      | [] => Some ([v], 0%Z, None)
      | [c] => Some ([v], 0%Z, Some c)
      | c :: r' =>
          if (c =? 58)%N then '(vs, us, t) ← parse_hms i' r'; Some (v :: vs, us, t)
          else if (c =? 46)%N then us ← parse_frac r'; Some ([v], us, None)
          else None
      end
  end.

Definition nth_or0 (l : list Z) (n : nat) : Z := default 0%Z (l !! n).

Definition is_sign (c : N) : bool := (c =? 43)%N || (c =? 45)%N.

Definition is_leap (y : Z) : bool :=
  (Z.modulo y 4 =? 0)%Z && (negb (Z.modulo y 100 =? 0)%Z || (Z.modulo y 400 =? 0)%Z).

Definition days_in_month (y m : Z) : Z :=
  match m with
  | 2%Z => if is_leap y then 29 else 28
  | 4%Z | 6%Z | 9%Z | 11%Z => 30
  | _ => 31
  end.

(** Days since 1970-01-01 of a proleptic Gregorian date. *)
Definition days_from_civil (y m d : Z) : Z :=
  let y' := if (m <=? 2)%Z then y - 1 else y in
  let era := Z.div y' 400 in
  let yoe := y' - era * 400 in
  let mp := Z.modulo (m + 9) 12 in
  let doy := (153 * mp + 2) / 5 + d - 1 in
  let doe := yoe * 365 + yoe / 4 - yoe / 100 + doy in
  era * 146097 + doe - 719468.

(** [parse_isoformat_date] and the range checks of [new_datetime]. *)
Definition parse_date (s : pystr) : option (Z * Z * Z) :=
  match s with
  | [y1; y2; y3; y4; s1; m1; m2; s2; d1; d2] =>
      if (s1 =? 45)%N && (s2 =? 45)%N then
        y ← parse_digits [y1; y2; y3; y4];
        m ← parse_digits [m1; m2];
        d ← parse_digits [d1; d2];
        if (1 <=? y)%Z && (1 <=? m)%Z && (m <=? 12)%Z && (1 <=? d)%Z
           && (d <=? days_in_month y m)%Z
        then Some (y, m, d) else None
      else None
  | _ => None
  end.

(** [parse_isoformat_time]: the time, then the offset from the first
    [+] or [-]; [None] for a malformed string. *)
Definition parse_time (t : pystr) : option (Z * Z * Z * Z * option Z) :=
  let tpart := default t ((λ ic, take ic.1 t) <$> list_find (λ c, is_sign c = true) t) in
  let tz := drop (length tpart) t in
  '(cs, us, ttrail) ← parse_hms 3%nat tpart;
  let h := nth_or0 cs 0%nat in let mi := nth_or0 cs 1%nat in let se := nth_or0 cs 2%nat in
  if (h <=? 23)%Z && (mi <=? 59)%Z && (se <=? 59)%Z then
    match tz with
    | [] =>
        (* no offset: [if (rv == 1) return -5], a trailing character
           other than NUL fails *)
        if default true ((λ c, (c =? 0)%N) <$> ttrail) then Some (h, mi, se, us, None) else None
    | sign :: tzs =>
        if decide (length tz = 6%nat ∨ length tz = 9%nat ∨ length tz = 16%nat) then
          '(tcs, tus, trail) ← parse_hms 3%nat tzs;
          (* [return rv ? -5 : 1]: a trailing character other than NUL fails *)
          if negb (default true ((λ c, (c =? 0)%N) <$> trail)) then None else
          let off := (nth_or0 tcs 0%nat * 3600 + nth_or0 tcs 1%nat * 60 + nth_or0 tcs 2%nat) * 1000000
                     + tus in
          let off := if (sign =? 45)%N then (- off)%Z else off in
          if (Z.abs off <? 86400 * 1000000)%Z then Some (h, mi, se, us, Some off)
          else None
        else None
    end
  else None.

Definition fromisoformat (s : pystr) : option stamp :=
  '(y, m, d) ← parse_date (take 10%nat s);
  '(h, mi, se, us, off) ←
     (if decide (length s <= 10)%nat then Some (0, 0, 0, 0, None)%Z
      else parse_time (drop 11%nat s));
  let local := ((days_from_civil y m d * 86400 + h * 3600 + mi * 60 + se) * 1000000
                + us)%Z in
  Some (match off with None => Naive local | Some o => Aware (local - o)%Z end).

(** ** [datetime.isoformat()] of a naive datetime *)

(** The proleptic Gregorian date of a day number (days since
    1970-01-01). *)
Definition civil_from_days (z0 : Z) : Z * Z * Z :=
  let z := z0 + 719468 in
  let era := z / 146097 in
  let doe := z - era * 146097 in
  let yoe := (doe - doe / 1460 + doe / 36524 - doe / 146096) / 365 in
  let doy := doe - (365 * yoe + yoe / 4 - yoe / 100) in
  let mp := (5 * doy + 2) / 153 in
  let d := doy - (153 * mp + 2) / 5 + 1 in
  let m := if mp <? 10 then mp + 3 else mp - 9 in
  let y := yoe + era * 400 + (if m <=? 2 then 1 else 0) in
  (y, m, d).

Fixpoint digits_of (fuel : nat) (n : Z) (acc : pystr) : pystr :=
  match fuel with
  | O => acc
  | S f =>
      let acc' := (Z.to_N (n mod 10) + 48)%N :: acc in
      if n <? 10 then acc' else digits_of f (n / 10) acc'
  end.

(** ["%0*d" % (w, n)] for [n >= 0]. *)
Definition pad_int (w : nat) (n : Z) : pystr :=
  let ds := digits_of 20 n [] in
  replicate (w - length ds) 48%N ++ ds.

(** [datetime(...).isoformat()] for whole seconds: [YYYY-MM-DDTHH:MM:SS]. *)
Definition isoformat_seconds (secs : Z) : pystr :=
  let '(y, m, d) := civil_from_days (secs / 86400) in
  let r := secs mod 86400 in
  pad_int 4 y ++ [45%N] ++ pad_int 2 m ++ [45%N] ++ pad_int 2 d ++ [84%N]
  ++ pad_int 2 (r / 3600) ++ [58%N] ++ pad_int 2 (r mod 3600 / 60) ++ [58%N]
  ++ pad_int 2 (r mod 60).

(** The year of a local time, for the range check of [fromtimestamp]. *)
Definition year_of_seconds (secs : Z) : Z := (civil_from_days (secs / 86400)).1.1.
