(* ===== verification/PyObj.v ===== *)
(** * Python values decoded from JSON

    The provider adapters read [response.json()] and copy fields with
    [article.get(key, default)]; whatever the provider sent ([None],
    numbers, strings, lists, objects) flows into the article dicts and
    later into [.lower()] and [.replace()].  [pyval] is that value;
    [py_get] is [dict.get] and [py_str_lower] the call [v.lower()],
    which raises [AttributeError] on anything but a string. *)

From S2P Require Import Prelude PyStr.

Inductive pyval : Type :=
  | VNone
  | VBool (b : bool)
  | VNum (n : Z)
  | VStr (s : pystr)
  | VList (l : list pyval)
  | VDict (kvs : list (pystr * pyval)).

(** [bool(v)] *)
Definition py_truthy (v : pyval) : bool :=
  match v with
  | VNone => false
  | VBool b => b
  | VNum n => negb (n =? 0)%Z
  | VStr s => negb (bool_decide (s = []))
  | VList l => negb (bool_decide (l = []))
  | VDict kvs => negb (bool_decide (kvs = []))
  end.

(** [v.get(k, dflt)]: only a dict has [.get]. *)
Definition py_get (v : pyval) (k : pystr) (dflt : pyval) : exc pyval :=
  match v with
  | VDict kvs => Ok (default dflt (assoc_get k kvs))
  | _ => Raise AttributeError
  end.

(** [v.lower()] *)
Definition py_str_lower (v : pyval) : exc pystr :=
  match v with
  | VStr s => Ok (py_lower s)
  | _ => Raise AttributeError
  end.

(** [for x in v]: a list yields its items, a dict its keys, a string
    its characters; anything else is not iterable. *)
Definition py_iter (v : pyval) : exc (list pyval) :=
  match v with
  | VList l => Ok l
  | VDict kvs => Ok ((fun kv => VStr kv.1) <$> kvs)
  | VStr s => Ok ((fun c => VStr [c]) <$> s)
  | _ => Raise TypeError
  end.

(** [v[0]] on a truthy value: the first item of a list or string; a dict
    has no key [0] (JSON keys are strings); numbers are not subscriptable. *)
Definition py_index0 (v : pyval) : exc pyval :=
  match v with
  | VList (x :: _) => Ok x
  | VStr (c :: _) => Ok (VStr [c])
  | VList [] | VStr [] => Raise IndexError
  | VDict _ => Raise KeyError
  | _ => Raise TypeError
  end.

(** [v[:n]] *)
Definition py_slice_val (n : Z) (v : pyval) : exc pyval :=
  match v with
  | VList l => Ok (VList (py_slice_to n l))
  | VStr s => Ok (VStr (py_slice_to n s))
  | _ => Raise TypeError
  end.

Definition is_str (v : pyval) : bool := match v with VStr _ => true | _ => false end.

(** ** [str()] and [repr()], as f-strings render values *)

(** Decimal digits of a natural number ([N.size_nat n] binary digits
    bound the decimal ones, so the fuel is enough). *)
Fixpoint n_digits_aux (fuel : nat) (n : N) (acc : pystr) : pystr :=
  match fuel with
  | O => acc
  | S f =>
      let acc' := (N.modulo n 10 + 48)%N :: acc in
      if (n <? 10)%N then acc' else n_digits_aux f (n / 10)%N acc'
  end.

Definition n_str (n : N) : pystr := n_digits_aux (S (N.size_nat n)) n [].

(** [str(i)] of an [int]. *)
Definition z_str (z : Z) : pystr :=
  match z with
  | Zneg p => 45%N :: n_str (Npos p)
  | _ => n_str (Z.to_N z)
  end.

Definition hex_digit (n : N) : N := if (n <? 10)%N then (48 + n)%N else (87 + n)%N.

(** [n] as exactly [w] lower-case hexadecimal digits. *)
Fixpoint hex_fixed (w : nat) (n : N) (acc : pystr) : pystr :=
  match w with
  | O => acc
  | S w' => hex_fixed w' (n / 16)%N (hex_digit (N.modulo n 16) :: acc)
  end.

(** [Py_UNICODE_ISPRINTABLE] for the characters [repr] escapes: exact
    on Latin-1 (C0, DEL, C1, NBSP, soft hyphen) and on the separators
    and format characters of General Punctuation, surrogates, private
    use and the BOM; other code points count as printable. *)
Definition py_isprintable (c : N) : bool :=
  negb ((c <? 32)%N || ((127 <=? c)%N && (c <=? 160)%N) || (c =? 173)%N
        || (c =? 5760)%N || ((8192 <=? c)%N && (c <=? 8207)%N)
        || ((8232 <=? c)%N && (c <=? 8239)%N) || ((8287 <=? c)%N && (c <=? 8303)%N)
        || (c =? 12288)%N || ((55296 <=? c)%N && (c <=? 63743)%N) || (c =? 65279)%N).

(** One character of [unicode_repr] with quote [q]. *)
Definition repr_char (q c : N) : pystr :=
  if (c =? q)%N || (c =? 92)%N then [92%N; c]
  else if (c =? 9)%N then [92%N; 116%N]
  else if (c =? 10)%N then [92%N; 110%N]
  else if (c =? 13)%N then [92%N; 114%N]
  else if py_isprintable c then [c]
  else if (c <=? 255)%N then 92%N :: 120%N :: hex_fixed 2 c []
  else if (c <=? 65535)%N then 92%N :: 117%N :: hex_fixed 4 c []
  else 92%N :: 85%N :: hex_fixed 8 c [].

(** [repr(s)]: single quotes unless [s] holds a single and no double quote. *)
Definition py_repr_str (s : pystr) : pystr :=
  let q := if bool_decide (39%N ∈ s) && negb (bool_decide (34%N ∈ s)) then 34%N else 39%N in
  q :: (s ≫= repr_char q) ++ [q].

Fixpoint py_repr (v : pyval) : pystr :=
  match v with
  | VNone => str_of "None"
  | VBool true => str_of "True"
  | VBool false => str_of "False"
  | VNum n => z_str n
  | VStr s => py_repr_str s
  | VList l =>
      [91%N] ++ py_join (str_of ", ")
        ((fix go (l : list pyval) : list pystr :=
            match l with [] => [] | x :: r => py_repr x :: go r end) l) ++ [93%N]
  | VDict kvs =>
      [123%N] ++ py_join (str_of ", ")
        ((fix go (l : list (pystr * pyval)) : list pystr :=
            match l with
            | [] => []
            | (k, x) :: r => (py_repr_str k ++ str_of ": " ++ py_repr x) :: go r
            end) kvs) ++ [125%N]
  end.

(** [str(v)], which is what [f"{v}"] inserts. *)
Definition py_str (v : pyval) : pystr :=
  match v with VStr s => s | _ => py_repr v end.

(** ** [float()] *)

(** A float as the decimal [(-1)^neg * m * 10^e] that [float()] read,
    or an infinity or NaN.  The rounding to a binary double is not
    modelled: it is the identity on decimals of at most 15 significant
    digits inside the double range, which is where [float_repr] is exact. *)
Inductive pyfloat : Type :=
  | FDec (neg : bool) (m : N) (e : Z)
  | FInf (neg : bool)
  | FNan.

#[export] Instance pyfloat_eq_dec : EqDecision pyfloat.
Proof. solve_decision. Defined.

Definition is_digit (c : N) : bool := (48 <=? c)%N && (c <=? 57)%N.

Fixpoint span_digits (s : pystr) : pystr * pystr :=
  match s with
  | c :: r => if is_digit c then let '(d, r') := span_digits r in (c :: d, r') else ([], s)
  | [] => ([], [])
  end.

Definition digits_N (ds : pystr) : N := foldl (fun acc c => acc * 10 + (c - 48))%N 0%N ds.

Definition split_sign (s : pystr) : bool * pystr :=
  match s with
  | c :: r => if (c =? 45)%N then (true, r) else if (c =? 43)%N then (false, r) else (false, s)
  | [] => (false, [])
  end.

(** The rule of [_Py_string_to_number_with_underscores]: an underscore
    only between two digits. *)
Fixpoint underscores_ok (prev_digit : bool) (s : pystr) : bool :=
  match s with
  | [] => true
  | c :: r =>
      if (c =? 95)%N then
        prev_digit && match r with d :: _ => is_digit d | [] => false end
        && underscores_ok false r
      else underscores_ok (is_digit c) r
  end.

(** [[eE][sign]digits] at the end of a float literal. *)
Definition parse_exponent (r : pystr) : option Z :=
  match r with
  | [] => Some 0%Z
  | c :: r' =>
      if (c =? 101)%N || (c =? 69)%N then
        let '(eneg, r'') := split_sign r' in
        let '(ed, rest) := span_digits r'' in
        if bool_decide (ed = [] ∨ rest ≠ []) then None
        else Some (if eneg then (- Z.of_N (digits_N ed))%Z else Z.of_N (digits_N ed))
      else None
  end.

(** [_PyOS_ascii_strtod] on the whole (stripped) string: [inf],
    [infinity] and [nan] in any case, or [digits[.digits][exponent]]
    with at least one digit. *)
Definition parse_float_lit (s : pystr) : option pyfloat :=
  let '(neg, r) := split_sign s in
  let lr := py_lower r in
  if bool_decide (lr = str_of "inf" ∨ lr = str_of "infinity") then Some (FInf neg)
  else if bool_decide (lr = str_of "nan") then Some FNan
  else
    let '(ip, r1) := span_digits r in
    let '(fp, r2) :=
      match r1 with
      | c :: r' => if (c =? 46)%N then span_digits r' else ([], r1)
      | [] => ([], [])
      end in
    if bool_decide (ip = [] ∧ fp = []) then None
    else e ← parse_exponent r2;
         Some (FDec neg (digits_N (ip ++ fp)) (e - Z.of_nat (length fp))%Z).

(** [float(v)]; an [int] converts exactly up to [2^53]. *)
Definition py_float (v : pyval) : exc pyfloat :=
  match v with
  | VNum z => Ok (FDec (z <? 0)%Z (Z.abs_N z) 0)
  | VBool b => Ok (FDec false (if b then 1 else 0)%N 0)
  | VStr s =>
      let t := py_strip s in
      if underscores_ok false t then
        match parse_float_lit (filter (fun c => c ≠ 95%N) t) with
        | Some f => Ok f
        | None => Raise ValueError
        end
      else Raise ValueError
  | _ => Raise TypeError
  end.

(** Strip the trailing zeros of a mantissa, raising the exponent. *)
Fixpoint normalize_dec (fuel : nat) (m : N) (e : Z) : N * Z :=
  match fuel with
  | O => (m, e)
  | S f =>
      if (m =? 0)%N then (m, e)
      else if (N.modulo m 10 =? 0)%N then normalize_dec f (m / 10)%N (e + 1)%Z else (m, e)
  end.

(** [repr(float)]: the shortest digits, in positional notation for a
    decimal exponent in [[-4, 16)] and in scientific notation otherwise. *)
Definition float_repr (f : pyfloat) : pystr :=
  match f with
  | FNan => str_of "nan"
  | FInf neg => (if neg then [45%N] else []) ++ str_of "inf"
  | FDec neg m0 e0 =>
      (if neg then [45%N] else []) ++
      let '(m, e) := normalize_dec (N.size_nat m0) m0 e0 in
      if (m =? 0)%N then str_of "0.0" else
      let ds := n_str m in
      let x := (Z.of_nat (length ds) - 1 + e)%Z in
      if (x <? -4)%Z || (16 <=? x)%Z then
        take 1 ds ++ (if decide (length ds = 1) then [] else 46%N :: drop 1 ds)
        ++ [101%N; if (x <? 0)%Z then 45%N else 43%N]
        ++ (let xs := n_str (Z.abs_N x) in replicate (2 - length xs) 48%N ++ xs)
      else if (0 <=? e)%Z then ds ++ replicate (Z.to_nat e) 48%N ++ str_of ".0"
      else if (0 <=? x)%Z then take (Z.to_nat (x + 1)) ds ++ 46%N :: drop (Z.to_nat (x + 1)) ds
      else str_of "0." ++ replicate (Z.to_nat (- x - 1)) 48%N ++ ds
  end.

Lemma py_str_lower_ok v : is_str v = true -> ∃ s, v = VStr s ∧ py_str_lower v = Ok (py_lower s).
Proof. destruct v; try done. eauto. Qed.

Lemma py_str_lower_raise v : is_str v = false -> py_str_lower v = Raise AttributeError.
Proof. by destruct v. Qed.

(** ** Decimal digits *)

Abbreviation all_digits ds := (Forall (λ c, is_digit c = true) ds).

Lemma digits_N_foldl x b :
  foldl (fun acc c => acc * 10 + (c - 48))%N x b = (x * 10 ^ N.of_nat (length b) + digits_N b)%N.
Proof.
  unfold digits_N. revert x. induction b as [|c b IH]; intros x; cbn; [lia|].
  rewrite (IH (x * 10 + (c - 48))%N), (IH (0 * 10 + (c - 48))%N).
  rewrite Nat2N.inj_succ, N.pow_succ_r'. lia.
Qed.

Lemma digits_N_app a b : digits_N (a ++ b) = (digits_N a * 10 ^ N.of_nat (length b) + digits_N b)%N.
Proof. unfold digits_N at 1. by rewrite foldl_app, digits_N_foldl. Qed.

Lemma pos_lt_pow_size p : (Npos p < 2 ^ N.of_nat (Pos.size_nat p))%N.
Proof.
  induction p as [p IH|p IH|]; cbn [Pos.size_nat]; rewrite ?Nat2N.inj_succ, ?N.pow_succ_r'.
  - change (Npos p~1) with (2 * Npos p + 1)%N. lia.
  - change (Npos p~0) with (2 * Npos p)%N. lia.
  - cbn. lia.
Qed.

Lemma is_digit_of d : (d < 10)%N -> is_digit (d + 48) = true.
Proof. intros. unfold is_digit. apply andb_true_iff. rewrite !N.leb_le. lia. Qed.

Lemma n_digits_aux_S f n acc : n_digits_aux (S f) n acc =
  let acc' := (N.modulo n 10 + 48)%N :: acc in
  if (n <? 10)%N then acc' else n_digits_aux f (n / 10)%N acc'.
Proof. reflexivity. Qed.

(** At most [k] digits below [10^k]. *)
Definition digits_fit (ds : pystr) (n : N) : Prop :=
  ∀ k : nat, (n < 10 ^ N.of_nat k)%N -> 1 <= k -> length ds <= k.

Lemma n_digits_aux_spec fuel n acc : (n < 2 ^ N.of_nat fuel)%N ->
  ∃ ds, n_digits_aux (S fuel) n acc = ds ++ acc ∧ ds ≠ [] ∧ all_digits ds ∧ digits_N ds = n
        ∧ digits_fit ds n.
Proof.
  revert n acc. induction fuel as [|f IH]; intros n acc Hn; rewrite n_digits_aux_S; cbv zeta.
  - exists [(n mod 10 + 48)%N]. cbn in Hn. replace n with 0%N by lia. cbn.
    repeat split; [done|constructor; [done|constructor]|]. intros k _ Hk. cbn. lia.
  - pose proof (N.mod_lt n 10 ltac:(lia)).
    destruct (N.ltb_spec n 10).
    + exists [(n mod 10 + 48)%N]. rewrite N.mod_small by lia.
      repeat split; [done|constructor; [apply is_digit_of; lia|constructor]| |].
      * cbn. lia.
      * intros k _ Hk. cbn. lia.
    + rewrite Nat2N.inj_succ, N.pow_succ_r' in Hn.
      destruct (IH (n / 10)%N ((n mod 10 + 48)%N :: acc)) as (ds & -> & Hne & Hd & Hv & Hfit).
      { apply N.Div0.div_lt_upper_bound; lia. }
      exists (ds ++ [(n mod 10 + 48)%N]). rewrite <- app_assoc. repeat split; [by destruct ds| | |].
      * apply Forall_app; split; [done|]. constructor; [apply is_digit_of; lia|constructor].
      * rewrite digits_N_app, Hv. cbn. replace (10 ^ N.of_nat 1)%N with 10%N by reflexivity.
        rewrite N.add_sub, N.mul_0_l, N.add_0_l, N.mul_comm. symmetry. by apply N.div_mod.
      * intros [|[|k]] Hk Hk1; [lia| |].
        -- cbn in Hk. clear Hn IH. lia.
        -- rewrite length_app. cbn [length].
           assert (length ds <= S k); [|lia]. apply Hfit; [|lia].
           apply N.Div0.div_lt_upper_bound. rewrite Nat2N.inj_succ, N.pow_succ_r' in Hk.
           clear Hn IH. lia.
Qed.

(** The decimal digits of [str(n)] read back as [n], and there are at
    most [k] of them below [10^k]. *)
Lemma n_str_spec n : n_str n ≠ [] ∧ all_digits (n_str n) ∧ digits_N (n_str n) = n ∧ digits_fit (n_str n) n.
Proof.
  unfold n_str. destruct (n_digits_aux_spec (N.size_nat n) n []) as (ds & -> & ?).
  - destruct n; [done|apply pos_lt_pow_size].
  - by rewrite app_nil_r.
Qed.

Lemma span_digits_app ds r : all_digits ds ->
  match r with c :: _ => is_digit c = false | [] => True end -> span_digits (ds ++ r) = (ds, r).
Proof.
  intros Hds Hr. induction Hds as [|c ds Hc _ IH]; cbn.
  - destruct r as [|c r]; [done|]. cbn. by rewrite Hr.
  - by rewrite Hc, IH.
Qed.

Lemma span_digits_all ds : all_digits ds -> span_digits ds = (ds, []).
Proof. intros H. rewrite <- (app_nil_r ds) at 1. by apply span_digits_app. Qed.

Lemma is_digit_plain c : is_digit c = true -> (c =? 45)%N = false ∧ (c =? 43)%N = false ∧ lower_char c = c.
Proof.
  unfold is_digit, lower_char, is_upper. rewrite andb_true_iff, !N.leb_le. intros.
  repeat split; [apply N.eqb_neq; lia|apply N.eqb_neq; lia|].
  by replace (65 <=? c)%N with false by (symmetry; apply N.leb_gt; lia).
Qed.

(** [float()] of a fixed-point literal [[-]digits.digits]. *)
Lemma parse_float_lit_fixed (neg : bool) (ds fs : pystr) : ds ≠ [] -> all_digits ds -> all_digits fs ->
  parse_float_lit ((if neg then [45%N] else py_empty) ++ ds ++ 46%N :: fs) =
  Some (FDec neg (digits_N (ds ++ fs)) (- Z.of_nat (length fs))).
Proof.
  intros Hne Hds Hfs. destruct ds as [|c ds']; [done|].
  pose proof (Forall_inv Hds) as Hc. destruct (is_digit_plain c Hc) as (H45 & H43 & Hl).
  assert (c ≠ 105%N ∧ c ≠ 110%N) as [Hi Hn]
    by (split; intros ->; discriminate Hc).
  unfold parse_float_lit.
  replace (split_sign _) with (neg, c :: ds' ++ 46%N :: fs)
    by (destruct neg; cbn; rewrite ?H45, ?H43; done).
  cbn [py_lower fmap list_fmap]. rewrite Hl.
  rewrite !bool_decide_false by (cbn; intros ?; naive_solver).
  rewrite (app_comm_cons ds' (46%N :: fs) c), span_digits_app by done. cbn.
  rewrite span_digits_all by done. cbn. do 3 f_equal; lia.
Qed.

(** [float()] of an integer literal [[-]digits]. *)
Lemma parse_float_lit_int (neg : bool) (ds : pystr) : ds ≠ [] -> all_digits ds ->
  parse_float_lit ((if neg then [45%N] else py_empty) ++ ds) = Some (FDec neg (digits_N ds) 0).
Proof.
  intros Hne Hds. destruct ds as [|c ds']; [done|].
  pose proof (Forall_inv Hds) as Hc. destruct (is_digit_plain c Hc) as (H45 & H43 & Hl).
  assert (c ≠ 105%N ∧ c ≠ 110%N) as [Hi Hn] by (split; intros ->; discriminate Hc).
  unfold parse_float_lit.
  replace (split_sign _) with (neg, c :: ds') by (destruct neg; cbn; rewrite ?H45, ?H43; done).
  cbn [py_lower fmap list_fmap]. rewrite Hl.
  rewrite !bool_decide_false by (cbn; intros ?; naive_solver).
  rewrite span_digits_all by done. cbn. rewrite app_nil_r. reflexivity.
Qed.

(** Leading zeros do not change the value. *)
Lemma digits_N_zeros j ds : digits_N (replicate j 48%N ++ ds) = digits_N ds.
Proof.
  rewrite digits_N_app. enough (digits_N (replicate j 48%N) = 0%N) as -> by lia.
  induction j as [|j IH]; [done|].
  change (replicate (S j) 48%N) with ([48%N] ++ replicate j 48%N).
  rewrite digits_N_app, IH. cbn. lia.
Qed.
