(* ===== verification/Binary64.v ===== *)
(** * IEEE 754 binary64 ([float], [numpy.float64])

    The arithmetic of [_create_company_document] ([src/script_5.py],
    lines 205-223) is numpy's: the financial cells are [numpy.float64]
    or [numpy.int64] scalars, a difference of two revenues is divided in
    binary floating point and printed with [:.2f].  This file gives the
    binary64 numbers as data ([b64]: signed zeros, infinities, NaN and
    finite [m * 2^e] with a 53-bit [m]), rounding to nearest, ties to
    even ([round_rat], of an exact rational [p / q]), the operations
    [+ - * /] as the rounding of the exact result with the IEEE special
    cases, the conversions from [int] and from a decimal literal, the
    [int64] wrap-around, and CPython's [format(x, '.kf')] ([format_f];
    the dashboard of [src/app.py] uses [.0f] and [.1f] as well).

    The theorems: a rounded result is canonical (53 significant bits,
    exponent in range), and so is every result of the operations; it
    lies within half a unit in the last place of the exact value, and is
    infinite only above the largest finite double; integers up to [2^53]
    convert exactly; [float()] of the [:.kf] text reads back the value
    rounded to [k] decimals. *)

From S2P Require Import Prelude PyStr PyObj.

Local Open Scope Z_scope.

(** ** Data *)

(** A binary64 value: [B64Fin neg m e] is [(-1)^neg * m * 2^e]. *)
Inductive b64 : Type :=
  | B64Zero (neg : bool)
  | B64Inf (neg : bool)
  | B64Nan
  | B64Fin (neg : bool) (m e : Z).

#[export] Instance b64_eq_dec : EqDecision b64.
Proof. solve_decision. Defined.

(** The exponent of the least subnormal, [2^-1074]. *)
Definition emin : Z := -1074.

(** The exponent of a unit in the last place of the largest binade:
    the largest finite double is [(2^53 - 1) * 2^971]. *)
Definition emax : Z := 971.

(** The representation invariant: 53 significant bits, normal unless
    the exponent is the least one. *)
Definition canonical (x : b64) : Prop :=
  match x with
  | B64Fin _ m e => (0 < m < 2 ^ 53)%Z ∧ (emin <= e <= emax)%Z ∧ (2 ^ 52 <= m ∨ e = emin)%Z
  | _ => True
  end.

(** ** Rounding *)

(** [n / d] rounded to the nearest integer, ties to even. *)
Definition div_round (n d : Z) : Z :=
  let q := (n / d)%Z in
  let r := (n mod d)%Z in
  if (d <? 2 * r)%Z || ((2 * r =? d)%Z && Z.odd q) then (q + 1)%Z else q.

(** The fraction [p / q * 2^t] as a pair of integers. *)
Definition frac_at (p q t : Z) : Z * Z :=
  if (0 <=? t)%Z then (p * 2 ^ t, q)%Z else (p, q * 2 ^ (- t))%Z.

(** [floor (log2 (p / q))] for positive [p] and [q]. *)
Definition ilog (p q : Z) : Z :=
  let c := (Z.log2 p - Z.log2 q)%Z in
  let '(n, d) := frac_at p q (- c) in
  if (d <=? n)%Z then c else (c - 1)%Z.

(** The exponent of the unit in the last place of [p / q]. *)
Definition ulp_exp (p q : Z) : Z := Z.max emin (ilog p q - 52).

(** [(-1)^neg * p / q], [p] and [q] positive, rounded to the nearest
    double, ties to even; above the range it is an infinity, below the
    least subnormal a zero of the same sign. *)
Definition round_rat (neg : bool) (p q : Z) : b64 :=
  let e := ulp_exp p q in
  let '(n, d) := frac_at p q (- e) in
  let m := div_round n d in
  let '(m, e) := if (m =? 2 ^ 53)%Z then ((2 ^ 52)%Z, (e + 1)%Z) else (m, e) in
  if (m =? 0)%Z then B64Zero neg
  else if (emax <? e)%Z then B64Inf neg
  else B64Fin neg m e.

(** [(-1)^neg * n * 2^e] for a positive integer [n], rounded. *)
Definition round_scaled (neg : bool) (n e : Z) : b64 :=
  if (0 <=? e)%Z then round_rat neg (n * 2 ^ e) 1 else round_rat neg n (2 ^ (- e)).

(** ** Conversions *)

(** [float(z)] of an integer ([PyLong_AsDouble], and numpy's cast of
    an [int64]): correctly rounded. *)
Definition b64_of_Z (z : Z) : b64 :=
  if (z =? 0)%Z then B64Zero false else round_rat (z <? 0)%Z (Z.abs z) 1.

(** The double nearest a decimal literal, as the parser of [float()]
    and of [pd.read_csv] reads it. *)
Definition b64_of_float (f : pyfloat) : b64 :=
  match f with
  | FNan => B64Nan
  | FInf neg => B64Inf neg
  | FDec neg m e =>
      if (m =? 0)%N then B64Zero neg
      else if (0 <=? e)%Z then round_rat neg (Z.of_N m * 10 ^ e) 1
      else round_rat neg (Z.of_N m) (10 ^ (- e))
  end.

(** ** Arithmetic *)

Definition b64_neg (x : b64) : b64 :=
  match x with
  | B64Zero s => B64Zero (negb s)
  | B64Inf s => B64Inf (negb s)
  | B64Nan => B64Nan
  | B64Fin s m e => B64Fin (negb s) m e
  end.

Definition signed (neg : bool) (m : Z) : Z := if neg then (- m)%Z else m.

(** [x + y]: the exact sum rounded; an exact zero sum is [+0.0]. *)
Definition b64_add (x y : b64) : b64 :=
  match x, y with
  | B64Nan, _ | _, B64Nan => B64Nan
  | B64Inf s, B64Inf s' => if eqb s s' then B64Inf s else B64Nan
  | B64Inf s, _ | _, B64Inf s => B64Inf s
  | B64Zero s, B64Zero s' => B64Zero (s && s')
  | B64Zero _, _ => y
  | _, B64Zero _ => x
  | B64Fin s1 m1 e1, B64Fin s2 m2 e2 =>
      let e := Z.min e1 e2 in
      let n := (signed s1 (m1 * 2 ^ (e1 - e)) + signed s2 (m2 * 2 ^ (e2 - e)))%Z in
      if (n =? 0)%Z then B64Zero false else round_scaled (n <? 0)%Z (Z.abs n) e
  end.

Definition b64_sub (x y : b64) : b64 := b64_add x (b64_neg y).

(** [x * y]. *)
Definition b64_mul (x y : b64) : b64 :=
  match x, y with
  | B64Nan, _ | _, B64Nan => B64Nan
  | B64Inf _, B64Zero _ | B64Zero _, B64Inf _ => B64Nan
  | B64Inf s, B64Inf s' | B64Inf s, B64Fin s' _ _ | B64Fin s _ _, B64Inf s' => B64Inf (xorb s s')
  | B64Zero s, B64Zero s' | B64Zero s, B64Fin s' _ _ | B64Fin s _ _, B64Zero s' =>
      B64Zero (xorb s s')
  | B64Fin s1 m1 e1, B64Fin s2 m2 e2 => round_scaled (xorb s1 s2) (m1 * m2) (e1 + e2)
  end.

(** [x / y]; numpy returns an infinity or NaN for a zero divisor (with
    a [RuntimeWarning]) where Python's [float] raises. *)
Definition b64_div (x y : b64) : b64 :=
  match x, y with
  | B64Nan, _ | _, B64Nan => B64Nan
  | B64Inf _, B64Inf _ | B64Zero _, B64Zero _ => B64Nan
  | B64Inf s, B64Zero s' | B64Inf s, B64Fin s' _ _ | B64Fin s _ _, B64Zero s' => B64Inf (xorb s s')
  | B64Zero s, B64Inf s' | B64Zero s, B64Fin s' _ _ | B64Fin s _ _, B64Inf s' =>
      B64Zero (xorb s s')
  | B64Fin s1 m1 e1, B64Fin s2 m2 e2 =>
      if (e2 <=? e1)%Z then round_rat (xorb s1 s2) (m1 * 2 ^ (e1 - e2)) m2
      else round_rat (xorb s1 s2) m1 (m2 * 2 ^ (e2 - e1))
  end.

(** [numpy.int64] arithmetic wraps modulo [2^64]. *)
Definition wrap64 (z : Z) : Z := ((z + 2 ^ 63) mod 2 ^ 64 - 2 ^ 63)%Z.

(** ** [format(x, '.kf')] *)

(** [|x| * 10^k] rounded to an integer, ties to even, as CPython's
    correctly rounded [dtoa] gives it for [x = m * 2^e]. *)
Definition scaled_round (k : nat) (m e : Z) : Z :=
  if (0 <=? e)%Z then (m * 10 ^ Z.of_nat k * 2 ^ e)%Z
  else div_round (m * 10 ^ Z.of_nat k) (2 ^ (- e)).

(** The [k] decimals of [n < 10^k], zero-padded on the left. *)
Definition frac_digits (k : nat) (n : Z) : pystr :=
  let ds := n_str (Z.to_N n) in replicate (k - length ds) 48%N ++ ds.

(** [h / 10^k] with [k] decimals; no point when [k = 0]. *)
Definition fixed_digits (k : nat) (h : Z) : pystr :=
  z_str (h / 10 ^ Z.of_nat k) ++
  match k with O => [] | S _ => 46%N :: frac_digits k (h mod 10 ^ Z.of_nat k) end.

(** [format(x, '.kf')]: the sign (also of a zero or of a value that
    rounds to zero), the integer part and [k] decimals; [inf] and [nan]
    for the special values. *)
Definition format_f (k : nat) (x : b64) : pystr :=
  match x with
  | B64Nan => str_of "nan"
  | B64Inf s => (if s then [45%N] else []) ++ str_of "inf"
  | B64Zero s => (if s then [45%N] else []) ++ fixed_digits k 0
  | B64Fin s m e => (if s then [45%N] else []) ++ fixed_digits k (scaled_round k m e)
  end.

(** [format(x, '.2f')]. *)
Definition format_2f : b64 -> pystr := format_f 2.

(** ** Integer rounding *)

Lemma div_round_err n d : (0 < d)%Z -> (Z.abs (2 * (div_round n d * d - n)) <= d)%Z.
Proof.
  intros Hd. unfold div_round.
  pose proof (Z.div_mod n d ltac:(lia)). pose proof (Z.mod_pos_bound n d Hd).
  destruct (Z.ltb_spec d (2 * (n mod d))), (Z.eqb_spec (2 * (n mod d)) d), (Z.odd (n / d));
    cbn; lia.
Qed.

Lemma div_round_lb n d k : (0 < d)%Z -> (k * d <= n)%Z -> (k <= div_round n d)%Z.
Proof.
  intros Hd Hk. unfold div_round.
  assert (k <= n / d)%Z by (apply Z.div_le_lower_bound; lia).
  destruct (_ || _); lia.
Qed.

Lemma div_round_ub n d k : (0 < d)%Z -> (n < k * d)%Z -> (div_round n d <= k)%Z.
Proof.
  intros Hd Hk. unfold div_round.
  assert (n / d < k)%Z by (apply Z.div_lt_upper_bound; lia).
  destruct (_ || _); lia.
Qed.

Lemma div_round_exact k d : (0 < d)%Z -> div_round (k * d) d = k.
Proof.
  intros Hd. unfold div_round.
  rewrite Z.div_mul, Z_mod_mult by lia.
  destruct (Z.ltb_spec d (2 * 0)), (Z.eqb_spec (2 * 0) d); cbn; lia.
Qed.

Lemma div_round_nonneg n d : (0 < d)%Z -> (0 <= n)%Z -> (0 <= div_round n d)%Z.
Proof. intros. apply div_round_lb; lia. Qed.

#[export] Hint Resolve div_round_err div_round_nonneg : rag.

(** ** Fractions at a binary scale *)

Section Frac.
Context (p q : Z) (Hp : (0 < p)%Z) (Hq : (0 < q)%Z).

Lemma frac_at_pos t : (0 < (frac_at p q t).1)%Z ∧ (0 < (frac_at p q t).2)%Z.
Proof.
  unfold frac_at. destruct (Z.leb_spec 0 t); cbn.
  - pose proof (Z.pow_pos_nonneg 2 t); lia.
  - pose proof (Z.pow_pos_nonneg 2 (- t)); lia.
Qed.

(** Raising the scale by [j] multiplies the fraction by [2^j]. *)
Lemma frac_at_shift t j : (0 <= j)%Z ->
  ((frac_at p q (t + j)).1 * (frac_at p q t).2 = 2 ^ j * (frac_at p q t).1 * (frac_at p q (t + j)).2)%Z.
Proof.
  intros Hj. unfold frac_at.
  destruct (Z.leb_spec 0 t), (Z.leb_spec 0 (t + j)); cbn; try lia.
  - rewrite Z.pow_add_r by lia. ring.
  - assert (2 ^ (t + j) * 2 ^ (- t) = 2 ^ j)%Z as E
      by (rewrite <- Z.pow_add_r by lia; f_equal; lia).
    rewrite <- E. ring.
  - assert (2 ^ j * 2 ^ (- (t + j)) = 2 ^ (- t))%Z as E
      by (rewrite <- Z.pow_add_r by lia; f_equal; lia).
    rewrite <- E. ring.
Qed.

(** The fraction grows with the scale. *)
Lemma frac_at_le t t' : (t <= t')%Z ->
  ((frac_at p q t).1 * (frac_at p q t').2 <= (frac_at p q t').1 * (frac_at p q t).2)%Z.
Proof.
  intros Ht. pose proof (frac_at_shift t (t' - t) ltac:(lia)) as E.
  replace (t + (t' - t))%Z with t' in E by lia. rewrite E.
  destruct (frac_at_pos t), (frac_at_pos t').
  pose proof (Z.pow_pos_nonneg 2 (t' - t) ltac:(lia) ltac:(lia)). nia.
Qed.

(** A lower bound [A / B <= p / q * 2^t] carries to a larger scale. *)
Lemma frac_at_lower t t' A B : (t <= t')%Z -> (0 <= B)%Z ->
  (A * (frac_at p q t).2 <= B * (frac_at p q t).1)%Z ->
  (A * (frac_at p q t').2 <= B * (frac_at p q t').1)%Z.
Proof.
  intros Ht HB H. pose proof (frac_at_le t t' Ht).
  destruct (frac_at_pos t) as [_ Hd], (frac_at_pos t') as [_ Hd'].
  apply (Z.mul_le_mono_pos_r _ _ ((frac_at p q t).2)); [lia|]. nia.
Qed.

(** An upper bound [p / q * 2^t' < A / B] carries to a smaller scale. *)
Lemma frac_at_upper t t' A B : (t <= t')%Z -> (0 <= B)%Z ->
  (B * (frac_at p q t').1 < A * (frac_at p q t').2)%Z ->
  (B * (frac_at p q t).1 < A * (frac_at p q t).2)%Z.
Proof.
  intros Ht HB H. pose proof (frac_at_le t t' Ht).
  destruct (frac_at_pos t) as [_ Hd], (frac_at_pos t') as [_ Hd'].
  apply (Z.mul_lt_mono_pos_r ((frac_at p q t').2)); [lia|]. nia.
Qed.

(** [ilog p q] is [floor (log2 (p / q))]. *)
Lemma ilog_spec :
  ((frac_at p q (- ilog p q)).2 <= (frac_at p q (- ilog p q)).1 <
     2 * (frac_at p q (- ilog p q)).2)%Z.
Proof.
  pose proof (Z.log2_spec p Hp) as [Hp1 Hp2]. pose proof (Z.log2_spec q Hq) as [Hq1 Hq2].
  pose proof (Z.log2_nonneg p). pose proof (Z.log2_nonneg q).
  rewrite Z.pow_succ_r in Hp2, Hq2 by lia.
  set (c := (Z.log2 p - Z.log2 q)%Z).
  assert ((frac_at p q (- c)).2 < 2 * (frac_at p q (- c)).1 ∧
          (frac_at p q (- c)).1 < 2 * (frac_at p q (- c)).2)%Z as [H1 H2].
  { unfold frac_at, c. destruct (Z.leb_spec 0 (- (Z.log2 p - Z.log2 q))); cbn.
    - assert (2 ^ Z.log2 p * 2 ^ (- (Z.log2 p - Z.log2 q)) = 2 ^ Z.log2 q)%Z as E
        by (rewrite <- Z.pow_add_r by lia; f_equal; lia).
      pose proof (Z.pow_pos_nonneg 2 (- (Z.log2 p - Z.log2 q)) ltac:(lia) ltac:(lia)). nia.
    - assert (2 ^ Z.log2 q * 2 ^ (- - (Z.log2 p - Z.log2 q)) = 2 ^ Z.log2 p)%Z as E
        by (rewrite <- Z.pow_add_r by lia; f_equal; lia).
      pose proof (Z.pow_pos_nonneg 2 (- - (Z.log2 p - Z.log2 q)) ltac:(lia) ltac:(lia)). nia. }
  unfold ilog. fold c. destruct (frac_at p q (- c)) as [n d] eqn:Ec. cbn in H1, H2.
  destruct (Z.leb_spec d n); [rewrite Ec; cbn; lia|].
  pose proof (frac_at_shift (- c) 1 ltac:(lia)) as E.
  replace (- c + 1)%Z with (- (c - 1))%Z in E by lia. rewrite Ec in E. cbn in E.
  destruct (frac_at_pos (- (c - 1))). nia.
Qed.

End Frac.

Lemma div_round_half n d k : (0 < d)%Z -> (k <= div_round n d)%Z -> ((2 * k - 1) * d <= 2 * n)%Z.
Proof.
  intros Hd Hk. pose proof (div_round_err n d Hd) as He.
  assert (k * d <= div_round n d * d)%Z by nia. lia.
Qed.

Lemma emin_le_ulp_exp p q : (emin <= ulp_exp p q)%Z.
Proof. apply Z.le_max_l. Qed.

(** At the scale of [ulp_exp], [p / q] is below [2^53], and at least
    [2^52] unless the exponent is the least one. *)
Lemma ulp_exp_frac p q : (0 < p)%Z -> (0 < q)%Z ->
  ((frac_at p q (- ulp_exp p q)).1 < 2 ^ 53 * (frac_at p q (- ulp_exp p q)).2)%Z ∧
  (ulp_exp p q = emin ∨
     2 ^ 52 * (frac_at p q (- ulp_exp p q)).2 <= (frac_at p q (- ulp_exp p q)).1)%Z.
Proof.
  intros Hp Hq.
  pose proof (ilog_spec p q Hp Hq) as [H1 H2].
  pose proof (frac_at_shift p q (- ilog p q) 52 ltac:(lia)) as E.
  destruct (frac_at_pos p q Hp Hq (- ilog p q)), (frac_at_pos p q Hp Hq (- ilog p q + 52)).
  assert ((frac_at p q (- ilog p q + 52)).1 < 2 ^ 53 * (frac_at p q (- ilog p q + 52)).2 ∧
          2 ^ 52 * (frac_at p q (- ilog p q + 52)).2 <= (frac_at p q (- ilog p q + 52)).1)%Z
    as [A1 A2] by (replace (2 ^ 53) with (2 * 2 ^ 52) by reflexivity; nia).
  unfold ulp_exp. destruct (Z.max_spec emin (ilog p q - 52)) as [[Hm ->]|[Hm ->]].
  - replace (- (ilog p q - 52))%Z with (- ilog p q + 52)%Z by lia. auto.
  - split; [|by left].
    rewrite <- (Z.mul_1_l (frac_at p q (- emin)).1).
    apply (frac_at_upper p q Hp Hq (- emin) (- ilog p q + 52) (2 ^ 53) 1); lia.
Qed.

(** The powers of two the proofs meet, as numerals for [lia]. *)
Ltac pow_consts :=
  assert (2 ^ 52 = 4503599627370496) by reflexivity;
  assert (2 ^ 53 = 9007199254740992) by reflexivity.

Ltac round_cases :=
  repeat match goal with
  | |- context [(?a =? ?b)%Z] => destruct (Z.eqb_spec a b)
  | |- context [(?a <? ?b)%Z] => destruct (Z.ltb_spec a b)
  end; cbn.

(** Rounding a positive fraction gives a canonical double: a zero,
    an infinity, or [m * 2^e] with [0 < m < 2^53], [e] between the least
    subnormal exponent and [971], and [m >= 2^52] unless [e] is the least
    (53 significant bits, the format of a binary64). *)
Theorem round_rat_canonical neg p q : (0 < p)%Z -> (0 < q)%Z -> canonical (round_rat neg p q).
Proof.
  intros Hp Hq. unfold round_rat.
  pose proof (ulp_exp_frac p q Hp Hq) as [Hlt Hge]. pose proof (emin_le_ulp_exp p q).
  destruct (frac_at_pos p q Hp Hq (- ulp_exp p q)) as [Hn Hd].
  destruct (frac_at p q (- ulp_exp p q)) as [n d]; cbn in *.
  pose proof (div_round_ub n d (2 ^ 53) Hd ltac:(lia)).
  pose proof (div_round_nonneg n d Hd ltac:(lia)).
  assert (ulp_exp p q = emin ∨ 2 ^ 52 <= div_round n d)%Z
    by (destruct Hge; [left|right; apply div_round_lb]; lia).
  pow_consts. round_cases; unfold canonical, emin, emax in *; lia.
Qed.

(** Rounding is to nearest: a finite result [m * 2^e] of rounding
    [p / q] keeps the sign and is within half a unit in the last place,
    [|m - p / q * 2^-e| <= 1/2]. *)
Theorem round_rat_error neg p q s m e : 0 < p -> 0 < q -> round_rat neg p q = B64Fin s m e ->
  s = neg ∧ Z.abs (2 * (m * (frac_at p q (- e)).2 - (frac_at p q (- e)).1)) <= (frac_at p q (- e)).2.
Proof.
  intros Hp Hq. unfold round_rat.
  pose proof (frac_at_shift p q (- ulp_exp p q - 1) 1 ltac:(lia)) as E.
  replace (- ulp_exp p q - 1 + 1) with (- ulp_exp p q) in E by lia.
  destruct (frac_at_pos p q Hp Hq (- ulp_exp p q - 1)).
  destruct (frac_at_pos p q Hp Hq (- ulp_exp p q)) as [Hn Hd].
  pose proof (div_round_err (frac_at p q (- ulp_exp p q)).1 (frac_at p q (- ulp_exp p q)).2 Hd) as Er.
  destruct (frac_at p q (- ulp_exp p q)) as [n d] eqn:Ef; cbn in *.
  pow_consts. round_cases; intros [= <- <- <-]; split; auto.
  - replace (- (ulp_exp p q + 1)) with (- ulp_exp p q - 1) by lia.
    rewrite Z.abs_le in *. nia.
  - by rewrite Ef.
Qed.

(** Rounding overflows to an infinity only from
    [(2^53 - 1/2) * 2^971] up: the largest finite double plus half its
    unit in the last place. *)
Theorem round_rat_overflow neg p q s : 0 < p -> 0 < q -> round_rat neg p q = B64Inf s ->
  s = neg ∧ (2 ^ 54 - 1) * (frac_at p q (- emax)).2 <= 2 * (frac_at p q (- emax)).1.
Proof.
  intros Hp Hq. unfold round_rat.
  pose proof (ulp_exp_frac p q Hp Hq) as [Hlt Hge].
  pose proof (frac_at_lower p q Hp Hq (- ulp_exp p q) (- emax - 1)) as Hl.
  pose proof (frac_at_shift p q (- emax - 1) 1 ltac:(lia)) as E.
  replace (- emax - 1 + 1) with (- emax) in E by lia.
  destruct (frac_at_pos p q Hp Hq (- emax - 1)), (frac_at_pos p q Hp Hq (- emax)).
  pose proof (frac_at_lower p q Hp Hq (- ulp_exp p q) (- emax) (2 ^ 54 - 1) 2) as Hl'.
  destruct (frac_at_pos p q Hp Hq (- ulp_exp p q)) as [Hn Hd].
  pose proof (div_round_half (frac_at p q (- ulp_exp p q)).1 (frac_at p q (- ulp_exp p q)).2 (2 ^ 53) Hd) as Hh.
  pose proof (div_round_lb (frac_at p q (- ulp_exp p q)).1 (frac_at p q (- ulp_exp p q)).2 (2 ^ 52) Hd) as Hb.
  destruct (frac_at p q (- ulp_exp p q)) as [n d]; cbn in *.
  unfold emin, emax in *. pow_consts. round_cases; intros [= <-]; split; auto.
  - apply Hl'; lia.
  - destruct Hge as [|Hge]; [lia|].
    specialize (Hl (2 ^ 52) 1 ltac:(lia) ltac:(lia) ltac:(lia)). nia.
Qed.

(** ** [:.kf] *)

Lemma z_str_nonneg z : 0 <= z -> z_str z = n_str (Z.to_N z).
Proof. by destruct z. Qed.

Lemma frac_digits_spec k n : (1 <= k)%nat -> 0 <= n < 10 ^ Z.of_nat k ->
  all_digits (frac_digits k n) ∧ length (frac_digits k n) = k ∧ digits_N (frac_digits k n) = Z.to_N n.
Proof.
  intros Hk Hn. destruct (n_str_spec (Z.to_N n)) as (_ & Hd & Hv & Hfit).
  assert (length (n_str (Z.to_N n)) <= k)%nat.
  { apply Hfit; [|done]. apply N2Z.inj_lt. rewrite N2Z.inj_pow, nat_N_Z, Z2N.id; lia. }
  unfold frac_digits. split_and!.
  - apply Forall_app. split; [|done]. apply Forall_replicate. done.
  - rewrite length_app, length_replicate. lia.
  - by rewrite digits_N_zeros.
Qed.

Lemma frac_digits_zero k : (1 <= k)%nat -> frac_digits k 0 = replicate k 48%N.
Proof.
  intros Hk. unfold frac_digits. cbn. destruct k as [|k]; [lia|].
  replace (S k - 1)%nat with k by lia. rewrite replicate_S_end. reflexivity.
Qed.

(** [scaled_round] is [|x| * 10^k] within one half. *)
Lemma scaled_round_err k m e : 0 < m ->
  0 <= scaled_round k m e ∧
  Z.abs (2 * (scaled_round k m e * (frac_at (10 ^ Z.of_nat k * m) 1 e).2
              - (frac_at (10 ^ Z.of_nat k * m) 1 e).1))
    <= (frac_at (10 ^ Z.of_nat k * m) 1 e).2.
Proof.
  intros Hm. pose proof (Z.pow_pos_nonneg 10 (Z.of_nat k) ltac:(lia) ltac:(lia)).
  unfold scaled_round, frac_at. destruct (Z.leb_spec 0 e); cbn.
  - pose proof (Z.pow_nonneg 2 e). nia.
  - pose proof (Z.pow_pos_nonneg 2 (- e) ltac:(lia) ltac:(lia)).
    split; [apply div_round_nonneg; nia|].
    rewrite (Z.mul_comm (10 ^ Z.of_nat k) m), Z.mul_1_l. by apply div_round_err.
Qed.

(** The text of [fixed_digits] reads back as [h / 10^k]. *)
Lemma parse_fixed_digits (neg : bool) k h : 0 <= h ->
  parse_float_lit ((if neg then [45%N] else []) ++ fixed_digits k h)
  = Some (FDec neg (Z.to_N h) (- Z.of_nat k)).
Proof.
  intros Hh. pose proof (Z.pow_pos_nonneg 10 (Z.of_nat k) ltac:(lia) ltac:(lia)).
  pose proof (Z.div_mod h (10 ^ Z.of_nat k) ltac:(lia)).
  pose proof (Z.mod_pos_bound h (10 ^ Z.of_nat k) ltac:(lia)).
  assert (0 <= h / 10 ^ Z.of_nat k) by (apply Z.div_pos; lia).
  destruct (n_str_spec (Z.to_N (h / 10 ^ Z.of_nat k))) as (Hne & Hd & Hv & _).
  unfold fixed_digits. rewrite z_str_nonneg by done.
  destruct k as [|k'].
  - rewrite app_nil_r, parse_float_lit_int by done. rewrite Hv.
    cbn in *. rewrite Z.div_1_r. done.
  - destruct (frac_digits_spec (S k') (h mod 10 ^ Z.of_nat (S k')) ltac:(lia) ltac:(lia))
      as (Hfd & Hfl & Hfv).
    rewrite parse_float_lit_fixed by done. rewrite digits_N_app, Hv, Hfv, Hfl.
    do 3 f_equal. apply N2Z.inj.
    rewrite N2Z.inj_add, N2Z.inj_mul, N2Z.inj_pow, nat_N_Z, !Z2N.id by lia. lia.
Qed.

(** [float(format(x, '.kf'))] of a finite double reads back the
    decimal [h / 10^k] that the format printed, and [h] is [10^k * |x|]
    within one half: the text is the value rounded to [k] decimals. *)
Theorem format_f_roundtrip k s m e : canonical (B64Fin s m e) ->
  ∃ h, parse_float_lit (format_f k (B64Fin s m e)) = Some (FDec s (Z.to_N h) (- Z.of_nat k))
       ∧ 0 <= h ∧
       Z.abs (2 * (h * (frac_at (10 ^ Z.of_nat k * m) 1 e).2 - (frac_at (10 ^ Z.of_nat k * m) 1 e).1))
         <= (frac_at (10 ^ Z.of_nat k * m) 1 e).2.
Proof.
  intros (Hm & _ & _). destruct (scaled_round_err k m e ltac:(lia)) as [Hh Herr].
  exists (scaled_round k m e). split_and!; [|done|done].
  by apply parse_fixed_digits.
Qed.

(** Below [2^53] an integer is a double: its rounding is exact. *)
Lemma round_rat_int neg p : 0 < p < 2 ^ 53 ->
  ∃ e, e <= 0 ∧ round_rat neg p 1 = B64Fin neg (p * 2 ^ (- e)) e.
Proof.
  intros Hp. pose proof (ulp_exp_frac p 1 ltac:(lia) ltac:(lia)) as [Hlt Hge].
  pose proof (emin_le_ulp_exp p 1).
  assert (ulp_exp p 1 <= 0).
  { destruct Hge as [->|Hge]; [done|]. apply Z.nlt_ge. intros He.
    unfold frac_at in Hge. destruct (Z.leb_spec 0 (- ulp_exp p 1)); [lia|].
    cbn in Hge. pose proof (Z.pow_le_mono_r 2 1 (- - ulp_exp p 1) ltac:(lia) ltac:(lia)).
    rewrite Z.opp_involutive in *. pow_consts. nia. }
  exists (ulp_exp p 1). split; [done|]. unfold round_rat.
  unfold frac_at in *. destruct (Z.leb_spec 0 (- ulp_exp p 1)); [|lia]. cbn in *.
  assert (div_round (p * 2 ^ (- ulp_exp p 1)) 1 = p * 2 ^ (- ulp_exp p 1)) as ->
    by (rewrite <- (Z.mul_1_r (p * 2 ^ (- ulp_exp p 1))) at 1; apply div_round_exact; lia).
  pose proof (Z.pow_pos_nonneg 2 (- ulp_exp p 1) ltac:(lia) ltac:(lia)).
  unfold emax. pow_consts. round_cases; first [reflexivity | lia | nia].
Qed.

Lemma scaled_round_int k p e : e <= 0 -> scaled_round k (p * 2 ^ (- e)) e = 10 ^ Z.of_nat k * p.
Proof.
  intros He. unfold scaled_round. destruct (Z.leb_spec 0 e).
  - replace e with 0 by lia. cbn. lia.
  - replace (p * 2 ^ (- e) * 10 ^ Z.of_nat k) with ((10 ^ Z.of_nat k * p) * 2 ^ (- e)) by ring.
    apply div_round_exact. apply Z.pow_pos_nonneg; lia.
Qed.

(** The decimals of an exact integer. *)
Definition zero_decimals (k : nat) : pystr :=
  match k with O => [] | S _ => 46%N :: replicate k 48%N end.

Lemma fixed_digits_int k p : 0 <= p -> fixed_digits k (10 ^ Z.of_nat k * p) = z_str p ++ zero_decimals k.
Proof.
  intros Hp. pose proof (Z.pow_pos_nonneg 10 (Z.of_nat k) ltac:(lia) ltac:(lia)).
  unfold fixed_digits. rewrite Z.mul_comm, Z.div_mul, Z_mod_mult by lia.
  destruct k; [done|]. by rewrite frac_digits_zero by lia.
Qed.

(** [format(v, '.kf')] of an [int] (or [numpy.int64]) below [2^53]
    in magnitude is its decimal digits followed by [k] zero decimals:
    the conversion to a double is exact there. *)
Theorem format_f_int k z : Z.abs z < 2 ^ 53 -> format_f k (b64_of_Z z) = z_str z ++ zero_decimals k.
Proof.
  intros Hz. unfold b64_of_Z. destruct (Z.eqb_spec z 0) as [->|Hz0].
  - cbn [format_f]. replace (fixed_digits k 0) with (fixed_digits k (10 ^ Z.of_nat k * 0)) by (f_equal; lia).
    rewrite fixed_digits_int by lia. reflexivity.
  - destruct (round_rat_int (z <? 0) (Z.abs z) ltac:(lia)) as (e & He & ->).
    cbn [format_f]. rewrite scaled_round_int, fixed_digits_int by lia.
    rewrite z_str_nonneg by lia. destruct z; [done| |]; reflexivity.
Qed.

Lemma round_rat_not_nan neg p q : round_rat neg p q ≠ B64Nan.
Proof.
  unfold round_rat. destruct (frac_at _ _ _). destruct (_ =? 2 ^ 53)%Z; cbn;
    repeat case_match; discriminate.
Qed.

Lemma round_scaled_canonical neg n e : 0 < n -> canonical (round_scaled neg n e).
Proof.
  intros Hn. unfold round_scaled. destruct (Z.leb_spec 0 e); apply round_rat_canonical;
    first [pose proof (Z.pow_pos_nonneg 2 e ltac:(lia) ltac:(lia)); nia
          |pose proof (Z.pow_pos_nonneg 2 (- e) ltac:(lia) ltac:(lia)); nia | lia].
Qed.

Lemma b64_neg_canonical x : canonical x -> canonical (b64_neg x).
Proof. by destruct x. Qed.

Lemma b64_add_canonical x y : canonical x -> canonical y -> canonical (b64_add x y).
Proof.
  intros Hx Hy. destruct x as [s|s| |s m e], y as [s'|s'| |s' m' e']; cbn; try done;
    try (destruct (eqb _ _); done).
  match goal with |- context [(?n =? 0)] => destruct (Z.eqb_spec n 0) end; [done|].
  apply round_scaled_canonical. lia.
Qed.

(** Every double the model produces is canonical: the conversions
    from an [int] and from a decimal literal, and [+], [-], [*], [/] of
    canonical doubles. *)
Theorem b64_ops_canonical x y z f : canonical x -> canonical y ->
  canonical (b64_of_Z z) ∧ canonical (b64_of_float f) ∧
  canonical (b64_add x y) ∧ canonical (b64_sub x y) ∧ canonical (b64_mul x y) ∧ canonical (b64_div x y).
Proof.
  intros Hx Hy. split_and!.
  - unfold b64_of_Z. destruct (Z.eqb_spec z 0); [done|]. apply round_rat_canonical; lia.
  - destruct f as [neg m e| |]; cbn; try done. destruct (N.eqb_spec m 0); [done|].
    pose proof (Z.pow_pos_nonneg 10 e). pose proof (Z.pow_pos_nonneg 10 (- e)).
    destruct (Z.leb_spec 0 e); apply round_rat_canonical; nia.
  - by apply b64_add_canonical.
  - by apply b64_add_canonical, b64_neg_canonical.
  - destruct x as [s|s| |s m e], y as [s'|s'| |s' m' e']; cbn; try done.
    apply round_scaled_canonical. destruct Hx as [? _], Hy as [? _]. nia.
  - destruct x as [s|s| |s m e], y as [s'|s'| |s' m' e']; cbn; try done.
    destruct Hx as [? _], Hy as [? _].
    destruct (Z.leb_spec e' e); apply round_rat_canonical;
      first [pose proof (Z.pow_pos_nonneg 2 (e - e') ltac:(lia) ltac:(lia)); nia
            |pose proof (Z.pow_pos_nonneg 2 (e' - e) ltac:(lia) ltac:(lia)); nia | lia].
Qed.

(** ** Exact integer arithmetic

    Rounding depends only on the value of the fraction, so an integer
    below [2^53] survives [+] and [/] exactly: the facts behind the sums
    and means of [int64] columns. *)

Lemma frac_at_mul p q k t : frac_at (p * k) (q * k) t = ((frac_at p q t).1 * k, (frac_at p q t).2 * k).
Proof. unfold frac_at. destruct (Z.leb_spec 0 t); cbn; f_equal; ring. Qed.

(** A fraction has one binade: [1 <= p / q * 2^t < 2] fixes [t]. *)
Lemma frac_at_binade_lt p q t t' : 0 < p -> 0 < q -> t < t' ->
  (frac_at p q t).2 <= (frac_at p q t).1 -> (frac_at p q t').1 < 2 * (frac_at p q t').2 -> False.
Proof.
  intros Hp Hq Ht Hl Hu. pose proof (frac_at_shift p q t 1 ltac:(lia)) as E.
  rewrite Z.pow_1_r in E.
  destruct (frac_at_pos p q Hp Hq t) as [P1 P2], (frac_at_pos p q Hp Hq (t + 1)) as [P3 P4].
  assert (2 * (frac_at p q (t + 1)).2 <= 1 * (frac_at p q (t + 1)).1) as Hs by nia.
  pose proof (frac_at_lower p q Hp Hq (t + 1) t' 2 1 ltac:(lia) ltac:(lia) Hs). lia.
Qed.

Lemma ilog_unique p q t : 0 < p -> 0 < q ->
  (frac_at p q t).2 <= (frac_at p q t).1 < 2 * (frac_at p q t).2 -> t = - ilog p q.
Proof.
  intros Hp Hq [H1 H2]. pose proof (ilog_spec p q Hp Hq) as [I1 I2].
  destruct (Z.lt_trichotomy t (- ilog p q)) as [Hlt|[Heq|Hgt]]; [|done|].
  - exfalso. exact (frac_at_binade_lt p q _ _ Hp Hq Hlt H1 I2).
  - exfalso. exact (frac_at_binade_lt p q _ _ Hp Hq Hgt I1 H2).
Qed.

Lemma ilog_mul p q k : 0 < p -> 0 < q -> 0 < k -> ilog (p * k) (q * k) = ilog p q.
Proof.
  intros Hp Hq Hk. pose proof (ilog_spec (p * k) (q * k) ltac:(lia) ltac:(lia)) as H.
  rewrite frac_at_mul in H. cbn in H.
  enough (- ilog (p * k) (q * k) = - ilog p q) by lia.
  apply ilog_unique; [done|done|]. destruct H. split; nia.
Qed.

Lemma div_round_mul n d k : 0 < d -> 0 < k -> div_round (n * k) (d * k) = div_round n d.
Proof.
  intros Hd Hk. unfold div_round.
  rewrite Z.div_mul_cancel_r, Z.mul_mod_distr_r by lia.
  pose proof (Z.mod_pos_bound n d Hd).
  destruct (Z.ltb_spec d (2 * (n mod d))), (Z.ltb_spec (d * k) (2 * (n mod d * k)));
    destruct (Z.eqb_spec (2 * (n mod d)) d), (Z.eqb_spec (2 * (n mod d * k)) (d * k));
    cbn; try reflexivity; nia.
Qed.

(** Rounding sees the value of [p / q] only. *)
Lemma round_rat_mul neg p q k : 0 < p -> 0 < q -> 0 < k -> round_rat neg (p * k) (q * k) = round_rat neg p q.
Proof.
  intros Hp Hq Hk. unfold round_rat, ulp_exp. rewrite ilog_mul, frac_at_mul by done.
  destruct (frac_at_pos p q Hp Hq (- Z.max emin (ilog p q - 52))) as [Hn Hd].
  destruct (frac_at p q _) as [n d]. cbn in *. by rewrite div_round_mul.
Qed.

Lemma signed_abs z c : signed (z <? 0) (Z.abs z * c) = z * c.
Proof. unfold signed. destruct (Z.ltb_spec z 0); lia. Qed.

(** A nonzero integer below [2^53] is a double [|z| * 2^-e * 2^e]. *)
Lemma b64_of_Z_fin z : z <> 0 -> Z.abs z < 2 ^ 53 ->
  ∃ e, e <= 0 ∧ b64_of_Z z = B64Fin (z <? 0) (Z.abs z * 2 ^ (- e)) e.
Proof.
  intros Hz Hb. unfold b64_of_Z. destruct (Z.eqb_spec z 0); [done|].
  apply round_rat_int. lia.
Qed.

Lemma round_scaled_int neg z e : 0 < z -> e <= 0 -> round_scaled neg (z * 2 ^ (- e)) e = round_rat neg z 1.
Proof.
  intros Hz He. unfold round_scaled. destruct (Z.leb_spec 0 e).
  - replace e with 0 by lia. cbn. f_equal; lia.
  - rewrite <- (Z.mul_1_l (2 ^ (- e))) at 2. apply round_rat_mul; [lia|lia|].
    apply Z.pow_pos_nonneg; lia.
Qed.

Lemma pow2_split x m : x <= 0 -> m <= x -> 2 ^ (- x) * 2 ^ (x - m) = 2 ^ (- m).
Proof. intros. rewrite <- Z.pow_add_r by lia. f_equal. lia. Qed.

(** The sum of two integers is exact while it stays below [2^53]. *)
Lemma b64_add_Z a b : Z.abs a < 2 ^ 53 -> Z.abs b < 2 ^ 53 -> Z.abs (a + b) < 2 ^ 53 ->
  b64_add (b64_of_Z a) (b64_of_Z b) = b64_of_Z (a + b).
Proof.
  intros Ha Hb Hab.
  destruct (Z.eq_dec a 0) as [->|Ha0].
  { destruct (Z.eq_dec b 0) as [->|Hb0]; [reflexivity|].
    destruct (b64_of_Z_fin b Hb0 Hb) as (? & _ & E). by rewrite Z.add_0_l, E. }
  destruct (Z.eq_dec b 0) as [->|Hb0].
  { destruct (b64_of_Z_fin a Ha0 Ha) as (? & _ & E). by rewrite Z.add_0_r, E. }
  destruct (b64_of_Z_fin a Ha0 Ha) as (ea & Hea & ->), (b64_of_Z_fin b Hb0 Hb) as (eb & Heb & ->).
  cbn [b64_add]. rewrite <- !Z.mul_assoc, !pow2_split, !signed_abs by lia.
  replace (a * 2 ^ (- Z.min ea eb) + b * 2 ^ (- Z.min ea eb)) with ((a + b) * 2 ^ (- Z.min ea eb)) by ring.
  pose proof (Z.pow_pos_nonneg 2 (- Z.min ea eb) ltac:(lia) ltac:(lia)).
  destruct (Z.eqb_spec ((a + b) * 2 ^ (- Z.min ea eb)) 0).
  - assert (a + b = 0) as -> by nia. reflexivity.
  - unfold b64_of_Z. destruct (Z.eqb_spec (a + b) 0); [lia|].
    rewrite Z.abs_mul, (Z.abs_eq (2 ^ _)) by lia.
    replace (((a + b) * 2 ^ (- Z.min ea eb)) <? 0) with ((a + b) <? 0)
      by (destruct (Z.ltb_spec (a + b) 0), (Z.ltb_spec ((a + b) * 2 ^ (- Z.min ea eb)) 0); nia).
    apply round_scaled_int; lia.
Qed.

(** The quotient of two integers below [2^53] is rounded once. *)
Lemma b64_div_Z a n : 0 < n < 2 ^ 53 -> Z.abs a < 2 ^ 53 ->
  b64_div (b64_of_Z a) (b64_of_Z n) = if (a =? 0) then B64Zero false else round_rat (a <? 0) (Z.abs a) n.
Proof.
  intros Hn Ha. destruct (b64_of_Z_fin n ltac:(lia) ltac:(lia)) as (en & Hen & ->).
  destruct (Z.eqb_spec a 0) as [->|Ha0]; [by destruct (Z.ltb_spec n 0); [lia|]|].
  destruct (b64_of_Z_fin a Ha0 Ha) as (ea & Hea & ->). cbn [b64_div].
  replace (xorb (a <? 0) (n <? 0)) with (a <? 0) by (destruct (Z.ltb_spec n 0); [lia|]; by destruct (a <? 0)).
  rewrite (Z.abs_eq n) by lia.
  destruct (Z.leb_spec en ea).
  - rewrite <- Z.mul_assoc, <- Z.pow_add_r by lia. replace (- ea + (ea - en)) with (- en) by lia.
    apply round_rat_mul; [lia|lia|apply Z.pow_pos_nonneg; lia].
  - rewrite <- Z.mul_assoc, <- Z.pow_add_r by lia. replace (- en + (en - ea)) with (- ea) by lia.
    apply round_rat_mul; [lia|lia|apply Z.pow_pos_nonneg; lia].
Qed.

(** ** Examples *)

(** [float('0.1')] is [7205759403792794 * 2^-56]; [0.1 + 0.2] is the
    double printed [0.30000000000000004]; [2.675] is below the decimal
    and prints [2.67]; [1e308 * 10] overflows. *)
Example decimal_doubles :
  b64_of_float (FDec false 1 (-1)) = B64Fin false 7205759403792794 (-56)
  ∧ b64_add (b64_of_float (FDec false 1 (-1))) (b64_of_float (FDec false 2 (-1)))
    = b64_of_float (FDec false 30000000000000004 (-17))
  ∧ format_2f (b64_of_float (FDec false 2675 (-3))) = str_of "2.67"
  ∧ b64_mul (b64_of_float (FDec false 1 308)) (b64_of_Z 10) = B64Inf false.
Proof. vm_compute. split_and!; reflexivity. Qed.

Lemma round_rat_canonical_witness : canonical (round_rat false 1 10).
Proof. apply round_rat_canonical; lia. Defined.

Lemma round_rat_error_witness :
  false = false ∧
  Z.abs (2 * (7205759403792794 * (frac_at 1 10 56).2 - (frac_at 1 10 56).1)) <= (frac_at 1 10 56).2.
Proof. apply (round_rat_error false 1 10 false 7205759403792794 (-56)); [lia|lia|vm_compute; reflexivity]. Defined.

Lemma round_rat_overflow_witness :
  false = false ∧ (2 ^ 54 - 1) * (frac_at (2 * 10 ^ 308) 1 (- emax)).2
                   <= 2 * (frac_at (2 * 10 ^ 308) 1 (- emax)).1.
Proof. apply (round_rat_overflow false (2 * 10 ^ 308) 1 false); [lia|lia|vm_compute; reflexivity]. Defined.

Lemma format_f_roundtrip_witness :
  ∃ h, parse_float_lit (format_f 2 (B64Fin false 7205759403792794 (-56)))
         = Some (FDec false (Z.to_N h) (- Z.of_nat 2)) ∧ 0 <= h ∧
       Z.abs (2 * (h * (frac_at (10 ^ Z.of_nat 2 * 7205759403792794) 1 (-56)).2
                   - (frac_at (10 ^ Z.of_nat 2 * 7205759403792794) 1 (-56)).1))
         <= (frac_at (10 ^ Z.of_nat 2 * 7205759403792794) 1 (-56)).2.
Proof. apply format_f_roundtrip. unfold canonical, emin, emax. lia. Defined.

Lemma format_f_int_witness : format_f 2 (b64_of_Z (-42)) = z_str (-42) ++ zero_decimals 2.
Proof. apply format_f_int. lia. Defined.

Lemma b64_ops_canonical_witness :
  canonical (b64_of_Z 7) ∧ canonical (b64_of_float (FDec false 1 (-1))) ∧
  canonical (b64_add (b64_of_Z 1) (b64_of_Z 2)) ∧ canonical (b64_sub (b64_of_Z 1) (b64_of_Z 2)) ∧
  canonical (b64_mul (b64_of_Z 1) (b64_of_Z 2)) ∧ canonical (b64_div (b64_of_Z 1) (b64_of_Z 2)).
Proof.
  apply b64_ops_canonical; unfold b64_of_Z; cbn -[round_rat]; apply round_rat_canonical; lia.
Defined.
