(* ===== verification/Config.v ===== *)
(** * [config.py]: the literal tables the pipeline reads

    [SECTOR_KEYWORDS] is a Python dict; the code iterates over it with
    [.items()] and [.keys()], which follow insertion order, so it is an
    association list here.  [NEWS_APIS] fixes the four providers; the
    aggregator calls them in the order of this list. *)

From S2P Require Import Prelude PyStr PyObj.

(** The providers of [NEWS_APIS], in the order [fetch_all_news] and
    [fetch_sector_news] call them. *)
Inductive provider : Type :=
  | Newsdata | Finnhub | AlphaVantage | Marketaux.

#[export] Instance provider_eq_dec : EqDecision provider.
Proof. solve_decision. Defined.

Definition NEWS_APIS : list provider := [Newsdata; Finnhub; AlphaVantage; Marketaux].

(** [os.getenv(name)]: the process environment is an input. *)
Definition getenv (env : pystr -> option pystr) (name : pystr) : pyval :=
  match env name with Some v => VStr v | None => VNone end.

(** One entry of [NEWS_APIS]: the endpoint, the key read from the
    environment when [config.py] is imported, and the request
    parameters (a dict, in insertion order). *)
Record api_config : Type := mk_api_config {
  api_url : pystr;
  api_key : pyval;
  api_params : list (pystr * pyval)
}.

Definition api_key_name (p : provider) : pystr :=
  match p with
  | Newsdata => str_of "NEWSDATA_API_KEY"
  | Finnhub => str_of "FINNHUB_API_KEY"
  | AlphaVantage => str_of "ALPHA_VANTAGE_API_KEY"
  | Marketaux => str_of "MARKETAUX_API_KEY"
  end.

Definition news_api (env : pystr -> option pystr) (p : provider) : api_config :=
  let key := getenv env (api_key_name p) in
  let s x := VStr (str_of x) in
  match p with
  | Newsdata =>
      mk_api_config (str_of "https://newsdata.io/api/1/news") key
        [(str_of "apikey", key); (str_of "country", s "in"); (str_of "language", s "en");
         (str_of "category", s "business,technology"); (str_of "size", VNum 10)]
  | Finnhub =>
      mk_api_config (str_of "https://finnhub.io/api/v1/news") key
        [(str_of "token", key); (str_of "category", s "general")]
  | AlphaVantage =>
      mk_api_config (str_of "https://www.alphavantage.co/query") key
        [(str_of "function", s "NEWS_SENTIMENT"); (str_of "apikey", key);
         (str_of "topics", s "technology,earnings"); (str_of "limit", VNum 50)]
  | Marketaux =>
      mk_api_config (str_of "https://api.marketaux.com/v1/news/all") key
        [(str_of "api_token", key); (str_of "countries", s "in");
         (str_of "filter_entities", s "true"); (str_of "language", s "en");
         (str_of "limit", VNum 10)]
  end.

Definition SECTOR_KEYWORDS : list (pystr * list pystr) :=
  [ (str_of "Manufacturing",
      str_of <$> ["manufacturing"; "industrial"; "machinery"; "metal";
                  "automotive"; "precision"; "equipment"]%string);
    (str_of "Food Processing",
      str_of <$> ["food"; "beverage"; "dairy"; "snacks"; "organic";
                  "nutrition"; "restaurant"; "catering"]%string);
    (str_of "Technology",
      str_of <$> ["software"; "IT"; "tech"; "digital"; "app"; "platform";
                  "AI"; "automation"; "cloud"]%string);
    (str_of "Healthcare",
      str_of <$> ["healthcare"; "pharmaceutical"; "medical"; "biotech";
                  "hospital"; "clinic"; "diagnostic"]%string);
    (str_of "Textiles",
      str_of <$> ["textile"; "garment"; "fabric"; "apparel"; "fashion";
                  "clothing"; "cotton"; "fiber"]%string) ].

(** [SECTOR_KEYWORDS.keys()] *)
Definition sector_names : list pystr := fst <$> SECTOR_KEYWORDS.

(** [self.sector_keywords.get(sector, [])] *)
Definition sector_keywords_get (sector : pystr) : list pystr :=
  default [] (assoc_get sector SECTOR_KEYWORDS).

Lemma sector_names_NoDup : NoDup sector_names.
Proof. vm_compute. repeat constructor; set_solver. Qed.

Lemma SECTOR_KEYWORDS_unique s kws1 kws2 :
  (s, kws1) ∈ SECTOR_KEYWORDS -> (s, kws2) ∈ SECTOR_KEYWORDS -> kws1 = kws2.
Proof. apply assoc_unique, sector_names_NoDup. Qed.
