(* ===== verification/Dotenv.v ===== *)
(** * [load_dotenv()] ([src/config.py], line 4; python-dotenv 1.0.0, pinned
    in [src/script_2.py])

    [config.py] calls [load_dotenv()] before it reads the API keys with
    [os.getenv]: the [.env] file found next to it is parsed
    ([dotenv.parser.parse_stream]), its [${VAR}] references are
    interpolated ([dotenv.variables]), and every key the process
    environment does not have yet is added to [os.environ].  The file
    [src/script_9.py] writes is [.env.example], the template the README
    and the setup instructions tell the user to copy to [.env].

    The parser is written here as python-dotenv writes it: one regular
    expression per step over the rest of the stream, a step that does
    not match raising [Error], which skips the rest of the line.  It is a
    small parser monad ([parser]): a step returns what it read and the
    rest of the stream, or the position where it failed.  The file is
    opened in text mode, so its line ends are translated first
    ([universal_newlines]).

    The theorems: the parser consumes input on every binding, so the
    fuel [S (length s)] of [parse_stream] is enough ([parse_fuel_enough]);
    a file of plain [KEY=value] lines parses back to its pairs; and the
    template of [script_9.py] defines the five keys with their
    placeholder values. *)

From S2P Require Import Prelude PyStr PyObj Config.

(** ** Code points *)

Definition LF : N := 10.
Definition CR : N := 13.
Definition HASH : N := 35.
Definition EQUALS : N := 61.
Definition SQUOTE : N := 39.
Definition DQUOTE : N := 34.
Definition BACKSLASH : N := 92.
Definition DOLLAR : N := 36.
Definition LBRACE : N := 123.
Definition RBRACE : N := 125.
Definition COLON : N := 58.
Definition DASH : N := 45.

Definition is_newline (c : N) : bool := (c =? LF)%N || (c =? CR)%N.

(** [[^\S\r\n]]: white space other than a line end. *)
Definition is_hspace (c : N) : bool := py_isspace c && negb (is_newline c).

(** Text mode ([open(path, encoding=...)]) reads [\r\n] and [\r] as [\n]. *)
Fixpoint universal_newlines (s : pystr) : pystr :=
  match s with
  | [] => []
  | c :: s' =>
      if (c =? CR)%N then
        match s' with
        | d :: s'' => if (d =? LF)%N then LF :: universal_newlines s'' else LF :: universal_newlines s'
        | [] => [LF]
        end
      else c :: universal_newlines s'
  end.

(** [(take_while p s, drop_while p s)]. *)
Fixpoint span_while (p : N -> bool) (s : pystr) : pystr * pystr :=
  match s with
  | c :: s' => if p c then let '(a, b) := span_while p s' in (c :: a, b) else ([], s)
  | [] => ([], [])
  end.

(** ** The parser monad of [dotenv.parser.Reader]

    A step reads a prefix of the stream: it returns what it read and the
    rest, or [inr pos] when its expression does not match at [pos]
    ([Reader.read_regex] raises [Error] and does not advance). *)
Definition parser (A : Type) : Type := pystr -> (A * pystr) + pystr.

#[export] Instance parser_ret : MRet parser := fun A x s => inl (x, s).
#[export] Instance parser_bind : MBind parser := fun A B f p s =>
  match p s with inl (x, s') => f x s' | inr pos => inr pos end.

Definition perror {A} : parser A := fun s => inr s.

(** [Reader.peek(1)]: the next character, [None] at the end. *)
Definition peek : parser (option N) := fun s => inl (head s, s).

(** One character already seen by [peek]. *)
Definition skip_char : parser unit := fun s => inl (tt, tail s).

(** A character class repeated, possibly zero times. *)
Definition read_while (p : N -> bool) : parser pystr := fun s => inl (span_while p s).

(** A character class repeated at least once. *)
Definition read_while1 (p : N -> bool) : parser pystr := fun s =>
  match span_while p s with ([], _) => inr s | r => inl r end.

(** ** The expressions of [dotenv.parser] *)

(** [_export = (?:export[^\S\r\n]+)?] *)
Definition read_export : parser unit := fun s =>
  if bool_decide (take 6 s = str_of "export") then
    match drop 6 s with
    | c :: s' => if is_hspace c then inl (tt, (span_while is_hspace s').2) else inl (tt, s)
    | [] => inl (tt, s)
    end
  else inl (tt, s).

(** [parse_key]: [None] on a comment; [_single_quoted_key = '([^']+)']
    or [_unquoted_key = ([^=\#\s]+)]. *)
Definition key_char (c : N) : bool := negb ((c =? EQUALS)%N || (c =? HASH)%N || py_isspace c).

Definition parse_key : parser (option pystr) := fun s =>
  match s with
  | c :: s' =>
      if (c =? HASH)%N then inl (None, s)
      else if (c =? SQUOTE)%N then
        match span_while (fun d => negb (d =? SQUOTE)%N) s' with
        | (k, q :: rest) => if bool_decide (k = []) then inr s else inl (Some k, rest)
        | (_, []) => inr s
        end
      else (k ← read_while1 key_char; mret (Some k)) s
  | [] => inr s
  end.

(** The body of [_single_quoted_value] (a quote, any number of escaped
    quotes or other characters, a quote; with [q] the quote, and the same
    for [_double_quoted_value]) after the opening quote, with
    the regular expression engine's backtracking: a [\q] is read as an
    escaped quote unless no closing quote follows, and then the last
    one closes the value. *)
Fixpoint quoted_scan (q : N) (s : pystr) : option (pystr * pystr) :=
  match s with
  | [] => None
  | c :: s' =>
      if (c =? q)%N then Some ([], s')
      else if (c =? BACKSLASH)%N then
        match s' with
        | d :: s'' =>
            if (d =? q)%N then
              match quoted_scan q s'' with
              | Some (body, rest) => Some (c :: d :: body, rest)
              | None => Some ([c], s'')
              end
            else option_map (fun r => (c :: r.1, r.2)) (quoted_scan q s')
        | [] => None
        end
      else option_map (fun r => (c :: r.1, r.2)) (quoted_scan q s')
  end.

(** [decode_escapes]: each [\x] with [x] in [escapes] left to right is
    replaced by [codecs.decode('\x', 'unicode-escape')]. *)
Fixpoint decode_escapes (escape : N -> option N) (s : pystr) : pystr :=
  match s with
  | [] => []
  | c :: s' =>
      if (c =? BACKSLASH)%N then
        match s' with
        | d :: s'' =>
            match escape d with
            | Some e => e :: decode_escapes escape s''
            | None => c :: decode_escapes escape s'
            end
        | [] => [c]
        end
      else c :: decode_escapes escape s'
  end.

(** [_single_quote_escapes]: a backslash before a backslash or a quote. *)
Definition single_escape (d : N) : option N :=
  if (d =? BACKSLASH)%N || (d =? SQUOTE)%N then Some d else None.

(** [_double_quote_escapes]: a backslash before a backslash, a quote,
    a double quote or one of the letters a, b, f, n, r, t, v. *)
Definition double_escape (d : N) : option N :=
  if (d =? BACKSLASH)%N || (d =? SQUOTE)%N || (d =? DQUOTE)%N then Some d
  else if (d =? 97)%N then Some 7%N      (** \a *)
  else if (d =? 98)%N then Some 8%N      (** \b *)
  else if (d =? 102)%N then Some 12%N    (** \f *)
  else if (d =? 110)%N then Some 10%N    (** \n *)
  else if (d =? 114)%N then Some 13%N    (** \r *)
  else if (d =? 116)%N then Some 9%N     (** \t *)
  else if (d =? 118)%N then Some 11%N    (** \v *)
  else None.

(** The substitution of the pattern white space, [#], anything, by the
    empty string: the value ends where a run of white space is followed
    by [#]. *)
Fixpoint cut_comment (s : pystr) : pystr :=
  match s with
  | [] => []
  | c :: s' =>
      if py_isspace c && bool_decide (head (lstrip_ws s) = Some HASH) then []
      else c :: cut_comment s'
  end.

(** [str.rstrip()] *)
Definition py_rstrip (s : pystr) : pystr := reverse (lstrip_ws (reverse s)).

(** [parse_unquoted_value]: the rest of the line, the comment cut,
    stripped. *)
Definition parse_unquoted_value : parser pystr :=
  part ← read_while (fun c => negb (is_newline c));
  mret (py_rstrip (cut_comment part)).

Definition parse_quoted (q : N) (escape : N -> option N) : parser pystr := fun s =>
  match s with
  | _ :: s' =>
      match quoted_scan q s' with
      | Some (body, rest) => inl (decode_escapes escape body, rest)
      | None => inr s
      end
  | [] => inr s
  end.

(** [parse_value] *)
Definition parse_value : parser pystr := fun s =>
  match head s with
  | Some c =>
      if (c =? SQUOTE)%N then parse_quoted SQUOTE single_escape s
      else if (c =? DQUOTE)%N then parse_quoted DQUOTE double_escape s
      else if is_newline c then inl ([], s)
      else parse_unquoted_value s
  | None => inl ([], s)
  end.

(** [_comment]: optional horizontal white space, [#] and the rest of
    the line. *)
Definition read_comment : parser unit := fun s =>
  match (span_while is_hspace s).2 with
  | c :: s' => if (c =? HASH)%N then inl (tt, (span_while (fun d => negb (is_newline d)) s').2)
               else inl (tt, s)
  | [] => inl (tt, s)
  end.

(** [_end_of_line]: horizontal white space, then a line end or the end
    of the stream. *)
Definition read_end_of_line : parser unit := fun s =>
  match (span_while is_hspace s).2 with
  | [] => inl (tt, [])
  | c :: s' =>
      if (c =? CR)%N then
        match s' with d :: s'' => if (d =? LF)%N then inl (tt, s'') else inl (tt, s') | [] => inl (tt, []) end
      else if (c =? LF)%N then inl (tt, s')
      else inr s
  end.

(** [_rest_of_line], read after an [Error]: the rest of the line and one
    line-end character. *)
Definition rest_of_line (s : pystr) : pystr :=
  match (span_while (fun d => negb (is_newline d)) s).2 with
  | c :: s' => s'
  | [] => []
  end.

(** The value after [=], when the next character is [=]; else [None]. *)
Definition parse_assignment (c : option N) : parser (option pystr) :=
  if bool_decide (c = Some EQUALS) then
    skip_char;; read_while is_hspace;; v ← parse_value; mret (Some v)
  else mret None.

(** What follows the key in [parse_binding]. *)
Definition binding_rest (key : option pystr) : parser (option (option pystr * option pystr)) :=
  read_while is_hspace;;
  c ← peek;
  value ← parse_assignment c;
  read_comment;;
  read_end_of_line;;
  mret (Some (key, value)).

Definition binding_line : parser (option (option pystr * option pystr)) :=
  read_export;; key ← parse_key; binding_rest key.

(** [parse_binding], inside its [try]: [None] when only white space is
    left; otherwise the key ([None] on a comment line) and the value
    ([None] without [=]). *)
Definition binding_body : parser (option (option pystr * option pystr)) := fun s0 =>
  match (span_while py_isspace s0).2 with
  | [] => inl (None, [])
  | s => binding_line s
  end.

(** [parse_binding]: a binding with a key, or nothing, and the rest of
    the stream; on [Error] the rest of the line is skipped. *)
Definition parse_binding (s : pystr) : option (pystr * option pystr) * pystr :=
  match binding_body s with
  | inl (Some (Some k, v), s') => (Some (k, v), s')
  | inl (_, s') => (None, s')
  | inr pos => (None, rest_of_line pos)
  end.

(** [parse_stream] with [with_warn_for_invalid_lines] and the filter of
    [DotEnv.parse]: the bindings that have a key, in order.  Every
    binding consumes input, so [S (length s)] steps suffice
    ([parse_fuel_enough]). *)
Fixpoint parse_stream_fuel (fuel : nat) (s : pystr) : list (pystr * option pystr) :=
  match fuel with
  | O => []
  | S f =>
      match s with
      | [] => []
      | _ => let '(b, s') := parse_binding s in
             from_option (fun kv => [kv]) [] b ++ parse_stream_fuel f s'
      end
  end.

Definition parse_stream (s : pystr) : list (pystr * option pystr) :=
  parse_stream_fuel (S (length s)) s.

(** ** Interpolation ([dotenv.variables]) *)

(** [Literal] and [Variable(name, default)] atoms. *)
Inductive atom : Type :=
  | ALiteral (s : pystr)
  | AVariable (name : pystr) (default : option pystr).

(** One match of [_posix_variable] at the start of [s]: a dollar and a
    brace, a name without brace or colon, optionally a colon, a dash and
    a default without brace, then a closing brace.  The atom and the
    rest. *)
Definition match_variable (s : pystr) : option (atom * pystr) :=
  match s with
  | d :: b :: s' =>
      if (d =? DOLLAR)%N && (b =? LBRACE)%N then
        let '(name, r) := span_while (fun c => negb ((c =? RBRACE)%N || (c =? COLON)%N)) s' in
        match r with
        | c :: r' =>
            if (c =? RBRACE)%N then Some (AVariable name None, r')
            else (* c is a colon *)
              match r' with
              | m :: r'' =>
                  if (m =? DASH)%N then
                    let '(dflt, r3) := span_while (fun c => negb (c =? RBRACE)%N) r'' in
                    match r3 with
                    | _ :: r4 => Some (AVariable name (Some dflt), r4)
                    | [] => None
                    end
                  else None
              | [] => None
              end
        | [] => None
        end
      else None
  | _ => None
  end.

(** [parse_variables]: the literal text between the matches of
    [finditer], left to right; [acc] is the literal read so far,
    reversed. *)
Fixpoint parse_variables_fuel (fuel : nat) (acc : pystr) (s : pystr) : list atom :=
  match fuel with
  | O => []
  | S f =>
      match s with
      | [] => if bool_decide (acc = []) then [] else [ALiteral (reverse acc)]
      | c :: s' =>
          match match_variable s with
          | Some (v, rest) =>
              (if bool_decide (acc = []) then [] else [ALiteral (reverse acc)])
              ++ v :: parse_variables_fuel f [] rest
          | None => parse_variables_fuel f (c :: acc) s'
          end
      end
  end.

Definition parse_variables (s : pystr) : list atom := parse_variables_fuel (S (length s)) [] s.

(** [Variable.resolve(env)] with [override=False]: the process
    environment wins over the values read so far; a missing or [None]
    value is the default, else the empty string. *)
Definition resolve_atom (environ : pystr -> option pystr) (new_values : list (pystr * option pystr))
    (a : atom) : pystr :=
  match a with
  | ALiteral s => s
  | AVariable name dflt =>
      match environ name with
      | Some v => v
      | None =>
          match assoc_get name new_values with
          | Some (Some v) => v
          | Some None => []
          | None => default [] dflt
          end
      end
  end.

(** [new_values[name] = result]: a dict keeps the position of the first
    insertion. *)
Definition values_set {K V} `{EqDecision K} (k : K) (v : V) (d : list (K * V)) : list (K * V) :=
  if bool_decide (k ∈ fst <$> d) then (fun kv => if bool_decide (kv.1 = k) then (k, v) else kv) <$> d
  else d ++ [(k, v)].

(** [resolve_variables(values, override=False)]. *)
Definition resolve_variables (environ : pystr -> option pystr) (values : list (pystr * option pystr))
    : list (pystr * option pystr) :=
  foldl (fun new_values kv =>
           let result := match kv.2 with
                         | None => None
                         | Some v => Some (mjoin (resolve_atom environ new_values <$> parse_variables v))
                         end in
           values_set kv.1 result new_values) [] values.

(** [DotEnv.dict()] of a file's text. *)
Definition dotenv_values (environ : pystr -> option pystr) (text : pystr) : list (pystr * option pystr) :=
  resolve_variables environ (parse_stream (universal_newlines text)).

(** [load_dotenv()]: [find_dotenv()] gives the [.env] file, when there is
    one; [set_as_environment_variables] adds the keys the environment
    does not have, with a value that is not [None]. *)
Definition load_dotenv (environ : pystr -> option pystr) (dotenv_file : option pystr) : pystr -> option pystr :=
  match dotenv_file with
  | None => environ
  | Some text =>
      let d := dotenv_values environ text in
      fun k => match environ k with
               | Some v => Some v
               | None => match assoc_get k d with Some (Some v) => Some v | _ => None end
               end
  end.

(** ** The template [.env.example] ([src/script_9.py], lines 2-19) *)

Definition lines_text (ls : list string) : pystr := mjoin ((fun l => str_of l ++ [LF]) <$> ls).

Definition env_example : pystr :=
  lines_text
    ["# MSME RAG Chatbot API Keys";
     "# Copy this file to .env and add your actual API keys";
     EmptyString;
     "# Required for AI responses (GET FROM: https://platform.openai.com/api-keys)";
     "OPENAI_API_KEY=your_openai_api_key_here";
     EmptyString;
     "# Optional News APIs (for enhanced market intelligence)";
     "# GET FROM: https://newsdata.io/";
     "NEWSDATA_API_KEY=your_newsdata_api_key_here";
     EmptyString;
     "# GET FROM: https://finnhub.io/";
     "FINNHUB_API_KEY=your_finnhub_api_key_here";
     EmptyString;
     "# GET FROM: https://www.alphavantage.co/";
     "ALPHA_VANTAGE_API_KEY=your_alpha_vantage_api_key_here";
     EmptyString;
     "# GET FROM: https://www.marketaux.com/";
     "MARKETAUX_API_KEY=your_marketaux_api_key_here"]%string.

(** ** Lemmas: every step reads a prefix of the stream *)

Create HintDb dotenv discriminated.

Lemma span_while_app p s : (span_while p s).1 ++ (span_while p s).2 = s.
Proof.
  induction s as [|c s IH]; cbn; [done|]. destruct (p c); [|done].
  destruct (span_while p s) as [a b]. cbn in *. by f_equal.
Qed.

Lemma span_while_length p s : length (span_while p s).2 <= length s.
Proof. rewrite <- (span_while_app p s) at 2. rewrite length_app. lia. Qed.

Lemma span_while_stop p c s : p c = false -> span_while p (c :: s) = ([], c :: s).
Proof. intros Hc. cbn. by rewrite Hc. Qed.

(** [span_while] reads exactly a prefix whose characters pass, up to one
    that does not. *)
Lemma span_while_prefix p k c s :
  Forall (fun d => p d = true) k -> p c = false -> span_while p (k ++ c :: s) = (k, c :: s).
Proof.
  induction 1 as [|d k Hd _ IH]; intros Hc; [by apply span_while_stop|].
  cbn. rewrite Hd, IH by done. done.
Qed.

Lemma span_while_all p k : Forall (fun d => p d = true) k -> span_while p k = (k, []).
Proof. induction 1 as [|d k Hd _ IH]; [done|]. cbn. by rewrite Hd, IH. Qed.

(** [m] never lengthens the stream, whether it reads or fails. *)
Definition reads_prefix {A} (m : parser A) : Prop :=
  ∀ s, match m s with inl (_, s') => length s' <= length s | inr e => length e <= length s end.

Lemma reads_prefix_bind {A B} (m : parser A) (f : A -> parser B) :
  reads_prefix m -> (∀ x, reads_prefix (f x)) -> reads_prefix (m ≫= f).
Proof.
  intros Hm Hf s. unfold mbind, parser_bind. specialize (Hm s).
  destruct (m s) as [[x s1]|e]; [|done]. specialize (Hf x s1).
  destruct (f x s1) as [[y s2]|e]; lia.
Qed.

Lemma reads_prefix_ret {A} (x : A) : reads_prefix (mret x).
Proof. intros s. cbn. lia. Qed.

Lemma reads_prefix_peek : reads_prefix peek.
Proof. intros s. cbn. lia. Qed.

Lemma reads_prefix_skip_char : reads_prefix skip_char.
Proof. intros [|c s]; cbn; lia. Qed.

Lemma reads_prefix_read_while p : reads_prefix (read_while p).
Proof. intros s. unfold read_while. destruct (span_while p s) as [a b] eqn:E.
  pose proof (span_while_length p s) as H. rewrite E in H. done. Qed.

Lemma reads_prefix_read_while1 p : reads_prefix (read_while1 p).
Proof.
  intros s. unfold read_while1. pose proof (span_while_length p s) as H.
  destruct (span_while p s) as [[|a l] b]; cbn in *; lia.
Qed.

Lemma reads_prefix_read_export : reads_prefix read_export.
Proof.
  intros s. unfold read_export. case_bool_decide; [|lia].
  pose proof (length_drop s 6). destruct (drop 6 s) as [|c s'] eqn:E; [lia|].
  destruct (is_hspace c); [|lia]. pose proof (span_while_length is_hspace s'). cbn in *. lia.
Qed.

Lemma reads_prefix_parse_key : reads_prefix parse_key.
Proof.
  intros [|c s]; [cbn; lia|]. unfold parse_key.
  destruct (c =? HASH)%N; [cbn; lia|]. destruct (c =? SQUOTE)%N.
  - pose proof (span_while_length (fun d => negb (d =? SQUOTE)%N) s) as H.
    destruct (span_while _ s) as [k [|q rest]]; [cbn; lia|]. case_bool_decide; cbn in *; lia.
  - exact (reads_prefix_bind _ _ (reads_prefix_read_while1 _) (fun _ => reads_prefix_ret _) (c :: s)).
Qed.

Lemma quoted_scan_length q s body rest : quoted_scan q s = Some (body, rest) -> length rest < length s.
Proof.
  revert body rest. induction s as [s IH] using (induction_ltof1 _ (@length N)); unfold ltof in IH.
  intros body rest. destruct s as [|c s']; cbn; [discriminate|].
  destruct (c =? q)%N; [intros [= _ <-]; lia|].
  destruct (c =? BACKSLASH)%N.
  - destruct s' as [|d s'']; [discriminate|]. destruct (d =? q)%N.
    + destruct (quoted_scan q s'') as [[b r]|] eqn:E.
      * intros [= _ <-]. apply IH in E; cbn in *; lia.
      * intros [= _ <-]. cbn. lia.
    + destruct (quoted_scan q (d :: s'')) as [[b r]|] eqn:E; cbn; [|discriminate].
      intros [= _ <-]. apply IH in E; cbn in *; lia.
  - destruct (quoted_scan q s') as [[b r]|] eqn:E; cbn; [|discriminate].
    intros [= _ <-]. apply IH in E; cbn in *; lia.
Qed.

Lemma reads_prefix_parse_quoted q esc : reads_prefix (parse_quoted q esc).
Proof.
  intros [|c s]; cbn; [lia|]. destruct (quoted_scan q s) as [[b r]|] eqn:E; [|cbn; lia].
  apply quoted_scan_length in E. lia.
Qed.

Lemma reads_prefix_parse_value : reads_prefix parse_value.
Proof.
  intros s. unfold parse_value. destruct (head s) as [c|]; [|lia].
  destruct (c =? SQUOTE)%N; [apply reads_prefix_parse_quoted|].
  destruct (c =? DQUOTE)%N; [apply reads_prefix_parse_quoted|].
  destruct (is_newline c); [lia|].
  apply reads_prefix_bind; [apply reads_prefix_read_while|intros; apply reads_prefix_ret].
Qed.

Lemma reads_prefix_read_comment : reads_prefix read_comment.
Proof.
  intros s. unfold read_comment. pose proof (span_while_length is_hspace s) as H.
  destruct (span_while is_hspace s).2 as [|c s'] eqn:E; [lia|].
  destruct (c =? HASH)%N; [|lia]. pose proof (span_while_length (fun d => negb (is_newline d)) s').
  cbn in *. lia.
Qed.

Lemma reads_prefix_read_end_of_line : reads_prefix read_end_of_line.
Proof.
  intros s. unfold read_end_of_line. pose proof (span_while_length is_hspace s) as H.
  destruct (span_while is_hspace s).2 as [|c s'] eqn:E; cbn; [lia|].
  destruct (c =? CR)%N; [destruct s' as [|d s'']; [cbn; lia|]; destruct (d =? LF)%N; cbn in *; lia|].
  destruct (c =? LF)%N; cbn in *; lia.
Qed.

#[export] Hint Resolve reads_prefix_bind reads_prefix_ret reads_prefix_peek reads_prefix_skip_char
  reads_prefix_read_while reads_prefix_read_while1 reads_prefix_read_export reads_prefix_parse_key
  reads_prefix_parse_value reads_prefix_read_comment reads_prefix_read_end_of_line : dotenv.

Lemma reads_prefix_parse_assignment c : reads_prefix (parse_assignment c).
Proof. unfold parse_assignment. case_bool_decide; eauto with dotenv. Qed.

Lemma reads_prefix_binding_rest key : reads_prefix (binding_rest key).
Proof. unfold binding_rest. eauto 10 using reads_prefix_parse_assignment with dotenv. Qed.

Lemma reads_prefix_binding_line : reads_prefix binding_line.
Proof. unfold binding_line. eauto using reads_prefix_binding_rest with dotenv. Qed.

(** ** Lemmas: every binding consumes input *)

Lemma parse_key_some s k s' : parse_key s = inl (Some k, s') -> length s' < length s.
Proof.
  destruct s as [|c s]; cbn; [discriminate|]. destruct (c =? HASH)%N; [discriminate|].
  destruct (c =? SQUOTE)%N.
  - pose proof (span_while_length (fun d => negb (d =? SQUOTE)%N) s) as H.
    destruct (span_while _ s) as [k' [|q rest]]; [discriminate|].
    case_bool_decide; [discriminate|]. intros [= _ <-]. cbn in *. lia.
  - unfold mbind, parser_bind, read_while1.
    pose proof (span_while_app key_char (c :: s)) as H.
    destruct (span_while key_char (c :: s)) as [[|a l] b]; [discriminate|].
    intros [= _ <-]. apply (f_equal length) in H. rewrite length_app in H. cbn in *. lia.
Qed.

Lemma parse_key_none s s' : parse_key s = inl (None, s') -> s' = s ∧ head s = Some HASH.
Proof.
  destruct s as [|c s]; cbn; [discriminate|]. destruct (N.eqb_spec c HASH) as [->|_]; [by intros [= <-]|].
  destruct (c =? SQUOTE)%N.
  - destruct (span_while _ s) as [k' [|q rest]]; [discriminate|]. by case_bool_decide.
  - unfold mbind, parser_bind, read_while1. by destruct (span_while key_char (c :: s)) as [[|a l] b].
Qed.

(** A comment line: the rest after the key reads the [#]. *)
Lemma binding_rest_comment s b s' : head s = Some HASH -> binding_rest None s = inl (b, s') ->
  length s' < length s.
Proof.
  destruct s as [|c s]; [discriminate|]. intros [= ->].
  unfold binding_rest, mbind, parser_bind, read_while, peek.
  rewrite span_while_stop by reflexivity. cbn [head].
  unfold parse_assignment. rewrite bool_decide_false by done. cbn [mret parser_ret].
  unfold read_comment. rewrite span_while_stop by reflexivity. cbn [snd]. rewrite N.eqb_refl.
  pose proof (span_while_length (fun d => negb (is_newline d)) s) as H.
  pose proof (reads_prefix_read_end_of_line (span_while (fun d => negb (is_newline d)) s).2) as He.
  destruct (read_end_of_line _) as [[[] s2]|e]; [|discriminate]. intros [= _ <-]. cbn in *. lia.
Qed.

Lemma binding_line_strict s b s' : binding_line s = inl (b, s') -> length s' < length s.
Proof.
  unfold binding_line. unfold mbind at 1, parser_bind at 1.
  pose proof (reads_prefix_read_export s) as L1.
  destruct (read_export s) as [[[] s1]|e]; [|discriminate].
  unfold mbind, parser_bind at 1. destruct (parse_key s1) as [[[k|] s2]|e] eqn:E2; [| |discriminate].
  - apply parse_key_some in E2. intros Hr. pose proof (reads_prefix_binding_rest (Some k) s2) as L3.
    rewrite Hr in L3. lia.
  - apply parse_key_none in E2 as [-> Hh]. intros Hr. apply binding_rest_comment in Hr; [lia|done].
Qed.

Lemma rest_of_line_lt e : e ≠ [] -> length (rest_of_line e) < length e.
Proof.
  intros Hne. unfold rest_of_line. pose proof (span_while_app (fun d => negb (is_newline d)) e) as H.
  destruct (span_while _ e) as [a [|c s']] eqn:E; cbn in *.
  - rewrite app_nil_r in H. subst a. destruct e; [done|]. cbn. lia.
  - apply (f_equal length) in H. rewrite length_app in H. cbn in H. lia.
Qed.

Lemma parse_binding_progress s : s ≠ [] -> length (parse_binding s).2 < length s.
Proof.
  intros Hne. unfold parse_binding, binding_body.
  pose proof (span_while_length py_isspace s) as L0.
  destruct (span_while py_isspace s).2 as [|c s1] eqn:E.
  - cbn. destruct s; [done|]. cbn. lia.
  - destruct (binding_line (c :: s1)) as [[b s']|pos] eqn:Eb.
    + apply binding_line_strict in Eb. destruct b as [[[k|] v]|]; cbn; lia.
    + cbn. assert (Hp : length pos <= length (c :: s1)).
      { pose proof (reads_prefix_binding_line (c :: s1)) as L. by rewrite Eb in L. }
      destruct pos as [|d pos]; [cbn in *; lia|].
      pose proof (rest_of_line_lt (d :: pos) ltac:(done)). lia.
Qed.

Lemma parse_stream_fuel_stable f1 f2 s : length s < f1 -> length s < f2 ->
  parse_stream_fuel f1 s = parse_stream_fuel f2 s.
Proof.
  revert f2 s. induction f1 as [|f1 IH]; intros [|f2] s H1 H2; try lia.
  destruct s as [|c s]; [done|]. cbn [parse_stream_fuel].
  pose proof (parse_binding_progress (c :: s) ltac:(done)) as Hp.
  destruct (parse_binding (c :: s)) as [b s']. cbn in Hp. f_equal. apply IH; cbn in *; lia.
Qed.

Lemma match_variable_length s a rest : match_variable s = Some (a, rest) -> length rest < length s.
Proof.
  unfold match_variable. destruct s as [|d [|b s']]; try discriminate.
  destruct ((d =? DOLLAR)%N && (b =? LBRACE)%N); [|discriminate].
  pose proof (span_while_app (fun c => negb ((c =? RBRACE)%N || (c =? COLON)%N)) s') as H.
  destruct (span_while _ s') as [name [|c r']]; [discriminate|].
  apply (f_equal length) in H. rewrite length_app in H. cbn in H.
  destruct (c =? RBRACE)%N; [intros [= _ <-]; cbn; lia|].
  destruct r' as [|m r'']; [discriminate|]. destruct (m =? DASH)%N; [|discriminate].
  pose proof (span_while_length (fun c => negb (c =? RBRACE)%N) r'') as H'.
  destruct (span_while _ r'') as [dflt [|x r4]]; [discriminate|]. intros [= _ <-]. cbn in *. lia.
Qed.

Lemma parse_variables_fuel_stable f1 f2 acc s : length s < f1 -> length s < f2 ->
  parse_variables_fuel f1 acc s = parse_variables_fuel f2 acc s.
Proof.
  revert f2 acc s. induction f1 as [|f1 IH]; intros [|f2] acc s H1 H2; try lia.
  destruct s as [|c s]; [done|]. cbn [parse_variables_fuel].
  destruct (match_variable (c :: s)) as [[v rest]|] eqn:E.
  - apply match_variable_length in E. f_equal. f_equal. apply IH; cbn in *; lia.
  - apply IH; cbn in *; lia.
Qed.

(** ** Theorems *)

(** The parser of a [.env] file terminates: every binding reads at
    least one character, so [parse_stream], which gives
    [parse_stream_fuel] one step more than the length of the text,
    returns what any larger number of steps returns. *)
Theorem parse_fuel_enough f s : length s < f -> parse_stream_fuel f s = parse_stream s.
Proof. intros H. apply parse_stream_fuel_stable; [done|cbn; lia]. Qed.

Lemma parse_fuel_enough_witness :
  length (str_of "A=1") < 10 ∧ parse_stream_fuel 10 (str_of "A=1") = parse_stream (str_of "A=1").
Proof. split; [cbn; lia|]. apply parse_fuel_enough. cbn. lia. Defined.

(** ** Lemmas: files of plain [KEY=value] lines *)

(** A key the unquoted-key expression reads whole, and a value without
    white space, quotes around it, or [$]. *)
Definition plain_key (k : pystr) : Prop :=
  k ≠ [] ∧ Forall (fun c => key_char c = true) k ∧ head k ≠ Some SQUOTE.

Definition plain_value (v : pystr) : Prop :=
  Forall (fun c => py_isspace c = false ∧ c ≠ DOLLAR) v ∧ head v ≠ Some SQUOTE ∧ head v ≠ Some DQUOTE.

Definition env_line (kv : pystr * pystr) : pystr := kv.1 ++ EQUALS :: kv.2 ++ [LF].

Definition render_env (kvs : list (pystr * pystr)) : pystr := mjoin (env_line <$> kvs).

Lemma key_char_space c : key_char c = true -> py_isspace c = false.
Proof. unfold key_char. destruct (py_isspace c); [|done]. by rewrite !orb_true_r. Qed.

Lemma not_space_hspace c : py_isspace c = false -> is_hspace c = false.
Proof. unfold is_hspace. by intros ->. Qed.

Lemma lstrip_ws_id s : Forall (fun c => py_isspace c = false) s -> lstrip_ws s = s.
Proof. intros [|c s' Hc _]; [done|]. cbn. by rewrite Hc. Qed.

Lemma cut_comment_id s : Forall (fun c => py_isspace c = false) s -> cut_comment s = s.
Proof. induction 1 as [|c s Hc _ IH]; [done|]. cbn. by rewrite Hc, IH. Qed.

Lemma export_not_equals : EQUALS ∉ str_of "export".
Proof. rewrite list_elem_of_In. cbv. intuition discriminate. Qed.

Lemma read_export_key k t : plain_key k -> read_export (k ++ EQUALS :: t) = inl (tt, k ++ EQUALS :: t).
Proof.
  intros (Hne & Hk & _). unfold read_export. case_bool_decide as Ht; [|done].
  destruct (decide (length k < 6)%nat) as [Hl|Hl].
  - exfalso. apply export_not_equals. rewrite <- Ht.
    apply list_elem_of_lookup_2 with (length k). rewrite lookup_take_lt by lia.
    by rewrite lookup_app_r, Nat.sub_diag by lia.
  - rewrite drop_app_le by lia.
    destruct (drop 6 k) as [|c k'] eqn:Ed; [done|].
    assert (Hc : c ∈ k) by (apply (subseteq_drop 6); rewrite Ed; left).
    eapply Forall_forall in Hk; [|exact Hc]. cbn [app]. by rewrite (not_space_hspace _ (key_char_space _ Hk)).
Qed.

Lemma parse_value_plain v r : plain_value v -> parse_value (v ++ LF :: r) = inl (v, LF :: r).
Proof.
  intros (Hv & Hq1 & Hq2). unfold parse_value.
  destruct v as [|c v']; [done|]. cbn [head app] in *.
  inversion Hv as [|? ? [Hsp _] Hv']; subst.
  assert (Hnl : is_newline c = false).
  { unfold is_newline. destruct (N.eqb_spec c LF), (N.eqb_spec c CR); subst; done. }
  destruct (N.eqb_spec c SQUOTE); [congruence|]. destruct (N.eqb_spec c DQUOTE); [congruence|].
  rewrite Hnl. unfold parse_unquoted_value, mbind, parser_bind, read_while.
  assert (Hall : Forall (fun d => py_isspace d = false) (c :: v')).
  { constructor; [done|]. eapply Forall_impl; [exact Hv'|]. by intros ? [? _]. }
  change (c :: v' ++ LF :: r) with ((c :: v') ++ LF :: r).
  rewrite (span_while_prefix _ (c :: v')); [|eapply Forall_impl; [exact Hall|]|done].
  - cbn [mret parser_ret]. unfold py_rstrip. rewrite cut_comment_id by done.
    rewrite lstrip_ws_id, reverse_involutive; [done|]. by apply Forall_reverse.
  - intros d Hd. unfold is_newline. destruct (N.eqb_spec d LF), (N.eqb_spec d CR); subst; done.
Qed.

Lemma parse_binding_plain k v r : plain_key k -> plain_value v ->
  parse_binding (k ++ EQUALS :: v ++ LF :: r) = (Some (k, Some v), r).
Proof.
  intros Hk Hv. pose proof Hk as (Hne & Hkc & Hq).
  destruct k as [|c k']; [done|]. inversion Hkc as [|? ? Hc _]; subst.
  unfold parse_binding, binding_body. cbn [app].
  rewrite (span_while_stop _ c) by (by apply key_char_space). cbn [snd].
  change (c :: k' ++ EQUALS :: v ++ LF :: r) with ((c :: k') ++ EQUALS :: v ++ LF :: r).
  unfold binding_line, mbind at 1, parser_bind at 1.
  rewrite (read_export_key (c :: k')) by done.
  unfold mbind at 1, parser_bind at 1.
  assert (Hkey : parse_key ((c :: k') ++ EQUALS :: v ++ LF :: r) = inl (Some (c :: k'), EQUALS :: v ++ LF :: r)).
  { cbn [parse_key app]. unfold key_char in Hc.
    destruct (N.eqb_spec c HASH); [subst; discriminate|].
    destruct (N.eqb_spec c SQUOTE); [subst; cbn in Hq; congruence|].
    unfold mbind, parser_bind, read_while1. rewrite app_comm_cons, span_while_prefix by done. done. }
  rewrite Hkey. unfold binding_rest, mbind, parser_bind, read_while, peek.
  rewrite span_while_stop by reflexivity. cbn [head].
  unfold parse_assignment. rewrite bool_decide_true by done.
  unfold mbind, parser_bind, skip_char, read_while. cbn [tail].
  assert (Hh : span_while is_hspace (v ++ LF :: r) = ([], v ++ LF :: r)).
  { destruct Hv as (Hv & _). destruct v as [|d v']; [by apply span_while_stop|].
    inversion Hv as [|? ? [Hd _] _]; subst. by apply span_while_stop, not_space_hspace. }
  rewrite Hh, parse_value_plain by done. reflexivity.
Qed.

Definition plain_pair (kv : pystr * pystr) : Prop := plain_key kv.1 ∧ plain_value kv.2.

Lemma render_env_cons kv kvs : render_env (kv :: kvs) = kv.1 ++ EQUALS :: kv.2 ++ LF :: render_env kvs.
Proof. unfold render_env, env_line. cbn. rewrite <- app_assoc. cbn. by rewrite <- app_assoc. Qed.

Lemma parse_stream_render kvs f : Forall plain_pair kvs -> length (render_env kvs) < f ->
  parse_stream_fuel f (render_env kvs) = (fun kv => (kv.1, Some kv.2)) <$> kvs.
Proof.
  intros Hp. revert f. induction Hp as [|[k v] kvs Hkv _ IH]; intros [|f] Hf; try (cbn in *; lia); [done|].
  destruct Hkv as [Hk Hv]. rewrite render_env_cons in *. cbn [fst snd] in *.
  destruct Hk as (Hne & Hk). destruct k as [|c k']; [done|].
  cbn [parse_stream_fuel app]. change (c :: k' ++ EQUALS :: v ++ LF :: render_env kvs)
    with ((c :: k') ++ EQUALS :: v ++ LF :: render_env kvs).
  rewrite parse_binding_plain by done. cbn. f_equal. apply IH.
  do 3 (rewrite ?length_app in Hf; cbn [length] in Hf). lia.
Qed.

(** Characters a plain file is made of. *)
Lemma render_env_chars kvs : Forall plain_pair kvs ->
  Forall (fun c => c = EQUALS ∨ c = LF ∨ (py_isspace c = false ∧ c ≠ DOLLAR) ∨ key_char c = true)
    (render_env kvs).
Proof.
  induction 1 as [|[k v] kvs Hkv _ IH]; [constructor|]. destruct Hkv as [(_ & Hk & _) (Hv & _)].
  rewrite render_env_cons. cbn [fst snd]. apply Forall_app; split.
  { eapply Forall_impl; [exact Hk|]. auto. }
  constructor; [auto|]. apply Forall_app; split; [eapply Forall_impl; [exact Hv|]; auto|].
  constructor; auto.
Qed.

Lemma universal_newlines_id s : Forall (fun c => c ≠ CR) s -> universal_newlines s = s.
Proof. induction 1 as [|c s Hc _ IH]; [done|]. cbn. destruct (N.eqb_spec c CR); [done|]. by rewrite IH. Qed.

Lemma parse_variables_plain f acc v : Forall (fun c => c ≠ DOLLAR) v -> length v < f ->
  parse_variables_fuel f acc v = if bool_decide (reverse acc ++ v = []) then [] else [ALiteral (reverse acc ++ v)].
Proof.
  intros Hv. revert f acc. induction Hv as [|c v Hc _ IH]; intros [|f] acc Hf; try (cbn in *; lia).
  - cbn. rewrite app_nil_r. destruct acc as [|a acc]; [done|].
    rewrite (bool_decide_false (_ :: _ = [])) by done. rewrite bool_decide_false; [done|].
    intros H. apply (f_equal length) in H. rewrite length_reverse in H. discriminate.
  - cbn [parse_variables_fuel]. assert (Hm : match_variable (c :: v) = None).
    { unfold match_variable. destruct v; [done|]. by destruct (N.eqb_spec c DOLLAR). }
    rewrite Hm, IH by (cbn in *; lia). by rewrite reverse_cons, <- app_assoc.
Qed.

Lemma resolve_plain environ new_values v : Forall (fun c => c ≠ DOLLAR) v ->
  mjoin (resolve_atom environ new_values <$> parse_variables v) = v.
Proof.
  intros Hv. unfold parse_variables. rewrite parse_variables_plain by (done || lia). cbn.
  case_bool_decide as E; cbn; [done|]. by rewrite app_nil_r.
Qed.

Lemma values_set_fresh {K V} `{EqDecision K} (k : K) (v : V) d : k ∉ fst <$> d -> values_set k v d = d ++ [(k, v)].
Proof. intros Hk. unfold values_set. by rewrite bool_decide_false. Qed.

Lemma resolve_variables_plain environ acc kvs :
  NoDup (fst <$> acc ++ kvs) -> Forall (fun kv => ∃ v, kv.2 = Some v ∧ Forall (fun c => c ≠ DOLLAR) v) kvs ->
  foldl (fun new_values kv =>
           values_set kv.1 (match kv.2 with None => None
                          | Some v => Some (mjoin (resolve_atom environ new_values <$> parse_variables v)) end)
             new_values) acc kvs = acc ++ kvs.
Proof.
  intros Hnd Hp. revert acc Hnd. induction Hp as [|[k ov] kvs (v & Hov & Hv) _ IH]; intros acc Hnd.
  - by rewrite app_nil_r.
  - cbn [foldl fst snd] in *. subst ov. rewrite resolve_plain by done.
    rewrite values_set_fresh.
    + rewrite IH; [by rewrite <- app_assoc|]. by rewrite <- app_assoc.
    + rewrite fmap_app, fmap_cons in Hnd. apply NoDup_app in Hnd as (_ & Hd & _).
      intros Hin. apply (Hd k Hin). by left.
Qed.

(** Round trip: a [.env] file of plain [KEY=value] lines (keys the
    unquoted-key expression reads, values without white space, leading
    quote or [$]), each key once, is read back by [load_dotenv]'s
    [DotEnv.dict()] as exactly its pairs, in order, whatever the
    process environment. *)
Theorem dotenv_roundtrip environ kvs : NoDup (fst <$> kvs) -> Forall plain_pair kvs ->
  dotenv_values environ (render_env kvs) = (fun kv => (kv.1, Some kv.2)) <$> kvs.
Proof.
  intros Hnd Hp. unfold dotenv_values.
  rewrite universal_newlines_id.
  2:{ eapply Forall_impl; [by apply render_env_chars|]. intros c [->|[->|[[Hs _]|Hk]]]; [done|done| |].
      - intros ->. discriminate. - intros ->. discriminate Hk. }
  unfold parse_stream. rewrite parse_stream_render by (done || lia).
  unfold resolve_variables. rewrite (resolve_variables_plain _ []); [done| |].
  - rewrite app_nil_l, <- list_fmap_compose, (list_fmap_ext _ fst); done.
  - apply Forall_fmap. eapply Forall_impl; [exact Hp|]. intros [k v] [_ (Hv & _)]. exists v. split; [done|].
    eapply Forall_impl; [exact Hv|]. by intros ? [_ ?].
Qed.

#[export] Instance plain_pair_dec kv : Decision (plain_pair kv).
Proof. unfold plain_pair, plain_key, plain_value. apply _. Defined.

(** Two keys of the sidebar written as a [.env] file. *)
Lemma dotenv_roundtrip_witness :
  let kvs := [(str_of "OPENAI_API_KEY", str_of "sk-proj-7Qx"); (str_of "NEWSDATA_API_KEY", str_of "pub_41a9")] in
  NoDup (fst <$> kvs) ∧ Forall plain_pair kvs ∧
  dotenv_values (fun _ => None) (render_env kvs) = (fun kv => (kv.1, Some kv.2)) <$> kvs.
Proof.
  intros kvs. assert (Hn : NoDup (fst <$> kvs)) by decide_vm.
  assert (Hp : Forall plain_pair kvs) by decide_vm.
  split_and!; [exact Hn|exact Hp|exact (dotenv_roundtrip _ kvs Hn Hp)].
Defined.

(** ** The template *)

(** The keys [.env.example] defines, with their placeholder values. *)
Definition template_values : list (pystr * option pystr) :=
  (fun kv : string * string => (str_of kv.1, Some (str_of kv.2))) <$>
    [("OPENAI_API_KEY", "your_openai_api_key_here");
     ("NEWSDATA_API_KEY", "your_newsdata_api_key_here");
     ("FINNHUB_API_KEY", "your_finnhub_api_key_here");
     ("ALPHA_VANTAGE_API_KEY", "your_alpha_vantage_api_key_here");
     ("MARKETAUX_API_KEY", "your_marketaux_api_key_here")]%string.

Lemma env_example_values environ : dotenv_values environ env_example = template_values.
Proof. vm_compute. reflexivity. Qed.

(** With [.env.example] copied to [.env], every key of the template that
    the process environment lacks reads as its non-empty placeholder. *)
Lemma load_template environ k v : (k, Some v) ∈ template_values -> environ k = None ->
  load_dotenv environ (Some env_example) k = Some v ∧ v ≠ [].
Proof.
  intros Hin Hk. cbn [load_dotenv]. rewrite Hk, env_example_values.
  apply list_elem_of_In in Hin. vm_compute in Hin.
  repeat destruct Hin as [Hin|Hin]; try contradiction;
    injection Hin as <- <-; (split; [vm_compute; reflexivity|discriminate]).
Qed.
