(* ===== verification/Intent.v ===== *)
(** * The query classifier ([MSMERAGPipeline._analyze_query])

    [src/script_7.py] lines 61-98 build a dict with eight keys from the
    lower-cased query: a query type chosen by the first trigger list
    that matches (comparison, trend, news, financial, else general),
    the sectors of [SECTOR_KEYWORDS] whose name or one of whose keywords
    occurs in the query, the financial terms that occur in it, and
    three flags.  The dict is a [Record] here; [_should_include_news]
    (lines 127-130) and [_build_system_prompt] (lines 213-229) read it.

    The theorems: the if-chain is the ordered rule table of the design
    ([query_type_by_rules]); every analysis the classifier returns is
    well formed ([wf_analysis]); [_should_include_news] reduces to three
    plain conditions on a well-formed analysis; the literal keywords
    ["IT"] and ["AI"] can never match; and the concrete scenarios of the
    design. *)

From S2P Require Import Prelude PyStr Config.

Inductive query_type : Type :=
  | General | Comparison | TrendAnalysis | NewsInquiry | FinancialAnalysis.

#[export] Instance query_type_eq_dec : EqDecision query_type.
Proof. solve_decision. Defined.

(** The dict returned by [_analyze_query]. *)
Record analysis : Type := mk_analysis {
  an_query_type : query_type;
  an_sectors : list pystr;
  an_companies : list pystr;
  an_metrics : list pystr;
  an_time_focus : pystr;
  an_needs_news : bool;
  an_needs_financial : bool;
  an_needs_comparison : bool
}.

(** The literal word lists of lines 75, 78, 81, 84, 92 and 95. *)
Definition comparison_words : list pystr :=
  str_of <$> ["compare"; "comparison"; "vs"; "versus"; "against"]%string.
Definition trend_words : list pystr :=
  str_of <$> ["trend"; "trends"; "growth"; "performance"]%string.
Definition news_words : list pystr :=
  str_of <$> ["news"; "latest"; "recent"; "updates"]%string.
Definition financial_words : list pystr :=
  str_of <$> ["financial"; "revenue"; "profit"; "assets"]%string.
Definition financial_terms : list pystr :=
  str_of <$> ["revenue"; "profit"; "margin"; "assets"; "ratio"; "growth";
              "performance"]%string.
Definition news_need_words : list pystr :=
  str_of <$> ["news"; "latest"; "recent"; "market"; "trends"]%string.

(** Lines 88-90: [sector.lower() in query_lower or any(keyword in
    query_lower for keyword in keywords)].  The keywords are not
    lower-cased. *)
Definition sector_matches (ql : pystr) (entry : pystr * list pystr) : bool :=
  py_contains (py_lower entry.1) ql || contains_any entry.2 ql.

Definition extract_sectors (ql : pystr) : list pystr :=
  fst <$> filter (fun e => sector_matches ql e = true) SECTOR_KEYWORDS.

(** Lines 75-86: the type and the flags it sets. *)
Definition detect_query_type (ql : pystr) : query_type * bool * bool * bool :=
  (* (query_type, needs_news, needs_financial, needs_comparison) *)
  if contains_any comparison_words ql then (Comparison, false, false, true)
  else if contains_any trend_words ql then (TrendAnalysis, false, true, false)
  else if contains_any news_words ql then (NewsInquiry, true, false, false)
  else if contains_any financial_words ql then (FinancialAnalysis, false, true, false)
  else (General, false, false, false).

Definition _analyze_query (query : pystr) : analysis :=
  let ql := py_lower query in
  let '(qt, nn, nf, nc) := detect_query_type ql in
  {| an_query_type := qt;
     an_sectors := extract_sectors ql;
     an_companies := [];
     an_metrics := filter (fun t => py_contains t ql = true) financial_terms;
     an_time_focus := str_of "current";
     an_needs_news := nn || contains_any news_need_words ql;
     an_needs_financial := nf;
     an_needs_comparison := nc |}.

(** Lines 127-130. *)
Definition _should_include_news (a : analysis) : bool :=
  an_needs_news a
  || bool_decide (an_query_type a ∈ [NewsInquiry; TrendAnalysis])
  || existsb (fun k => bool_decide (k ∈ an_sectors a)) sector_names.

(** Lines 213-229. *)
Definition base_prompt : pystr :=
  str_of "You are an expert MSME (Micro, Small, and Medium Enterprise) market intelligence analyst with deep knowledge of Indian business markets, financial analysis, and industry trends. You specialize in providing actionable insights for MSME companies across Manufacturing, Food Processing, Technology, Healthcare, and Textiles sectors.".

Definition prompt_focus (qt : query_type) : pystr :=
  match qt with
  | FinancialAnalysis => str_of " Focus on financial metrics, ratios, performance analysis, and provide specific numerical insights. Compare companies when relevant and highlight growth patterns."
  | NewsInquiry => str_of " Focus on recent market developments, news analysis, and their implications for MSME companies. Provide timely insights and trend analysis."
  | Comparison => str_of " Provide detailed comparative analysis between companies, sectors, or metrics. Use tables or structured comparisons when helpful."
  | TrendAnalysis => str_of " Focus on identifying patterns, trends, and market movements. Provide forward-looking insights and strategic recommendations."
  | General => str_of " Provide comprehensive, well-structured responses that combine company data, financial insights, and market intelligence."
  end.

Definition _build_system_prompt (a : analysis) : pystr :=
  base_prompt ++ prompt_focus (an_query_type a).

(** ** Abstract specification: an ordered rule table

    The design asks for the type detection to be an ordered list of
    (trigger set, type) pairs, first match wins. *)
Definition rule_table : list (list pystr * query_type) :=
  [(comparison_words, Comparison); (trend_words, TrendAnalysis);
   (news_words, NewsInquiry); (financial_words, FinancialAnalysis)].

Fixpoint query_type_by_rules (rules : list (list pystr * query_type)) (ql : pystr)
    : query_type :=
  match rules with
  | [] => General
  | (ws, t) :: rs => if contains_any ws ql then t else query_type_by_rules rs ql
  end.

(** The invariant every classifier result satisfies. *)
Definition wf_analysis (a : analysis) : Prop :=
  an_sectors a `sublist_of` sector_names
  ∧ an_metrics a `sublist_of` financial_terms
  ∧ an_companies a = []
  ∧ (an_needs_comparison a = true <-> an_query_type a = Comparison)
  ∧ (an_needs_financial a = true <->
       an_query_type a = TrendAnalysis ∨ an_query_type a = FinancialAnalysis)
  ∧ (an_query_type a = NewsInquiry -> an_needs_news a = true).

(** ** Lemmas *)

Lemma detect_query_type_rules ql :
  (detect_query_type ql).1.1.1 = query_type_by_rules rule_table ql.
Proof.
  unfold detect_query_type; simpl.
  repeat match goal with |- context [if ?b then _ else _] => destruct b end;
    reflexivity.
Qed.

Lemma extract_sectors_sublist ql : extract_sectors ql `sublist_of` sector_names.
Proof. unfold extract_sectors, sector_names. apply fmap_sublist, sublist_filter. Qed.

Lemma extract_sectors_spec ql s :
  s ∈ extract_sectors ql <->
  ∃ kws, (s, kws) ∈ SECTOR_KEYWORDS ∧ sector_matches ql (s, kws) = true.
Proof.
  unfold extract_sectors. rewrite list_elem_of_fmap. split.
  - intros ([s' kws] & -> & Hin). apply list_elem_of_filter in Hin as [? ?].
    by exists kws.
  - intros (kws & ? & ?). exists (s, kws). split; [done|].
    by apply list_elem_of_filter.
Qed.

(** A sector list taken from the configuration is non-empty exactly when
    one configured sector name is in it. *)
Lemma existsb_sector_names (ss : list pystr) :
  ss `sublist_of` sector_names ->
  existsb (fun k => bool_decide (k ∈ ss)) sector_names = negb (bool_decide (ss = [])).
Proof.
  intros Hsub. destruct ss as [|s ss].
  - rewrite bool_decide_eq_true_2 by done. by vm_compute.
  - rewrite bool_decide_eq_false_2 by done. apply existsb_exists. exists s. split.
    + apply list_elem_of_In. eapply elem_of_sublist; [left|done].
    + apply bool_decide_eq_true. left.
Qed.

#[export] Hint Resolve extract_sectors_sublist : rag.

(** The Technology keywords that can match a lower-cased query. *)
Definition tech_live_keywords : list pystr :=
  str_of <$> ["software"; "tech"; "digital"; "app"; "platform"; "automation";
              "cloud"]%string.

Lemma tech_entry_matches ql :
  sector_matches (py_lower ql)
    (str_of "Technology", str_of <$> ["software"; "IT"; "tech"; "digital"; "app";
        "platform"; "AI"; "automation"; "cloud"]%string)
  = sector_matches (py_lower ql) (str_of "Technology", tech_live_keywords).
Proof.
  unfold sector_matches, contains_any, tech_live_keywords.
  cbn [fmap list_fmap existsb fst snd].
  rewrite (py_contains_lower_upper (str_of "IT")), (py_contains_lower_upper (str_of "AI"))
    by reflexivity.
  reflexivity.
Qed.

(** ** Theorems *)

(** The query type is the first rule of the ordered rule table
    (comparison, trend, news, financial) whose trigger words occur in the
    lower-cased query, and [General] when none does: the if-chain of
    [_analyze_query] refines the table-driven classifier of the design,
    and a comparison word wins over any co-occurring financial word. *)
Theorem analyze_query_type_rules q :
  an_query_type (_analyze_query q) = query_type_by_rules rule_table (py_lower q).
Proof.
  rewrite <-detect_query_type_rules. unfold _analyze_query.
  by destruct (detect_query_type (py_lower q)) as [[[qt nn] nf] nc].
Qed.

(** C9. Every analysis [_analyze_query] returns is well formed: its
    sectors are configured sectors in configuration order without
    repetition, its metrics are financial terms in vocabulary order, the
    companies list is empty, [needs_comparison] holds exactly for
    comparisons, [needs_financial] exactly for trend and financial
    queries, and a news inquiry always needs news. *)
Theorem analyze_query_wf q : wf_analysis (_analyze_query q).
Proof.
  unfold _analyze_query, detect_query_type, wf_analysis.
  repeat match goal with |- context [if ?b then _ else _] => destruct b end;
    simpl; (split; [apply extract_sectors_sublist|]);
    (split; [apply sublist_filter|]); naive_solver.
Qed.

(** On a well-formed analysis, [_should_include_news] (whose last
    disjunct tests each configured sector name for membership in the
    detected sectors) is: news needed, or the type is a news inquiry or a
    trend analysis, or at least one sector was detected. *)
Theorem should_include_news_iff a :
  wf_analysis a ->
  _should_include_news a =
    an_needs_news a
    || bool_decide (an_query_type a = NewsInquiry ∨ an_query_type a = TrendAnalysis)
    || negb (bool_decide (an_sectors a = [])).
Proof.
  intros [Hsub _]. unfold _should_include_news.
  rewrite existsb_sector_names by done. f_equal. f_equal.
  apply bool_decide_ext. set_solver.
Qed.

(** C26. The Technology keywords ["IT"] and ["AI"] of [SECTOR_KEYWORDS]
    are compared, un-lowered, against the lower-cased query, so they never
    match: Technology is detected exactly when its name or one of its
    seven lower-case keywords occurs in the query. *)
Theorem technology_uppercase_keywords_dead q :
  str_of "Technology" ∈ an_sectors (_analyze_query q) <->
  sector_matches (py_lower q) (str_of "Technology", tech_live_keywords) = true.
Proof.
  assert (Hin : (str_of "Technology", str_of <$> ["software"; "IT"; "tech"; "digital";
      "app"; "platform"; "AI"; "automation"; "cloud"]%string) ∈ SECTOR_KEYWORDS).
  { do 2 apply list_elem_of_further. apply list_elem_of_here. }
  unfold _analyze_query. destruct (detect_query_type _) as [[[qt nn] nf] nc].
  simpl. rewrite extract_sectors_spec, <-tech_entry_matches. split.
  - intros (kws & Hk & Hm). by rewrite <-(SECTOR_KEYWORDS_unique _ _ _ Hk Hin).
  - intros Hm. eauto.
Qed.

(** Scenario of the design: "Compare Technology and Healthcare
    growth" is a comparison over the sectors Technology and Healthcare,
    with [needs_comparison] set and the metric "growth"; news is still
    fetched for it, because sectors were detected. *)
Example compare_scenario :
  let a := _analyze_query (str_of "Compare Technology and Healthcare growth") in
  an_query_type a = Comparison
  ∧ an_sectors a = [str_of "Technology"; str_of "Healthcare"]
  ∧ an_needs_comparison a = true
  ∧ an_metrics a = [str_of "growth"]
  ∧ _should_include_news a = true.
Proof. vm_compute. repeat split. Qed.

(** Metric extraction is a substring test, not the token
    intersection the design describes: the query "Summarise plant
    operations" reports the metric "ratio" (inside "operations"), and the
    query "Demand for TVs in Pune" is classified as a comparison (the
    trigger "vs" occurs inside "tvs"). *)
Example metrics_substring_match :
  an_metrics (_analyze_query (str_of "Summarise plant operations")) = [str_of "ratio"]
  ∧ an_query_type (_analyze_query (str_of "Demand for TVs in Pune")) = Comparison.
Proof. vm_compute. split; reflexivity. Qed.

#[export] Instance wf_analysis_dec a : Decision (wf_analysis a).
Proof. unfold wf_analysis. apply _. Defined.

(** Witness of [should_include_news_iff] on the query "Latest textile news". *)
Lemma should_include_news_iff_witness :
  let a := _analyze_query (str_of "Latest textile news") in
  wf_analysis a ∧
  _should_include_news a =
    an_needs_news a
    || bool_decide (an_query_type a = NewsInquiry ∨ an_query_type a = TrendAnalysis)
    || negb (bool_decide (an_sectors a = [])).
Proof.
  intros a. assert (Hwf : wf_analysis a) by (apply (bool_decide_unpack _); vm_compute; reflexivity).
  split; [exact Hwf | apply (should_include_news_iff a Hwf)].
Defined.
