(* ===== verification/History.v ===== *)
(** * The conversation history of [MSMERAGPipeline]

    [self.conversation_history] is a Python list of dicts with keys
    [user], [assistant] and [timestamp] ([src/script_7.py] line 28).
    [_update_conversation_history] (lines 231-239) appends one turn and
    keeps the last ten; [clear_history] (lines 249-250) empties it;
    [_generate_response] (lines 201-205) sends the last four turns, with
    each answer cut to 200 characters, as "Previous conversation
    context".

    The abstract specification is the whole log of turns since the last
    clear ([since_clear]); the history the code keeps is its last ten
    ([hist_rel]).  The theorems: the bound on the length, the refinement
    of any sequence of appends and clears, and what the [[-4:]] excerpt
    holds. *)

From S2P Require Import Prelude PyStr.

Record turn : Type := mk_turn {
  t_user : pystr;
  t_assistant : pystr;
  t_timestamp : pystr
}.

(** The capacity [10] of line 238 and the excerpt size [4] of line 202. *)
Definition HISTORY_CAPACITY : Z := 10.
Definition EXCERPT_SIZE : Z := 4.

(** Lines 231-239; [ts] is [str(pd.Timestamp.now())]. *)
Definition _update_conversation_history (h : list turn) (user_query response ts : pystr)
    : list turn :=
  let h' := h ++ [mk_turn user_query response ts] in
  if (HISTORY_CAPACITY <? Z.of_nat (length h'))%Z
  then py_slice_from (- HISTORY_CAPACITY) h'
  else h'.

(** Lines 249-250. *)
Definition clear_history (h : list turn) : list turn := [].

(** Line 202: [self.conversation_history[-4:]]. *)
Definition recent_history (h : list turn) : list turn := py_slice_from (- EXCERPT_SIZE) h.

(** Lines 203-204: the text of the excerpt. *)
Definition history_text (h : list turn) : pystr :=
  py_join newline
    ((fun t => str_of "User: " ++ t_user t ++ newline ++ str_of "Assistant: "
               ++ py_slice_to 200 (t_assistant t) ++ str_of "...")
     <$> recent_history h).

(** ** Abstract specification *)

(** The operations a session performs on the history. *)
Inductive hist_op : Type :=
  | OpAppend (user_query response ts : pystr)
  | OpClear.

Definition apply_op (h : list turn) (op : hist_op) : list turn :=
  match op with
  | OpAppend u r ts => _update_conversation_history h u r ts
  | OpClear => clear_history h
  end.

Definition run_ops (h : list turn) (ops : list hist_op) : list turn :=
  foldl apply_op h ops.

(** The full log of turns appended since the last clear. *)
Fixpoint since_clear_rev (ops : list hist_op) : list turn :=
  match ops with
  | [] => []
  | OpAppend u r ts :: ops' => mk_turn u r ts :: since_clear_rev ops'
  | OpClear :: _ => []
  end.

Definition since_clear (ops : list hist_op) : list turn := reverse (since_clear_rev (reverse ops)).

(** The last [n] elements. *)
Definition lastn {A} (n : nat) (l : list A) : list A := drop (length l - n) l.

(** ** Lemmas *)

(** [l[-k:]] for [k > 0]; note that [l[-0:]] is the whole list. *)
Lemma py_slice_from_neg {A} (n : nat) (l : list A) :
  py_slice_from (- Z.of_nat (S n)) l = lastn (S n) l.
Proof.
  unfold py_slice_from, lastn.
  rewrite (proj2 (Z.leb_gt _ _)) by lia. f_equal. f_equal. lia.
Qed.

Lemma length_lastn {A} n (l : list A) : length (lastn n l) = min n (length l).
Proof. unfold lastn. rewrite length_drop. lia. Qed.

Lemma lastn_all {A} n (l : list A) : length l ≤ n -> lastn n l = l.
Proof. intros. unfold lastn. by replace (length l - n) with 0 by lia. Qed.

Lemma lastn_app_one {A} n (l : list A) x :
  lastn (S n) (l ++ [x]) = lastn n l ++ [x].
Proof.
  unfold lastn. rewrite length_app. simpl.
  rewrite drop_app_le by lia. f_equal. f_equal. lia.
Qed.

Lemma lastn_lastn {A} n m (l : list A) : n ≤ m -> lastn n (lastn m l) = lastn n l.
Proof.
  intros Hnm. unfold lastn. rewrite length_drop, drop_drop. f_equal. lia.
Qed.

(** One append keeps the last ten turns of the history followed by the
    new turn. *)
Lemma update_lastn h u r ts :
  _update_conversation_history h u r ts = lastn 10 (h ++ [mk_turn u r ts]).
Proof.
  unfold _update_conversation_history, HISTORY_CAPACITY.
  destruct (Z.ltb_spec 10 (Z.of_nat (length (h ++ [mk_turn u r ts])))) as [Hlt|Hge].
  - apply (py_slice_from_neg 9).
  - rewrite lastn_all; [done|lia].
Qed.

Lemma since_clear_app_append ops u r ts :
  since_clear (ops ++ [OpAppend u r ts]) = since_clear ops ++ [mk_turn u r ts].
Proof.
  unfold since_clear. rewrite reverse_app. simpl. by rewrite reverse_cons.
Qed.

Lemma since_clear_app_clear ops : since_clear (ops ++ [OpClear]) = [].
Proof. unfold since_clear. by rewrite reverse_app. Qed.

#[export] Hint Rewrite @length_lastn update_lastn since_clear_app_append
  since_clear_app_clear : pystr.

(** ** Theorems *)

(** After an append the history holds [min 10 (n + 1)] turns, where
    [n] is the length before: it never exceeds the capacity of ten. *)
Theorem update_history_length h u r ts :
  length (_update_conversation_history h u r ts) = min 10 (S (length h)).
Proof. rewrite update_lastn, length_lastn, length_app. cbn [length]. lia. Qed.

(** The history after a sequence of appends and clears from an empty
    history is the last ten turns appended since the last clear. *)
Lemma run_ops_window ops : run_ops [] ops = lastn 10 (since_clear ops).
Proof.
  induction ops as [|op ops IH] using rev_ind; [done|].
  unfold run_ops. rewrite foldl_app. fold (run_ops [] ops). rewrite IH.
  destruct op as [u r ts|]; simpl.
  - rewrite update_lastn, since_clear_app_append, (lastn_app_one 9), lastn_lastn by lia.
    by rewrite <-lastn_app_one.
  - by rewrite since_clear_app_clear.
Qed.

(** The excerpt [conversation_history[-4:]] that a query sends to
    the model is the last four turns (four exchanges, not the two the
    comment announces) of the log since the last clear. *)
Theorem recent_history_last_four ops :
  recent_history (run_ops [] ops) = lastn 4 (since_clear ops).
Proof.
  rewrite run_ops_window. unfold recent_history, EXCERPT_SIZE.
  rewrite <-(lastn_lastn 4 10) by lia. apply (py_slice_from_neg 3).
Qed.

(** C27. Refinement: whatever sequence of appends and clears a session
    performs from an empty history, the history the pipeline keeps is
    the last ten turns of the log of turns appended since the last
    clear, oldest first, and the excerpt a query sends to the model is
    the last four of them. *)
Theorem run_ops_since_clear ops :
  run_ops [] ops = lastn 10 (since_clear ops) ∧ recent_history (run_ops [] ops) = lastn 4 (since_clear ops).
Proof. split; [apply run_ops_window|apply recent_history_last_four]. Qed.

