(* ===== verification/News.v ===== *)
(** * The news aggregator ([news_fetcher.py], class [NewsAggregator])

    [src/script_4.py] writes [news_fetcher.py] from a string literal
    (lines 2-256).  An article is the dict the adapters build
    (lines 32-41, 65-74, 99-110, 134-143): eight keys, plus [sentiment]
    and [sentiment_score] for Alpha Vantage; its values are whatever the
    provider's JSON held ([pyval]).

    - [_filter_by_relevance] (lines 212-227) lower-cases title,
      description and content of every article (raising on a non-string)
      and keeps those containing a lower-cased keyword.
    - [_deduplicate_articles] (lines 229-249) keeps the first article of
      each non-empty normalised title ([.lower().strip()]), then sorts by
      [datetime.fromisoformat(published_at.replace("Z", "+00:00"))]
      descending inside a bare [try]: a key that fails to parse leaves
      the order as it was, and a naive/aware comparison raises
      [TypeError] in the middle of the sort.
    - [fetch_sector_news] (lines 153-183) and [fetch_all_news]
      (lines 185-210) call the four adapters in order, concatenate, then
      filter (sector news) or deduplicate and sort (all news), then slice.

    The adapters are an interface here ([NewsAdapters]): any four
    functions from their arguments to article lists (an adapter turns
    every exception into [[]], so it cannot raise).  [Adapters]
    instantiates it with the JSON normalisation of each provider.  The
    state CPython leaves a list in when a comparison raises during
    [list.sort] is left abstract ([ListSortRuntime]), with the one law
    the sort guarantees: it is a permutation of the list. *)

From stdpp Require Import sorting.
From S2P Require Import Prelude PyStr PyObj PyDatetime Config.

Record article : Type := mk_article {
  a_source : pystr;
  a_title : pyval;
  a_description : pyval;
  a_content : pyval;
  a_url : pyval;
  a_published_at : pyval;
  a_source_name : pyval;
  a_category : pyval;
  a_sentiment : option (pyval * pyval)   (** [sentiment], [sentiment_score] *)
}.

(** What the aggregator relies on from the four adapters. *)
Class NewsAdapters : Type := {
  fetch_newsdata_io : list pystr -> list article;   (** [query_keywords]; [[]] for [None] *)
  fetch_finnhub : option pystr -> list article;     (** [symbol] *)
  fetch_alpha_vantage : list pystr -> list article; (** [topics] *)
  fetch_marketaux : list pystr -> list article      (** [keywords] *)
}.

(** The order CPython's [list.sort] leaves a list in when a comparison
    raises: some permutation of it. *)
Class ListSortRuntime : Type := {
  sort_abort_state : list article -> list article;
  sort_abort_perm : ∀ l, sort_abort_state l ≡ₚ l
}.

(** ** [_filter_by_relevance] *)

Definition relevant (keywords_lower : list pystr) (title description content : pystr) : bool :=
  existsb (fun k => py_contains k title || py_contains k description || py_contains k content)
    keywords_lower.

Fixpoint filter_relevance_loop (keywords_lower : list pystr) (articles : list article)
    : exc (list article) :=
  match articles with
  | [] => Ok []
  | a :: rest =>
      title ← py_str_lower (a_title a);
      description ← py_str_lower (a_description a);
      content ← py_str_lower (a_content a);
      filtered ← filter_relevance_loop keywords_lower rest;
      mret (if relevant keywords_lower title description content then a :: filtered
            else filtered)
  end.

Definition _filter_by_relevance (articles : list article) (keywords : list pystr)
    : exc (list article) :=
  filter_relevance_loop (py_lower <$> keywords) articles.

(** ** [_deduplicate_articles] *)

(** The normalised title [article.get("title", "").lower().strip()] of
    an article whose title is a string ([[]] otherwise). *)
Definition norm_title (a : article) : pystr :=
  match a_title a with VStr s => py_strip (py_lower s) | _ => [] end.

Fixpoint dedup_titles (seen_titles : gset pystr) (articles : list article)
    : exc (list article) :=
  match articles with
  | [] => Ok []
  | a :: rest =>
      t ← py_str_lower (a_title a);
      let title := py_strip t in
      if decide (title ≠ [] ∧ title ∉ seen_titles)
      then unique ← dedup_titles ({[title]} ∪ seen_titles) rest; mret (a :: unique)
      else dedup_titles seen_titles rest
  end.

(** The sort key [datetime.fromisoformat(x.get("published_at", "")
    .replace("Z", "+00:00"))]. *)
Definition sort_key (a : article) : exc stamp :=
  match a_published_at a with
  | VStr s =>
      match fromisoformat (py_replace_char 90 (str_of "+00:00") s) with
      | Some t => Ok t
      | None => Raise ValueError
      end
  | _ => Raise AttributeError
  end.

(** The keys as one comparable family: all naive or all aware. *)
Definition naive_us (t : stamp) : option Z := match t with Naive x => Some x | _ => None end.
Definition aware_us (t : stamp) : option Z := match t with Aware x => Some x | _ => None end.

Definition uniform_keys (ks : list stamp) : option (list Z) :=
  match mapM naive_us ks with
  | Some zs => Some zs
  | None => mapM aware_us ks
  end.

(** A stable sort by descending key: [list.sort(key=..., reverse=True)]
    keeps equal keys in their original order. *)
Fixpoint insert_desc {A} (x : A * Z) (l : list (A * Z)) : list (A * Z) :=
  match l with
  | [] => [x]
  | y :: l' => if (y.2 <=? x.2)%Z then x :: l else y :: insert_desc x l'
  end.

Fixpoint sort_desc {A} (l : list (A * Z)) : list (A * Z) :=
  match l with
  | [] => []
  | x :: l' => insert_desc x (sort_desc l')
  end.

(** [try: unique.sort(...) except: pass].  CPython computes every key
    before comparing; a key that raises restores the list.  With all
    keys computed, a mixed naive/aware family makes some comparison
    raise [TypeError]. *)
Definition key_opt (a : article) : option stamp :=
  match sort_key a with Ok t => Some t | Raise _ => None end.

Definition sort_by_published `{ListSortRuntime} (unique : list article) : list article :=
  match mapM key_opt unique with
  | None => unique
  | Some ks =>
      match uniform_keys ks with
      | Some zs => fst <$> sort_desc (zip unique zs)
      | None => sort_abort_state unique
      end
  end.

Definition _deduplicate_articles `{ListSortRuntime} (articles : list article)
    : exc (list article) :=
  unique ← dedup_titles ∅ articles;
  mret (sort_by_published unique).

(** ** The two entry points *)

Definition fetch_sector_news `{NewsAdapters} (sector : pystr) (limit : Z)
    : exc (list article) :=
  let sector_keywords := sector_keywords_get sector in
  let all_articles :=
    fetch_newsdata_io sector_keywords ++ fetch_finnhub None
    ++ fetch_alpha_vantage [py_lower sector] ++ fetch_marketaux sector_keywords in
  filtered ← _filter_by_relevance all_articles sector_keywords;
  mret (py_slice_to limit filtered).

Definition fetch_all_news `{NewsAdapters} `{ListSortRuntime} (limit : Z)
    : exc (list article) :=
  let all_articles :=
    fetch_newsdata_io [] ++ fetch_finnhub None ++ fetch_alpha_vantage []
    ++ fetch_marketaux [] in
  unique ← _deduplicate_articles all_articles;
  mret (py_slice_to limit unique).

(** The microsecond value of an article's sort key, when it parses. *)
Definition stamp_us (t : stamp) : Z := match t with Naive x | Aware x => x end.

Definition published_us (a : article) : option Z := stamp_us <$> key_opt a.

(** Every key parses, and all are naive or all are aware. *)
Definition naive_key (a : article) : bool :=
  match sort_key a with Ok (Naive _) => true | _ => false end.
Definition aware_key (a : article) : bool :=
  match sort_key a with Ok (Aware _) => true | _ => false end.

Definition keys_uniform (u : list article) : Prop :=
  Forall (fun a => naive_key a = true) u ∨ Forall (fun a => aware_key a = true) u.

(** The articles paired with their key values. *)
Definition keyed (u : list article) : list (article * Z) :=
  (fun a => (a, default 0%Z (published_us a))) <$> u.

(** [a] was published no earlier than [b]. *)
Definition published_after_eq (a b : article) : Prop :=
  ∃ ta tb, published_us a = Some ta ∧ published_us b = Some tb ∧ (tb <= ta)%Z.


(** ** Lemmas: the stable descending sort *)

Section SortDesc.
Context {A : Type}.
Implicit Types (x y : A * Z) (l : list (A * Z)).

Definition later_eq x y : Prop := (y.2 <= x.2)%Z.

Lemma insert_desc_perm x l : insert_desc x l ≡ₚ x :: l.
Proof.
  induction l as [|y l IH]; simpl; [done|].
  destruct (y.2 <=? x.2)%Z; [done|]. rewrite IH. apply perm_swap.
Qed.

Lemma sort_desc_perm l : sort_desc l ≡ₚ l.
Proof. induction l as [|x l IH]; simpl; [done|]. by rewrite insert_desc_perm, IH. Qed.

Lemma insert_desc_sorted x l : Sorted later_eq l -> Sorted later_eq (insert_desc x l).
Proof.
  unfold later_eq. induction 1 as [|y l Hs IH Hhd]; simpl; [by repeat constructor|].
  destruct (Z.leb_spec y.2 x.2).
  - constructor; [by constructor|]. by constructor.
  - constructor; [done|]. destruct l as [|z l]; simpl; [constructor; simpl; lia|].
    inversion Hhd; subst. destruct (Z.leb_spec z.2 x.2); constructor; simpl; lia.
Qed.

Lemma sort_desc_sorted l : StronglySorted later_eq (sort_desc l).
Proof.
  apply Sorted_StronglySorted; [intros ???; unfold later_eq; lia|].
  induction l as [|x l IH]; simpl; [constructor|]. by apply insert_desc_sorted.
Qed.

(** Equal keys keep their relative order. *)
Lemma insert_desc_stable x l z :
  filter (fun p => p.2 = z) (insert_desc x l) = filter (fun p => p.2 = z) (x :: l).
Proof.
  induction l as [|y l IH]; simpl; [done|].
  destruct (Z.leb_spec y.2 x.2) as [Hle|Hgt]; [done|].
  rewrite filter_cons, IH, !filter_cons.
  destruct (decide (x.2 = z)), (decide (y.2 = z)); try done; lia.
Qed.

Lemma sort_desc_stable l z :
  filter (fun p => p.2 = z) (sort_desc l) = filter (fun p => p.2 = z) l.
Proof.
  induction l as [|x l IH]; simpl; [done|].
  rewrite insert_desc_stable, !filter_cons. by rewrite IH.
Qed.
End SortDesc.

Lemma StronglySorted_weaken {A} (P : A -> Prop) (R R' : relation A) l :
  Forall P l -> (∀ x y, P x -> P y -> R x y -> R' x y) ->
  StronglySorted R l -> StronglySorted R' l.
Proof.
  intros HP Himp Hs. induction Hs as [|x l Hs IH Hx]; [constructor|].
  apply Forall_cons in HP as [Px Pl]. constructor.
  - by apply IH.
  - rewrite Forall_forall in Hx, Pl |- *. intros y Hy. apply Himp; auto.
Qed.

(** ** Lemmas: deduplication *)

Definition titles_are_str (articles : list article) : Prop :=
  Forall (fun a => is_str (a_title a) = true) articles.

Lemma dedup_titles_ok seen articles :
  titles_are_str articles ->
  dedup_titles seen articles
  = Ok (uniq_by norm_title seen (filter (fun a => norm_title a ≠ []) articles)).
Proof.
  intros Hs. revert seen. induction Hs as [|a articles Ha Hs IH]; intros seen; [done|].
  destruct (py_str_lower_ok _ Ha) as (s & Hs' & Hlow).
  simpl. rewrite Hlow. cbn [mbind exc_bind].
  assert (Hn : norm_title a = py_strip (py_lower s)) by (unfold norm_title; by rewrite Hs').
  rewrite filter_cons, <-Hn.
  destruct (decide (norm_title a ≠ [])) as [Hne|Heq]; simpl.
  - case_decide as Hc; case_decide as Hin.
    + by destruct Hc.
    + by rewrite IH.
    + done.
    + by destruct Hc.
  - rewrite decide_False by tauto. done.
Qed.

Lemma dedup_titles_raise seen articles :
  ¬ titles_are_str articles -> ∃ e, dedup_titles seen articles = Raise e.
Proof.
  revert seen. induction articles as [|a articles IH]; intros seen Hn.
  - exfalso. apply Hn. constructor.
  - simpl. destruct (is_str (a_title a)) eqn:Ha.
    + destruct (py_str_lower_ok _ Ha) as (s & _ & ->). cbn [mbind exc_bind].
      assert (Hr : ¬ titles_are_str articles) by (intros Hs; apply Hn; by constructor).
      case_decide; [|by apply IH].
      destruct (IH ({[py_strip (py_lower s)]} ∪ seen) Hr) as [e ->]. by exists e.
    + rewrite py_str_lower_raise by done. by exists AttributeError.
Qed.

(** ** Lemmas: the guarded sort *)

Lemma mapM_key_opt_kind (kind : Z -> stamp) u :
  (∀ a, a ∈ u -> ∃ t, sort_key a = Ok (kind t)) ->
  (∀ t, stamp_us (kind t) = t) ->
  mapM key_opt u = Some (kind <$> (snd <$> keyed u)).
Proof.
  intros Hk Hus. induction u as [|a u IH]; [done|].
  destruct (Hk a) as [t Ht]; [left|].
  assert (Hka : key_opt a = Some (kind t)) by (unfold key_opt; by rewrite Ht).
  cbn [mapM keyed fmap list_fmap]. rewrite Hka. cbn [mbind option_bind].
  rewrite IH by (intros; apply Hk; by right). unfold published_us. rewrite Hka.
  simpl. by rewrite Hus.
Qed.

Lemma mapM_naive zs : mapM naive_us (Naive <$> zs) = Some zs.
Proof. apply mapM_Some. induction zs; simpl; by constructor. Qed.

Lemma mapM_aware zs : mapM aware_us (Aware <$> zs) = Some zs.
Proof. apply mapM_Some. induction zs; simpl; by constructor. Qed.

Lemma uniform_keys_aware zs : uniform_keys (Aware <$> zs) = Some zs.
Proof.
  unfold uniform_keys. destruct zs as [|z zs]; [done|].
  assert (E : mapM naive_us (Aware <$> z :: zs) = None).
  { apply mapM_None. by left. }
  by rewrite E, mapM_aware.
Qed.

Lemma zip_keyed u : zip u (snd <$> keyed u) = keyed u.
Proof. unfold keyed. induction u as [|a u IH]; [done|]. simpl. by f_equal. Qed.

Lemma keyed_fst u : fst <$> keyed u = u.
Proof. unfold keyed. induction u as [|a u IH]; [done|]. simpl. by f_equal. Qed.

Lemma naive_key_spec a : naive_key a = true -> ∃ t, sort_key a = Ok (Naive t).
Proof. unfold naive_key. destruct (sort_key a) as [[]|]; eauto; done. Qed.

Lemma aware_key_spec a : aware_key a = true -> ∃ t, sort_key a = Ok (Aware t).
Proof. unfold aware_key. destruct (sort_key a) as [[]|]; eauto; done. Qed.

(** With uniform keys the sort is the stable descending sort. *)
Lemma sort_by_published_uniform `{ListSortRuntime} u :
  keys_uniform u -> sort_by_published u = fst <$> sort_desc (keyed u).
Proof.
  unfold sort_by_published. unfold keys_uniform. rewrite !Forall_forall. intros [Hk|Hk].
  - rewrite (mapM_key_opt_kind Naive) by (done || (intros; by apply naive_key_spec, Hk)).
    unfold uniform_keys. by rewrite mapM_naive, zip_keyed.
  - rewrite (mapM_key_opt_kind Aware), uniform_keys_aware
      by (done || (intros; by apply aware_key_spec, Hk)).
    by rewrite zip_keyed.
Qed.

(** A key that does not parse leaves the deduplicated order. *)
Lemma sort_by_published_key_fails `{ListSortRuntime} u a :
  a ∈ u -> key_opt a = None -> sort_by_published u = u.
Proof.
  intros Ha Hn. unfold sort_by_published.
  assert (E : mapM key_opt u = None).
  { apply mapM_None, Exists_exists. eauto. }
  by rewrite E.
Qed.

Lemma keyed_published u :
  (∀ a, a ∈ u -> published_us a ≠ None) ->
  Forall (fun p => published_us p.1 = Some p.2) (keyed u).
Proof.
  intros Hp. apply Forall_forall. intros [a z] Hin.
  apply list_elem_of_fmap in Hin as (b & [= -> ->] & Hb). simpl.
  destruct (published_us b) eqn:E; [done|]. by destruct (Hp b Hb).
Qed.

Lemma filter_fst_published t (ps : list (article * Z)) :
  Forall (fun p => published_us p.1 = Some p.2) ps ->
  filter (fun a => published_us a = Some t) (fst <$> ps)
  = fst <$> filter (fun p => p.2 = t) ps.
Proof.
  induction 1 as [|[a z] ps Hp Hps IH]; [done|]. csimpl in *.
  rewrite !filter_cons, Hp. cbn [snd].
  destruct (decide (z = t)) as [->|Hne].
  - rewrite !decide_True by done. csimpl. by rewrite IH.
  - rewrite !decide_False by congruence. done.
Qed.

(** Whatever branch it takes, the guarded sort permutes the list. *)
Lemma sort_by_published_perm `{ListSortRuntime} u : sort_by_published u ≡ₚ u.
Proof.
  unfold sort_by_published.
  destruct (mapM key_opt u) as [ks|] eqn:Hks; [|done].
  destruct (uniform_keys ks) as [zs|] eqn:Hzs; [|apply sort_abort_perm].
  assert (Hlen : length u ≤ length zs).
  { apply length_mapM in Hks. unfold uniform_keys in Hzs.
    destruct (mapM naive_us ks) eqn:Hn; [injection Hzs as <-|];
      apply length_mapM in Hn || apply length_mapM in Hzs; lia. }
  rewrite sort_desc_perm. by rewrite fst_zip.
Qed.

Lemma dedup_ok_inv `{ListSortRuntime} articles out :
  _deduplicate_articles articles = Ok out ->
  titles_are_str articles ∧
  out ≡ₚ uniq_by norm_title ∅ (filter (fun a => norm_title a ≠ []) articles).
Proof.
  unfold _deduplicate_articles. intros Hd.
  destruct (decide (titles_are_str articles)) as [Hs|Hs].
  - rewrite dedup_titles_ok in Hd by done. injection Hd as <-.
    split; [done|]. apply sort_by_published_perm.
  - destruct (dedup_titles_raise ∅ _ Hs) as [e He]. by rewrite He in Hd.
Qed.

Lemma keys_uniform_published u : keys_uniform u -> ∀ a, a ∈ u -> published_us a ≠ None.
Proof.
  unfold keys_uniform. rewrite !Forall_forall. unfold published_us, key_opt.
  intros [Hk|Hk] a Ha.
  - by destruct (naive_key_spec a (Hk a Ha)) as [t ->].
  - by destruct (aware_key_spec a (Hk a Ha)) as [t ->].
Qed.

Lemma dedup_ok_unique `{ListSortRuntime} articles out :
  _deduplicate_articles articles = Ok out ->
  NoDup (norm_title <$> out) ∧ ∀ a, a ∈ out -> a ∈ articles ∧ norm_title a ≠ [].
Proof.
  intros [_ Hp]%dedup_ok_inv. split.
  - rewrite Hp. apply uniq_by_NoDup.
  - intros a Ha. rewrite Hp in Ha.
    eapply elem_of_sublist in Ha; [|apply uniq_by_sublist].
    apply list_elem_of_filter in Ha as [? ?]. done.
Qed.

Lemma filter_relevance_loop_ok kws articles out :
  filter_relevance_loop kws articles = Ok out ->
  ∀ a, a ∈ out -> a ∈ articles ∧ ∃ k s, k ∈ kws
    ∧ (a_title a = VStr s ∨ a_description a = VStr s ∨ a_content a = VStr s)
    ∧ py_contains k (py_lower s) = true.
Proof.
  revert out. induction articles as [|b articles IH]; intros out Hf a Ha.
  - injection Hf as <-. by apply elem_of_nil in Ha.
  - simpl in Hf.
    destruct (a_title b) eqn:Et; try discriminate; cbn [py_str_lower mbind exc_bind] in Hf.
    destruct (a_description b) eqn:Ed; try discriminate; cbn [py_str_lower mbind exc_bind] in Hf.
    destruct (a_content b) eqn:Ec; try discriminate; cbn [py_str_lower mbind exc_bind] in Hf.
    destruct (filter_relevance_loop kws articles) as [rest|e] eqn:Er; [|discriminate].
    cbn [mbind exc_bind mret exc_ret] in Hf. injection Hf as <-.
    destruct (relevant _ _ _ _) eqn:Erel.
    + apply elem_of_cons in Ha as [->|Ha].
      * split; [left|]. unfold relevant in Erel. apply existsb_exists in Erel as (k & Hk & Hm).
        rewrite <-list_elem_of_In in Hk. rewrite !orb_true_iff in Hm.
        destruct Hm as [[Hm|Hm]|Hm]; eauto 10.
      * destruct (IH _ eq_refl a Ha) as [? ?]. split; [by right|done].
    + destruct (IH _ eq_refl a Ha) as [? ?]. split; [by right|done].
Qed.


(** The filter calls [.lower()] on the three fields of every article:
    those it keeps have string title, description and content. *)
Lemma filter_relevance_loop_strs kws articles out :
  filter_relevance_loop kws articles = Ok out ->
  Forall (fun a => is_str (a_title a) && is_str (a_description a) && is_str (a_content a) = true)
    out.
Proof.
  revert out. induction articles as [|b articles IH]; intros out Hf; simpl in Hf;
    [by injection Hf as <-|].
  destruct (a_title b) eqn:Et; try discriminate; cbn [py_str_lower mbind exc_bind] in Hf.
  destruct (a_description b) eqn:Ed; try discriminate; cbn [py_str_lower mbind exc_bind] in Hf.
  destruct (a_content b) eqn:Ec; try discriminate; cbn [py_str_lower mbind exc_bind] in Hf.
  destruct (filter_relevance_loop kws articles) as [rest|e] eqn:Er; [|discriminate].
  cbn [mbind exc_bind mret exc_ret] in Hf. injection Hf as <-.
  specialize (IH rest eq_refl).
  destruct (relevant _ _ _ _); [constructor; [by rewrite Et, Ed, Ec|done]|done].
Qed.

Lemma fetch_sector_news_strs `{NewsAdapters} sector limit out :
  fetch_sector_news sector limit = Ok out ->
  Forall (fun a => is_str (a_title a) && is_str (a_description a) && is_str (a_content a) = true)
    out.
Proof.
  unfold fetch_sector_news, _filter_by_relevance.
  destruct (filter_relevance_loop _ _) as [filtered|] eqn:Hf; cbn [mbind exc_bind mret exc_ret];
    [|done].
  intros [= <-]. apply filter_relevance_loop_strs in Hf.
  rewrite Forall_forall in Hf |- *. intros a Ha. apply Hf.
  eapply elem_of_sublist; [exact Ha|apply py_slice_to_sublist].
Qed.
#[export] Hint Resolve sort_by_published_perm keys_uniform_published : rag.

(** ** Concrete inputs for the witnesses

    Articles shaped as each adapter builds them, with the timestamp
    formats the providers send: NewsData.io ["2024-01-15 10:30:00"],
    Finnhub's [isoformat()] ["2024-01-15T09:00:00"], Alpha Vantage
    ["20240115T103000"], MarketAux ["2024-01-15T08:00:00.000000Z"]. *)
Definition news_item (src : string) (title published : pyval) : article :=
  mk_article (str_of src) title (VStr []) (VStr []) (VStr []) published (VStr [])
    (VStr (str_of "business")) None.

Definition nd_item (title published : string) : article :=
  news_item "NewsData.io" (VStr (str_of title)) (VStr (str_of published)).

(** A runtime that leaves the list as it was when a comparison raises. *)
Definition keep_order_runtime : ListSortRuntime :=
  {| sort_abort_state := fun l => l; sort_abort_perm := fun l => Permutation_refl l |}.

(** Adapters that return fixed lists whatever their arguments. *)
Definition fixed_adapters (nd fh av mx : list article) : NewsAdapters :=
  {| fetch_newsdata_io := fun _ => nd; fetch_finnhub := fun _ => fh;
     fetch_alpha_vantage := fun _ => av; fetch_marketaux := fun _ => mx |}.

Definition rbi_finnhub : article :=
  news_item "Finnhub" (VStr (str_of "RBI Cuts Rates")) (VStr (str_of "2024-01-15T09:00:00")).
Definition rbi_marketaux : article :=
  news_item "MarketAux" (VStr (str_of "rbi cuts rates ")) (VStr (str_of "2024-01-15T08:00:00.000000Z")).
Definition t1_item : article := nd_item "Dairy exports rise" "2024-01-15 10:30:00".
Definition t2_item : article := nd_item "Textile mills expand" "2024-01-14 10:30:00".
Definition t3_item : article := nd_item "Pharma output steady" "2024-01-13 10:30:00".
Definition av_item : article :=
  news_item "Alpha Vantage" (VStr (str_of "Cloud spending grows")) (VStr (str_of "20240115T103000")).
Definition null_title_item : article :=
  news_item "NewsData.io" VNone (VStr (str_of "2024-01-15 10:30:00")).

(** ** Theorems *)

(** C1. The aggregator's deduplication never returns two articles with
    the same normalised title ([title.lower().strip()]), never an article
    with an empty one, and only articles it was given: this holds on
    every branch of the guarded sort that follows it. *)
Theorem dedup_unique_titles `{ListSortRuntime} articles out :
  _deduplicate_articles articles = Ok out ->
  NoDup (norm_title <$> out) ∧ ∀ a, a ∈ out -> a ∈ articles ∧ norm_title a ≠ [].
Proof. apply dedup_ok_unique. Qed.

(** C2. First occurrence wins: for every article with a non-empty
    normalised title, the output holds an article with the same title,
    and that article is the first of the input with that title, whatever
    provider it came from. *)
Theorem dedup_keeps_first `{ListSortRuntime} articles out :
  _deduplicate_articles articles = Ok out ->
  ∀ a, a ∈ articles -> norm_title a ≠ [] ->
  ∃ b, b ∈ out ∧ norm_title b = norm_title a
       ∧ ∃ l1 l2, articles = l1 ++ b :: l2 ∧ ∀ z, z ∈ l1 -> norm_title z ≠ norm_title b.
Proof.
  intros [_ Hp]%dedup_ok_inv a Ha Hne.
  destruct (uniq_by_complete norm_title ∅ (filter (fun a => norm_title a ≠ []) articles) a)
    as (b & Hb & Hab); [by apply list_elem_of_filter|set_solver|].
  exists b. split; [by rewrite Hp|]. split; [done|].
  destruct (uniq_by_first _ _ _ _ Hb) as (l1' & l2' & Hf & Hl1').
  destruct (filter_eq_app_cons _ _ _ _ _ Hf) as (l1 & l2 & -> & Hl1 & Hbne).
  exists l1, l2. split; [done|]. intros z Hz.
  destruct (decide (norm_title z = [])) as [E|E]; [by rewrite E|].
  apply Hl1'. rewrite <-Hl1. by apply list_elem_of_filter.
Qed.

(** C5. [_deduplicate_articles] returns normally exactly when every
    article's title is a string; one title that is [None] (a provider
    sending [null]) or a number makes it raise [AttributeError] out of
    the aggregator, although the design says a bad source is never
    allowed to abort the aggregation. *)
Theorem dedup_ok_iff `{ListSortRuntime} articles :
  (∃ out, _deduplicate_articles articles = Ok out) <-> titles_are_str articles.
Proof.
  split.
  - intros [out Hd]. by apply dedup_ok_inv in Hd as [? _].
  - intros Hs. unfold _deduplicate_articles. rewrite dedup_titles_ok by done. eauto.
Qed.

(** C3. When every [published_at] parses and all are naive or all are
    aware, the sort orders the articles from the most recent to the
    oldest, keeps all of them, and keeps articles with equal timestamps
    in their original order (stable, as [reverse=True] is). *)
Theorem sort_by_published_sorted `{ListSortRuntime} u :
  keys_uniform u ->
  sort_by_published u ≡ₚ u
  ∧ StronglySorted published_after_eq (sort_by_published u)
  ∧ ∀ t, filter (fun a => published_us a = Some t) (sort_by_published u)
         = filter (fun a => published_us a = Some t) u.
Proof.
  intros Hu. pose proof (keyed_published u (keys_uniform_published u Hu)) as Hk.
  assert (Hks : Forall (fun p => published_us p.1 = Some p.2) (sort_desc (keyed u)))
    by (by rewrite sort_desc_perm).
  split; [apply sort_by_published_perm|]. rewrite sort_by_published_uniform by done.
  split.
  - apply (StronglySorted_fmap fst
      (fun x y => published_us x.1 = Some x.2 ∧ published_us y.1 = Some y.2 ∧ later_eq x y)).
    + intros x y (Hx & Hy & Hxy). exists x.2, y.2. done.
    + eapply StronglySorted_weaken; [exact Hks| |apply sort_desc_sorted]. done.
  - intros t. rewrite filter_fst_published by done.
    rewrite sort_desc_stable, <-filter_fst_published by done. by rewrite keyed_fst.
Qed.

(** A single [published_at] that [datetime.fromisoformat] rejects
    (Alpha Vantage's ["20240115T103000"] on Python 3.10, or an empty
    string) cancels the whole sort: the articles stay in fetch order,
    where the design wants only the unparsable ones to go last. *)
Theorem dedup_unparsable_keeps_order `{ListSortRuntime} articles unique a :
  dedup_titles ∅ articles = Ok unique -> a ∈ unique -> key_opt a = None ->
  _deduplicate_articles articles = Ok unique.
Proof.
  intros Hd Ha Hk. unfold _deduplicate_articles. rewrite Hd. cbn [mbind exc_bind].
  by rewrite (sort_by_published_key_fails unique a).
Qed.

(** Scenario of the design: "RBI Cuts Rates" from Finnhub and
    "rbi cuts rates " from MarketAux normalise to the same title, and
    [fetch_all_news] keeps only the first. *)
Example rbi_scenario :
  @fetch_all_news (fixed_adapters [] [rbi_finnhub] [] [rbi_marketaux]) keep_order_runtime 50
  = Ok [rbi_finnhub].
Proof. vm_compute. reflexivity. Qed.

(** The design's ordering scenario against the code: three
    NewsData.io articles fetched in the order t2, t3, t1 come out as
    t1, t2, t3; add one Alpha Vantage article whose timestamp does not
    parse and nothing is sorted at all. *)
Example sort_scenario :
  @fetch_all_news (fixed_adapters [t2_item; t3_item] [t1_item] [] []) keep_order_runtime 50
  = Ok [t1_item; t2_item; t3_item]
  ∧ @fetch_all_news (fixed_adapters [t2_item; t3_item] [t1_item] [av_item] []) keep_order_runtime 50
  = Ok [t2_item; t3_item; t1_item; av_item].
Proof. vm_compute. split; reflexivity. Qed.

(** An article whose title, description and content are strings, the
    three fields [_filter_by_relevance] lower-cases. *)
Definition fields_str (a : article) : bool :=
  is_str (a_title a) && is_str (a_description a) && is_str (a_content a).

(** The relevance test on an article whose three fields are strings. *)
Definition article_relevant (kws : list pystr) (a : article) : bool :=
  match a_title a, a_description a, a_content a with
  | VStr t, VStr d, VStr c => relevant kws (py_lower t) (py_lower d) (py_lower c)
  | _, _, _ => false
  end.

Lemma filter_relevance_loop_iff kws l out :
  filter_relevance_loop kws l = Ok out <->
  Forall (fun a => fields_str a = true) l ∧ out = filter (fun a => article_relevant kws a = true) l.
Proof.
  revert out. induction l as [|a l IH]; intros out; cbn [filter_relevance_loop].
  - split; [intros [= <-]; by split|by intros [_ ->]].
  - rewrite Forall_cons. unfold fields_str, article_relevant.
    destruct (a_title a) eqn:Et; cbn [py_str_lower mbind exc_bind is_str andb];
      try (split; [discriminate|intros [[Hx _] _]; discriminate Hx]).
    destruct (a_description a) eqn:Ed; cbn [py_str_lower mbind exc_bind is_str andb];
      try (split; [discriminate|intros [[Hx _] _]; discriminate Hx]).
    destruct (a_content a) eqn:Ec; cbn [py_str_lower mbind exc_bind is_str andb];
      try (split; [discriminate|intros [[Hx _] _]; discriminate Hx]).
    destruct (filter_relevance_loop kws l) as [f|e] eqn:Ef; cbn [mbind exc_bind mret exc_ret].
    + destruct (proj1 (IH f) eq_refl) as [Hl ->].
      rewrite filter_cons. cbv beta. rewrite ?Et, ?Ed, ?Ec.
      destruct (relevant _ _ _ _); [rewrite decide_True by done|rewrite decide_False by done];
        (split; [intros [= <-]; by split|by intros [_ ->]]).
    + split; [discriminate|]. intros [[_ Hl] _].
      pose proof (proj2 (IH _) (conj Hl eq_refl)). discriminate.
Qed.

Lemma mapM_None_elem {A B} (f : A -> option B) l x : x ∈ l -> f x = None -> mapM f l = None.
Proof.
  intros Hx Hf. destruct (mapM f l) as [ys|] eqn:E; [|done].
  assert (Hs : Forall (is_Some ∘ f) l) by (apply mapM_is_Some_1; by rewrite E).
  rewrite Forall_forall in Hs. destruct (Hs x Hx) as [y Hy]. cbn in Hy. congruence.
Qed.

Lemma mapM_Some_elem {A B} (f : A -> option B) l ys x y : mapM f l = Some ys -> x ∈ l -> f x = Some y -> y ∈ ys.
Proof.
  intros E Hx Hf. apply mapM_Some_1 in E. apply list_elem_of_lookup in Hx as [i Hi].
  destruct (Forall2_lookup_l _ _ _ i x E Hi) as (y' & Hy' & Hfy). rewrite Hf in Hfy. injection Hfy as ->.
  by eapply list_elem_of_lookup_2.
Qed.

(** Articles from NewsData.io (naive timestamps) together with
    MarketAux (its ["Z"] becomes ["+00:00"]: aware timestamps) make the
    sort compare a naive with an aware datetime and raise [TypeError]
    mid-sort: [fetch_all_news] returns the list in whatever order the
    interrupted sort left it (then sliced), for every interpreter
    state. *)
Example mixed_timezones_abort :
  ∀ rt : ListSortRuntime,
  @fetch_all_news (fixed_adapters [t2_item] [] [] [rbi_marketaux]) rt 50
  = Ok (py_slice_to 50 (sort_abort_state [t2_item; rbi_marketaux])).
Proof. intros rt. vm_compute. reflexivity. Qed.

(** C6. [fetch_all_news(limit)] returns at most [limit] articles for a
    non-negative limit, and no two with the same normalised title. *)
Theorem fetch_all_news_bounds `{NewsAdapters} `{ListSortRuntime} limit out :
  (0 <= limit)%Z -> fetch_all_news limit = Ok out ->
  length out ≤ Z.to_nat limit ∧ NoDup (norm_title <$> out).
Proof.
  intros Hl. unfold fetch_all_news.
  destruct (_deduplicate_articles _) as [u|e] eqn:Hd; [|discriminate].
  cbn [mbind exc_bind mret exc_ret]. intros [= <-].
  split; [by apply length_py_slice_to|].
  apply (sublist_NoDup _ (norm_title <$> u)); [apply (dedup_ok_unique _ _ Hd)|].
  apply fmap_sublist, py_slice_to_sublist.
Qed.

(** Partial failure tolerance, and its limit: [fetch_all_news]
    returns normally exactly when every article the four adapters
    returned has a string title.  Adapters that failed contribute [[]]
    and cannot stop it; one article with a [null] title from any
    provider makes the whole call raise. *)
Theorem fetch_all_news_ok_iff `{NewsAdapters} `{ListSortRuntime} limit :
  (∃ out, fetch_all_news limit = Ok out) <->
  titles_are_str (fetch_newsdata_io [] ++ fetch_finnhub None ++ fetch_alpha_vantage []
                  ++ fetch_marketaux []).
Proof.
  unfold fetch_all_news. split.
  - intros [out Hf]. destruct (_deduplicate_articles _) as [u|e] eqn:Hd; [|discriminate].
    by apply dedup_ok_inv in Hd as [? _].
  - intros Hs. unfold _deduplicate_articles. rewrite dedup_titles_ok by done. eauto.
Qed.

(** C7. Every article [fetch_sector_news(sector)] returns contains one
    of the sector's configured keywords (lower-cased) in its lower-cased
    title, description or content. *)
Theorem fetch_sector_news_relevant `{NewsAdapters} sector limit out :
  fetch_sector_news sector limit = Ok out ->
  ∀ a, a ∈ out -> ∃ k s, k ∈ sector_keywords_get sector
    ∧ (a_title a = VStr s ∨ a_description a = VStr s ∨ a_content a = VStr s)
    ∧ py_contains (py_lower k) (py_lower s) = true.
Proof.
  unfold fetch_sector_news, _filter_by_relevance.
  destruct (filter_relevance_loop _ _) as [f|e] eqn:Hf; [|discriminate].
  cbn [mbind exc_bind mret exc_ret]. intros [= <-] a Ha.
  eapply elem_of_sublist in Ha; [|apply py_slice_to_sublist].
  destruct (filter_relevance_loop_ok _ _ _ Hf a Ha) as (_ & k & s & Hk & Hs & Hc).
  apply list_elem_of_fmap in Hk as (k0 & -> & Hk0). eauto.
Qed.

(** [fetch_sector_news] does no deduplication (its comment says
    "Filter and deduplicate"; the design requires it): the same story
    from two providers is returned twice.  A sector that is not in
    [SECTOR_KEYWORDS] has no keywords and always gets no news. *)
Example sector_news_keeps_duplicates :
  let food := nd_item "Dairy exports rise" "2024-01-15 10:30:00" in
  let food' := news_item "MarketAux" (VStr (str_of "Dairy Exports Rise"))
                 (VStr (str_of "2024-01-15T08:00:00.000000Z")) in
  @fetch_sector_news (fixed_adapters [food] [] [] [food']) (str_of "Food Processing") 20
  = Ok [food; food']
  ∧ @fetch_sector_news (fixed_adapters [food] [] [] [food']) (str_of "Agriculture") 20
  = Ok [].
Proof. vm_compute. split; reflexivity. Qed.

(** C8. The guarded date sort on every list, beside [C3]'s sorted case:
    when some [published_at] does not parse (or is not a string), the
    sort is cancelled and the list keeps the order it had; when every key
    parses and there are both a naive one (NewsData.io's
    ["2024-01-15 10:30:00"]) and an aware one (MarketAux's ["...Z"]),
    comparing them raises [TypeError] inside [list.sort] and the list is
    left as the interrupted sort left it. *)
Theorem sort_by_published_abort `{ListSortRuntime} l :
  ((∃ a, a ∈ l ∧ key_opt a = None) -> sort_by_published l = l) ∧
  (Forall (fun a => is_Some (key_opt a)) l ->
   (∃ a x, a ∈ l ∧ key_opt a = Some (Naive x)) -> (∃ b y, b ∈ l ∧ key_opt b = Some (Aware y)) ->
   sort_by_published l = sort_abort_state l).
Proof.
  unfold sort_by_published. split.
  - intros (a & Ha & Hk). by rewrite (mapM_None_elem _ _ _ Ha Hk).
  - intros Hall (a & x & Ha & Hka) (b & y & Hb & Hkb).
    destruct (mapM key_opt l) as [ks|] eqn:E.
    + assert (Hn : mapM naive_us ks = None)
        by (apply (mapM_None_elem _ _ (Aware y)); [exact (mapM_Some_elem _ _ _ _ _ E Hb Hkb)|done]).
      assert (Haw : mapM aware_us ks = None)
        by (apply (mapM_None_elem _ _ (Naive x)); [exact (mapM_Some_elem _ _ _ _ _ E Ha Hka)|done]).
      unfold uniform_keys. by rewrite Hn, Haw.
    + exfalso. destruct (mapM_is_Some_2 key_opt l Hall) as [ks Hks]. congruence.
Qed.

(** C4. [fetch_sector_news(sector, limit)] returns normally exactly when
    every article the four adapters returned has a string title,
    description and content, and it then returns the first [limit] of
    them, in the order fetched, that contain a lower-cased keyword of the
    sector: every relevant article is kept and none is deduplicated (its
    comment says "Filter and deduplicate"), so a story two providers
    return comes back twice. *)
Theorem fetch_sector_news_iff `{NewsAdapters} sector limit out :
  fetch_sector_news sector limit = Ok out <->
  let kws := sector_keywords_get sector in
  let all_articles := fetch_newsdata_io kws ++ fetch_finnhub None ++ fetch_alpha_vantage [py_lower sector]
                      ++ fetch_marketaux kws in
  Forall (fun a => fields_str a = true) all_articles ∧
  out = py_slice_to limit (filter (fun a => article_relevant (py_lower <$> kws) a = true) all_articles).
Proof.
  unfold fetch_sector_news, _filter_by_relevance. cbv zeta.
  destruct (filter_relevance_loop _ _) as [f|e] eqn:Ef; cbn [mbind exc_bind mret exc_ret].
  - apply filter_relevance_loop_iff in Ef as [Hall ->]. split; [by intros [= <-]|by intros [_ ->]].
  - split; [discriminate|]. intros [Hall _].
    pose proof (proj2 (filter_relevance_loop_iff (py_lower <$> sector_keywords_get sector) _ _) (conj Hall eq_refl)). congruence.
Qed.

(** ** Witnesses *)

(** Witnesses of [dedup_unique_titles] and [dedup_keeps_first] on Finnhub's "RBI Cuts Rates", MarketAux's
    "rbi cuts rates " and a NewsData.io story. *)
Lemma dedup_unique_titles_witness :
  let arts := [rbi_finnhub; rbi_marketaux; t1_item] in
  let out := [t1_item; rbi_finnhub] in
  @_deduplicate_articles keep_order_runtime arts = Ok out
  ∧ NoDup (norm_title <$> out) ∧ ∀ a, a ∈ out -> a ∈ arts ∧ norm_title a ≠ [].
Proof.
  intros arts out.
  assert (H : @_deduplicate_articles keep_order_runtime arts = Ok out)
    by (vm_compute; reflexivity).
  split; [exact H | exact (@dedup_unique_titles keep_order_runtime arts out H)].
Defined.

Lemma dedup_keeps_first_witness :
  let arts := [rbi_finnhub; rbi_marketaux; t1_item] in
  let out := [t1_item; rbi_finnhub] in
  @_deduplicate_articles keep_order_runtime arts = Ok out
  ∧ ∀ a, a ∈ arts -> norm_title a ≠ [] ->
    ∃ b, b ∈ out ∧ norm_title b = norm_title a
         ∧ ∃ l1 l2, arts = l1 ++ b :: l2 ∧ ∀ z, z ∈ l1 -> norm_title z ≠ norm_title b.
Proof.
  intros arts out.
  assert (H : @_deduplicate_articles keep_order_runtime arts = Ok out)
    by (vm_compute; reflexivity).
  split; [exact H | exact (@dedup_keeps_first keep_order_runtime arts out H)].
Defined.

(** Witness of [sort_by_published_sorted] on three NewsData.io stories fetched in the order t2, t3, t1. *)
Lemma sort_by_published_sorted_witness :
  let u := [t2_item; t3_item; t1_item] in
  keys_uniform u
  ∧ @sort_by_published keep_order_runtime u ≡ₚ u
  ∧ StronglySorted published_after_eq (@sort_by_published keep_order_runtime u)
  ∧ ∀ t, filter (fun a => published_us a = Some t) (@sort_by_published keep_order_runtime u)
         = filter (fun a => published_us a = Some t) u.
Proof.
  intros u. assert (H : keys_uniform u) by (apply (bool_decide_unpack _); vm_compute; reflexivity).
  split; [exact H | exact (@sort_by_published_sorted keep_order_runtime u H)].
Defined.

(** Witness of [dedup_unparsable_keeps_order] on a NewsData.io story followed by an Alpha Vantage one. *)
Lemma dedup_unparsable_keeps_order_witness :
  let arts := [t2_item; av_item] in
  dedup_titles ∅ arts = Ok arts ∧ av_item ∈ arts ∧ key_opt av_item = None
  ∧ @_deduplicate_articles keep_order_runtime arts = Ok arts.
Proof.
  intros arts.
  assert (H1 : dedup_titles ∅ arts = Ok arts) by (vm_compute; reflexivity).
  assert (H2 : av_item ∈ arts) by (right; left).
  assert (H3 : key_opt av_item = None) by (vm_compute; reflexivity).
  split; [exact H1|]. split; [exact H2|]. split; [exact H3|].
  exact (@dedup_unparsable_keeps_order keep_order_runtime arts arts av_item H1 H2 H3).
Defined.

(** Witness of [fetch_all_news_bounds] with limit 2 on the three NewsData.io and Finnhub stories. *)
Lemma fetch_all_news_bounds_witness :
  let ad := fixed_adapters [t2_item; t3_item] [t1_item] [] [] in
  (0 <= 2)%Z
  ∧ @fetch_all_news ad keep_order_runtime 2 = Ok [t1_item; t2_item]
  ∧ length [t1_item; t2_item] ≤ Z.to_nat 2 ∧ NoDup (norm_title <$> [t1_item; t2_item]).
Proof.
  intros ad. assert (H1 : (0 <= 2)%Z) by lia.
  assert (H2 : @fetch_all_news ad keep_order_runtime 2 = Ok [t1_item; t2_item])
    by (vm_compute; reflexivity).
  split; [exact H1|]. split; [exact H2|].
  exact (@fetch_all_news_bounds ad keep_order_runtime 2 _ H1 H2).
Defined.

(** Witness of [fetch_sector_news_relevant] on the Food Processing sector. *)
Lemma fetch_sector_news_relevant_witness :
  let ad := fixed_adapters [t1_item] [t3_item] [] [] in
  @fetch_sector_news ad (str_of "Food Processing") 20 = Ok [t1_item]
  ∧ ∀ a, a ∈ [t1_item] -> ∃ k s, k ∈ sector_keywords_get (str_of "Food Processing")
    ∧ (a_title a = VStr s ∨ a_description a = VStr s ∨ a_content a = VStr s)
    ∧ py_contains (py_lower k) (py_lower s) = true.
Proof.
  intros ad.
  assert (H : @fetch_sector_news ad (str_of "Food Processing") 20 = Ok [t1_item])
    by (vm_compute; reflexivity).
  split; [exact H | exact (@fetch_sector_news_relevant ad _ 20 _ H)].
Defined.

(** Witness of [sort_by_published_abort]: a NewsData.io and a MarketAux
    story. *)
Lemma sort_by_published_abort_witness :
  @sort_by_published keep_order_runtime [t2_item; rbi_marketaux]
  = @sort_abort_state keep_order_runtime [t2_item; rbi_marketaux].
Proof.
  apply (proj2 (@sort_by_published_abort keep_order_runtime _)).
  - repeat constructor; unfold is_Some; eexists; reflexivity.
  - exists t2_item. eexists. split; [left|reflexivity].
  - exists rbi_marketaux. eexists. split; [right; left|reflexivity].
Defined.
