(* ===== verification/Adapters.v ===== *)
(** * The four provider adapters of [NewsAggregator]

    [src/script_4.py] lines 18-151: [fetch_newsdata_io],
    [fetch_finnhub], [fetch_alpha_vantage] and [fetch_marketaux].  Each
    copies the [params] dict of its [NEWS_APIS] entry, adds the caller's
    keywords, calls [requests.get], and on status 200 turns every item of
    the JSON payload into an article dict with [item.get(key, default)].
    The whole body is inside [try/except Exception], so any exception
    (a raised request, a body that is not JSON, a payload of the wrong
    shape) yields [[]].

    The network and the process are an input, [NewsWorld]: the
    environment the API keys are read from, the response [requests.get]
    gives for a URL, parameters and timeout, and the UTC offset of the
    local time zone at each instant, which [datetime.fromtimestamp]
    uses (it changes with daylight saving time).  [world_adapters] instantiates the
    aggregator's [NewsAdapters] interface with these four functions, so
    every theorem of [News] applies to them.

    The theorems: an adapter that fails yields no article; a well-formed
    NewsData.io payload is decoded field by field (encoding an article as
    the provider's JSON and decoding it gives it back); one malformed
    item loses the whole batch; Alpha Vantage never yields more than ten
    articles; Finnhub's timestamps are naive and MarketAux's aware, which
    is what makes the aggregator's sort raise. *)

From S2P Require Import Prelude PyStr PyObj PyDatetime Config News.

(** What [requests.get(...)] produced: an exception (timeout, connection
    error), or a response with its status and its body decoded by
    [response.json()] ([None] when the body is not JSON). *)
Inductive http_response : Type :=
  | HttpRaised
  | HttpResponse (status_code : Z) (json_body : option pyval).

Class NewsWorld : Type := {
  env : pystr -> option pystr;
  http_get : pystr -> list (pystr * pyval) -> Z -> http_response;
  local_utc_offset : Z -> Z   (** seconds east of UTC of the local time zone at an instant *)
}.

(** [params[k] = v] on a dict kept in insertion order. *)
Definition dict_set (k : pystr) (v : pyval) (d : list (pystr * pyval)) : list (pystr * pyval) :=
  if existsb (fun kv => bool_decide (kv.1 = k)) d
  then (fun kv => if bool_decide (kv.1 = k) then (k, v) else kv) <$> d
  else d ++ [(k, v)].

(** [if response.status_code == 200: data = response.json(); ...
    else: return []], all inside [try: ... except Exception: return []]. *)
Definition on_success (r : http_response) (k : pyval -> exc (list article)) : list article :=
  py_try
    (match r with
     | HttpRaised => Raise RequestError
     | HttpResponse code body =>
         if (code =? 200)%Z then
           match body with Some data => k data | None => Raise ValueError end
         else Ok []
     end)
    (fun _ => []).

(** A JSON number as Python sees it ([bool] is a subclass of [int]). *)
Definition py_number (v : pyval) : option Z :=
  match v with VNum n => Some n | VBool b => Some (if b then 1 else 0)%Z | _ => None end.

(** [datetime.fromtimestamp(v).isoformat()] in the local time zone,
    whose offset from UTC depends on the instant (daylight saving time):
    [TypeError] for a non-number, [ValueError] outside years 1-9999. *)
Definition fromtimestamp_isoformat (offset : Z -> Z) (v : pyval) : exc pystr :=
  match py_number v with
  | Some n =>
      let local := (n + offset n)%Z in
      let y := year_of_seconds local in
      if (1 <=? y)%Z && (y <=? 9999)%Z then Ok (isoformat_seconds local)
      else Raise ValueError
  | None => Raise TypeError
  end.

Abbreviation s_ := (fun x => VStr (str_of x)).

Module Impl.

(** Lines 18-49. *)
Definition newsdata_category (item : pyval) : exc pyval :=
  c ← py_get item (str_of "category") VNone;
  if py_truthy c then
    c' ← py_get item (str_of "category") (VList [s_ "business"]); py_index0 c'
  else Ok (s_ "business").

Definition newsdata_article (item : pyval) : exc article :=
  title ← py_get item (str_of "title") (VStr []);
  description ← py_get item (str_of "description") (VStr []);
  content ← py_get item (str_of "content") (VStr []);
  url ← py_get item (str_of "link") (VStr []);
  published ← py_get item (str_of "pubDate") (VStr []);
  source_name ← py_get item (str_of "source_id") (VStr []);
  category ← newsdata_category item;
  mret (mk_article (str_of "NewsData.io") title description content url published
          source_name category None).

Definition fetch_newsdata_io `{NewsWorld} (query_keywords : list pystr) : list article :=
  let cfg := news_api env Newsdata in
  let params :=
    if bool_decide (query_keywords ≠ [])
    then dict_set (str_of "q") (VStr (py_join (str_of " OR ") (py_slice_to 5 query_keywords)))
           (api_params cfg)
    else api_params cfg in
  on_success (http_get (api_url cfg) params 10)
    (fun data =>
       results ← py_get data (str_of "results") (VList []);
       items ← py_iter results;
       exc_map newsdata_article items).

(** Lines 51-82. *)
Definition finnhub_article `{NewsWorld} (item : pyval) : exc article :=
  title ← py_get item (str_of "headline") (VStr []);
  description ← py_get item (str_of "summary") (VStr []);
  content ← py_get item (str_of "summary") (VStr []);
  url ← py_get item (str_of "url") (VStr []);
  ts ← py_get item (str_of "datetime") (VNum 0);
  published ← fromtimestamp_isoformat local_utc_offset ts;
  source_name ← py_get item (str_of "source") (VStr []);
  mret (mk_article (str_of "Finnhub") title description content url (VStr published)
          source_name (s_ "financial") None).

Definition fetch_finnhub `{NewsWorld} (symbol : option pystr) : list article :=
  let cfg := news_api env Finnhub in
  let params :=
    match symbol with
    | Some sym => if bool_decide (sym ≠ []) then dict_set (str_of "symbol") (VStr sym) (api_params cfg)
                  else api_params cfg
    | None => api_params cfg
    end in
  on_success (http_get (api_url cfg) params 10)
    (fun articles_data => items ← py_iter articles_data; exc_map finnhub_article items).

(** Lines 84-118. *)
Definition alpha_article (item : pyval) : exc article :=
  title ← py_get item (str_of "title") (VStr []);
  description ← py_get item (str_of "summary") (VStr []);
  content ← py_get item (str_of "summary") (VStr []);
  url ← py_get item (str_of "url") (VStr []);
  published ← py_get item (str_of "time_published") (VStr []);
  source_name ← py_get item (str_of "source") (VStr []);
  sentiment ← py_get item (str_of "overall_sentiment_label") (s_ "neutral");
  score ← py_get item (str_of "overall_sentiment_score") (VNum 0);
  mret (mk_article (str_of "Alpha Vantage") title description content url published
          source_name (s_ "market_sentiment") (Some (sentiment, score))).

Definition fetch_alpha_vantage `{NewsWorld} (topics : list pystr) : list article :=
  let cfg := news_api env AlphaVantage in
  let params :=
    if bool_decide (topics ≠ [])
    then dict_set (str_of "topics") (VStr (py_join (str_of ",") (py_slice_to 3 topics)))
           (api_params cfg)
    else api_params cfg in
  on_success (http_get (api_url cfg) params 15)
    (fun data =>
       feed ← py_get data (str_of "feed") (VList []);
       first10 ← py_slice_val 10 feed;
       items ← py_iter first10;
       exc_map alpha_article items).

(** Lines 120-151. *)
Definition marketaux_article (item : pyval) : exc article :=
  title ← py_get item (str_of "title") (VStr []);
  description ← py_get item (str_of "description") (VStr []);
  content ← py_get item (str_of "snippet") (VStr []);
  url ← py_get item (str_of "url") (VStr []);
  published ← py_get item (str_of "published_at") (VStr []);
  source_name ← py_get item (str_of "source") (VStr []);
  mret (mk_article (str_of "MarketAux") title description content url published
          source_name (s_ "market_news") None).

Definition fetch_marketaux `{NewsWorld} (keywords : list pystr) : list article :=
  let cfg := news_api env Marketaux in
  let params :=
    if bool_decide (keywords ≠ [])
    then dict_set (str_of "search") (VStr (py_join (str_of " ") (py_slice_to 3 keywords)))
           (api_params cfg)
    else api_params cfg in
  on_success (http_get (api_url cfg) params 10)
    (fun data =>
       items_v ← py_get data (str_of "data") (VList []);
       items ← py_iter items_v;
       exc_map marketaux_article items).

End Impl.

(** The aggregator's adapters are these four functions. *)
#[export] Instance world_adapters `{NewsWorld} : NewsAdapters := {|
  News.fetch_newsdata_io := Impl.fetch_newsdata_io;
  News.fetch_finnhub := Impl.fetch_finnhub;
  News.fetch_alpha_vantage := Impl.fetch_alpha_vantage;
  News.fetch_marketaux := Impl.fetch_marketaux
|}.

(** ** A NewsData.io payload *)

(** The fields of one NewsData.io result, and the JSON object the
    provider sends for it. *)
Record newsdata_fields : Type := mk_newsdata_fields {
  nd_title : pystr; nd_description : pystr; nd_content : pystr; nd_link : pystr;
  nd_pubDate : pystr; nd_source_id : pystr; nd_category : list pystr
}.

Definition newsdata_json (f : newsdata_fields) : pyval :=
  VDict [(str_of "title", VStr (nd_title f)); (str_of "description", VStr (nd_description f));
         (str_of "content", VStr (nd_content f)); (str_of "link", VStr (nd_link f));
         (str_of "pubDate", VStr (nd_pubDate f)); (str_of "source_id", VStr (nd_source_id f));
         (str_of "category", VList (VStr <$> nd_category f))].

(** The article the adapter should make of it. *)
Definition newsdata_expected (f : newsdata_fields) : article :=
  mk_article (str_of "NewsData.io") (VStr (nd_title f)) (VStr (nd_description f))
    (VStr (nd_content f)) (VStr (nd_link f)) (VStr (nd_pubDate f)) (VStr (nd_source_id f))
    (match nd_category f with c :: _ => VStr c | [] => s_ "business" end) None.

(** A request failed: it raised, or the status is not 200, or the body
    is not JSON. *)
Definition response_failed (r : http_response) : Prop :=
  r = HttpRaised ∨ ∃ c b, r = HttpResponse c b ∧ (c ≠ 200%Z ∨ b = None).

(** ** Lemmas *)

Lemma on_success_failed r k : response_failed r -> on_success r k = [].
Proof.
  intros [Hr|(c & b & Hr & Hcb)]; subst r; [done|].
  unfold on_success, py_try. destruct Hcb as [Hc|Hb].
  - by rewrite (proj2 (Z.eqb_neq _ _) Hc).
  - subst b. by destruct (c =? 200)%Z.
Qed.

Lemma newsdata_article_json f : Impl.newsdata_article (newsdata_json f) = Ok (newsdata_expected f).
Proof.
  destruct f as [t d c l p s [|cat cats]]; vm_compute; reflexivity.
Qed.

Lemma py_get_single k v d : py_get (VDict [(k, v)]) k d = Ok v.
Proof. unfold py_get. simpl. by rewrite decide_True. Qed.

Lemma on_success_ind (P : list article -> Prop) r k :
  P [] -> (∀ data out, k data = Ok out -> P out) -> P (on_success r k).
Proof.
  intros Hnil Hok. unfold on_success, py_try.
  destruct r as [|c [data|]]; [done| |by destruct (c =? 200)%Z].
  destruct (c =? 200)%Z; [|done]. destruct (k data) eqn:E; [by eapply Hok|done].
Qed.

Lemma py_slice_iter_length n v w items :
  (0 <= n)%Z -> py_slice_val n v = Ok w -> py_iter w = Ok items -> length items ≤ Z.to_nat n.
Proof.
  intros Hn Hs Hi. destruct v; simplify_eq/=; simplify_eq/=;
    rewrite ?length_fmap; by apply length_py_slice_to.
Qed.

(** ** Concrete worlds for the witnesses *)

(** No API key is set; each provider's endpoint answers with the given
    response; the local time zone is IST (UTC+05:30). *)
Definition demo_world (nd fh av mx : http_response) : NewsWorld := {|
  env := fun _ => None;
  http_get := fun url _ _ =>
    if bool_decide (url = api_url (news_api (fun _ => None) Newsdata)) then nd
    else if bool_decide (url = api_url (news_api (fun _ => None) Finnhub)) then fh
    else if bool_decide (url = api_url (news_api (fun _ => None) AlphaVantage)) then av
    else mx;
  local_utc_offset := fun _ => 19800%Z
|}.

Definition ok_json (v : pyval) : http_response := HttpResponse 200 (Some v).

(** Every endpoint answers with the same response. *)
Definition const_world (r : http_response) : NewsWorld :=
  {| env := fun _ => None; http_get := fun _ _ _ => r; local_utc_offset := fun _ => 19800%Z |}.

Definition sample_fields : newsdata_fields :=
  mk_newsdata_fields (str_of "Dairy exports rise") (str_of "Monsoon demand") []
    (str_of "https://example.org/dairy") (str_of "2024-01-15 10:30:00") (str_of "et")
    [str_of "business"; str_of "food"].

Definition nd_result (title : pyval) (pub : string) : pyval :=
  VDict [(str_of "title", title); (str_of "description", s_ "Monsoon demand");
         (str_of "pubDate", s_ pub); (str_of "category", VList [s_ "business"])].

Definition fh_item (headline : string) (ts : Z) : pyval :=
  VDict [(str_of "headline", s_ headline); (str_of "summary", s_ "Rates");
         (str_of "datetime", VNum ts); (str_of "source", s_ "Reuters")].

Definition mx_item (title pub : string) : pyval :=
  VDict [(str_of "title", s_ title); (str_of "snippet", s_ "Markets");
         (str_of "published_at", s_ pub)].

Definition down : http_response := HttpResponse 401 None.

(** ** Theorems *)

(** C25. When every request fails (it raises, returns a status other than
    200, or a body that is not JSON), each adapter returns [[]] and both
    entry points return an empty list without raising: the design's
    "all four news adapters return zero articles" scenario. *)
Theorem all_sources_down `{NewsWorld} `{ListSortRuntime} limit sector :
  (∀ url ps t, response_failed (http_get url ps t)) ->
  fetch_all_news limit = Ok [] ∧ fetch_sector_news sector limit = Ok [].
Proof.
  intros Hdown.
  assert (Hnd : ∀ kws, Impl.fetch_newsdata_io kws = []) by (intros; apply on_success_failed, Hdown).
  assert (Hfh : ∀ s, Impl.fetch_finnhub s = []) by (intros; apply on_success_failed, Hdown).
  assert (Hav : ∀ t, Impl.fetch_alpha_vantage t = []) by (intros; apply on_success_failed, Hdown).
  assert (Hmx : ∀ kws, Impl.fetch_marketaux kws = []) by (intros; apply on_success_failed, Hdown).
  unfold fetch_all_news, fetch_sector_news. cbn [News.fetch_newsdata_io News.fetch_finnhub
    News.fetch_alpha_vantage News.fetch_marketaux world_adapters].
  rewrite !Hnd, !Hfh, !Hav, !Hmx. cbn. by rewrite !py_slice_to_nil.
Qed.

(** Round trip of the NewsData.io normalisation: when the provider
    answers 200 with [{"results": [...]}] holding the JSON of some
    results, the adapter returns exactly one article per result, in
    order, with [title], [description], [content], [link], [pubDate],
    [source_id] copied and the first category (or "business"). *)
Theorem newsdata_roundtrip `{NewsWorld} kws (fs : list newsdata_fields) :
  (∀ url ps t, http_get url ps t
     = HttpResponse 200 (Some (VDict [(str_of "results", VList (newsdata_json <$> fs))]))) ->
  Impl.fetch_newsdata_io kws = newsdata_expected <$> fs.
Proof.
  intros Hget. unfold Impl.fetch_newsdata_io. rewrite Hget.
  unfold on_success. rewrite Z.eqb_refl. rewrite py_get_single.
  cbn [mbind exc_bind py_iter].
  rewrite (exc_map_fmap_ok _ _ newsdata_expected) by apply newsdata_article_json.
  reflexivity.
Qed.

(** All or nothing: when one item of the NewsData.io [results] is
    not a JSON object, [item.get] raises inside the loop and the adapter
    returns no article at all, however many good items the payload
    held. *)
Theorem newsdata_malformed_item_drops_batch `{NewsWorld} kws items x :
  (∀ url ps t, http_get url ps t
     = HttpResponse 200 (Some (VDict [(str_of "results", VList items)]))) ->
  x ∈ items -> (∀ kvs, x ≠ VDict kvs) ->
  Impl.fetch_newsdata_io kws = [].
Proof.
  intros Hget Hx Hnd. unfold Impl.fetch_newsdata_io. rewrite Hget.
  unfold on_success. rewrite Z.eqb_refl, py_get_single. cbn [mbind exc_bind py_iter].
  destruct (exc_map_raise Impl.newsdata_article items x AttributeError) as [e ->]; [done| |done].
  unfold Impl.newsdata_article. destruct x; try done. by destruct (Hnd kvs).
Qed.

(** [fetch_alpha_vantage] keeps at most the first ten items of the
    feed ([feed[:10]]), whatever the provider sends. *)
Theorem alpha_vantage_at_most_ten `{NewsWorld} topics :
  length (Impl.fetch_alpha_vantage topics) ≤ 10.
Proof.
  unfold Impl.fetch_alpha_vantage. apply on_success_ind; [simpl; lia|].
  intros data out Hk.
  destruct (py_get data _ _) as [feed|]; [|done]. cbn [mbind exc_bind] in Hk.
  destruct (py_slice_val 10 feed) as [w|] eqn:Hw; [|done]. cbn [mbind exc_bind] in Hk.
  destruct (py_iter w) as [items|] eqn:Hi; [|done]. cbn [mbind exc_bind] in Hk.
  rewrite (length_exc_map _ _ _ Hk). by apply (py_slice_iter_length 10 feed w).
Qed.

(** End to end: NewsData.io sends a result whose ["title"] is
    [null]; the adapter copies it as [None], and [fetch_all_news] then
    raises [AttributeError] from [.lower()], although MarketAux answered
    normally and the other providers failed cleanly. *)
Example null_title_aborts_fetch_all_news :
  ∀ rt : ListSortRuntime,
  let w := demo_world (ok_json (VDict [(str_of "results", VList [nd_result VNone "2024-01-15 10:30:00"])]))
             down down (ok_json (VDict [(str_of "data",
                VList [mx_item "Textile exports climb" "2024-01-15T08:00:00.000000Z"])])) in
  @fetch_all_news (@world_adapters w) rt 30 = Raise AttributeError.
Proof. intros rt. vm_compute. reflexivity. Qed.

(** End to end: Finnhub's integer timestamp becomes a naive
    [isoformat()] string and MarketAux's ["...Z"] an aware one; with both
    present the keys of the sort are not one comparable family, and
    [fetch_all_news] returns the order the interrupted sort left. *)
Example finnhub_marketaux_mixed_keys :
  let w := demo_world down (ok_json (VList [fh_item "RBI holds repo rate" 1705314600]))
             down (ok_json (VDict [(str_of "data",
                VList [mx_item "Textile exports climb" "2024-01-15T08:00:00.000000Z"])])) in
  let u := @Impl.fetch_finnhub w None ++ @Impl.fetch_marketaux w [] in
  (published_us <$> u) = [Some 1705334400000000%Z; Some 1705305600000000%Z]
  ∧ (uniform_keys <$> mapM key_opt u) = Some None
  ∧ ∀ rt : ListSortRuntime,
      @fetch_all_news (@world_adapters w) rt 50 = Ok (py_slice_to 50 (sort_abort_state u)).
Proof. vm_compute. split; [reflexivity|]. split; [reflexivity|]. intros rt. reflexivity. Qed.

(** ** Witnesses *)

(** [all_sources_down] when every endpoint answers 401 with no JSON. *)
Lemma all_sources_down_witness :
  let w := const_world down in
  (∀ url ps t, response_failed (@http_get w url ps t))
  ∧ @fetch_all_news (@world_adapters w) keep_order_runtime 30 = Ok []
  ∧ @fetch_sector_news (@world_adapters w) (str_of "Textiles") 30 = Ok [].
Proof.
  intros w.
  assert (H : ∀ url ps t, response_failed (@http_get w url ps t)).
  { intros url ps t. right. exists 401%Z, None. split; [reflexivity|left; lia]. }
  split; [exact H|]. exact (@all_sources_down w keep_order_runtime 30 (str_of "Textiles") H).
Defined.

(** [newsdata_roundtrip] on one result with two categories. *)
Lemma newsdata_roundtrip_witness :
  let w := const_world (ok_json (VDict [(str_of "results",
             VList (newsdata_json <$> [sample_fields]))])) in
  (∀ url ps t, @http_get w url ps t
     = HttpResponse 200 (Some (VDict [(str_of "results",
         VList (newsdata_json <$> [sample_fields]))])))
  ∧ @Impl.fetch_newsdata_io w [] = newsdata_expected <$> [sample_fields].
Proof.
  intros w.
  assert (H : ∀ url ps t, @http_get w url ps t
     = HttpResponse 200 (Some (VDict [(str_of "results",
         VList (newsdata_json <$> [sample_fields]))]))) by (intros; reflexivity).
  split; [exact H|]. exact (@newsdata_roundtrip w [] [sample_fields] H).
Defined.

(** [newsdata_malformed_item_drops_batch] on a good result followed by
    a bare string. *)
Lemma newsdata_malformed_item_drops_batch_witness :
  let items := [newsdata_json sample_fields; s_ "oops"] in
  let w := const_world (ok_json (VDict [(str_of "results", VList items)])) in
  (∀ url ps t, @http_get w url ps t
     = HttpResponse 200 (Some (VDict [(str_of "results", VList items)])))
  ∧ s_ "oops" ∈ items ∧ (∀ kvs, s_ "oops" ≠ VDict kvs)
  ∧ @Impl.fetch_newsdata_io w [] = [].
Proof.
  intros items w.
  assert (H1 : ∀ url ps t, @http_get w url ps t
     = HttpResponse 200 (Some (VDict [(str_of "results", VList items)]))) by (intros; reflexivity).
  assert (H2 : s_ "oops" ∈ items) by (right; left).
  assert (H3 : ∀ kvs, s_ "oops" ≠ VDict kvs) by (intros kvs; discriminate).
  split; [exact H1|]. split; [exact H2|]. split; [exact H3|].
  exact (@newsdata_malformed_item_drops_batch w [] items _ H1 H2 H3).
Defined.
