(* ===== verification/Store.v ===== *)
(** * The vector store ([MSMEVectorStore], [src/script_5.py])

    A Chroma collection holds records: an id, a document text and a
    metadata map whose values are strings, ints, floats or bools.  The
    store is filled with the companies of the CSV files ([Companies]
    models [load_company_data]) and with news articles
    ([add_news_articles], lines 72-114, with the document text of
    [_create_news_document], lines 238-258), searches it
    ([search_similar], lines 116-142, and [search_by_sector], lines
    144-150) and reports statistics ([get_collection_stats], lines
    260-283).

    Chroma itself (chromadb 0.4.18, pinned in [src/script_2.py]) is a
    library: [collection_add] and [collection_query] model the behaviour
    the code relies on (id and metadata validation, existing ids skipped,
    the [where] equality filter), and the embedding search is the
    interface [SimilaritySearch]: a ranking that returns at most [n] of
    the candidate records, each at most once, closest first.  The
    instance [exact_knn] shows the interface is met by an exact
    nearest-neighbour search.

    The theorems: the ids of the collection stay unique; every search
    hit is a record of the collection that passes the filter, and hits
    have distinct ids; adding articles is all-or-nothing, and one
    article whose field Chroma cannot store loses the whole batch. *)

From stdpp Require Import sorting.
From S2P Require Import Prelude PyStr PyObj News.

(** ** Collection records *)

(** Metadata values Chroma accepts. *)
Inductive mval : Type :=
  | MStr (s : pystr)
  | MInt (z : Z)
  | MFloat (f : pyfloat)
  | MBool (b : bool).

#[export] Instance mval_eq_dec : EqDecision mval.
Proof. solve_decision. Defined.

Abbreviation metadata := (list (pystr * mval)).

Record entry : Type := mk_entry {
  e_id : pystr;
  e_document : pystr;
  e_metadata : metadata
}.

(** The persistent collection [MSMEVectorStore.collection]. *)
Record vstore : Type := mk_vstore { vs_entries : list entry }.

(** A metadata value on the Python side, before Chroma checks it. *)
Inductive pmeta : Type :=
  | PVal (v : pyval)
  | PFloat (f : pyfloat).

(** [validate_metadata]: a value must be a str, int, float or bool. *)
Definition chroma_value (x : pmeta) : exc mval :=
  match x with
  | PFloat f => Ok (MFloat f)
  | PVal (VStr s) => Ok (MStr s)
  | PVal (VNum z) => Ok (MInt z)
  | PVal (VBool b) => Ok (MBool b)
  | PVal _ => Raise ValueError
  end.

(** A metadata map must be non-empty and hold only such values. *)
Definition validate_metadata (md : list (pystr * pmeta)) : exc metadata :=
  if bool_decide (md = []) then Raise ValueError
  else exc_map (fun kv => v ← chroma_value kv.2; mret (kv.1, v)) md.

(** [collection.add(documents, metadatas, ids)]: the ids must be a
    non-empty list without duplicates ([DuplicateIDError]), every
    metadata map valid; records whose id already exists are skipped
    with a warning. *)
Definition collection_add (docs : list pystr) (mds : list (list (pystr * pmeta)))
    (ids : list pystr) (st : vstore) : exc vstore :=
  if bool_decide (ids = []) then Raise ValueError
  else if bool_decide (NoDup ids) then
    mds' ← exc_map validate_metadata mds;
    let batch := zip_with (fun i dm => mk_entry i dm.1 dm.2) ids (zip docs mds') in
    mret (mk_vstore (vs_entries st
                     ++ filter (fun e => e_id e ∉ e_id <$> vs_entries st) batch))
  else Raise ValueError.

(** ** The embedding search *)

(** What the nearest-neighbour index promises (the design's
    [search(query, limit, filter)] contract): at most [n] of the
    candidates, each at most once, with their distances ascending. *)
Class SimilaritySearch : Type := {
  knn : pystr -> nat -> list entry -> list (entry * Z);
  knn_submseteq q n es : fst <$> knn q n es ⊆+ es;
  knn_length q n es : length (knn q n es) ≤ n;
  knn_sorted q n es : StronglySorted (fun a b => (a.2 <= b.2)%Z) (knn q n es)
}.

(** The [where] clause [{key: value, ...}]: equality on each key. *)
Definition matches_where (w : metadata) (e : entry) : bool :=
  forallb (fun kv => bool_decide (assoc_get kv.1 (e_metadata e) = Some kv.2)) w.

(** The dict [collection.query] returns for one query text. *)
Record qresult : Type := mk_qresult {
  qr_ids : list (list pystr);
  qr_documents : list (list pystr);
  qr_metadatas : list (list metadata);
  qr_distances : option (list (list Z))
}.

(** [collection.query(query_texts=[q], n_results=n, where=w)];
    [n_results] must be positive. *)
Definition collection_query `{SimilaritySearch} (st : vstore) (q : pystr) (n : Z)
    (w : metadata) : exc qresult :=
  if (n <=? 0)%Z then Raise TypeError else
  let hits := knn q (Z.to_nat n) (filter (fun e => matches_where w e = true) (vs_entries st)) in
  mret (mk_qresult [e_id ∘ fst <$> hits] [e_document ∘ fst <$> hits]
          [e_metadata ∘ fst <$> hits] (Some [snd <$> hits])).

(** ** [search_similar] and [search_by_sector] *)

(** One formatted hit: [{"document", "metadata", "distance", "id"}]. *)
Record sresult : Type := mk_sresult {
  sr_document : pystr;
  sr_metadata : metadata;
  sr_distance : option Z;
  sr_id : pystr
}.

(** [l[i]] *)
Definition py_index {A} (l : list A) (i : nat) : exc A :=
  match l !! i with Some x => Ok x | None => Raise IndexError end.

(** Lines 131-140. *)
Definition format_results (r : qresult) : exc (list sresult) :=
  match qr_documents r with
  | [] | [] :: _ => mret []
  | docs0 :: _ =>
      exc_map (fun i =>
        d ← py_index docs0 i;
        ms ← py_index (qr_metadatas r) 0; m ← py_index ms i;
        dist ← (match qr_distances r with
                | Some (ds :: dss) => ds0 ← py_index (ds :: dss) 0; Some <$> py_index ds0 i
                | _ => mret None
                end);
        ids0 ← py_index (qr_ids r) 0; id ← py_index ids0 i;
        mret (mk_sresult d m dist id))
        (seq 0 (length docs0))
  end.

(** Lines 116-142.  [filter_dict] is [None] or a dict; an empty one
    means no [where] clause, as [None] does. *)
Definition search_similar `{SimilaritySearch} (st : vstore) (query : pystr) (n_results : Z)
    (filter_dict : metadata) : exc (list sresult) :=
  results ← collection_query st query n_results filter_dict;
  format_results results.

(** Lines 144-150. *)
Definition search_by_sector `{SimilaritySearch} (st : vstore) (query sector : pystr)
    (n_results : Z) : exc (list sresult) :=
  search_similar st query n_results [(str_of "sector", MStr sector)].

(** ** News records *)

(** Lines 238-258. *)
Definition _create_news_document (a : article) : pystr :=
  let when (v : pyval) (label : string) := if py_truthy v then [str_of label ++ py_str v] else [] in
  py_join (str_of " | ")
    ([str_of "Title: " ++ py_str (a_title a);
      str_of "Source: " ++ py_str (a_source_name a);
      str_of "Category: " ++ py_str (a_category a)]
     ++ when (a_description a) "Description: "
     ++ when (a_content a) "Content: "
     ++ when (a_published_at a) "Published: "
     ++ match a_sentiment a with
        | Some (lab, score) =>
            if py_truthy lab
            then [str_of "Sentiment: " ++ py_str lab ++ str_of " (Score: " ++ py_str score
                  ++ str_of ")"]
            else []
        | None => []
        end).

(** Lines 88-101: the metadata dict of one article. *)
Definition news_metadata (a : article) : exc (list (pystr * pmeta)) :=
  title ← py_slice_val 100 (a_title a);
  let base := [(str_of "type", PVal (VStr (str_of "news")));
               (str_of "source", PVal (VStr (a_source a)));
               (str_of "title", PVal title);
               (str_of "category", PVal (a_category a));
               (str_of "published_at", PVal (a_published_at a));
               (str_of "url", PVal (a_url a));
               (str_of "source_name", PVal (a_source_name a))] in
  match a_sentiment a with
  | None => mret base
  | Some (lab, score) =>
      f ← py_float score;
      mret (base ++ [(str_of "sentiment", PVal lab); (str_of "sentiment_score", PFloat f)])
  end.

Definition news_id (uuid_hex : nat -> pystr) (i : nat) : pystr := str_of "news_" ++ uuid_hex i.

(** Lines 72-114; [uuid_hex i] is [uuid.uuid4().hex] at the [i]-th
    article of the call. *)
Definition add_news_articles (uuid_hex : nat -> pystr) (articles : list article) (st : vstore)
    : exc vstore :=
  if bool_decide (articles = []) then mret st else
  mds ← exc_map news_metadata articles;
  collection_add (_create_news_document <$> articles) mds
    (news_id uuid_hex <$> seq 0 (length articles)) st.

(** ** [get_collection_stats] *)

(** [COLLECTION_NAME] of [src/config.py] line 68. *)
Definition COLLECTION_NAME : pystr := str_of "msme_knowledge_base".

(** The number a metadata value denotes when Python compares it with
    numbers ([bool], [int] and finite [float] compare by value), as a
    sign, a mantissa without trailing zeros and an exponent. *)
Definition num_value (v : mval) : option (bool * N * Z) :=
  let norm neg m e :=
    if (m =? 0)%N then (false, 0%N, 0%Z)
    else let '(m', e') := normalize_dec (N.size_nat m) m e in (neg, m', e') in
  match v with
  | MInt z => Some (norm (z <? 0)%Z (Z.abs_N z) 0%Z)
  | MBool b => Some (norm false (if b then 1 else 0)%N 0%Z)
  | MFloat (FDec neg m e) => Some (norm neg m e)
  | _ => None
  end.

(** Equality of two dict keys: strings by content, numbers by value
    ([True == 1 == 1.0]); a NaN equals nothing. *)
Definition py_key_eq (a b : mval) : bool :=
  match a, b with
  | MStr s, MStr t => bool_decide (s = t)
  | MFloat (FInf n1), MFloat (FInf n2) => Bool.eqb n1 n2
  | _, _ =>
      match num_value a, num_value b with
      | Some x, Some y => bool_decide (x = y)
      | _, _ => false
      end
  end.

(** [types_count[k] = types_count.get(k, 0) + 1]; the dict keeps the
    key first inserted. *)
Fixpoint count_incr (k : mval) (d : list (mval * Z)) : list (mval * Z) :=
  match d with
  | [] => [(k, 1%Z)]
  | (k', c) :: r => if py_key_eq k' k then (k', (c + 1)%Z) :: r else (k', c) :: count_incr k r
  end.

(** [metadata.get("type", "unknown")] *)
Definition doc_type (md : metadata) : mval :=
  default (MStr (str_of "unknown")) (assoc_get (str_of "type") md).

(** Lines 271-275. *)
Definition sample_types (sample : qresult) : list (mval * Z) :=
  match qr_metadatas sample with
  | ms0 :: _ => foldl (fun d md => count_incr (doc_type md) d) [] ms0
  | [] => []
  end.

Inductive collection_stats : Type :=
  | Stats (total_documents : Z) (document_types : list (mval * Z)) (collection_name : pystr)
  | StatsError (e : pyexc).

(** Lines 260-283: [collection.count()] is the number of records; the
    sample query asks for [min(100, count)] results. *)
Definition get_collection_stats `{SimilaritySearch} (st : vstore) : collection_stats :=
  let collection_count := Z.of_nat (length (vs_entries st)) in
  match collection_query st (str_of "sample") (Z.min 100 collection_count) [] with
  | Ok sample => Stats collection_count (sample_types sample) COLLECTION_NAME
  | Raise e => StatsError e
  end.

(** ** Specification of the store *)

(** The invariant: record ids are unique in the collection. *)
Definition store_wf (st : vstore) : Prop := NoDup (e_id <$> vs_entries st).

(** The hits of a search, before formatting. *)
Definition search_hits `{SimilaritySearch} (st : vstore) (q : pystr) (n : Z) (w : metadata)
    : list (entry * Z) :=
  knn q (Z.to_nat n) (filter (fun e => matches_where w e = true) (vs_entries st)).

Definition to_sresult (h : entry * Z) : sresult :=
  mk_sresult (e_document h.1) (e_metadata h.1) (Some h.2) (e_id h.1).

(** The batch [collection.add] builds from ids and validated documents. *)
Definition add_batch (ids : list pystr) (dms : list (pystr * metadata)) : list entry :=
  zip_with (fun i dm => mk_entry i dm.1 dm.2) ids dms.

(** A value Chroma stores as metadata. *)
Definition storable (v : pyval) : bool :=
  match v with VStr _ | VNum _ | VBool _ => true | _ => false end.

(** An article whose metadata dict can be built and stored. *)
Definition news_storable (a : article) : bool :=
  is_str (a_title a) && storable (a_category a) && storable (a_published_at a)
  && storable (a_url a) && storable (a_source_name a)
  && match a_sentiment a with
     | Some (lab, score) => storable lab && match py_float score with Ok _ => true | _ => false end
     | None => true
     end.

Definition metadata_type_news : mval := MStr (str_of "news").

(** ** Lemmas *)

Lemma format_results_hits (hits : list (entry * Z)) :
  format_results (mk_qresult [e_id ∘ fst <$> hits] [e_document ∘ fst <$> hits]
                    [e_metadata ∘ fst <$> hits] (Some [snd <$> hits]))
  = Ok (to_sresult <$> hits).
Proof.
  destruct hits as [|h hs]; [done|]. unfold format_results.
  cbn [qr_documents qr_metadatas qr_distances qr_ids].
  destruct (e_document ∘ fst <$> h :: hs) as [|p l0] eqn:E; [done|].
  rewrite <-E, length_fmap. apply exc_map_seq. intros i x Hi. unfold py_index.
  cbn [lookup list_lookup Nat.add]. rewrite !list_lookup_fmap, Hi. cbn [mbind exc_bind]. rewrite !list_lookup_fmap, Hi. done.
Qed.

Lemma search_similar_ok `{SimilaritySearch} st q n w :
  (0 < n)%Z -> search_similar st q n w = Ok (to_sresult <$> search_hits st q n w).
Proof.
  intros Hn. unfold search_similar, collection_query.
  rewrite (proj2 (Z.leb_gt _ _)) by lia. cbn [mbind exc_bind mret exc_ret].
  apply format_results_hits.
Qed.

Lemma search_similar_inv `{SimilaritySearch} st q n w rs :
  search_similar st q n w = Ok rs -> (0 < n)%Z ∧ rs = to_sresult <$> search_hits st q n w.
Proof.
  destruct (Z.ltb_spec 0 n) as [Hn|Hn].
  - rewrite search_similar_ok by done. intros [= <-]. done.
  - unfold search_similar, collection_query. by rewrite (proj2 (Z.leb_le _ _)) by lia.
Qed.

Lemma search_hits_submseteq `{SimilaritySearch} st q n w :
  fst <$> search_hits st q n w ⊆+ filter (fun e => matches_where w e = true) (vs_entries st).
Proof. apply knn_submseteq. Qed.

Lemma filter_submseteq {A} (P : A -> Prop) `{∀ x, Decision (P x)} l : filter P l ⊆+ l.
Proof. apply sublist_submseteq, sublist_filter. Qed.

Lemma add_batch_ids_sublist ids dms : e_id <$> add_batch ids dms `sublist_of` ids.
Proof.
  revert dms; induction ids as [|i ids IH]; intros [|dm dms]; simpl;
    auto using sublist_nil_l, sublist_skip, sublist_cons.
Qed.

Lemma collection_add_inv docs mds ids st st' :
  collection_add docs mds ids st = Ok st' ->
  ∃ mds', exc_map validate_metadata mds = Ok mds' ∧ ids ≠ [] ∧ NoDup ids
          ∧ vs_entries st' = vs_entries st
               ++ filter (fun e => e_id e ∉ e_id <$> vs_entries st) (add_batch ids (zip docs mds')).
Proof.
  unfold collection_add. case_bool_decide; [done|]. case_bool_decide; [|done].
  destruct (exc_map validate_metadata mds) as [mds'|]; [|done].
  cbn [mbind exc_bind mret exc_ret]. intros [= <-]. eauto 10.
Qed.

Lemma collection_add_wf docs mds ids st st' :
  store_wf st -> collection_add docs mds ids st = Ok st' -> store_wf st'.
Proof.
  intros Hwf (mds' & _ & _ & Hnd & Heq)%collection_add_inv. unfold store_wf.
  rewrite Heq, fmap_app. apply NoDup_app. split_and!; [done| |].
  - intros x Hx (e & -> & He)%list_elem_of_fmap.
    apply list_elem_of_filter in He as [Hfresh _]. by apply Hfresh.
  - apply (sublist_NoDup _ (e_id <$> add_batch ids (zip docs mds'))).
    + by eapply sublist_NoDup; [|apply add_batch_ids_sublist].
    + apply fmap_sublist, sublist_filter.
Qed.

Lemma add_batch_ids ids dms : length dms = length ids -> e_id <$> add_batch ids dms = ids.
Proof.
  revert dms; induction ids as [|i ids IH]; intros [|dm dms] Hl; cbn in *; try done.
  f_equal. apply IH. lia.
Qed.

(** A successful add keeps the records there were and holds every id
    of the batch, new or already present. *)
Lemma collection_add_ids docs mds ids st st' :
  collection_add docs mds ids st = Ok st' -> length docs = length ids -> length mds = length ids ->
  vs_entries st `prefix_of` vs_entries st' ∧ ∀ i, i ∈ ids -> i ∈ e_id <$> vs_entries st'.
Proof.
  intros (mds' & Hm & _ & _ & Heq)%collection_add_inv Hd Hmd. rewrite Heq.
  split; [by eexists|]. intros i Hi. rewrite fmap_app, elem_of_app.
  destruct (decide (i ∈ e_id <$> vs_entries st)) as [|Hnew]; [by left|right].
  apply length_exc_map in Hm.
  rewrite <- (add_batch_ids ids (zip docs mds')) in Hi by (rewrite length_zip; lia).
  apply list_elem_of_fmap in Hi as (e & -> & He). apply list_elem_of_fmap. exists e.
  split; [done|]. by apply list_elem_of_filter.
Qed.

Lemma exc_map_lookup {A B} (f : A -> exc B) l ys i x :
  exc_map f l = Ok ys -> l !! i = Some x -> ∃ y, f x = Ok y ∧ ys !! i = Some y.
Proof.
  revert ys i; induction l as [|z l IH]; intros ys i Hm Hi; [done|]. simpl in Hm.
  destruct (f z) as [y|] eqn:Hz; [|done]. cbn [mbind exc_bind] in Hm.
  destruct (exc_map f l) as [ys'|] eqn:Hl; [|done]. injection Hm as <-.
  destruct i as [|i]; simpl in Hi |- *; [injection Hi as <-; eauto|eauto].
Qed.

Lemma chroma_value_ok v : (∃ m, chroma_value (PVal v) = Ok m) <-> storable v = true.
Proof. destruct v; simpl; split; intros; by eauto || destruct_and?; naive_solver. Qed.

Lemma py_slice_val_title v : (∃ t, py_slice_val 100 v = Ok t ∧ storable t = true) <-> is_str v = true.
Proof. destruct v; simpl; naive_solver. Qed.

Lemma validate_metadata_ok md :
  md ≠ [] ->
  (∃ m, validate_metadata md = Ok m) <-> Forall (fun kv => ∃ v, chroma_value kv.2 = Ok v) md.
Proof.
  intros Hmd. unfold validate_metadata. rewrite bool_decide_false by done.
  rewrite exc_map_ok_iff. apply Forall_iff. intros [k x]. simpl.
  destruct (chroma_value x); cbn [mbind exc_bind mret exc_ret]; naive_solver.
Qed.

Lemma exc_map_bind_ok {A B C} (f : A -> exc B) (g : B -> exc C) l :
  (∃ zs, (ys ← exc_map f l; exc_map g ys) = Ok zs)
  <-> Forall (fun x => ∃ z, (y ← f x; g y) = Ok z) l.
Proof.
  induction l as [|x l IH]; [split; eauto|]. rewrite Forall_cons, <-IH.
  cbn [exc_map]. destruct (f x) as [y|e]; cbn [mbind exc_bind];
    [|split; [intros [? ?]|intros [[? ?] _]]; done].
  destruct (exc_map f l) as [ys|e]; cbn [mbind exc_bind mret exc_ret];
    [|split; [intros [? ?]|intros [_ [? ?]]]; done].
  cbn [exc_map]. destruct (g y) as [z|e]; cbn [mbind exc_bind];
    [|split; [intros [? ?]|intros [[? ?] _]]; done].
  destruct (exc_map g ys) as [zs|e]; cbn [mbind exc_bind mret exc_ret];
    [split; eauto|split; [intros [? ?]|intros [_ [? ?]]]; done].
Qed.

Lemma validate_cons k x md :
  md ≠ [] ->
  (∃ m, validate_metadata ((k, x) :: md) = Ok m)
  <-> (∃ v, chroma_value x = Ok v) ∧ ∃ m, validate_metadata md = Ok m.
Proof. intros. rewrite !validate_metadata_ok, Forall_cons by done. done. Qed.

Lemma validate_single k x :
  (∃ m, validate_metadata [(k, x)] = Ok m) <-> ∃ v, chroma_value x = Ok v.
Proof. rewrite validate_metadata_ok, Forall_singleton by done. done. Qed.

Lemma ok_ex {A} (x : A) (P : A -> Prop) : (∃ y, Ok x = Ok y ∧ P y) <-> P x.
Proof. naive_solver. Qed.

Lemma bind_ok_ex {A B} (m : exc A) (k : A -> exc B) :
  (∃ z, (x ← m; k x) = Ok z) <-> ∃ x, m = Ok x ∧ ∃ z, k x = Ok z.
Proof. destruct m; cbn [mbind exc_bind]; naive_solver. Qed.

Lemma news_metadata_valid a :
  (∃ m, (md ← news_metadata a; validate_metadata md) = Ok m) <-> news_storable a = true.
Proof.
  rewrite bind_ok_ex. unfold news_metadata, news_storable.
  destruct (a_title a) as [| | |t|l|] eqn:Ht; cbn [py_slice_val is_str andb mbind exc_bind];
    try (split; [by intros (? & ? & _)|done]).
  all: destruct (a_sentiment a) as [[lab sc]|]; [destruct (py_float sc) eqn:Hf|];
    cbn [mbind exc_bind mret exc_ret app];
    try (split; [by intros (? & ? & _)|by rewrite ?andb_false_r]).
  all: rewrite ok_ex, !validate_cons, validate_single, ?chroma_value_ok by done.
  all: cbn [chroma_value storable]; rewrite ?andb_true_iff; naive_solver.
Qed.

Lemma collection_add_ok_iff docs mds ids st :
  ids ≠ [] ->
  (∃ st', collection_add docs mds ids st = Ok st')
  <-> NoDup ids ∧ ∃ m, exc_map validate_metadata mds = Ok m.
Proof.
  intros Hids. unfold collection_add. rewrite bool_decide_false by done.
  case_bool_decide; [|naive_solver].
  destruct (exc_map validate_metadata mds); cbn [mbind exc_bind mret exc_ret]; naive_solver.
Qed.

Lemma StronglySorted_take {A} (R : A -> A -> Prop) n l :
  StronglySorted R l -> StronglySorted R (take n l).
Proof.
  revert n; induction l as [|x l IH]; intros [|n] Hs; simpl; try constructor.
  all: inversion Hs; subst; auto using Forall_take.
Qed.

Lemma filter_Forall_id {A} (P : A -> Prop) `{∀ x, Decision (P x)} l :
  Forall P l -> filter P l = l.
Proof.
  induction 1 as [|x l Hx _ IH]; [done|]. rewrite filter_cons, decide_True by done.
  by rewrite IH.
Qed.

(** ** The exact nearest-neighbour instance *)

Definition dist_le (a b : entry * Z) : Prop := (a.2 <= b.2)%Z.

#[export] Instance dist_le_dec : RelDecision dist_le.
Proof. intros a b. unfold dist_le. apply _. Defined.

#[export] Instance dist_le_total : Total dist_le.
Proof. intros a b. unfold dist_le. lia. Qed.

#[export] Instance dist_le_trans : Transitive dist_le.
Proof. intros a b c. unfold dist_le. lia. Qed.

Section ExactKnn.
Context (dist : pystr -> pystr -> Z).

(** Rank every candidate by the distance of its document to the query,
    stably, and keep the [n] closest. *)
Definition exact_rank (q : pystr) (n : nat) (es : list entry) : list (entry * Z) :=
  take n (merge_sort dist_le ((fun e => (e, dist q (e_document e))) <$> es)).

Lemma exact_rank_submseteq q n es : fst <$> exact_rank q n es ⊆+ es.
Proof.
  unfold exact_rank. rewrite fmap_take. etrans; [apply submseteq_take|].
  apply Permutation_submseteq. rewrite merge_sort_Permutation, <-list_fmap_compose.
  by rewrite list_fmap_id.
Qed.

Lemma exact_rank_length q n es : length (exact_rank q n es) ≤ n.
Proof. unfold exact_rank. rewrite length_take. lia. Qed.

Lemma exact_rank_sorted q n es :
  StronglySorted (fun a b => (a.2 <= b.2)%Z) (exact_rank q n es).
Proof. apply StronglySorted_take, (StronglySorted_merge_sort dist_le). Qed.

Definition exact_knn : SimilaritySearch := {|
  knn := exact_rank;
  knn_submseteq := exact_rank_submseteq;
  knn_length := exact_rank_length;
  knn_sorted := exact_rank_sorted
|}.

End ExactKnn.

Lemma validate_head k x md m :
  validate_metadata ((k, x) :: md) = Ok m -> ∃ v rest, chroma_value x = Ok v ∧ m = (k, v) :: rest.
Proof.
  unfold validate_metadata. rewrite bool_decide_false by done. cbn [exc_map fst snd].
  destruct (chroma_value x) as [v|]; cbn [mbind exc_bind mret exc_ret]; [|done].
  destruct (exc_map _ md); cbn [mbind exc_bind mret exc_ret]; [|done]. intros [= <-]. eauto.
Qed.

Lemma news_metadata_head a md :
  news_metadata a = Ok md -> ∃ rest, md = (str_of "type", PVal (VStr (str_of "news"))) :: rest.
Proof.
  unfold news_metadata. destruct (py_slice_val 100 (a_title a)); cbn [mbind exc_bind]; [|done].
  destruct (a_sentiment a) as [[lab sc]|]; [destruct (py_float sc)|];
    cbn [mbind exc_bind mret exc_ret app]; intros H; try done; injection H as <-; eauto.
Qed.

Lemma news_metadata_type a md m :
  news_metadata a = Ok md -> validate_metadata md = Ok m ->
  assoc_get (str_of "type") m = Some metadata_type_news.
Proof.
  intros [rest ->]%news_metadata_head (v & r & [= <-] & ->)%validate_head.
  simpl. by rewrite ?decide_True.
Qed.

Lemma add_batch_lookup ids dms i :
  add_batch ids dms !! i = (x ← ids !! i; dm ← dms !! i; Some (mk_entry x dm.1 dm.2)).
Proof. apply lookup_zip_with. Qed.

(** Every record of a batch built on [news_id u <$> seq 0 n] has one of
    those ids. *)
Lemma add_batch_news_ids u n dms e :
  e ∈ add_batch (news_id u <$> seq 0 n) dms -> ∃ i, i < n ∧ e_id e = news_id u i.
Proof.
  intros He. assert (Hid : e_id e ∈ news_id u <$> seq 0 n).
  { eapply elem_of_sublist; [|apply add_batch_ids_sublist]. by apply list_elem_of_fmap_2. }
  apply list_elem_of_fmap in Hid as (i & Hi & Hs%elem_of_seq). exists i. split; [lia|done].
Qed.

Definition count_total (d : list (mval * Z)) : Z := foldr (fun kv acc => (kv.2 + acc)%Z) 0%Z d.

Lemma count_incr_total k d : count_total (count_incr k d) = (count_total d + 1)%Z.
Proof.
  induction d as [|[k' c] d IH]; simpl; [lia|].
  destruct (py_key_eq k' k); simpl; [lia|]. rewrite IH. lia.
Qed.

Lemma foldl_count_total ms d :
  count_total (foldl (fun d md => count_incr (doc_type md) d) d ms)
  = (count_total d + Z.of_nat (length ms))%Z.
Proof.
  revert d; induction ms as [|md ms IH]; intros d; simpl; [lia|].
  rewrite IH, count_incr_total. lia.
Qed.

(** The three facts about one search, as lemmas the pipeline reuses. *)
Lemma search_similar_length `{SimilaritySearch} st q n w rs :
  search_similar st q n w = Ok rs -> length rs ≤ Z.to_nat n.
Proof. intros [_ ->]%search_similar_inv. rewrite length_fmap. apply knn_length. Qed.

Lemma search_similar_NoDup `{SimilaritySearch} st q n w rs :
  store_wf st -> search_similar st q n w = Ok rs -> NoDup (sr_id <$> rs).
Proof.
  intros Hwf [_ ->]%search_similar_inv. rewrite <-list_fmap_compose.
  change (sr_id ∘ to_sresult) with (e_id ∘ @fst entry Z). rewrite list_fmap_compose.
  eapply submseteq_NoDup_fmap; [|exact Hwf].
  etrans; [apply search_hits_submseteq|apply filter_submseteq].
Qed.

Lemma search_similar_hit `{SimilaritySearch} st q n w rs r :
  search_similar st q n w = Ok rs -> r ∈ rs ->
  ∃ e, e ∈ vs_entries st ∧ matches_where w e = true
       ∧ sr_id r = e_id e ∧ sr_document r = e_document e ∧ sr_metadata r = e_metadata e.
Proof.
  intros [_ ->]%search_similar_inv (h & -> & Hh)%list_elem_of_fmap.
  assert (Hf : h.1 ∈ filter (fun e => matches_where w e = true) (vs_entries st))
    by (eapply elem_of_submseteq; [apply list_elem_of_fmap_2, Hh|apply search_hits_submseteq]).
  apply list_elem_of_filter in Hf as [Hm He]. by exists h.1.
Qed.

(** ** Theorems *)

(** C21. Every hit of [search_similar] is a record of the collection
    that passes the [where] filter, with its id, document and metadata
    unchanged; there are at most [n_results] hits; on a collection whose
    ids are unique, no two hits share an id. *)
Theorem search_similar_sound `{SimilaritySearch} st q n w rs :
  search_similar st q n w = Ok rs ->
  length rs ≤ Z.to_nat n ∧ (store_wf st -> NoDup (sr_id <$> rs))
  ∧ ∀ r, r ∈ rs -> ∃ e, e ∈ vs_entries st ∧ matches_where w e = true
       ∧ sr_id r = e_id e ∧ sr_document r = e_document e ∧ sr_metadata r = e_metadata e.
Proof.
  intros Hs. split_and!.
  - by apply (search_similar_length st q n w).
  - intros Hwf. by apply (search_similar_NoDup st q n w).
  - intros r. by apply (search_similar_hit st q n w).
Qed.

(** Invariant: adding news articles keeps the ids of the collection
    unique, whatever ids [uuid4] draws. *)
Theorem add_news_articles_wf u arts st st' :
  store_wf st -> add_news_articles u arts st = Ok st' -> store_wf st'.
Proof.
  unfold add_news_articles. case_bool_decide; [by intros ? [= <-]|].
  intros Hwf. destruct (exc_map news_metadata arts); cbn [mbind exc_bind]; [|done].
  by apply collection_add_wf.
Qed.

(** All or nothing: [add_news_articles] succeeds exactly when the
    list is empty, or every article's metadata can be built and stored
    (a string title; a str, int or bool category, [published_at], [url]
    and [source_name]; a storable sentiment label and a score [float()]
    accepts) and the ids drawn are distinct.  Otherwise it raises and
    none of the articles is added. *)
Theorem add_news_articles_ok_iff u arts st :
  (∃ st', add_news_articles u arts st = Ok st')
  <-> arts = [] ∨ (Forall (fun a => news_storable a = true) arts
                   ∧ NoDup (news_id u <$> seq 0 (length arts))).
Proof.
  unfold add_news_articles. case_bool_decide as Hnil; [subst; split; eauto|].
  assert (Hids : news_id u <$> seq 0 (length arts) ≠ []) by (by destruct arts).
  rewrite bind_ok_ex.
  setoid_rewrite (collection_add_ok_iff _ _ _ _ Hids).
  assert (HF : Forall (fun a => news_storable a = true) arts
    <-> Forall (fun a => ∃ m, (md ← news_metadata a; validate_metadata md) = Ok m) arts)
    by (apply Forall_iff; intros; symmetry; apply news_metadata_valid).
  rewrite HF, <-exc_map_bind_ok, bind_ok_ex. naive_solver.
Qed.

(** What a successful [collection.add] does to the records: it appends
    the batch records whose ids are not stored yet. *)
Lemma collection_add_extends docs mds ids st st' :
  collection_add docs mds ids st = Ok st' ->
  ∃ new, vs_entries st' = vs_entries st ++ new
         ∧ Forall (fun e => e_id e ∉ e_id <$> vs_entries st) new.
Proof.
  intros (mds' & _ & _ & _ & Heq)%collection_add_inv.
  eexists. split; [exact Heq|]. apply Forall_forall. intros e. by intros [? _]%list_elem_of_filter.
Qed.

(** The records a successful [add_news_articles] appends to a
    collection none of whose ids it draws: one per article, each with a
    drawn id, and one with each article's document and the type
    ["news"]. *)
Lemma add_news_articles_entries u arts st st' :
  add_news_articles u arts st = Ok st' ->
  (∀ i, i < length arts -> news_id u i ∉ e_id <$> vs_entries st) ->
  ∃ new, vs_entries st' = vs_entries st ++ new ∧ length new = length arts
    ∧ (∀ e, e ∈ new -> ∃ i, i < length arts ∧ e_id e = news_id u i)
    ∧ ∀ a, a ∈ arts -> ∃ e, e ∈ new ∧ e_document e = _create_news_document a
                           ∧ assoc_get (str_of "type") (e_metadata e) = Some metadata_type_news.
Proof.
  unfold add_news_articles. case_bool_decide as Hnil.
  { subst. intros [= <-] _. exists []. rewrite app_nil_r.
    split_and!; [done|done|by intros ? ?%elem_of_nil|by intros ? ?%elem_of_nil]. }
  destruct (exc_map news_metadata arts) as [mds|] eqn:Hmds; cbn [mbind exc_bind]; [|done].
  intros (mds' & Hv & _ & _ & Heq)%collection_add_inv Hfresh. rewrite Heq.
  rewrite filter_Forall_id; last first.
  { apply Forall_forall. intros e (i & Hi & ->)%add_batch_news_ids. by apply Hfresh. }
  assert (Hb : ∀ i a, arts !! i = Some a -> ∃ m,
      add_batch (news_id u <$> seq 0 (length arts)) (zip (_create_news_document <$> arts) mds')
        !! i = Some (mk_entry (news_id u i) (_create_news_document a) m)
      ∧ assoc_get (str_of "type") m = Some metadata_type_news).
  { intros i a Ha. destruct (exc_map_lookup _ _ _ _ _ Hmds Ha) as (md & Hmd & Hmdi).
    destruct (exc_map_lookup _ _ _ _ _ Hv Hmdi) as (m & Hm & Hmi).
    exists m. split; [|by eapply news_metadata_type].
    rewrite add_batch_lookup, list_lookup_fmap, lookup_seq_lt by (eapply lookup_lt_Some; eauto).
    cbn [mbind option_bind]. rewrite lookup_zip_with, list_lookup_fmap, Ha, Hmi. done. }
  eexists. split_and!; [done| | |].
  - unfold add_batch. rewrite length_zip_with, length_zip, !length_fmap, length_seq.
    rewrite (length_exc_map _ _ _ Hv), (length_exc_map _ _ _ Hmds). lia.
  - intros e He. by apply add_batch_news_ids in He.
  - intros a (i & Ha)%list_elem_of_lookup. destruct (Hb i a Ha) as (m & Hi & Hm).
    eexists. split; [by eapply list_elem_of_lookup_2|done].
Qed.

(** C22. Round trip: when [add_news_articles] succeeds and the ids it
    draws are not in the collection yet, the collection grows by exactly
    one record per article, and every article is stored with the text
    [_create_news_document] gives it and the metadata type ["news"]. *)
Theorem add_news_articles_stored u arts st st' :
  add_news_articles u arts st = Ok st' ->
  (∀ i, i < length arts -> news_id u i ∉ e_id <$> vs_entries st) ->
  length (vs_entries st') = length (vs_entries st) + length arts
  ∧ ∀ a, a ∈ arts -> ∃ e, e ∈ vs_entries st' ∧ e_document e = _create_news_document a
                         ∧ assoc_get (str_of "type") (e_metadata e) = Some metadata_type_news.
Proof.
  intros Hadd Hfresh.
  destruct (add_news_articles_entries _ _ _ _ Hadd Hfresh) as (new & -> & Hlen & _ & Hdoc).
  split; [by rewrite length_app, Hlen|].
  intros a (e & He & Hd)%Hdoc. exists e. split; [apply elem_of_app; by right|done].
Qed.

(** [get_collection_stats] reports an error on an empty collection
    (the sample query asks Chroma for [min(100, 0) = 0] results, which it
    refuses) instead of zero documents.  On a non-empty collection it
    reports the number of records and the collection name, and its type
    counts add up to the number of records the sample query returned,
    at most 100. *)
Theorem collection_stats_spec `{SimilaritySearch} st :
  match get_collection_stats st with
  | StatsError e => vs_entries st = [] ∧ e = TypeError
  | Stats total types name =>
      vs_entries st ≠ [] ∧ total = Z.of_nat (length (vs_entries st)) ∧ name = COLLECTION_NAME
      ∧ count_total types = Z.of_nat (length (search_hits st (str_of "sample") (Z.min 100 total) []))
      ∧ (count_total types <= 100)%Z
  end.
Proof.
  unfold get_collection_stats, collection_query, search_hits.
  destruct (vs_entries st) as [|e es] eqn:He; [done|].
  rewrite (proj2 (Z.leb_gt _ _)) by (simpl; lia). cbn [mret exc_ret sample_types qr_metadatas].
  rewrite foldl_count_total, length_fmap.
  pose proof (knn_length (str_of "sample") (Z.to_nat (Z.min 100 (Z.of_nat (length (e :: es)))))
                (filter (fun e => matches_where [] e = true) (e :: es))).
  split_and!; [done|done|done|simpl; lia|simpl in *; lia].
Qed.

(** ** Examples *)

(** An exact search whose distance is the length of the document. *)
Definition demo_knn : SimilaritySearch := exact_knn (fun _ d => Z.of_nat (length d)).

Definition company_entry (id name sector : string) : entry :=
  mk_entry (str_of id) (str_of ("Company: " ++ name ++ " | Sector: " ++ sector))
    [(str_of "type", MStr (str_of "company")); (str_of "company_name", MStr (str_of name));
     (str_of "sector", MStr (str_of sector))].

Definition demo_store : vstore :=
  mk_vstore [company_entry "company_MSME001" "Shakti Dairy" "Food Processing";
             company_entry "company_MSME002" "Lakshmi Looms" "Textiles";
             company_entry "company_MSME003" "Sutlej Spinners" "Textiles"].

(** Distinct [uuid4().hex] draws. *)
Definition demo_uuid (i : nat) : pystr := str_of "9f1c" ++ n_str (N.of_nat i).

(** A Finnhub item whose [url] was [null] in the provider's JSON. *)
Definition null_url_item : article :=
  mk_article (str_of "Finnhub") (VStr (str_of "RBI holds repo rate")) (VStr []) (VStr []) VNone
    (VStr (str_of "2024-01-15T09:00:00")) (VStr (str_of "Reuters")) (VStr (str_of "top news")) None.

(** The store after adding two well-formed articles. *)
Definition demo_added : vstore :=
  match add_news_articles demo_uuid [t1_item; t2_item] demo_store with
  | Ok st' => st'
  | Raise _ => demo_store
  end.

(** One article among others with a [null] url makes
    [add_news_articles] raise [ValueError] (Chroma refuses a [None]
    metadata value): the valid article next to it is not added either,
    and [initialize_knowledge_base] then reports that no news could be
    fetched. *)
Example null_url_drops_news_batch :
  add_news_articles demo_uuid [t1_item; null_url_item] demo_store = Raise ValueError
  ∧ (∃ st', add_news_articles demo_uuid [t1_item] demo_store = Ok st').
Proof. split; [vm_compute; reflexivity|eexists; vm_compute; reflexivity]. Qed.

Lemma search_similar_sound_witness :
  search_similar (H:=demo_knn) demo_store (str_of "looms") 2
    [(str_of "sector", MStr (str_of "Textiles"))]
    = Ok (to_sresult <$> search_hits (H:=demo_knn) demo_store (str_of "looms") 2
            [(str_of "sector", MStr (str_of "Textiles"))])
  ∧ length (to_sresult <$> search_hits (H:=demo_knn) demo_store (str_of "looms") 2
              [(str_of "sector", MStr (str_of "Textiles"))]) ≤ 2.
Proof.
  split; [vm_compute; reflexivity|].
  apply (proj1 (search_similar_sound (H:=demo_knn) demo_store (str_of "looms") 2
     [(str_of "sector", MStr (str_of "Textiles"))] _ ltac:(vm_compute; reflexivity))).
Defined.

Lemma add_news_articles_stored_witness :
  length (vs_entries demo_added) = 3 + 2
  ∧ ∀ a, a ∈ [t1_item; t2_item] -> ∃ e, e ∈ vs_entries demo_added
       ∧ e_document e = _create_news_document a
       ∧ assoc_get (str_of "type") (e_metadata e) = Some metadata_type_news.
Proof.
  apply (add_news_articles_stored demo_uuid [t1_item; t2_item] demo_store);
    [vm_compute; reflexivity|].
  intros i Hi. apply (bool_decide_unpack _).
  destruct i as [|[|i]]; [vm_compute; reflexivity|vm_compute; reflexivity|simpl in Hi; lia].
Defined.
