(* ===== verification/Companies.v ===== *)
(** * Company records ([MSMEVectorStore.load_company_data] and
    [_create_company_document], [src/script_5.py])

    [load_company_data] (lines 23-70) reads the two CSV files with
    pandas and adds one record per company: the document text of
    [_create_company_document] (lines 186-236), a metadata map and the
    id [company_<Company_ID>].  The rows are lists of cells ([cell]:
    a string, an [int64] or a [float64] read from a decimal literal).
    The document text formats the latest year's financial figures with
    [:.2f] and computes a revenue growth in numpy's binary64 arithmetic
    ([Binary64]).

    The theorems: the document exists for well-formed rows, shows each
    figure rounded to hundredths, and computes the growth against the
    first financial row of the file rather than the earliest year; the
    load is all-or-nothing and stores one record per company. *)

From S2P Require Import Prelude PyStr PyObj Binary64 News Store.

(** ** DataFrame cells *)

(** A cell of a DataFrame read by [pd.read_csv]: a string, an integer or
    a float ([NaN] for an empty cell of a numeric column). *)
Inductive cell : Type :=
  | CStr (s : pystr)
  | CInt (z : Z)
  | CFloat (f : pyfloat).

#[export] Instance cell_eq_dec : EqDecision cell.
Proof. solve_decision. Defined.

(** A row of [iterrows()]: its cells by column name. *)
Abbreviation row := (list (pystr * cell)).

(** A DataFrame: its columns and its rows. *)
Record frame : Type := mk_frame { f_columns : list pystr; f_rows : list row }.

(** [row[col]] *)
Definition row_get (r : row) (col : string) : exc cell :=
  match assoc_get (str_of col) r with Some c => Ok c | None => Raise KeyError end.

(** [row.get(col, d)] *)
Definition row_get_default (r : row) (col : string) (d : cell) : cell :=
  default d (assoc_get (str_of col) r).

(** [str(cell)] *)
Definition cell_str (c : cell) : pystr :=
  match c with CStr s => s | CInt z => z_str z | CFloat f => float_repr f end.

(** The cell as a metadata value. *)
Definition cell_meta (c : cell) : pmeta :=
  match c with CStr s => PVal (VStr s) | CInt z => PVal (VNum z) | CFloat f => PFloat f end.

(** [int(s)] of a string: optional sign and decimal digits, single
    underscores between digits, surrounding whitespace. *)
Definition parse_int_lit (s : pystr) : option Z :=
  let t := py_strip s in
  if underscores_ok false t then
    let '(neg, r) := split_sign (filter (fun c => c ≠ 95%N) t) in
    let '(ds, rest) := span_digits r in
    if bool_decide (ds = [] ∨ rest ≠ []) then None
    else Some (if neg then (- Z.of_N (digits_N ds))%Z else Z.of_N (digits_N ds))
  else None.

(** [int(cell)]: a float is truncated toward zero. *)
Definition py_int_cell (c : cell) : exc Z :=
  match c with
  | CInt z => Ok z
  | CFloat (FDec neg m e) =>
      let t := if (0 <=? e)%Z then (m * 10 ^ Z.to_N e)%N else (m / 10 ^ Z.to_N (- e))%N in
      Ok (if neg then (- Z.of_N t)%Z else Z.of_N t)
  | CFloat (FInf _) => Raise OverflowError
  | CFloat FNan => Raise ValueError
  | CStr s => match parse_int_lit s with Some z => Ok z | None => Raise ValueError end
  end.

(** The cell as a metadata value. *)
Definition cell_mval (c : cell) : mval :=
  match c with CStr s => MStr s | CInt z => MInt z | CFloat f => MFloat f end.

(** [==] between two cells, as the element-wise comparison of pandas
    does it: strings by content, numbers by value, [NaN] equal to
    nothing. *)
Definition cell_eq (a b : cell) : bool := py_key_eq (cell_mval a) (cell_mval b).

(** Lines 46-57, after [company['Company_ID']]. *)
Definition company_metadata (company : row) (company_id : cell) : exc (list (pystr * pmeta)) :=
  name ← row_get company "Company_Name";
  sector ← row_get company "Sector";
  location ← row_get company "Location";
  founded ← row_get company "Founded_Year" ≫= py_int_cell;
  employees ← row_get company "Employee_Count" ≫= py_int_cell;
  let na := CStr (str_of "N/A") in
  mret [(str_of "type", PVal (VStr (str_of "company")));
        (str_of "company_id", cell_meta company_id);
        (str_of "company_name", cell_meta name);
        (str_of "sector", cell_meta sector);
        (str_of "location", cell_meta location);
        (str_of "founded_year", PVal (VNum founded));
        (str_of "employee_count", PVal (VNum employees));
        (str_of "credit_rating", PVal (VStr (cell_str (row_get_default company "Credit_Rating" na))));
        (str_of "risk_level", PVal (VStr (cell_str (row_get_default company "Risk_Level" na))));
        (str_of "market_outlook",
          PVal (VStr (cell_str (row_get_default company "Market_Outlook" na))))].

(** Line 40: [financial_df[financial_df['Company_ID'] == company_id]]. *)
Definition company_financials (financial_df : frame) (company_id : cell) : exc (list row) :=
  if bool_decide (str_of "Company_ID" ∈ f_columns financial_df) then
    mret (filter (fun r => match assoc_get (str_of "Company_ID") r with
                           | Some c => cell_eq c company_id
                           | None => false
                           end = true) (f_rows financial_df))
  else Raise KeyError.

(** ** numpy scalars *)

(** A cell read out of a row of [financials.iloc[...]]: pandas keeps
    the column's numpy scalar, an [int64] or a [float64]. *)
Inductive npnum : Type :=
  | NInt (z : Z)
  | NFloat (x : b64).

(** The operand of an arithmetic operator: a string cell raises
    [TypeError] (numpy has no [-] or [/] between a string and a
    number). *)
Definition np_of_cell (c : cell) : exc npnum :=
  match c with
  | CInt z => Ok (NInt z)
  | CFloat f => Ok (NFloat (b64_of_float f))
  | CStr _ => Raise TypeError
  end.

(** The [float64] numpy converts an operand to. *)
Definition np_float (x : npnum) : b64 :=
  match x with NInt z => b64_of_Z z | NFloat f => f end.

(** [a - b]: [int64] wraps, anything else is [float64]. *)
Definition np_sub (a b : npnum) : npnum :=
  match a, b with
  | NInt x, NInt y => NInt (wrap64 (x - y))
  | _, _ => NFloat (b64_sub (np_float a) (np_float b))
  end.

(** [a / b], numpy's [true_divide]: always [float64]. *)
Definition np_truediv (a b : npnum) : npnum := NFloat (b64_div (np_float a) (np_float b)).

(** [a * k] for a Python [int] [k]. *)
Definition np_mul_int (a : npnum) (k : Z) : npnum :=
  match a with
  | NInt x => NInt (wrap64 (x * k))
  | NFloat x => NFloat (b64_mul x (b64_of_Z k))
  end.

(** [f"{x:.2f}"] of a numpy scalar: an [int64] is converted to a float
    first. *)
Definition np_format_2f (x : npnum) : pystr := format_2f (np_float x).

(** [f"{cell:.2f}"]: a string cell raises [ValueError] (unknown format
    code [f] for [str]). *)
Definition cell_format_2f (c : cell) : exc pystr :=
  match c with
  | CStr _ => Raise ValueError
  | CInt z => Ok (np_format_2f (NInt z))
  | CFloat f => Ok (np_format_2f (NFloat (b64_of_float f)))
  end.

(** ** [financials['Year'].max()] *)

(** [<] on [str]: code points, lexicographically. *)
Fixpoint str_lt (a b : pystr) : bool :=
  match a, b with
  | _, [] => false
  | [], _ :: _ => true
  | x :: a', y :: b' => if (x <? y)%N then true else if (y <? x)%N then false else str_lt a' b'
  end.

(** [<] on doubles: [None] when one is a NaN. *)
Definition b64_cmp (x y : b64) : option comparison :=
  let fin_val (v : b64) : Z * Z :=
    match v with B64Fin s m e => (signed s m, e) | _ => (0%Z, 0%Z) end in
  match x, y with
  | B64Nan, _ | _, B64Nan => None
  | B64Inf s, B64Inf s' => Some (if eqb s s' then Eq else if s then Lt else Gt)
  | B64Inf s, _ => Some (if s then Lt else Gt)
  | _, B64Inf s => Some (if s then Gt else Lt)
  | _, _ =>
      let '(a, ea) := fin_val x in
      let '(b, eb) := fin_val y in
      let e := Z.min ea eb in
      Some (Z.compare (a * 2 ^ (ea - e)) (b * 2 ^ (eb - e)))
  end.

(** A numeric cell as the [float64] of its column. *)
Definition cell_b64 (c : cell) : b64 :=
  match c with CInt z => b64_of_Z z | CFloat f => b64_of_float f | CStr _ => B64Nan end.

Definition cell_isnan (c : cell) : bool :=
  match c with CFloat FNan => true | _ => false end.

Definition cell_str_val (c : cell) : option pystr :=
  match c with CStr s => Some s | _ => None end.

(** [Series.max()] with [skipna]: the NaN cells are skipped and the
    largest value returned, NaN when none is left; a column of strings
    compares them as strings, and one that mixes strings with other
    values raises [TypeError] (pandas fills the NaN of an object column
    with [-inf], which a string does not compare with). *)
Definition column_max (cs : list cell) : exc cell :=
  match omap cell_str_val cs with
  | [] =>
      match filter (fun c => cell_isnan c = false) cs with
      | [] => Ok (CFloat FNan)
      | c :: rest =>
          Ok (foldl (fun best c => if decide (b64_cmp (cell_b64 best) (cell_b64 c) = Some Lt)
                                   then c else best) c rest)
      end
  | s :: rest =>
      if decide (length (s :: rest) = length cs)
      then Ok (CStr (foldl (fun best s => if str_lt best s then s else best) s rest))
      else Raise TypeError
  end.

(** [financials['Year'] == latest_year], element by element: strings
    by content, two [int64] exactly, other numbers as [float64] (NaN
    equal to nothing), a string and a number never. *)
Definition year_eq (a b : cell) : bool :=
  match a, b with
  | CStr s, CStr t => bool_decide (s = t)
  | CInt x, CInt y => bool_decide (x = y)
  | CStr _, _ | _, CStr _ => false
  | _, _ => bool_decide (b64_cmp (cell_b64 a) (cell_b64 b) = Some Eq)
  end.

(** Lines 206-207: the latest year and the first row that has it
    ([.iloc[0]] of an empty selection raises [IndexError]). *)
Definition latest_row (financials : list row) : exc (cell * row) :=
  years ← exc_map (fun r => row_get r "Year") financials;
  latest_year ← column_max years;
  match filter (fun ry => year_eq ry.2 latest_year = true) (zip financials years) with
  | (r, _) :: _ => Ok (latest_year, r)
  | [] => Raise IndexError
  end.

(** ** [_create_company_document] *)

Definition rupee : pystr := [8377%N].

(** [f"{label}{row[col]:.2f}{unit}"]. *)
Definition figure_line (r : row) (label : pystr) (col : string) (unit : pystr) : exc pystr :=
  c ← row_get r col;
  s ← cell_format_2f c;
  mret (label ++ s ++ unit).

(** Lines 219-223: the revenue growth from the first financial row to
    the latest one, in percent. *)
Definition revenue_growth (latest first : row) : exc npnum :=
  a ← row_get latest "Revenue_Crores" ≫= np_of_cell;
  b ← row_get first "Revenue_Crores" ≫= np_of_cell;
  b' ← row_get first "Revenue_Crores" ≫= np_of_cell;
  mret (np_mul_int (np_truediv (np_sub a b) b') 100).

(** Lines 205-223. *)
Definition financial_lines (financials : list row) : exc (list pystr) :=
  '(latest_year, latest) ← latest_row financials;
  let y := cell_str latest_year in
  revenue ← figure_line latest (str_of "Latest Revenue (" ++ y ++ str_of "): " ++ rupee)
                        "Revenue_Crores" (str_of " crores");
  profit ← figure_line latest (str_of "Net Profit (" ++ y ++ str_of "): " ++ rupee)
                       "Net_Profit_Crores" (str_of " crores");
  margin ← figure_line latest (str_of "Profit Margin: ") "Profit_Margin_Percent" (str_of "%");
  assets ← figure_line latest (str_of "Total Assets: " ++ rupee) "Total_Assets_Crores"
                       (str_of " crores");
  de ← figure_line latest (str_of "Debt-to-Equity Ratio: ") "Debt_to_Equity_Ratio" [];
  cr ← figure_line latest (str_of "Current Ratio: ") "Current_Ratio" [];
  roa ← figure_line latest (str_of "Return on Assets: ") "ROA_Percent" (str_of "%");
  growth ← (match financials with
            | first :: _ :: _ =>
                g ← revenue_growth latest first;
                mret [str_of "Revenue Growth: " ++ np_format_2f g ++ str_of "%"]
            | _ => mret []
            end);
  mret ([revenue; profit; margin; assets; de; cr; roa] ++ growth).

(** Lines 226-233: [if pd.notna(company.get(col))]: a missing column
    gives [None] and a NaN cell is skipped. *)
Definition optional_line (company : row) (col : string) (label : pystr) : list pystr :=
  match assoc_get (str_of col) company with
  | Some c => if cell_isnan c then [] else [label ++ cell_str c]
  | None => []
  end.

(** Lines 186-236. *)
Definition _create_company_document (company : row) (financials : list row) : exc pystr :=
  name ← row_get company "Company_Name";
  sector ← row_get company "Sector";
  location ← row_get company "Location";
  founded ← row_get company "Founded_Year";
  employees ← row_get company "Employee_Count";
  products ← row_get company "Primary_Products";
  let get col := cell_str (row_get_default company col (CStr (str_of "N/A"))) in
  let basic := [str_of "Company: " ++ cell_str name; str_of "Sector: " ++ cell_str sector;
                str_of "Location: " ++ cell_str location; str_of "Founded: " ++ cell_str founded;
                str_of "Employees: " ++ cell_str employees;
                str_of "Primary Products: " ++ cell_str products;
                str_of "Certifications: " ++ get "Certifications";
                str_of "Export Markets: " ++ get "Export_Markets";
                str_of "Credit Rating: " ++ get "Credit_Rating";
                str_of "Risk Level: " ++ get "Risk_Level";
                str_of "Market Outlook: " ++ get "Market_Outlook"] in
  fin ← (if bool_decide (financials = []) then mret [] else financial_lines financials);
  let extra := optional_line company "Growth_Drivers" (str_of "Growth Drivers: ")
               ++ optional_line company "Key_Challenges" (str_of "Key Challenges: ")
               ++ optional_line company "Digital_Maturity_Level" (str_of "Digital Maturity: ") in
  mret (py_join (str_of " | ") (basic ++ fin ++ extra)).

(** ** [load_company_data] *)

(** Lines 36-61: document, metadata and id of one company. *)
Definition company_record (financial_df : frame) (company : row)
    : exc (pystr * list (pystr * pmeta) * pystr) :=
  company_id ← row_get company "Company_ID";
  company_financials ← company_financials financial_df company_id;
  doc_text ← _create_company_document company company_financials;
  metadata ← company_metadata company company_id;
  mret (doc_text, metadata, str_of "company_" ++ cell_str company_id).

(** Lines 23-70. *)
Definition load_company_data (companies_df financial_df : frame) (st : vstore) : exc vstore :=
  recs ← exc_map (company_record financial_df) (f_rows companies_df);
  collection_add ((fun r => r.1.1) <$> recs) ((fun r => r.1.2) <$> recs) ((fun r => r.2) <$> recs) st.

(** ** Specification *)

Definition is_num (c : cell) : bool := match c with CStr _ => false | _ => true end.

(** The columns the document reads from the latest financial row. *)
Definition figure_cols : list string :=
  ["Revenue_Crores"; "Net_Profit_Crores"; "Profit_Margin_Percent"; "Total_Assets_Crores";
   "Debt_to_Equity_Ratio"; "Current_Ratio"; "ROA_Percent"].

(** The columns it reads from the company row without a default. *)
Definition company_cols : list string :=
  ["Company_Name"; "Sector"; "Location"; "Founded_Year"; "Employee_Count"; "Primary_Products"].

(** A financial row the document can use: a year that is a number and
    not NaN, and a number in each figure column. *)
Definition financial_row_ok (r : row) : Prop :=
  (∃ y, row_get r "Year" = Ok y ∧ is_num y = true ∧ cell_isnan y = false) ∧
  Forall (fun col => ∃ c, row_get r col = Ok c ∧ is_num c = true) figure_cols.

(** ** Lemmas *)

(** A successful load appends records, none with an id the collection
    already holds: a company stored before is skipped. *)
Lemma load_company_data_extends cdf fdf st st' :
  load_company_data cdf fdf st = Ok st' ->
  ∃ new, vs_entries st' = vs_entries st ++ new
         ∧ Forall (fun e => e_id e ∉ e_id <$> vs_entries st) new.
Proof.
  unfold load_company_data. destruct (exc_map _ _); cbn [mbind exc_bind]; [|done].
  apply collection_add_extends.
Qed.

Lemma cell_b64_not_nan c : is_num c = true -> cell_isnan c = false -> cell_b64 c ≠ B64Nan.
Proof.
  destruct c as [|z|[neg m e| |]]; cbn; try done; intros _ _.
  - unfold b64_of_Z. case_match; [discriminate|apply round_rat_not_nan].
  - case_match; [discriminate|]. case_match; apply round_rat_not_nan.
Qed.

Lemma b64_cmp_refl x : x ≠ B64Nan -> b64_cmp x x = Some Eq.
Proof.
  intros Hx. destruct x as [s|s| |s m e]; cbn; rewrite ?eqb_reflx, ?Z.compare_refl; done.
Qed.

Lemma year_eq_refl c : is_num c = true -> cell_isnan c = false -> year_eq c c = true.
Proof.
  intros Hn Hnan. pose proof (b64_cmp_refl _ (cell_b64_not_nan c Hn Hnan)).
  destruct c; cbn in *; try done; by apply bool_decide_true.
Qed.

Lemma omap_none {A B} (f : A -> option B) l : Forall (fun x => f x = None) l -> omap f l = [].
Proof. induction 1 as [|x l Hx _ IH]; cbn; [done|]. by rewrite Hx. Qed.

(** The maximum of a column of numbers none of which is NaN is one of
    them. *)
Lemma column_max_num cs : cs ≠ [] -> Forall (fun c => is_num c = true ∧ cell_isnan c = false) cs ->
  ∃ c, column_max cs = Ok c ∧ c ∈ cs.
Proof.
  intros Hne Hcs. unfold column_max.
  rewrite omap_none by (eapply Forall_impl; [done|]; intros [] []; done).
  rewrite filter_Forall_id by (eapply Forall_impl; [done|]; naive_solver).
  destruct cs as [|c rest]; [done|]. eexists; split; [done|].
  apply foldl_choose_elem. intros a b. case_decide; auto.
Qed.

(** On well-formed rows the latest year is found and its first row is a
    row of the company. *)
Lemma latest_row_ok fin : fin ≠ [] -> Forall financial_row_ok fin ->
  ∃ y r, latest_row fin = Ok (y, r) ∧ r ∈ fin.
Proof.
  intros Hne Hfin. unfold latest_row.
  assert (∃ years, exc_map (fun r => row_get r "Year") fin = Ok years) as [years Hy].
  { apply exc_map_ok_iff. eapply Forall_impl; [done|]. intros r [(y & ? & _) _]; eauto. }
  rewrite Hy. cbn [mbind exc_bind].
  assert (Forall (fun c => is_num c = true ∧ cell_isnan c = false) years) as Hnum.
  { apply Forall_forall. intros y' Hy'. destruct (exc_map_elem_of _ _ _ _ Hy Hy') as (r & Hr & Hry).
    eapply Forall_forall in Hfin as [(y'' & Hy'' & ? & ?) _]; [|done].
    rewrite Hry in Hy''. by injection Hy'' as ->. }
  pose proof (length_exc_map _ _ _ Hy) as Hlen.
  assert (years ≠ []) by (destruct fin, years; cbn in *; congruence).
  destruct (column_max_num years ltac:(done) Hnum) as (y & -> & Hin). cbn [mbind exc_bind].
  apply list_elem_of_lookup in Hin as [i Hi].
  assert (is_Some (fin !! i)) as [r Hr]
    by (apply lookup_lt_is_Some; apply lookup_lt_Some in Hi; lia).
  assert ((r, y) ∈ filter (fun ry => year_eq ry.2 y = true) (zip fin years)) as Hry.
  { apply list_elem_of_filter. split.
    - eapply Forall_forall in Hnum as [? ?]; [|by eapply list_elem_of_lookup_2].
      by apply year_eq_refl.
    - apply list_elem_of_lookup_2 with i. by rewrite lookup_zip_with, Hr, Hi. }
  destruct (filter _ (zip fin years)) as [|[r' y'] rest] eqn:Hf; [by apply elem_of_nil in Hry|].
  exists y, r'. split; [done|].
  assert ((r', y') ∈ zip fin years) as Hz
    by (eapply (list_elem_of_filter (fun ry => year_eq ry.2 y = true)); rewrite Hf; left).
  by apply elem_of_zip_l in Hz.
Qed.

Lemma cell_format_2f_num c : is_num c = true -> ∃ s, cell_format_2f c = Ok s.
Proof. destruct c; cbn; eauto; done. Qed.

Lemma np_of_cell_num c : is_num c = true -> ∃ x, np_of_cell c = Ok x.
Proof. destruct c; cbn; eauto; done. Qed.

Lemma figure_line_ok r label col unit : (∃ c, row_get r col = Ok c ∧ is_num c = true) ->
  ∃ s, figure_line r label col unit = Ok s.
Proof.
  intros (c & Hc & Hn). destruct (cell_format_2f_num c Hn) as [s Hs].
  unfold figure_line. rewrite Hc. cbn [mbind exc_bind]. rewrite Hs. by eexists.
Qed.

Lemma financial_lines_ok fin : fin ≠ [] -> Forall financial_row_ok fin ->
  ∃ ls, financial_lines fin = Ok ls.
Proof.
  intros Hne Hfin. destruct (latest_row_ok fin Hne Hfin) as (y & r & Hl & Hr).
  pose proof (proj2 (proj1 (Forall_forall _ _) Hfin r Hr)) as Hfig.
  unfold figure_cols in Hfig. rewrite !Forall_cons in Hfig.
  destruct Hfig as (H1 & H2 & H3 & H4 & H5 & H6 & H7 & _).
  unfold financial_lines. rewrite Hl. cbn [mbind exc_bind].
  repeat match goal with
  | |- context [figure_line ?r ?l ?col ?u] =>
      let s := fresh "s" in let Hs := fresh "Hs" in
      destruct (figure_line_ok r l col u) as [s Hs]; [assumption|rewrite Hs; cbn [mbind exc_bind]]
  end.
  destruct fin as [|first [|second rest]]; [done| |]; cbn [mbind exc_bind mret exc_ret]; [by eexists|].
  destruct H1 as (c & Hc & Hn). destruct (np_of_cell_num c Hn) as [a Ha].
  apply Forall_cons in Hfin as [[_ Hf1] _]. unfold figure_cols in Hf1.
  apply Forall_cons in Hf1 as [(c1 & Hc1 & Hn1) _]. destruct (np_of_cell_num c1 Hn1) as [b Hb].
  unfold revenue_growth. rewrite Hc, Hc1. cbn [mbind exc_bind]. rewrite Ha, Hb.
  cbn [mbind exc_bind mret exc_ret]. by eexists.
Qed.

(** A financial figure whose double is a positive number, subtracted
    from itself, divided by itself and scaled by [100], prints as
    [0.00]. *)
Lemma growth_self c m e : cell_b64 c = B64Fin false m e ->
  ∃ x, np_of_cell c = Ok x ∧ np_format_2f (np_mul_int (np_truediv (np_sub x x) x) 100) = str_of "0.00".
Proof.
  destruct c as [s|z|f]; cbn [cell_b64 np_of_cell]; intros Hc; [discriminate| |];
    eexists; (split; [reflexivity|]).
  - cbn [np_sub np_truediv np_mul_int np_float np_format_2f]. rewrite Z.sub_diag, Hc. vm_compute. reflexivity.
  - cbn [np_sub np_truediv np_mul_int np_float np_format_2f]. rewrite Hc.
    cbn [b64_sub b64_neg negb b64_add]. rewrite Z.min_id, Z.sub_diag. cbn [signed].
    rewrite Z.add_opp_diag_r. vm_compute. reflexivity.
Qed.

Lemma company_record_id fdf company rec :
  company_record fdf company = Ok rec ->
  ∃ id, row_get company "Company_ID" = Ok id ∧ rec.2 = str_of "company_" ++ cell_str id.
Proof.
  unfold company_record. destruct (row_get company "Company_ID") as [id|]; [|done].
  cbn [mbind exc_bind]. destruct (company_financials _ _); [|done]. cbn [mbind exc_bind].
  destruct (_create_company_document _ _); [|done]. cbn [mbind exc_bind].
  destruct (company_metadata _ _); [|done]. cbn [mbind exc_bind mret exc_ret]. intros [= <-]. eauto.
Qed.

(** With two financial rows or more, the last line of the financial
    part is the growth from the first row to the latest one. *)
Lemma financial_lines_growth first second rest y r lines :
  latest_row (first :: second :: rest) = Ok (y, r) ->
  financial_lines (first :: second :: rest) = Ok lines ->
  ∃ g, revenue_growth r first = Ok g ∧
       last lines = Some (str_of "Revenue Growth: " ++ np_format_2f g ++ str_of "%").
Proof.
  intros Hl Hf. unfold financial_lines in Hf. rewrite Hl in Hf. cbn [mbind exc_bind] in Hf.
  repeat match type of Hf with
  | context [figure_line ?r ?l ?col ?u] =>
      destruct (figure_line r l col u); cbn [mbind exc_bind] in Hf; [|done]
  end.
  destruct (revenue_growth r first) as [g|]; cbn [mbind exc_bind mret exc_ret] in Hf; [|done].
  injection Hf as <-. by exists g.
Qed.

(** ** Theorems *)

(** [_create_company_document] returns a document, without raising,
    when the company row has the six columns it reads without a default
    and every financial row of the company has a year that is a number
    and not NaN and a number in each of the seven figure columns. *)
Theorem create_company_document_ok company fin :
  Forall (fun col => is_Some (assoc_get (str_of col) company)) company_cols ->
  Forall financial_row_ok fin ->
  ∃ doc, _create_company_document company fin = Ok doc.
Proof.
  intros Hc Hfin. unfold company_cols in Hc. rewrite !Forall_cons in Hc.
  destruct Hc as ([c1 H1] & [c2 H2] & [c3 H3] & [c4 H4] & [c5 H5] & [c6 H6] & _).
  unfold _create_company_document, row_get. rewrite H1, H2, H3, H4, H5, H6. cbn [mbind exc_bind].
  case_bool_decide; [by eexists|].
  destruct (financial_lines_ok fin ltac:(done) Hfin) as [ls ->]. by eexists.
Qed.

(** C23. The growth line compares the latest year with the first
    financial row in file order, not with the earliest year: when that
    first row is the latest year's and its revenue is a positive number,
    the document reports [Revenue Growth: 0.00%] whatever the revenues of
    the other years. *)
Theorem growth_from_first_row first second rest y c m e lines :
  latest_row (first :: second :: rest) = Ok (y, first) ->
  row_get first "Revenue_Crores" = Ok c -> cell_b64 c = B64Fin false m e ->
  financial_lines (first :: second :: rest) = Ok lines ->
  last lines = Some (str_of "Revenue Growth: 0.00%").
Proof.
  intros Hl Hc Hb Hf. destruct (financial_lines_growth _ _ _ _ _ _ Hl Hf) as (g & Hg & ->).
  destruct (growth_self c m e Hb) as (x & Hx & Hs).
  unfold revenue_growth in Hg. rewrite Hc in Hg. cbn [mbind exc_bind] in Hg. rewrite Hx in Hg.
  assert (g = np_mul_int (np_truediv (np_sub x x) x) 100) as -> by (by injection Hg).
  by rewrite Hs.
Qed.

(** C24. A successful [load_company_data] keeps the records the
    collection had and holds, for every company row, a record with the
    id [company_<Company_ID>]: new, or the one already there, which
    Chroma keeps unchanged. *)
Theorem load_company_data_stored cdf fdf st st' :
  load_company_data cdf fdf st = Ok st' ->
  vs_entries st `prefix_of` vs_entries st' ∧
  Forall (fun company => ∃ id, row_get company "Company_ID" = Ok id ∧
            str_of "company_" ++ cell_str id ∈ e_id <$> vs_entries st') (f_rows cdf).
Proof.
  unfold load_company_data. destruct (exc_map _ _) as [recs|] eqn:Hrecs; [|done].
  cbn [mbind exc_bind]. intros Hadd.
  destruct (collection_add_ids _ _ _ _ _ Hadd) as [Hpre Hids]; [by rewrite !length_fmap..|].
  split; [done|]. apply Forall_forall. intros company Hc.
  apply list_elem_of_lookup in Hc as [i Hi].
  destruct (exc_map_lookup _ _ _ _ _ Hrecs Hi) as (rec & Hrec & Hri).
  destruct (company_record_id _ _ _ Hrec) as (id & Hid & Hname). exists id. split; [done|].
  apply Hids. rewrite <- Hname. apply list_elem_of_fmap. exists rec.
  split; [done|]. by eapply list_elem_of_lookup_2.
Qed.

(** ** Examples *)

Definition demo_company : row :=
  [(str_of "Company_ID", CStr (str_of "MSME001")); (str_of "Company_Name", CStr (str_of "Shakti Looms"));
   (str_of "Sector", CStr (str_of "Textiles")); (str_of "Location", CStr (str_of "Surat"));
   (str_of "Founded_Year", CInt 2005); (str_of "Employee_Count", CInt 40);
   (str_of "Primary_Products", CStr (str_of "Yarn")); (str_of "Growth_Drivers", CFloat FNan)].

(** A row of the financial CSV of [MSME001] for a year and a revenue. *)
Definition fin_row (y : Z) (rev : pyfloat) : row :=
  [(str_of "Company_ID", CStr (str_of "MSME001")); (str_of "Year", CInt y);
   (str_of "Revenue_Crores", CFloat rev); (str_of "Net_Profit_Crores", CFloat (FDec false 1234 (-2)));
   (str_of "Profit_Margin_Percent", CFloat (FDec false 2675 (-3)));
   (str_of "Total_Assets_Crores", CInt 40); (str_of "Debt_to_Equity_Ratio", CFloat (FDec false 5 (-1)));
   (str_of "Current_Ratio", CFloat (FDec false 15 (-1))); (str_of "ROA_Percent", CFloat (FDec false 3 0))].

(** The same two years in chronological and in reverse order. *)
Definition sorted_financials : list row := [fin_row 2021 (FDec false 100 0); fin_row 2023 (FDec false 150 0)].
Definition reversed_financials : list row := [fin_row 2023 (FDec false 150 0); fin_row 2021 (FDec false 100 0)].

Definition demo_companies_df : frame := mk_frame (fst <$> demo_company) [demo_company].
Definition demo_financial_df : frame := mk_frame (fst <$> fin_row 0 (FDec false 0 0)) sorted_financials.

Definition doc_lines (fin : list row) : list pystr :=
  match financial_lines fin with Ok ls => ls | Raise _ => [] end.

(** In file order the growth is the one intended, [+50%]; the profit
    margin [2.675] prints as [2.67], the double below it. *)
Example sorted_growth :
  last (doc_lines sorted_financials) = Some (str_of "Revenue Growth: 50.00%")
  ∧ doc_lines sorted_financials !! 2 = Some (str_of "Profit Margin: 2.67%").
Proof. vm_compute. split; reflexivity. Qed.

(** A first year with no revenue gives an infinite growth: numpy divides
    by zero with a warning and the document reads [inf%]. *)
Example zero_base_growth_inf :
  last (doc_lines [fin_row 2021 (FDec false 0 0); fin_row 2023 (FDec false 150 0)])
  = Some (str_of "Revenue Growth: inf%").
Proof. vm_compute. reflexivity. Qed.

Lemma create_company_document_ok_witness :
  ∃ doc, _create_company_document demo_company reversed_financials = Ok doc.
Proof.
  apply create_company_document_ok.
  - repeat constructor; eexists; reflexivity.
  - repeat constructor; eexists; (split; [reflexivity|done]).
Defined.

Lemma growth_from_first_row_witness :
  last (doc_lines reversed_financials) = Some (str_of "Revenue Growth: 0.00%").
Proof.
  apply (growth_from_first_row (fin_row 2023 (FDec false 150 0)) (fin_row 2021 (FDec false 100 0)) []
           (CInt 2023) (CFloat (FDec false 150 0)) (150 * 2 ^ 45) (-45));
    vm_compute; reflexivity.
Defined.

Lemma load_company_data_stored_witness :
  ∃ st', load_company_data demo_companies_df demo_financial_df (mk_vstore []) = Ok st'
         ∧ str_of "company_MSME001" ∈ e_id <$> vs_entries st'.
Proof.
  eexists. split; [vm_compute; reflexivity|].
  destruct (load_company_data_stored demo_companies_df demo_financial_df (mk_vstore [])
              (match load_company_data demo_companies_df demo_financial_df (mk_vstore []) with
               | Ok st => st | Raise _ => mk_vstore [] end)) as [_ Hall]; [vm_compute; reflexivity|].
  apply Forall_inv in Hall as (id & Hid & Hin). vm_compute in Hid. injection Hid as <-. exact Hin.
Defined.
