(* ===== verification/Frames.v ===== *)
(** * pandas reductions ([pandas 2.1.3], [numpy 1.24.3], pinned in
    [src/script_2.py])

    The dashboard and analytics tabs of [src/app.py] (lines 292-346 and
    396-459) compute over two DataFrames read from CSV files: means and
    sums of columns, a filter on the latest year, an inner merge on
    [Company_ID], [groupby] means, [unique()], [value_counts()] and
    [DataFrame.round(2)].  This file models those operations as pandas
    and numpy carry them out, on the cells of [Companies]:

    - a column has one dtype ([int64], [float64] or [object]) inferred
      from the CSV column; a frame filtered by a boolean mask
      ([df_where] of [series_eq]) keeps its columns' dtypes ([dframe]);
    - [Series.sum()] and [Series.mean()] go through numpy's [add.reduce]
      ([add_reduce]), which adds its initial [0.0] to the result of the
      float loop, the pairwise summation of
      [numpy/core/src/umath/loops_utils.h.src] ([pairwise_sum]: a plain
      loop below 8 elements, eight accumulators up to 128, halving
      above); NaN is replaced by [0.0] before the sum and left out of
      the count; an [object] column of strings concatenates in [sum] and
      raises [TypeError] in [mean];
    - [groupby(...).mean()] is pandas' Cython [group_mean], a Kahan
      compensated sum per group ([kahan_mean]), over the keys sorted,
      NaN keys dropped;
    - [merge(how='inner')] keeps the order of the left rows and, for
      each, the matching right rows in order ([merge_inner]);
    - [np.round(x, 2)] multiplies by [100.0], rounds half to even and
      divides back ([np_round2]).

    The theorems: the pairwise summation terminates (its fuel, the
    length of the list, is never exhausted); on integers whose absolute
    sum is below [2^53] every summation order gives the exact sum, so
    the mean of an [int64] column is its exact mean rounded once;
    [groupby] means and the inner merge return on well-formed frames,
    and every merged row is a left row followed by a right row without
    its key; [value_counts] of strings counts every value once, most
    frequent first. *)

From stdpp Require Import sorting.
From S2P Require Import Prelude PyStr PyObj Binary64 News Store Companies.

Local Open Scope Z_scope.

(** ** Columns and dtypes *)

(** The dtype [pd.read_csv] gives a column. *)
Inductive dtype : Type := DInt | DFloat | DObj.

#[export] Instance dtype_eq_dec : EqDecision dtype.
Proof. solve_decision. Defined.

Definition is_str_cell (c : cell) : bool := match c with CStr _ => true | _ => false end.
Definition is_float_cell (c : cell) : bool := match c with CFloat _ => true | _ => false end.

(** A column holding a string is [object]; otherwise one holding a
    float (a NaN included) is [float64]; otherwise [int64].  A file
    with a header and no rows gives [object] columns. *)
Definition infer_dtype (cs : list cell) : dtype :=
  match cs with
  | [] => DObj
  | _ => if existsb is_str_cell cs then DObj else if existsb is_float_cell cs then DFloat else DInt
  end.

(** A DataFrame with the dtype of each column. *)
Record dframe : Type := mk_dframe { df_cols : list (pystr * dtype); df_rows : list row }.

(** [pd.read_csv]: the dtypes of the whole columns. *)
Definition of_csv (fr : frame) : dframe :=
  mk_dframe ((fun col => (col, infer_dtype (omap (fun r => assoc_get col r) (f_rows fr))))
               <$> f_columns fr)
            (f_rows fr).

(** A Series: its dtype and its cells. *)
Record series : Type := mk_series { s_dtype : dtype; s_cells : list cell }.

(** [df[col]]. *)
Definition df_col (df : dframe) (col : string) : exc series :=
  match assoc_get (str_of col) (df_cols df) with
  | Some dt => cs ← exc_map (fun r => row_get r col) (df_rows df); mret (mk_series dt cs)
  | None => Raise KeyError
  end.

(** [series == value], element by element: [==] of [Companies]
    ([False] for a NaN, and between a string and a number). *)
Definition series_eq (s : series) (v : cell) : list bool := (fun c => year_eq c v) <$> s_cells s.

(** [df[mask]]: the rows where the mask is [True], the columns and
    their dtypes kept. *)
Definition df_where (df : dframe) (mask : list bool) : dframe :=
  mk_dframe (df_cols df) (fst <$> filter (fun rm => rm.2 = true) (zip (df_rows df) mask)).

(** [df[[c1, c2, ...]]]. *)
Definition df_select (df : dframe) (cols : list string) : exc dframe :=
  dts ← exc_map (fun col => match assoc_get (str_of col) (df_cols df) with
                            | Some dt => Ok (str_of col, dt)
                            | None => Raise KeyError
                            end) cols;
  rows ← exc_map (fun r => exc_map (fun col => c ← row_get r col; mret (str_of col, c)) cols)
                 (df_rows df);
  mret (mk_dframe dts rows).

(** ** Pairwise summation

    numpy's [pairwise_sum] is a template over the element type
    ([@TYPE@] in [loops_utils.h.src]); the section keeps it generic in
    the addition, the [0.] the short loop starts from, and the value
    of the eight-lane branch when the lanes are not eight (never, see
    [block_sum_lanes]). [pairwise_sum] instantiates it at [float64]. *)

Section Pairwise.
Context {A : Type} (add : A -> A -> A) (zero dflt : A).

(** [zip_with (+)] of the eight accumulators and a block of eight. *)
Definition lanes_add (r c : list A) : list A := zip_with add r c.

(** The blocks of eight of a list whose length is a multiple of 8. *)
Fixpoint blocks8 (fuel : nat) (l : list A) : list (list A) :=
  match fuel, l with
  | O, _ | _, [] => []
  | S f, _ => take 8 l :: blocks8 f (drop 8 l)
  end.

(** The loop below 8 elements: [res = 0.; res += a[i]]. *)
Definition seq_sum (l : list A) : A := foldl add zero l.

(** Up to 128 elements: eight accumulators over the blocks of eight,
    combined as [((r0 + r1) + (r2 + r3)) + ((r4 + r5) + (r6 + r7))],
    then the remaining elements one by one. *)
Definition block_sum (l : list A) : A :=
  let n := length l in
  let body := take (n - n mod 8) l in
  let rest := drop (n - n mod 8) l in
  match foldl lanes_add (take 8 body) (blocks8 (length body) (drop 8 body)) with
  | [r0; r1; r2; r3; r4; r5; r6; r7] =>
      foldl add (add (add (add r0 r1) (add r2 r3)) (add (add r4 r5) (add r6 r7))) rest
  | _ => dflt
  end.

(** Above 128 elements the list is cut at [n2 = n / 2 - (n / 2) mod 8]
    and the two sums added. *)
Fixpoint pairwise_fuel (fuel : nat) (l : list A) : A :=
  match fuel with
  | O => zero
  | S f =>
      let n := length l in
      if decide (n < 8)%nat then seq_sum l
      else if decide (n <= 128)%nat then block_sum l
      else let n2 := (n / 2 - (n / 2) mod 8)%nat in
           add (pairwise_fuel f (take n2 l)) (pairwise_fuel f (drop n2 l))
  end.

End Pairwise.

(** [pairwise_sum] of [float64]: the fuel is the length of the list. *)
Definition pairwise_sum (l : list b64) : b64 :=
  pairwise_fuel b64_add (B64Zero false) B64Nan (length l) l.

(** [np.add.reduce] of a [float64] array (numpy 1.24): the output is
    first filled with the identity [0.0], then the reduce loop does
    [*iop1 += pairwise_sum(...)].  The [+0.0] turns a [-0.0] sum into
    [+0.0]. *)
Definition add_reduce (l : list b64) : b64 := b64_add (B64Zero false) (pairwise_sum l).

(** ** Scalars, [sum] and [mean] *)

(** A scalar a reduction returns: [numpy.int64], [numpy.float64], or the
    [str] that [sum] of an [object] column of strings concatenates. *)
Inductive scalar : Type :=
  | SInt (z : Z)
  | SFloat (x : b64)
  | SStr (s : pystr).

(** The [float64] of a numeric cell, NaN as [0.0] for a sum. *)
Definition cell_or_zero (c : cell) : b64 :=
  if cell_isnan c then B64Zero false else cell_b64 c.

Definition count_notnan (cs : list cell) : nat := length (filter (fun c => cell_isnan c = false) cs).

(** [Series.sum()] ([nanops.nansum], [min_count = 0]): [int64] wraps,
    [float64] sums pairwise with NaN as [0.0], [object] concatenates
    its strings and raises [TypeError] on a NaN ([str + 0]). *)
Definition series_sum (s : series) : exc scalar :=
  match s_dtype s with
  | DInt => mret (SInt (wrap64 (foldr (fun c acc => match c with CInt z => z + acc | _ => acc end)
                                      0 (s_cells s))))
  | DFloat => mret (SFloat (add_reduce (cell_or_zero <$> s_cells s)))
  | DObj =>
      match s_cells s with
      | [] => mret (SInt 0)
      | _ => if forallb is_str_cell (s_cells s)
             then mret (SStr (concat (omap cell_str_val (s_cells s))))
             else Raise TypeError
      end
  end.

(** [Series.mean()] ([nanops.nanmean]): the sum in [float64] (an
    [int64] column is cast first) over the count of non-NaN values;
    [0 / 0] is NaN; an [object] column of strings raises [TypeError]
    (an empty one gives NaN). *)
Definition series_mean (s : series) : exc b64 :=
  match s_dtype s with
  | DObj => match s_cells s with [] => mret B64Nan | _ => Raise TypeError end
  | _ => mret (b64_div (add_reduce (cell_or_zero <$> s_cells s))
                       (b64_of_Z (Z.of_nat (count_notnan (s_cells s)))))
  end.

(** [f"{x:.kf}"] of a scalar: an [int64] is converted to a float, a
    string raises [ValueError]. *)
Definition scalar_format (k : nat) (x : scalar) : exc pystr :=
  match x with
  | SInt z => mret (format_f k (b64_of_Z z))
  | SFloat f => mret (format_f k f)
  | SStr _ => Raise ValueError
  end.

(** ** Keys *)

(** Equality of two keys of [groupby] and [merge]: strings by content,
    two [int64] exactly, other numbers as [float64]; a NaN key matches
    a NaN key in [merge] ([key_match]) and is dropped by [groupby]. *)
Definition key_match (a b : cell) : bool := year_eq a b || (cell_isnan a && cell_isnan b).

(** The order of sorted keys ([safe_sort]): numbers by value before
    strings, strings by code points. *)
Definition key_le (a b : cell) : bool :=
  match a, b with
  | CStr s, CStr t => negb (str_lt t s)
  | CStr _, _ => false
  | _, CStr _ => true
  | _, _ => match b64_cmp (cell_b64 a) (cell_b64 b) with Some Gt => false | _ => true end
  end.

(** Tuples of keys, lexicographically. *)
Fixpoint keys_le (a b : list cell) : bool :=
  match a, b with
  | x :: a', y :: b' => if key_le x y then (if key_le y x then keys_le a' b' else true) else false
  | _, _ => true
  end.

Definition keys_leR (a b : list cell) : Prop := keys_le a b = true.

#[export] Instance keys_leR_dec : RelDecision keys_leR.
Proof. intros a b. unfold keys_leR. apply _. Defined.

Definition keys_match (a b : list cell) : bool :=
  bool_decide (length a = length b) && forallb (fun xy => key_match xy.1 xy.2) (zip a b).

(** The first occurrence of each key, in order, given the keys seen. *)
Fixpoint nub_keys (seen ks : list (list cell)) : list (list cell) :=
  match ks with
  | [] => []
  | k :: ks' =>
      if existsb (fun k' => keys_match k' k) seen then nub_keys seen ks'
      else k :: nub_keys (k :: seen) ks'
  end.

(** ** [groupby(keys)[cols].mean()] *)

Definition b64_isnan (x : b64) : bool := match x with B64Nan => true | _ => false end.

(** The loop of [group_mean] for one group and one column: Kahan
    summation of the non-NaN values, a NaN compensation reset to [0]. *)
Fixpoint kahan_loop (sum comp : b64) (n : nat) (vals : list b64) : b64 * nat :=
  match vals with
  | [] => (sum, n)
  | v :: vs =>
      if b64_isnan v then kahan_loop sum comp n vs
      else
        let y := b64_sub v comp in
        let t := b64_add sum y in
        let comp' := b64_sub (b64_sub t sum) y in
        kahan_loop t (if b64_isnan comp' then B64Zero false else comp') (S n) vs
  end.

(** [sumx / nobs], NaN for an empty group. *)
Definition kahan_mean (vals : list b64) : b64 :=
  let '(sumx, n) := kahan_loop (B64Zero false) (B64Zero false) 0 vals in
  if decide (n = 0%nat) then B64Nan else b64_div sumx (b64_of_Z (Z.of_nat n)).

(** The values of a column as [float64] for [group_mean]; an [object]
    column raises [TypeError]. *)
Definition mean_values (dt : dtype) (cs : list cell) : exc (list b64) :=
  match dt with
  | DObj => Raise TypeError
  | _ => mret ((fun c => if cell_isnan c then B64Nan else cell_b64 c) <$> cs)
  end.

(** [df.groupby(keys)[cols].mean()]: one row per key tuple without NaN,
    sorted, with the mean of each column over the group's rows in
    order. *)
Definition groupby_mean (df : dframe) (keys cols : list string)
    : exc (list (list cell * list b64)) :=
  kss ← exc_map (fun r => exc_map (fun k => row_get r k) keys) (df_rows df);
  vss ← exc_map (fun col => s ← df_col df col; mret (s_dtype s, s_cells s)) cols;
  let rows := filter (fun kr => forallb (fun c => negb (cell_isnan c)) kr.1 = true)
                     (zip kss (seq 0 (length kss))) in
  let groups := merge_sort keys_leR (nub_keys [] (fst <$> rows)) in
  exc_map (fun g =>
    let idx := snd <$> filter (fun kr => keys_match g kr.1 = true) rows in
    ms ← exc_map (fun '(dt, cs) => vals ← mean_values dt (omap (fun i => cs !! i) idx);
                                   mret (kahan_mean vals)) vss;
    mret (g, ms)) groups.

(** ** [left.merge(right, on=key)] *)

Definition rename_col {A} (clash : list pystr) (suffix : string) (kv : pystr * A) : pystr * A :=
  if decide (kv.1 ∈ clash) then (kv.1 ++ str_of suffix, kv.2) else kv.

(** The columns of a frame besides the key. *)
Definition other_cols (df : dframe) (key : string) : list (pystr * dtype) :=
  filter (fun c => c.1 ≠ str_of key) (df_cols df).

(** The columns both frames have besides the key. *)
Definition clash_cols (left right : dframe) (key : string) : list pystr :=
  filter (fun c : pystr => c ∈ fst <$> other_cols right key) (fst <$> other_cols left key).

(** One row of the result: the left row, then the right row without its
    key, the clashing columns renamed. *)
Definition merged_row (clash : list pystr) (key : string) (lr rr : row) : row :=
  (rename_col clash "_x" <$> lr) ++ (rename_col clash "_y" <$> filter (fun c => c.1 ≠ str_of key) rr).

(** The rows of the inner join, the keys of both sides given. *)
Definition merge_rows (clash : list pystr) (key : string) (ls rs : list (row * cell)) : list row :=
  flat_map (fun lr => (fun rr => merged_row clash key lr.1 rr.1)
                      <$> filter (fun rr => key_match lr.2 rr.2 = true) rs) ls.

(** [how='inner']: the key must be a column of both frames, an [object]
    key cannot meet a numeric one ([ValueError]); the result keeps the
    left rows in order, each followed by its matching right rows in
    order, and a column that both frames have besides the key gets the
    suffixes [_x] and [_y]. *)
Definition merge_inner (left right : dframe) (key : string) : exc dframe :=
  match assoc_get (str_of key) (df_cols left), assoc_get (str_of key) (df_cols right) with
  | Some dl, Some dr =>
      if bool_decide (dl = DObj) && negb (bool_decide (dr = DObj))
         || negb (bool_decide (dl = DObj)) && bool_decide (dr = DObj) then Raise ValueError
      else
        let clash := clash_cols left right key in
        lks ← exc_map (fun r => row_get r key) (df_rows left);
        rks ← exc_map (fun r => row_get r key) (df_rows right);
        mret (mk_dframe ((rename_col clash "_x" <$> df_cols left)
                           ++ (rename_col clash "_y" <$> other_cols right key))
                        (merge_rows clash key (zip (df_rows left) lks) (zip (df_rows right) rks)))
  | _, _ => Raise KeyError
  end.

(** ** [unique()] and [value_counts()] *)

(** Equality of the hash table of [unique()]: NaN is one value. *)
Definition cell_same (a b : cell) : bool := key_match a b.

(** [Series.unique()]: the distinct values in order of first occurrence. *)
Fixpoint unique_from (seen : list cell) (cs : list cell) : list cell :=
  match cs with
  | [] => []
  | c :: cs' =>
      if existsb (cell_same c) seen then unique_from seen cs' else c :: unique_from (c :: seen) cs'
  end.

Definition series_unique (s : series) : list cell := unique_from [] (s_cells s).

Definition count_of (c : cell) (cs : list cell) : nat := length (filter (fun d => cell_same c d = true) cs).

Definition count_geR (a b : cell * nat) : Prop := (b.2 <= a.2)%nat.

#[export] Instance count_geR_dec : RelDecision count_geR.
Proof. intros a b. unfold count_geR. apply _. Defined.

(** [Series.value_counts()]: the non-NaN values with their counts, most
    frequent first, ties in order of first occurrence (numpy's sort is
    stable below 16 distinct values, the case of the risk levels). *)
Definition value_counts (s : series) : list (cell * nat) :=
  let cs := filter (fun c => cell_isnan c = false) (s_cells s) in
  merge_sort count_geR ((fun c => (c, count_of c cs)) <$> unique_from [] cs).

(** ** [np.round(x, 2)] *)

(** [np.rint]: to the nearest integer, ties to even, keeping the sign
    of a zero. *)
Definition b64_rint (x : b64) : b64 :=
  match x with
  | B64Fin s m e =>
      if (0 <=? e)%Z then x
      else let k := div_round m (2 ^ (- e)) in
           if (k =? 0)%Z then B64Zero s else b64_of_Z (signed s k)
  | _ => x
  end.

(** [PyArray_Round] with [decimals = 2]: [rint(x * 100.0) / 100.0]. *)
Definition np_round2 (x : b64) : b64 :=
  b64_div (b64_rint (b64_mul x (b64_of_Z 100))) (b64_of_Z 100).

(** ** Lemmas: the pairwise summation *)

(** The two halves of a list above 128 elements are both shorter. *)
Lemma pairwise_halves n : (128 < n)%nat ->
  (1 <= n / 2 - (n / 2) mod 8)%nat ∧ (n / 2 - (n / 2) mod 8 < n)%nat.
Proof.
  intros Hn. pose proof (Nat.mod_upper_bound (n / 2) 8 ltac:(lia)).
  assert (64 <= n / 2)%nat by (apply Nat.div_le_lower_bound; lia).
  pose proof (Nat.div_lt n 2 ltac:(lia) ltac:(lia)). lia.
Qed.

Section PairwiseFuel.
Context {A : Type} (add : A -> A -> A) (zero dflt : A).

(** Fuel beyond the length of the list changes nothing. *)
Lemma pairwise_fuel_enough f g l : (length l <= f)%nat -> (length l <= g)%nat ->
  pairwise_fuel add zero dflt f l = pairwise_fuel add zero dflt g l.
Proof.
  revert g l. induction f as [|f IH]; intros g l Hf Hg.
  - destruct l; [|cbn in Hf; lia]. by destruct g.
  - destruct g as [|g]; [destruct l; [done|cbn in Hg; lia]|].
    cbn [pairwise_fuel]. do 2 (case_decide; [done|]).
    pose proof (pairwise_halves (length l) ltac:(lia)).
    rewrite (IH g (take _ l)), (IH g (drop _ l)); rewrite ?length_take, ?length_drop; first [done | lia].
Qed.

End PairwiseFuel.

Section PairwiseMap.
Context {A B : Type} (addA : A -> A -> A) (zeroA dfltA : A) (addB : B -> B -> B) (zeroB dfltB : B).
Context (h : A -> B) (Hadd : ∀ x y, h (addA x y) = addB (h x) (h y)).
Context (Hzero : h zeroA = zeroB) (Hdflt : h dfltA = dfltB).

Lemma foldl_hom acc l : h (foldl addA acc l) = foldl addB (h acc) (h <$> l).
Proof. revert acc. induction l as [|x l IH]; intros acc; cbn; [done|]. by rewrite IH, Hadd. Qed.

Lemma lanes_add_hom r c : h <$> lanes_add addA r c = lanes_add addB (h <$> r) (h <$> c).
Proof.
  revert c. induction r as [|x r IH]; intros [|y c]; cbn; [done..|].
  unfold lanes_add in IH. by rewrite IH, Hadd.
Qed.

Lemma foldl_lanes_hom (r : list A) (bs : list (list A)) :
  h <$> foldl (lanes_add addA) r bs = foldl (lanes_add addB) (h <$> r) (fmap (M := list) h <$> bs).
Proof. revert r. induction bs as [|b bs IH]; intros r; cbn; [done|]. by rewrite IH, lanes_add_hom. Qed.

Lemma blocks8_hom f (l : list A) : fmap (M := list) h <$> blocks8 f l = blocks8 f (h <$> l).
Proof.
  revert l. induction f as [|f IH]; intros [|x l]; cbn; [done..|].
  rewrite <- fmap_drop, <- IH. f_equal. by rewrite <- fmap_take.
Qed.

Lemma block_sum_hom l : h (block_sum addA dfltA l) = block_sum addB dfltB (h <$> l).
Proof.
  unfold block_sum. cbv zeta.
  repeat (rewrite length_fmap || rewrite <- fmap_take || rewrite <- fmap_drop).
  rewrite <- blocks8_hom, <- foldl_lanes_hom.
  destruct (foldl _ _ _) as [|r0 [|r1 [|r2 [|r3 [|r4 [|r5 [|r6 [|r7 [|r8 rs]]]]]]]]]; cbn; try done.
  by rewrite foldl_hom, !Hadd, fmap_drop.
Qed.

(** A map that commutes with the addition commutes with the summation. *)
Lemma pairwise_fuel_hom f l :
  h (pairwise_fuel addA zeroA dfltA f l) = pairwise_fuel addB zeroB dfltB f (h <$> l).
Proof.
  revert l. induction f as [|f IH]; intros l; cbn [pairwise_fuel]; [done|].
  rewrite length_fmap. case_decide; [by unfold seq_sum; rewrite foldl_hom, Hzero|].
  case_decide; [by rewrite block_sum_hom|].
  by rewrite Hadd, !IH, fmap_take, fmap_drop.
Qed.

End PairwiseMap.

(** *** The shape of the summation

    Run on trees, the summation records the additions it performs: a
    tree has the elements as leaves, [TZero] for the [0.] of the short
    loop and [TDflt] for the branch that needs the lanes not to be
    eight. *)

Inductive sum_tree : Type :=
  | TLeaf (z : Z)
  | TNode (a b : sum_tree)
  | TZero
  | TDflt.

Fixpoint tree_leaves (t : sum_tree) : list Z :=
  match t with
  | TLeaf z => [z]
  | TNode a b => tree_leaves a ++ tree_leaves b
  | TZero | TDflt => []
  end.

Fixpoint tree_ok (t : sum_tree) : bool :=
  match t with TNode a b => tree_ok a && tree_ok b | TDflt => false | _ => true end.

(** The [float64] value of a tree of [int64] leaves. *)
Fixpoint tree_eval (t : sum_tree) : b64 :=
  match t with
  | TLeaf z => b64_of_Z z
  | TNode a b => b64_add (tree_eval a) (tree_eval b)
  | TZero => B64Zero false
  | TDflt => B64Nan
  end.

Definition forest_leaves (ts : list sum_tree) : list Z := concat (tree_leaves <$> ts).

Definition zsum (zs : list Z) : Z := foldr Z.add 0 zs.

#[export] Instance zsum_perm : Proper ((≡ₚ) ==> eq) zsum.
Proof. intros l1 l2 HP. unfold zsum. induction HP; cbn; lia. Qed.

Lemma zsum_app l1 l2 : zsum (l1 ++ l2) = zsum l1 + zsum l2.
Proof. unfold zsum. rewrite foldr_app. induction l1; cbn; lia. Qed.

Lemma forest_leaves_app ts1 ts2 : forest_leaves (ts1 ++ ts2) = forest_leaves ts1 ++ forest_leaves ts2.
Proof. unfold forest_leaves. by rewrite fmap_app, concat_app. Qed.

Lemma forest_leaves_cons t ts : forest_leaves (t :: ts) = tree_leaves t ++ forest_leaves ts.
Proof. done. Qed.

Lemma foldl_tree acc ts :
  tree_leaves (foldl TNode acc ts) = tree_leaves acc ++ forest_leaves ts
  ∧ tree_ok (foldl TNode acc ts) = tree_ok acc && forallb tree_ok ts.
Proof.
  revert acc. induction ts as [|t ts IH]; intros acc; cbn; [by rewrite app_nil_r, andb_true_r|].
  rewrite (proj1 (IH _)), (proj2 (IH _)). cbn. by rewrite app_assoc, andb_assoc.
Qed.

Lemma lanes_tree r c : length r = length c ->
  length (lanes_add TNode r c) = length r
  ∧ forest_leaves (lanes_add TNode r c) ≡ₚ forest_leaves r ++ forest_leaves c
  ∧ forallb tree_ok (lanes_add TNode r c) = forallb tree_ok r && forallb tree_ok c.
Proof.
  revert c. induction r as [|x r IH]; intros [|y c] Hl; cbn in Hl; try lia; [done|].
  destruct (IH c ltac:(lia)) as (IH1 & IH2 & IH3). unfold lanes_add in *. cbn.
  change (concat (tree_leaves <$> ?l)) with (forest_leaves l) in *.
  split_and!; [lia| |].
  - rewrite IH2. solve_Permutation.
  - rewrite IH3. destruct (tree_ok x), (tree_ok y), (forallb _ r), (forallb _ c); done.
Qed.

Lemma foldl_lanes_tree r bs : Forall (fun b => length b = length r) bs ->
  length (foldl (lanes_add TNode) r bs) = length r
  ∧ forest_leaves (foldl (lanes_add TNode) r bs) ≡ₚ forest_leaves r ++ forest_leaves (concat bs)
  ∧ forallb tree_ok (foldl (lanes_add TNode) r bs) = forallb tree_ok r && forallb tree_ok (concat bs).
Proof.
  revert r. induction bs as [|b bs IH]; intros r Hbs; cbn [foldl concat].
  { by rewrite app_nil_r, andb_true_r. }
  apply Forall_cons in Hbs as [Hb Hbs].
  destruct (lanes_tree r b ltac:(done)) as (L1 & L2 & L3).
  destruct (IH (lanes_add TNode r b)) as (I1 & I2 & I3); [by rewrite L1|].
  split_and!; [lia| |].
  - rewrite I2, L2, forest_leaves_app. by rewrite app_assoc.
  - rewrite I3, L3, forallb_app. by rewrite andb_assoc.
Qed.

(** The blocks of a list whose length is a multiple of 8. *)
Lemma blocks8_spec {A} f (l : list A) : (length l <= 8 * f)%nat -> (length l mod 8 = 0)%nat ->
  Forall (fun b => length b = 8%nat) (blocks8 f l) ∧ concat (blocks8 f l) = l.
Proof.
  revert l. induction f as [|f IH]; intros l Hf Hm.
  { destruct l; [by split|cbn in Hf; lia]. }
  destruct l as [|x l']; [by split|]. set (l := x :: l') in *.
  assert (8 <= length l)%nat.
  { destruct (decide (length l < 8)%nat); [|lia]. rewrite Nat.mod_small in Hm; subst l; cbn in *; lia. }
  change (blocks8 (S f) l) with (take 8 l :: blocks8 f (drop 8 l)).
  destruct (IH (drop 8 l)) as [IH1 IH2]; rewrite ?length_drop.
  - lia.
  - replace (length l) with (length l - 8 + 1 * 8)%nat in Hm by lia.
    by rewrite Nat.Div0.mod_add in Hm.
  - split; [constructor; [rewrite length_take; lia|done]|].
    cbn [concat]. by rewrite IH2, take_drop.
Qed.

Lemma forallb_take_drop {A} (p : A -> bool) n l : forallb p l = true ->
  forallb p (take n l) = true ∧ forallb p (drop n l) = true.
Proof. intros H. rewrite <- (take_drop n l), forallb_app in H. by apply andb_prop in H. Qed.

(** The eight lanes are eight: [block_sum] never takes its default
    branch, and it adds every element once. *)
Lemma block_sum_tree ts : (8 <= length ts)%nat -> forallb tree_ok ts = true ->
  tree_ok (block_sum TNode TDflt ts) = true ∧ tree_leaves (block_sum TNode TDflt ts) ≡ₚ forest_leaves ts.
Proof.
  intros Hn Hok. unfold block_sum. cbv zeta.
  set (k := (length ts - length ts mod 8)%nat).
  pose proof (Nat.mod_upper_bound (length ts) 8 ltac:(lia)).
  pose proof (Nat.div_mod_eq (length ts) 8).
  assert (Hk : length (take k ts) = k) by (rewrite length_take; lia).
  assert (k mod 8 = 0)%nat as Hk8.
  { subst k. replace (length ts - length ts mod 8)%nat with (0 + (length ts / 8) * 8)%nat by lia.
    by rewrite Nat.Div0.mod_add. }
  assert (8 <= k)%nat as Hk8' by (unfold k; lia).
  destruct (forallb_take_drop tree_ok k ts Hok) as [Hb Hr].
  destruct (forallb_take_drop tree_ok 8 (take k ts) Hb) as [Hb1 Hb2].
  destruct (blocks8_spec (length (take k ts)) (drop 8 (take k ts))) as [B1 B2].
  { rewrite length_drop. lia. }
  { rewrite length_drop, Hk. replace k with (k - 8 + 1 * 8)%nat in Hk8 by lia.
    by rewrite Nat.Div0.mod_add in Hk8. }
  destruct (foldl_lanes_tree (take 8 (take k ts)) (blocks8 (length (take k ts)) (drop 8 (take k ts))))
    as (L1 & L2 & L3).
  { eapply Forall_impl; [exact B1|]. intros b ->. rewrite length_take. lia. }
  rewrite B2 in L2, L3. rewrite Hb1, Hb2 in L3.
  assert (length (take 8 (take k ts)) = 8%nat) as H8 by (rewrite !length_take; lia). rewrite H8 in L1.
  revert L1 L2 L3.
  destruct (foldl (lanes_add TNode) (take 8 (take k ts)) (blocks8 (length (take k ts)) (drop 8 (take k ts))))
    as [|r0 [|r1 [|r2 [|r3 [|r4 [|r5 [|r6 [|r7 [|r8 rs]]]]]]]]]; intros L1 L2 L3;
    cbn [length] in L1; try lia.
  destruct (foldl_tree (TNode (TNode (TNode r0 r1) (TNode r2 r3)) (TNode (TNode r4 r5) (TNode r6 r7)))
              (drop k ts)) as [F1 F2].
  rewrite F1, F2, Hr. cbn in L3 |- *. split.
  - rewrite ?andb_true_r in L3 |- *. rewrite !andb_true_iff in L3 |- *. tauto.
  - transitivity (forest_leaves (take k ts) ++ forest_leaves (drop k ts));
      [|by rewrite <- forest_leaves_app, take_drop].
    apply Permutation_app_tail.
    transitivity (forest_leaves (take 8 (take k ts)) ++ forest_leaves (drop 8 (take k ts)));
      [|by rewrite <- forest_leaves_app, take_drop].
    rewrite <- L2. unfold forest_leaves. cbn. by rewrite !app_nil_r, <- !app_assoc.
Qed.

(** The whole summation adds every element once and never takes the
    default branch, whatever the fuel, as long as it covers the length. *)
Lemma pairwise_tree f ts : (length ts <= f)%nat -> forallb tree_ok ts = true ->
  tree_ok (pairwise_fuel TNode TZero TDflt f ts) = true
  ∧ tree_leaves (pairwise_fuel TNode TZero TDflt f ts) ≡ₚ forest_leaves ts.
Proof.
  revert ts. induction f as [|f IH]; intros ts Hf Hok.
  { destruct ts; [done|cbn in Hf; lia]. }
  cbn [pairwise_fuel]. case_decide.
  { unfold seq_sum. destruct (foldl_tree TZero ts) as [F1 F2]. by rewrite F1, F2, Hok. }
  case_decide; [apply block_sum_tree; [lia|done]|].
  pose proof (pairwise_halves (length ts) ltac:(lia)).
  destruct (forallb_take_drop tree_ok (length ts / 2 - (length ts / 2) mod 8) ts Hok) as [Ht Hd].
  destruct (IH (take (length ts / 2 - (length ts / 2) mod 8) ts)) as [I1 I2];
    [rewrite length_take; lia|done|].
  destruct (IH (drop (length ts / 2 - (length ts / 2) mod 8) ts)) as [J1 J2];
    [rewrite length_drop; lia|done|].
  cbn [tree_ok tree_leaves]. by rewrite I1, J1, I2, J2, <- forest_leaves_app, take_drop.
Qed.

Lemma zsum_abs_bound zs : Z.abs (zsum zs) <= zsum (Z.abs <$> zs) ∧ 0 <= zsum (Z.abs <$> zs).
Proof.
  induction zs as [|z zs IH]; [done|]. rewrite fmap_cons. unfold zsum in *; cbn [foldr]. lia.
Qed.

(** A tree of integers whose absolute values sum below [2^53] adds up
    exactly. *)
Lemma tree_eval_exact t : tree_ok t = true -> zsum (Z.abs <$> tree_leaves t) < 2 ^ 53 ->
  tree_eval t = b64_of_Z (zsum (tree_leaves t)).
Proof.
  induction t as [z|a IHa b IHb| |]; cbn [tree_eval tree_leaves tree_ok]; intros Hok Hb; try done.
  - cbn. by rewrite Z.add_0_r.
  - apply andb_prop in Hok as [Ha Hb']. rewrite fmap_app, zsum_app in Hb. rewrite zsum_app.
    pose proof (zsum_abs_bound (tree_leaves a)). pose proof (zsum_abs_bound (tree_leaves b)).
    rewrite IHa, IHb by (done || lia). apply b64_add_Z; lia.
Qed.

Lemma forest_leaves_TLeaf zs : forest_leaves (TLeaf <$> zs) = zs.
Proof. induction zs as [|z zs IH]; [done|]. rewrite fmap_cons, forest_leaves_cons, IH. done. Qed.

Lemma forallb_TLeaf zs : forallb tree_ok (TLeaf <$> zs) = true.
Proof. induction zs as [|z zs IH]; [done|]. by rewrite fmap_cons; cbn; rewrite IH. Qed.

Lemma pairwise_sum_Z zs : zsum (Z.abs <$> zs) < 2 ^ 53 ->
  pairwise_sum (b64_of_Z <$> zs) = b64_of_Z (zsum zs).
Proof.
  intros Hb. unfold pairwise_sum. rewrite length_fmap.
  replace (b64_of_Z <$> zs) with (tree_eval <$> (TLeaf <$> zs)) by (rewrite <- list_fmap_compose; done).
  rewrite <- (pairwise_fuel_hom TNode TZero TDflt b64_add (B64Zero false) B64Nan tree_eval) by done.
  destruct (pairwise_tree (length zs) (TLeaf <$> zs)) as [Hok Hp];
    [by rewrite length_fmap|apply forallb_TLeaf|].
  rewrite forest_leaves_TLeaf in Hp.
  rewrite tree_eval_exact, Hp; [done|done|]. by rewrite Hp.
Qed.

Lemma count_notnan_int zs : count_notnan (CInt <$> zs) = length zs.
Proof.
  induction zs as [|z zs IH]; [done|]. unfold count_notnan in *.
  rewrite fmap_cons, filter_cons_True by done. cbn [length]. by rewrite IH.
Qed.

Lemma cell_or_zero_int (zs : list Z) : cell_or_zero <$> (CInt <$> zs) = b64_of_Z <$> zs.
Proof. by rewrite <- list_fmap_compose. Qed.

(** The [+0.0] the reduction starts from changes nothing on such sums. *)
Lemma add_reduce_Z zs : zsum (Z.abs <$> zs) < 2 ^ 53 ->
  add_reduce (b64_of_Z <$> zs) = b64_of_Z (zsum zs).
Proof.
  intros Hb. unfold add_reduce. rewrite pairwise_sum_Z by done.
  change (B64Zero false) with (b64_of_Z 0). pose proof (zsum_abs_bound zs).
  rewrite b64_add_Z by lia. done.
Qed.

(** The pairwise summation terminates: [pairwise_sum] satisfies the
    recursion of numpy's [pairwise_sum] on every list, so the fuel it is
    given (the length of the list) never runs out. *)
Theorem pairwise_sum_unfold l :
  pairwise_sum l =
    if decide (length l < 8)%nat then seq_sum b64_add (B64Zero false) l
    else if decide (length l <= 128)%nat then block_sum b64_add B64Nan l
    else let n2 := (length l / 2 - (length l / 2) mod 8)%nat in
         b64_add (pairwise_sum (take n2 l)) (pairwise_sum (drop n2 l)).
Proof.
  unfold pairwise_sum. destruct l as [|x l']; [done|]. set (l := x :: l').
  change (length l) with (S (length l')) at 1. cbn [pairwise_fuel]. cbv zeta.
  change (S (length l')) with (length l). do 2 (case_decide; [done|]).
  assert (length l = S (length l')) by done.
  pose proof (pairwise_halves (length l) ltac:(lia)).
  f_equal; apply pairwise_fuel_enough; rewrite ?length_take, ?length_drop; lia.
Qed.

(** On [int64] values whose absolute values sum below [2^53], the
    pairwise summation of their [float64] casts is the cast of their
    exact sum: the eight lanes and the halving change nothing. *)
Theorem pairwise_sum_int zs : zsum (Z.abs <$> zs) < 2 ^ 53 ->
  pairwise_sum (b64_of_Z <$> zs) = b64_of_Z (zsum zs).
Proof. apply pairwise_sum_Z. Qed.

(** [Series.mean()] of an [int64] column whose absolute values sum
    below [2^53] is its exact mean rounded once to the nearest double:
    [Σ z / n] correctly rounded, [+0.0] for a zero sum. *)
Theorem series_mean_int zs : zs <> [] -> Z.of_nat (length zs) < 2 ^ 53 -> zsum (Z.abs <$> zs) < 2 ^ 53 ->
  series_mean (mk_series DInt (CInt <$> zs)) =
    Ok (if zsum zs =? 0 then B64Zero false
        else round_rat (zsum zs <? 0) (Z.abs (zsum zs)) (Z.of_nat (length zs))).
Proof.
  intros Hne Hn Hb. cbn [series_mean s_dtype s_cells].
  rewrite cell_or_zero_int, count_notnan_int, add_reduce_Z by done.
  f_equal. apply b64_div_Z; [|pose proof (zsum_abs_bound zs); lia].
  destruct zs; [done|]. cbn [length] in *. lia.
Qed.

(** ** Lemmas: well-formed frames

    [pd.read_csv] gives every row the frame's columns in order
    ([keys_ok]); the lemmas below say when the operations of this file
    succeed on such frames and what they return. *)

Definition keys_ok (df : dframe) : Prop := Forall (fun r => fst <$> r = fst <$> df_cols df) (df_rows df).

(** Every cell of a column satisfies [P]. *)
Definition col_all (df : dframe) (col : string) (P : cell -> Prop) : Prop :=
  Forall (fun r => ∀ c, assoc_get (str_of col) r = Some c -> P c) (df_rows df).

(** A column that a mean can take: it is there, [object] only when the
    frame has no row. *)
Definition mean_col (df : dframe) (col : string) : Prop :=
  ∃ dt, assoc_get (str_of col) (df_cols df) = Some dt ∧ (dt = DObj -> df_rows df = []).

Lemma df_col_ok df col dt : keys_ok df -> assoc_get (str_of col) (df_cols df) = Some dt ->
  ∃ cs, df_col df col = Ok (mk_series dt cs)
        ∧ Forall2 (fun r c => assoc_get (str_of col) r = Some c) (df_rows df) cs.
Proof.
  intros Hk Hc. unfold df_col. rewrite Hc.
  assert (∃ cs, exc_map (fun r => row_get r col) (df_rows df) = Ok cs) as [cs Hcs].
  { apply exc_map_ok_iff. eapply Forall_impl; [exact Hk|]. intros r Hr.
    destruct (proj2 (assoc_get_keys (str_of col) r (df_cols df) Hr)) as [c Hc']; [by eexists|].
    exists c. unfold row_get. by rewrite Hc'. }
  exists cs. rewrite Hcs. split; [done|]. apply exc_map_Forall2 in Hcs.
  eapply Forall2_impl; [exact Hcs|]. intros r c. unfold row_get. by case_match; intros [= ->].
Qed.

Lemma df_col_dtype df col s : df_col df col = Ok s -> assoc_get (str_of col) (df_cols df) = Some (s_dtype s).
Proof.
  unfold df_col. destruct (assoc_get _ _); [|done].
  destruct (exc_map _ _); cbn [mbind exc_bind mret exc_ret]; [|done]. by intros [= <-].
Qed.

Lemma df_col_cells df col P dt : keys_ok df -> assoc_get (str_of col) (df_cols df) = Some dt ->
  col_all df col P ->
  ∃ cs, df_col df col = Ok (mk_series dt cs) ∧ Forall P cs ∧ length cs = length (df_rows df).
Proof.
  intros Hk Hc HP. destruct (df_col_ok df col dt Hk Hc) as (cs & Hcs & H2).
  exists cs. split_and!; [done| |by rewrite (Forall2_length _ _ _ H2)].
  eapply Forall2_transport; [exact H2|exact HP|]. intros r c Hr Hf. by apply Hf.
Qed.

(** The rows a mask keeps. *)
Lemma df_where_Forall df mask (P : row -> Prop) :
  Forall P (df_rows df) -> Forall P (df_rows (df_where df mask)).
Proof.
  intros HP. apply Forall_forall. intros r Hr. cbn in Hr.
  apply list_elem_of_fmap in Hr as [[r' m] [-> Hr]].
  apply list_elem_of_filter in Hr as [_ Hr]. apply elem_of_zip_l in Hr.
  by eapply Forall_forall in HP.
Qed.

Lemma df_where_nil df mask : df_rows df = [] -> df_rows (df_where df mask) = [].
Proof. cbn. by intros ->. Qed.

Lemma df_where_keys_ok df mask : keys_ok df -> keys_ok (df_where df mask).
Proof. apply df_where_Forall. Qed.

Lemma df_where_col_all df mask col P : col_all df col P -> col_all (df_where df mask) col P.
Proof. apply df_where_Forall. Qed.

Lemma df_where_mean_col df mask col : mean_col df col -> mean_col (df_where df mask) col.
Proof. intros (dt & Hc & Hd). exists dt. split; [done|]. intros ->. by apply df_where_nil, Hd. Qed.

(** A numeric column's mean, sum and maximum do not raise. *)
Lemma series_mean_ok dt cs : (dt = DObj -> cs = []) -> ∃ x, series_mean (mk_series dt cs) = Ok x.
Proof. intros Hd. destruct dt; cbn; eauto. by rewrite Hd; eauto. Qed.

Lemma series_sum_ok dt cs : (dt = DObj -> cs = []) ->
  ∃ x, series_sum (mk_series dt cs) = Ok x ∧ ∃ t, scalar_format 1 x = Ok t.
Proof. intros Hd. destruct dt; cbn; eauto. by rewrite Hd; eauto. Qed.

Lemma column_max_ok cs : Forall (fun c => is_num c = true) cs -> ∃ c, column_max cs = Ok c.
Proof.
  intros Hn. unfold column_max. rewrite omap_none.
  - destruct (filter _ cs); eauto.
  - eapply Forall_impl; [exact Hn|]. by intros [] ?.
Qed.

Lemma Forall2_fmap_eq {A B C} (f : A -> C) (g : B -> C) l k :
  Forall2 (fun x y => g y = f x) l k -> g <$> k = f <$> l.
Proof. induction 1; cbn; f_equal; auto. Qed.

(** [df[[c1, c2, ...]]] of columns the frame has. *)
Lemma df_select_ok df cols : keys_ok df ->
  Forall (fun col => is_Some (assoc_get (str_of col) (df_cols df))) cols ->
  ∃ df', df_select df cols = Ok df' ∧ keys_ok df' ∧ fst <$> df_cols df' = str_of <$> cols
         ∧ length (df_rows df') = length (df_rows df)
         ∧ (∀ k, is_Some (assoc_get k (df_cols df')) -> assoc_get k (df_cols df') = assoc_get k (df_cols df)).
Proof.
  intros Hk Hcols. unfold df_select.
  set (fd := fun col => match assoc_get (str_of col) (df_cols df) with
                        | Some dt => Ok (str_of col, dt) | None => Raise KeyError end).
  assert (∃ dts, exc_map fd cols = Ok dts) as [dts Hdts].
  { apply exc_map_ok_iff. eapply Forall_impl; [exact Hcols|]. intros col [dt Hdt].
    unfold fd. rewrite Hdt. eauto. }
  set (fr := fun r : row => exc_map (fun col => c ← row_get r col; mret (str_of col, c)) cols).
  assert (Hrow : ∀ r, fst <$> r = fst <$> df_cols df ->
            ∃ rr, fr r = Ok rr ∧ fst <$> rr = str_of <$> cols).
  { intros r Hr.
    assert (∃ rr, fr r = Ok rr) as [rr Hrr].
    { apply exc_map_ok_iff. eapply Forall_impl; [exact Hcols|]. intros col Hc.
      apply (assoc_get_keys (str_of col) r (df_cols df) Hr) in Hc as [c Hc].
      unfold row_get. rewrite Hc. eauto. }
    exists rr. split; [done|]. apply exc_map_Forall2 in Hrr. apply Forall2_fmap_eq.
    eapply Forall2_impl; [exact Hrr|]. intros col kc. unfold row_get.
    by case_match; intros [= <-]. }
  assert (∃ rows, exc_map fr (df_rows df) = Ok rows) as [rows Hrows].
  { apply exc_map_ok_iff. eapply Forall_impl; [exact Hk|]. intros r Hr.
    destruct (Hrow r Hr) as (rr & ? & _). eauto. }
  rewrite Hdts, Hrows. exists (mk_dframe dts rows). cbn [df_cols df_rows].
  apply exc_map_Forall2 in Hdts. apply exc_map_Forall2 in Hrows.
  assert (fst <$> dts = str_of <$> cols) as Hf.
  { apply Forall2_fmap_eq. eapply Forall2_impl; [exact Hdts|]. intros col d. unfold fd.
    by case_match; intros [= <-]. }
  split_and!; [done| | done | by rewrite (Forall2_length _ _ _ Hrows) |].
  - unfold keys_ok. cbn [df_cols df_rows]. rewrite Hf.
    eapply (Forall2_transport (fun r rr => fr r = Ok rr)); [exact Hrows|exact Hk|].
    intros r rr Hrr Hr. destruct (Hrow r Hr) as (rr' & Hrr' & Hf').
    rewrite Hrr in Hrr'. by injection Hrr' as ->.
  - clear -Hdts. induction Hdts as [|col d cols dts Hd Hdts IH]; intros k Hs; [by destruct Hs|].
    unfold fd in Hd. destruct (assoc_get (str_of col) (df_cols df)) eqn:Hc; [|done].
    injection Hd as <-. cbn in *. case_decide; [by subst|]. by apply IH.
Qed.

Lemma fmap_rename_nil {A} s (l : list (pystr * A)) : rename_col [] s <$> l = l.
Proof.
  induction l as [|kv l IH]; [done|]. rewrite fmap_cons, IH. unfold rename_col.
  case_decide as H; [by apply elem_of_nil in H|done].
Qed.

Lemma fst_filter_key {V W} (k : pystr) (r : list (pystr * V)) (c : list (pystr * W)) :
  fst <$> r = fst <$> c ->
  fst <$> filter (fun x => x.1 ≠ k) r = fst <$> filter (fun x => x.1 ≠ k) c.
Proof.
  revert c. induction r as [|[k1 v] r IH]; intros [|[k2 w] c] Hk; try done.
  rewrite !fmap_cons in Hk. injection Hk as E Hk. cbn in E. subst k2.
  rewrite !filter_cons. cbn [fst]. case_decide; [rewrite !fmap_cons; f_equal|]; by apply IH.
Qed.

Lemma row_gets_ok df col : keys_ok df -> is_Some (assoc_get (str_of col) (df_cols df)) ->
  ∃ ks, exc_map (fun r => row_get r col) (df_rows df) = Ok ks.
Proof.
  intros Hk [dt Hdt]. destruct (df_col_ok df col dt Hk Hdt) as (cs & Hcs & _).
  unfold df_col in Hcs. rewrite Hdt in Hcs.
  destruct (exc_map _ _) as [ks|]; [eauto|done].
Qed.

Lemma merge_rows_elem clash key ls rs r' : r' ∈ merge_rows clash key ls rs ->
  ∃ lr rr, lr ∈ ls ∧ rr ∈ rs ∧ r' = merged_row clash key lr.1 rr.1.
Proof.
  induction ls as [|lr ls IH]; intros Hr; cbn in Hr; [by apply elem_of_nil in Hr|].
  apply elem_of_app in Hr as [Hr|Hr].
  - apply list_elem_of_fmap in Hr as (rr & -> & Hrr). apply list_elem_of_filter in Hrr as [_ Hrr].
    exists lr, rr. split_and!; [left|done|done].
  - destruct (IH Hr) as (lr' & rr & ? & ? & ->). exists lr', rr. split_and!; [by right|done|done].
Qed.

(** The inner merge of two frames whose other columns do not clash:
    the left columns then the right ones without the key, each row a
    left row followed by a right row without its key. *)
Lemma merge_inner_ok left right key dl dr :
  keys_ok left -> keys_ok right ->
  assoc_get (str_of key) (df_cols left) = Some dl -> assoc_get (str_of key) (df_cols right) = Some dr ->
  (dl = DObj <-> dr = DObj) ->
  (∀ c, c ∈ fst <$> other_cols right key -> c ∉ fst <$> df_cols left) ->
  ∃ df', merge_inner left right key = Ok df'
    ∧ df_cols df' = df_cols left ++ other_cols right key ∧ keys_ok df'
    ∧ Forall (fun r' => ∃ lr rr, lr ∈ df_rows left ∧ rr ∈ df_rows right ∧
                          r' = lr ++ filter (fun c => c.1 ≠ str_of key) rr) (df_rows df').
Proof.
  intros Hkl Hkr Hl Hr Hd Hno. unfold merge_inner. rewrite Hl, Hr.
  assert (bool_decide (dl = DObj) && negb (bool_decide (dr = DObj))
          || negb (bool_decide (dl = DObj)) && bool_decide (dr = DObj) = false) as ->.
  { destruct (decide (dl = DObj)), (decide (dr = DObj));
      rewrite ?bool_decide_true, ?bool_decide_false by done; naive_solver. }
  assert (clash_cols left right key = []) as ->.
  { destruct (clash_cols left right key) as [|c cs] eqn:E; [done|]. exfalso.
    assert (c ∈ clash_cols left right key) as Hc by (rewrite E; left).
    apply list_elem_of_filter in Hc as [Hc Hin]. apply (Hno c Hc).
    apply list_elem_of_fmap in Hin as ([c' dt] & -> & Hin). apply list_elem_of_filter in Hin as [_ Hin].
    apply list_elem_of_fmap. by exists (c', dt). }
  destruct (row_gets_ok left key Hkl ltac:(by eexists)) as [lks ->].
  destruct (row_gets_ok right key Hkr ltac:(by eexists)) as [rks ->].
  cbn [mbind exc_bind mret exc_ret]. rewrite !fmap_rename_nil.
  eexists. split; [reflexivity|]. cbn [df_cols df_rows].
  assert (Hrows : Forall (fun r' => ∃ lr rr, lr ∈ df_rows left ∧ rr ∈ df_rows right ∧
                          r' = lr ++ filter (fun c => c.1 ≠ str_of key) rr)
                  (merge_rows [] key (zip (df_rows left) lks) (zip (df_rows right) rks))).
  { apply Forall_forall. intros r' Hr'. apply merge_rows_elem in Hr' as ([lr lk] & [rr rk] & Hlr & Hrr & ->).
    exists lr, rr. apply elem_of_zip_l in Hlr, Hrr. split_and!; [done|done|].
    unfold merged_row. by rewrite !fmap_rename_nil. }
  split_and!; [done| |done].
  unfold keys_ok. cbn [df_cols df_rows]. eapply Forall_impl; [exact Hrows|].
  intros r' (lr & rr & Hlr & Hrr & ->). rewrite !fmap_app. f_equal.
  - by eapply Forall_forall in Hkl.
  - unfold other_cols. apply fst_filter_key. by eapply Forall_forall in Hkr.
Qed.

(** [groupby(keys)[cols].mean()] on key columns the frame has and
    columns a mean can take. *)
Lemma groupby_mean_ok df keys cols : keys_ok df ->
  Forall (fun k => is_Some (assoc_get (str_of k) (df_cols df))) keys ->
  Forall (mean_col df) cols ->
  ∃ res, groupby_mean df keys cols = Ok res.
Proof.
  intros Hk Hkeys Hcols. unfold groupby_mean.
  assert (∃ kss, exc_map (fun r => exc_map (fun k => row_get r k) keys) (df_rows df) = Ok kss)
    as [kss Hkss].
  { apply exc_map_ok_iff. eapply Forall_impl; [exact Hk|]. intros r Hr. apply exc_map_ok_iff.
    eapply Forall_impl; [exact Hkeys|]. intros k Hs.
    apply (assoc_get_keys (str_of k) r (df_cols df) Hr) in Hs as [c Hc].
    unfold row_get. rewrite Hc. eauto. }
  rewrite Hkss. cbn [mbind exc_bind].
  assert (∃ vss, exc_map (fun col => s ← df_col df col; mret (s_dtype s, s_cells s)) cols = Ok vss
                 ∧ Forall (fun v => v.1 = DObj -> df_rows df = []) vss) as (vss & -> & Hv).
  { induction Hcols as [|col cols (dt & Hdt & Hd) _ IH]; [by exists []|].
    destruct IH as (vss & Hvss & Hv). destruct (df_col_ok df col dt Hk Hdt) as (cs & Hcs & _).
    exists ((dt, cs) :: vss). cbn [exc_map]. rewrite Hcs. cbn [mbind exc_bind mret exc_ret].
    rewrite Hvss. split; [done|]. by constructor. }
  cbn [mbind exc_bind]. destruct (decide (df_rows df = [])) as [E|E].
  { rewrite E in Hkss. cbn in Hkss. injection Hkss as <-. cbn. eauto. }
  apply exc_map_ok_iff. apply Forall_forall. intros g _.
  assert (∃ ms, exc_map (fun '(dt, cs) =>
            vals ← mean_values dt (omap (fun i => cs !! i)
                     (snd <$> filter (fun kr => keys_match g kr.1 = true)
                        (filter (fun kr => forallb (fun c => negb (cell_isnan c)) kr.1 = true)
                           (zip kss (seq 0 (length kss))))));
            mret (kahan_mean vals)) vss = Ok ms) as [ms ->]; [|cbn; eauto].
  apply exc_map_ok_iff. eapply Forall_impl; [exact Hv|]. intros [dt cs] Hd. cbn in Hd.
  destruct dt; cbn; eauto. by destruct (Hd eq_refl).
Qed.

(** The columns of a merged frame that come from the left keep the
    property that a mean can take them. *)
Lemma merge_mean_col left right key df' col :
  df_cols df' = df_cols left ++ other_cols right key ->
  Forall (fun r' => ∃ lr rr, lr ∈ df_rows left ∧ rr ∈ df_rows right ∧
                      r' = lr ++ filter (fun c => c.1 ≠ str_of key) rr) (df_rows df') ->
  mean_col left col -> mean_col df' col.
Proof.
  intros Hc Hr (dt & Hdt & Hd). exists dt. rewrite Hc, assoc_get_app_l by (by rewrite Hdt).
  split; [done|]. intros Hobj. destruct (df_rows df') as [|r' rs] eqn:E; [done|].
  apply Forall_cons in Hr as [(lr & _ & Hlr & _ & _) _]. by rewrite (Hd Hobj) in Hlr; apply elem_of_nil in Hlr.
Qed.

(** [pd.read_csv]: the header's columns, each with the dtype of its cells. *)
Lemma of_csv_cols fr : fst <$> df_cols (of_csv fr) = f_columns fr.
Proof. cbn. rewrite <- list_fmap_compose. apply list_fmap_id. Qed.

Lemma of_csv_dtype fr col : str_of col ∈ f_columns fr ->
  assoc_get (str_of col) (df_cols (of_csv fr)) =
    Some (infer_dtype (omap (fun r => assoc_get (str_of col) r) (f_rows fr))).
Proof.
  cbn. generalize (f_rows fr) as rows. induction (f_columns fr) as [|c cs IH]; intros rows Hc;
    [by apply elem_of_nil in Hc|].
  rewrite fmap_cons. cbn. case_decide as E; [by subst|].
  apply IH. apply elem_of_cons in Hc as [Hc|Hc]; [by destruct E|done].
Qed.

Lemma fst_filter_ne {V} (k : pystr) (l : list (pystr * V)) :
  fst <$> filter (fun x => x.1 ≠ k) l = filter (fun x => x ≠ k) (fst <$> l).
Proof.
  induction l as [|[k1 v] l IH]; [done|]. rewrite fmap_cons, !filter_cons. cbn [fst].
  case_decide; [rewrite fmap_cons|]; by rewrite IH.
Qed.

(** A row kept by [df[df[col] == v]] has a cell equal to [v] there. *)
Lemma df_where_eq_elem df col s v r : df_col df col = Ok s ->
  r ∈ df_rows (df_where df (series_eq s v)) ->
  r ∈ df_rows df ∧ ∃ c, assoc_get (str_of col) r = Some c ∧ year_eq c v = true.
Proof.
  intros Hs Hr. unfold df_col in Hs. destruct (assoc_get _ _); [|done].
  destruct (exc_map _ _) as [cs|] eqn:Hcs; [|done]. cbn in Hs. injection Hs as <-.
  apply exc_map_Forall2 in Hcs. cbn in Hr.
  apply list_elem_of_fmap in Hr as ([r' m] & -> & Hr). apply list_elem_of_filter in Hr as [Hm Hr].
  cbn in Hm |- *. subst m. apply list_elem_of_lookup in Hr as [i Hi].
  apply lookup_zip_with_Some in Hi as (r'' & m & [= <- <-] & Hri & Hmi).
  unfold series_eq in Hmi. cbn [s_cells] in Hmi. apply list_lookup_fmap_Some in Hmi as (c & Hcv & Hci).
  split; [by eapply list_elem_of_lookup_2|]. exists c. split; [|done].
  pose proof (Forall2_lookup_lr _ _ _ _ _ _ Hcs Hri Hci) as Hg. unfold row_get in Hg.
  by case_match; simplify_eq.
Qed.

Lemma series_sum_empty dt : ∃ z, series_sum (mk_series dt []) = Ok z ∧ (z = SInt 0 ∨ z = SFloat (B64Zero false)).
Proof. destruct dt; eauto. Qed.

(** ** Lemmas: [unique()] and [value_counts()] on strings *)

Lemma cell_same_str c d : is_str_cell c = true -> is_str_cell d = true -> cell_same c d = bool_decide (c = d).
Proof.
  destruct c as [s| |], d as [t| |]; try done. intros _ _. unfold cell_same, key_match. cbn.
  destruct (decide (s = t)) as [->|Hne].
  - by rewrite !bool_decide_true.
  - rewrite !bool_decide_false; [done|congruence|done].
Qed.

Lemma unique_from_str seen cs : Forall (fun c => is_str_cell c = true) (seen ++ cs) ->
  (∀ x, x ∈ unique_from seen cs <-> x ∈ cs ∧ x ∉ seen) ∧ NoDup (unique_from seen cs).
Proof.
  revert seen. induction cs as [|c cs IH]; intros seen Hs.
  { split; [set_solver|constructor]. }
  apply Forall_app in Hs as [Hseen Hcs]. apply Forall_cons in Hcs as [Hc Hcs].
  assert (existsb (cell_same c) seen = bool_decide (c ∈ seen)) as Hex.
  { clear -Hseen Hc. induction seen as [|d seen IHs]; [done|]. apply Forall_cons in Hseen as [Hd Hseen].
    cbn. rewrite IHs by done. rewrite cell_same_str by done.
    apply eq_bool_prop_intro. rewrite orb_True, !bool_decide_spec, elem_of_cons. naive_solver. }
  cbn. rewrite Hex. case_bool_decide as Hin.
  - destruct (IH seen) as [IH1 IH2]; [by apply Forall_app|]. split; [|done].
    intros x. rewrite IH1, elem_of_cons. clear -Hin.
    destruct (decide (x = c)) as [->|Hne]; tauto.
  - destruct (IH (c :: seen)) as [IH1 IH2]; [by apply Forall_app; split; [constructor|]|].
    split.
    + intros x. rewrite elem_of_cons, IH1, !elem_of_cons. clear -Hin.
      destruct (decide (x = c)) as [->|Hne]; tauto.
    + constructor; [|done]. rewrite IH1, elem_of_cons. tauto.
Qed.

Lemma count_of_str c cs : is_str_cell c = true -> Forall (fun d => is_str_cell d = true) cs ->
  count_of c cs = length (filter (fun d => d = c) cs).
Proof.
  intros Hc Hcs. unfold count_of. induction Hcs as [|d cs Hd _ IH]; [done|].
  rewrite !filter_cons. rewrite cell_same_str by done.
  destruct (decide (d = c)) as [->|Hne]; case_decide as Hb; cbn.
  - by rewrite IH.
  - by rewrite bool_decide_true in Hb.
  - rewrite bool_decide_false in Hb by congruence. done.
  - done.
Qed.

#[export] Instance count_geR_total : Total count_geR.
Proof. intros a b. unfold count_geR. lia. Qed.

#[export] Instance count_geR_trans : Transitive count_geR.
Proof. intros a b c. unfold count_geR. lia. Qed.

(** [value_counts()] of a column of strings (the risk levels) lists
    every distinct value once, with the number of its occurrences, most
    frequent first. *)
Theorem value_counts_str s : Forall (fun c => is_str_cell c = true) (s_cells s) ->
  Sorted count_geR (value_counts s) ∧ NoDup (fst <$> value_counts s)
  ∧ ∀ c n, (c, n) ∈ value_counts s <-> c ∈ s_cells s ∧ n = length (filter (fun d => d = c) (s_cells s)).
Proof.
  intros Hs. unfold value_counts.
  assert (filter (fun c => cell_isnan c = false) (s_cells s) = s_cells s) as ->.
  { clear -Hs. induction Hs as [|c cs Hc _ IH]; [done|].
    rewrite filter_cons_True, IH; [done|]. by destruct c. }
  destruct (unique_from_str [] (s_cells s) Hs) as [U1 U2].
  pose proof (merge_sort_Permutation count_geR
               ((fun c => (c, count_of c (s_cells s))) <$> unique_from [] (s_cells s))) as HP.
  split_and!.
  - apply Sorted_merge_sort, _.
  - rewrite HP, <- list_fmap_compose. by rewrite list_fmap_id.
  - intros c n. rewrite HP, list_elem_of_fmap. split.
    + intros (c' & [= -> ->] & Hc). apply U1 in Hc as [Hc _]. split; [done|].
      apply count_of_str; [|done]. by eapply Forall_forall in Hs.
    + intros [Hc ->]. exists c. split; [|apply U1; set_solver].
      f_equal. symmetry. apply count_of_str; [|done]. by eapply Forall_forall in Hs.
Qed.

(** ** Examples *)

(** Two hundred integers: the summation splits at 96 and again below
    128, and runs the eight lanes. *)
Definition demo_ints : list Z := (fun i => Z.of_nat i * 7 - 600) <$> seq 0 200.

Lemma pairwise_sum_int_witness : pairwise_sum (b64_of_Z <$> demo_ints) = b64_of_Z (zsum demo_ints).
Proof. apply pairwise_sum_int. vm_compute. reflexivity. Defined.

(** The mean of [3, -1, 5] is [7/3], rounded to the nearest double. *)
Lemma series_mean_int_witness :
  series_mean (mk_series DInt (CInt <$> [3; -1; 5])) = Ok (round_rat false 7 3).
Proof. apply (series_mean_int [3; -1; 5]); [discriminate|vm_compute; reflexivity|vm_compute; reflexivity]. Defined.

Definition risk_levels : series :=
  mk_series DObj (CStr <$> [str_of "High"; str_of "Low"; str_of "High"; str_of "Medium"]).

Lemma value_counts_str_witness :
  Sorted count_geR (value_counts risk_levels) ∧ NoDup (fst <$> value_counts risk_levels)
  ∧ ∀ c n, (c, n) ∈ value_counts risk_levels <->
           c ∈ s_cells risk_levels ∧ n = length (filter (fun d => d = c) (s_cells risk_levels)).
Proof. apply value_counts_str. repeat apply Forall_cons_2; try reflexivity. apply Forall_nil_2. Defined.
