(* ===== verification/Dashboard.v ===== *)
(** * The dashboard and analytics tabs ([src/app.py], lines 292-346 and
    396-459)

    Once the knowledge base is loaded, [app.py] draws four tabs on every
    run.  The dashboard tab (tab 2) and the analytics tab (tab 4) read
    [cleaned_companies.csv] and [cleaned_financial.csv] again and draw
    metrics, a table and charts from them with the pandas operations of
    [Frames], inside a [try] whose handler draws [st.error].

    A tab is a [render]: the widgets it has drawn, in order, and the
    value or exception it ends with; a widget drawn before an exception
    stays on the page ([try_render]).  The charts are the data handed
    to plotly ([WPie], [WLine], [WScores], [WCountBar], [WGrowthBar]);
    how plotly draws them is not modelled.

    The theorems: on well-formed CSVs with the columns the code reads,
    the dashboard draws its four metrics, the pie, the table and the
    trend chart and no error; the revenue metric is labelled 2024 but
    sums the rows of the latest year, whatever it is; without a
    [Sector] column the metrics are drawn before the error; a sector
    without a row of 2022 is left out of the growth chart. *)

From S2P Require Import Prelude PyStr PyObj Binary64 Companies Frames.

(** ** Widgets and the render monad *)

(** What a tab draws. *)
Inductive widget : Type :=
  | WSubheader (s : pystr)
  | WMetric (label value : pystr)
  | WPie (names : list cell)
  | WTable (cols : list pystr) (rows : list (list cell * list b64))
  | WLine (rows : list (list cell * list b64))
  | WScores (traces : list (pystr * list (list cell) * list b64))
  | WCountBar (counts : list (cell * nat))
  | WGrowthBar (rates : list (cell * b64))
  | WError (prefix : pystr) (e : pyexc)
  | WText (s : pystr)                 (** [st.write] of a string *)
  | WMarkdown (s : pystr)             (** [st.markdown] *)
  | WValue (v : pyval)                (** [st.write] of another value *)
  | WRows (rows : list row)           (** [st.write] of a DataFrame *)
  | WExpander (label : pystr)         (** [st.expander]: the widgets after it are inside *)
  | WInfo (s : pystr)
  | WSuccess (s : pystr)
  | WWarning (s : pystr).

(** The widgets drawn so far and the outcome. *)
Definition render (A : Type) : Type := (list widget * exc A)%type.

#[export] Instance render_ret : MRet render := fun A x => ([], Ok x).
#[export] Instance render_bind : MBind render := fun A B f m =>
  match m.2 with
  | Ok x => let r := f x in (m.1 ++ r.1, r.2)
  | Raise e => (m.1, Raise e)
  end.

(** [st.subheader], [st.metric], [st.write], [st.plotly_chart]. *)
Definition emit (w : widget) : render unit := ([w], Ok tt).

(** A computation that draws nothing. *)
Definition lift {A} (m : exc A) : render A := ([], m).

(** [try: body except Exception as e: st.error(prefix + str(e))]. *)
Definition try_render (m : render unit) (prefix : pystr) : list widget :=
  match m.2 with
  | Ok _ => m.1
  | Raise e => m.1 ++ [WError prefix e]
  end.

(** [pd.read_csv(path)]: the file's frame, [FileNotFoundError] when it
    is missing. *)
Definition read_csv (file : option frame) : exc dframe :=
  match file with Some fr => Ok (of_csv fr) | None => Raise FileNotFoundError end.

(** ** The dashboard tab *)

Definition chart_bar : N := 128202%N.   (** the emoji U+1F4CA *)
Definition chart_up : N := 128200%N.    (** the emoji U+1F4C8 *)

(** [str(n)] of a count. *)
Definition count_str (n : nat) : pystr := n_str (N.of_nat n).

(** [df[df['Year'] == value][col]]. *)
Definition year_rows (df : dframe) (value : cell) : exc dframe :=
  years ← df_col df "Year"; mret (df_where df (series_eq years value)).

(** [financial_df['Year'].max()]. *)
Definition latest_year (df : dframe) : exc cell :=
  years ← df_col df "Year"; column_max (s_cells years).

(** Line 320: [px.pie(companies_df, names='Sector')] raises
    [ValueError] when the frame has no such column. *)
Definition px_pie (df : dframe) (names : string) : exc (list cell) :=
  match df_col df names with Ok s => Ok (s_cells s) | Raise _ => Raise ValueError end.

(** Lines 328-332: [.agg({...: 'mean'}).round(2)]. *)
Definition round_table (t : list (list cell * list b64)) : list (list cell * list b64) :=
  (fun g : list cell * list b64 => (g.1, np_round2 <$> g.2)) <$> t.

Definition perf_cols : list string := ["Revenue_Crores"; "Profit_Margin_Percent"; "ROA_Percent"].

(** Lines 301-343, the body of the [try]. *)
Definition dashboard_body (cdf fdf : dframe) : render unit :=
  emit (WMetric (str_of "Total Companies") (count_str (length (df_rows cdf))));;
  emp ← lift (df_col cdf "Employee_Count");
  avg_employees ← lift (series_mean emp);
  emit (WMetric (str_of "Avg Employees") (format_f 0 avg_employees));;
  y ← lift (latest_year fdf);
  latest ← lift (year_rows fdf y);
  rev ← lift (df_col latest "Revenue_Crores");
  latest_revenue ← lift (series_sum rev);
  rev_txt ← lift (scalar_format 1 latest_revenue);
  emit (WMetric (str_of "Total Revenue (2024)") (rupee ++ rev_txt ++ str_of "Cr"));;
  y' ← lift (latest_year fdf);
  latest' ← lift (year_rows fdf y');
  pm ← lift (df_col latest' "Profit_Margin_Percent");
  avg_profit_margin ← lift (series_mean pm);
  emit (WMetric (str_of "Avg Profit Margin") (format_f 1 avg_profit_margin ++ str_of "%"));;
  emit (WSubheader (str_of "Sector Distribution"));;
  names ← lift (px_pie cdf "Sector");
  emit (WPie names);;
  emit (WSubheader (str_of "Financial Performance by Sector (2024)"));;
  financial_2024 ← lift (year_rows fdf (CInt 2024));
  ids ← lift (df_select cdf ["Company_ID"; "Sector"]);
  merged_df ← lift (merge_inner financial_2024 ids "Company_ID");
  sector_performance ← lift (groupby_mean merged_df ["Sector"] perf_cols);
  emit (WTable (str_of <$> perf_cols) (round_table sector_performance));;
  emit (WSubheader (str_of "Revenue Trends Over Time"));;
  ids' ← lift (df_select cdf ["Company_ID"; "Sector"]);
  revenue_trends ← lift (merge_inner fdf ids' "Company_ID");
  sector_yearly ← lift (groupby_mean revenue_trends ["Year"; "Sector"] ["Revenue_Crores"]);
  emit (WLine sector_yearly).

(** Lines 292-346: the subheader, then the [try]. *)
Definition dashboard_tab (companies_csv financial_csv : option frame) : list widget :=
  WSubheader (chart_bar :: str_of " MSME Performance Dashboard") ::
  try_render (cdf ← lift (read_csv companies_csv);
              fdf ← lift (read_csv financial_csv);
              dashboard_body cdf fdf)
             (str_of "Error loading dashboard data: ").

(** ** The analytics tab *)

Definition performance_cols : list string :=
  ["Financial_Performance_Score"; "Operational_Efficiency_Score"; "Market_Position_Score";
   "Innovation_Score"].

(** [col in df.columns]. *)
Definition has_col (df : dframe) (col : string) : bool :=
  bool_decide (str_of col ∈ (fst <$> df_cols df)).

(** Line 419: [col.replace('_Score', '').replace('_', ' ')]. *)
Definition trace_name (col : pystr) : pystr :=
  py_replace (str_of "_") (str_of " ") (py_replace (str_of "_Score") [] col).

(** Lines 414-420: one trace per column, the groups as [x], the
    column's means as [y]. *)
Definition score_traces (cols : list string) (score_data : list (list cell * list b64))
    : list (pystr * list (list cell) * list b64) :=
  imap (fun i col => (trace_name (str_of col), fst <$> score_data, omap (fun g => g.2 !! i) score_data))
       cols.

(** [revenue_2022 > 0]: a string sum cannot be compared with an [int]. *)
Definition scalar_pos (x : scalar) : exc bool :=
  match x with
  | SInt z => Ok (0 <? z)%Z
  | SFloat f => Ok (bool_decide (b64_cmp f (B64Zero false) = Some Gt))
  | SStr _ => Raise TypeError
  end.

(** A sum as an operand of [-] and [/]. *)
Definition scalar_np (x : scalar) : exc npnum :=
  match x with SInt z => Ok (NInt z) | SFloat f => Ok (NFloat f) | SStr _ => Raise TypeError end.

(** [sector_data[sector_data['Year'] == year]['Revenue_Crores'].sum()]. *)
Definition year_revenue (sector_data : dframe) (year : Z) : exc scalar :=
  d ← year_rows sector_data (CInt year); rev ← df_col d "Revenue_Crores"; series_sum rev.

(** Lines 440-449, one iteration: the sector's rows, its 2022 and 2024
    revenues, and [((r24 - r22) / r22) * 100] when [r22 > 0]. *)
Definition sector_growth (fws : dframe) (sector : cell) : exc (option (cell * b64)) :=
  secs ← df_col fws "Sector";
  let sector_data := df_where fws (series_eq secs sector) in
  revenue_2022 ← year_revenue sector_data 2022;
  revenue_2024 ← year_revenue sector_data 2024;
  scalar_pos revenue_2022 ≫= fun pos : bool =>
  if pos then
    r24 ← scalar_np revenue_2024; r22 ← scalar_np revenue_2022;
    mret (Some (sector, np_float (np_mul_int (np_truediv (np_sub r24 r22) r22) 100)))
  else mret None.

(** Lines 406-456, the body of the [try]. *)
Definition analytics_body (cdf fdf : dframe) : render unit :=
  emit (WSubheader (str_of "Performance Score Analysis"));;
  (if forallb (has_col cdf) performance_cols then
     score_data ← lift (groupby_mean cdf ["Sector"] performance_cols);
     emit (WScores (score_traces performance_cols score_data))
   else mret tt);;
  emit (WSubheader (str_of "Risk Level Distribution"));;
  (if has_col cdf "Risk_Level" then
     risk ← lift (df_col cdf "Risk_Level"); emit (WCountBar (value_counts risk))
   else mret tt);;
  emit (WSubheader (str_of "Growth Analysis"));;
  ids ← lift (df_select cdf ["Company_ID"; "Sector"]);
  fws ← lift (merge_inner fdf ids "Company_ID");
  secs ← lift (df_col fws "Sector");
  growth ← lift (exc_map (sector_growth fws) (series_unique secs));
  let growth_data := omap id growth in
  if decide (growth_data = []) then mret tt else emit (WGrowthBar growth_data).

(** Lines 396-459. *)
Definition analytics_tab (companies_csv financial_csv : option frame) : list widget :=
  WSubheader (chart_up :: str_of " Advanced Analytics") ::
  try_render (cdf ← lift (read_csv companies_csv);
              fdf ← lift (read_csv financial_csv);
              analytics_body cdf fdf)
             (str_of "Error in analytics: ").

(** ** The CSV files the tabs expect *)

(** Every row has the header's columns, in order. *)
Definition csv_ok (fr : frame) : Prop := Forall (fun r => fst <$> r = f_columns fr) (f_rows fr).

(** A column of the header whose cells all satisfy [P]. *)
Definition csv_col (fr : frame) (col : string) (P : cell -> bool) : Prop :=
  str_of col ∈ f_columns fr ∧ Forall (fun r => ∀ c, assoc_get (str_of col) r = Some c -> P c = true) (f_rows fr).

(** The files [cleaned_companies.csv] and [cleaned_financial.csv] as
    [script_2.py] writes them: string company ids, numeric figures, and
    no sector column in the financial file. *)
Record dashboard_input (cfr ffr : frame) : Prop := {
  di_companies : csv_ok cfr;
  di_financial : csv_ok ffr;
  di_company_id : csv_col cfr "Company_ID" is_str_cell;
  di_employees : csv_col cfr "Employee_Count" is_num;
  di_fin_id : csv_col ffr "Company_ID" is_str_cell;
  di_fin_nums : Forall (fun col => csv_col ffr col is_num)
                  ["Year"; "Revenue_Crores"; "Profit_Margin_Percent"; "ROA_Percent"];
  di_no_sector : str_of "Sector" ∉ f_columns ffr
}.

(** ** Lemmas: the render monad *)

(** [m] draws [ws] and returns [x]. *)
Definition returns {A} (m : render A) (ws : list widget) (x : A) : Prop := m = (ws, Ok x).

Lemma returns_bind {A B} (m : render A) (f : A -> render B) ws ws' x y :
  returns m ws x -> returns (f x) ws' y -> returns (m ≫= f) (ws ++ ws') y.
Proof. unfold returns. intros -> Hf. cbn. by rewrite Hf. Qed.

Lemma returns_emit w : returns (emit w) [w] tt.
Proof. done. Qed.

Lemma returns_lift {A} (m : exc A) x : m = Ok x -> returns (lift m) [] x.
Proof. unfold returns, lift. by intros ->. Qed.

Lemma returns_ret {A} (x : A) : returns (mret x) [] x.
Proof. done. Qed.

Lemma try_render_returns m ws prefix : returns m ws tt -> try_render m prefix = ws.
Proof. unfold returns. by intros ->. Qed.

(** [m] draws [ws] and then raises [e]. *)
Definition raises {A} (m : render A) (ws : list widget) (e : pyexc) : Prop := m = (ws, Raise e).

Lemma raises_bind_l {A B} (m : render A) (f : A -> render B) ws e :
  raises m ws e -> raises (m ≫= f) ws e.
Proof. unfold raises. by intros ->. Qed.

Lemma raises_bind_r {A B} (m : render A) (f : A -> render B) ws ws' x e :
  returns m ws x -> raises (f x) ws' e -> raises (m ≫= f) (ws ++ ws') e.
Proof. unfold returns, raises. intros -> Hf. cbn. by rewrite Hf. Qed.

Lemma raises_lift {A} (m : exc A) e : m = Raise e -> raises (lift m) [] e.
Proof. unfold raises, lift. by intros ->. Qed.

Lemma try_render_raises m ws e prefix : raises m ws e -> try_render m prefix = ws ++ [WError prefix e].
Proof. unfold raises. by intros ->. Qed.

(** Run a render whose every [lift] has its result in the context. *)
Ltac rstep :=
  lazymatch goal with
  | |- returns (mbind _ _) _ _ => eapply returns_bind; [rstep|cbv beta; rstep]
  | |- returns (emit _) _ _ => apply returns_emit
  | |- returns (lift _) _ _ => apply returns_lift; first [eassumption | reflexivity]
  | |- returns (mret _) _ _ => apply returns_ret
  end.

(** Run a render up to the [lift] whose exception is in the context. *)
Ltac rfail :=
  lazymatch goal with
  | |- raises (mbind _ (lift _)) _ _ =>
      first [apply raises_bind_l, raises_lift; eassumption
            |eapply raises_bind_r; [rstep|cbv beta; rfail]]
  | |- raises (mbind _ _) _ _ => eapply raises_bind_r; [rstep|cbv beta; rfail]
  | |- raises (lift _) _ _ => apply raises_lift; eassumption
  end.

(** ** Lemmas: reading the files *)

Lemma omap_col_cells fr col P : csv_ok fr -> csv_col fr col P ->
  Forall (fun c => P c = true) (omap (fun r => assoc_get (str_of col) r) (f_rows fr))
  ∧ (omap (fun r => assoc_get (str_of col) r) (f_rows fr) = [] -> f_rows fr = []).
Proof.
  intros Hk [Hin HP]. unfold csv_ok in Hk. revert Hk HP.
  induction (f_rows fr) as [|r rows IH]; intros Hk HP; [done|].
  apply Forall_cons in Hk as [Hr Hk]. apply Forall_cons in HP as [Hc HP].
  destruct (proj2 (assoc_get_is_Some (str_of col) r)) as [c Hc']; [by rewrite Hr|].
  cbn. rewrite Hc'. destruct (IH Hk HP) as [IH1 _]. split; [constructor; [by apply Hc|done]|done].
Qed.

Lemma of_csv_keys_ok fr : csv_ok fr -> keys_ok (of_csv fr).
Proof. intros Hk. unfold keys_ok. by rewrite of_csv_cols. Qed.

Lemma csv_num_mean fr col : csv_ok fr -> csv_col fr col is_num -> mean_col (of_csv fr) col.
Proof.
  intros Hk Hcol.
  destruct (omap_col_cells fr col is_num Hk Hcol) as [Hn Hnil].
  eexists. split; [apply of_csv_dtype, Hcol|]. intros Hobj. cbn. apply Hnil.
  destruct (omap _ _) as [|c cs]; [done|]. exfalso. revert Hobj.
  assert (∀ l, Forall (fun c => is_num c = true) l -> existsb is_str_cell l = false) as Hex.
  { induction 1 as [|d ds Hd _ IH]; [done|]. cbn. rewrite IH. by destruct d. }
  pose proof (Hex _ Hn) as E.
  cbn [infer_dtype]. rewrite E. by destruct (existsb is_float_cell _).
Qed.

Lemma csv_str_obj fr col : csv_ok fr -> csv_col fr col is_str_cell ->
  assoc_get (str_of col) (df_cols (of_csv fr)) = Some DObj.
Proof.
  intros Hk Hcol. rewrite of_csv_dtype by apply Hcol.
  destruct (omap_col_cells fr col is_str_cell Hk Hcol) as [Hs _].
  destruct (omap _ _) as [|c cs]; [done|]. apply Forall_cons in Hs as [Hc _]. cbn. by rewrite Hc.
Qed.

(** ** Lemmas: the steps of the tabs *)

Lemma latest_year_ok df : keys_ok df -> is_Some (assoc_get (str_of "Year") (df_cols df)) ->
  col_all df "Year" (fun c => is_num c = true) -> ∃ y, latest_year df = Ok y.
Proof.
  intros Hk [dt Hdt] Hn. destruct (df_col_cells df "Year" _ dt Hk Hdt Hn) as (cs & Hcs & Hcn & _).
  unfold latest_year. rewrite Hcs. cbn [mbind exc_bind s_cells]. by apply column_max_ok.
Qed.

Lemma year_rows_ok df v : keys_ok df -> is_Some (assoc_get (str_of "Year") (df_cols df)) ->
  ∃ mask, year_rows df v = Ok (df_where df mask).
Proof.
  intros Hk [dt Hdt]. destruct (df_col_ok df "Year" dt Hk Hdt) as (cs & Hcs & _).
  unfold year_rows. rewrite Hcs. eauto.
Qed.

Lemma mean_series_ok df col : keys_ok df -> mean_col df col ->
  ∃ dt cs, df_col df col = Ok (mk_series dt cs) ∧ (dt = DObj -> cs = []).
Proof.
  intros Hk (dt & Hdt & Hd). destruct (df_col_ok df col dt Hk Hdt) as (cs & Hcs & H2).
  exists dt, cs. split; [done|]. intros Hobj. apply Hd in Hobj. rewrite Hobj in H2.
  by apply Forall2_nil_inv_l in H2.
Qed.

(** Lines 326-328 and 338-339 (and 434): the sector of each company
    joined to a frame of financial rows, then grouped. *)
Lemma sector_groupby_ok cdf left keys vcols :
  keys_ok cdf -> assoc_get (str_of "Company_ID") (df_cols cdf) = Some DObj ->
  str_of "Sector" ∈ fst <$> df_cols cdf ->
  keys_ok left -> assoc_get (str_of "Company_ID") (df_cols left) = Some DObj ->
  str_of "Sector" ∉ fst <$> df_cols left ->
  Forall (fun k => k = "Sector" ∨ is_Some (assoc_get (str_of k) (df_cols left))) keys ->
  Forall (mean_col left) vcols ->
  ∃ ids merged res, df_select cdf ["Company_ID"; "Sector"] = Ok ids ∧
     merge_inner left ids "Company_ID" = Ok merged ∧ groupby_mean merged keys vcols = Ok res.
Proof.
  intros Kc Hid Hsec Kl Hlid Hnos Hkeys Hv.
  destruct (df_select_ok cdf ["Company_ID"; "Sector"] Kc) as (ids & Hids & Ki & Hfi & _ & Hai).
  { repeat constructor; [rewrite Hid; by eexists|by apply assoc_get_is_Some]. }
  assert (assoc_get (str_of "Company_ID") (df_cols ids) = Some DObj) as Hiid.
  { rewrite Hai; [done|]. apply assoc_get_is_Some. rewrite Hfi. left. }
  assert (fst <$> other_cols ids "Company_ID" = [str_of "Sector"]) as Hother.
  { unfold other_cols. rewrite fst_filter_ne, Hfi. reflexivity. }
  destruct (merge_inner_ok left ids "Company_ID" DObj DObj Kl Ki Hlid Hiid ltac:(done))
    as (merged & Hm & Hmc & Km & Hmr).
  { rewrite Hother. intros c Hc. apply list_elem_of_singleton in Hc as ->. done. }
  exists ids, merged. destruct (groupby_mean_ok merged keys vcols Km) as [res Hres].
  - eapply Forall_impl; [exact Hkeys|]. intros k [->|Hk]; rewrite Hmc.
    + apply assoc_get_app_is_Some, assoc_get_is_Some. rewrite Hother. left.
    + rewrite assoc_get_app_l by done. done.
  - eapply Forall_impl; [exact Hv|]. intros col. by apply (merge_mean_col left ids "Company_ID").
  - by exists res.
Qed.

(** The steps of the dashboard on well-formed files, each with its
    result. *)
Lemma financial_steps cfr ffr : dashboard_input cfr ffr ->
  ∃ y mask revenue_col latest_revenue rev_txt pm_col avg_profit_margin,
    latest_year (of_csv ffr) = Ok y ∧ year_rows (of_csv ffr) y = Ok (df_where (of_csv ffr) mask)
    ∧ df_col (df_where (of_csv ffr) mask) "Revenue_Crores" = Ok revenue_col
    ∧ series_sum revenue_col = Ok latest_revenue ∧ scalar_format 1 latest_revenue = Ok rev_txt
    ∧ df_col (df_where (of_csv ffr) mask) "Profit_Margin_Percent" = Ok pm_col
    ∧ series_mean pm_col = Ok avg_profit_margin.
Proof.
  intros [Hc Hf Hid Hemp Hfid Hnums Hnos].
  rewrite !Forall_cons in Hnums. destruct Hnums as (Hyear & Hrev & Hpm & _ & _).
  pose proof (of_csv_keys_ok ffr Hf) as Kf.
  destruct (latest_year_ok (of_csv ffr) Kf) as [y Hy].
  { rewrite of_csv_dtype by apply Hyear. by eexists. }
  { apply Hyear. }
  destruct (year_rows_ok (of_csv ffr) y Kf) as [mask Hmask].
  { rewrite of_csv_dtype by apply Hyear. by eexists. }
  pose proof (df_where_keys_ok _ mask Kf) as Kw.
  destruct (mean_series_ok _ "Revenue_Crores" Kw) as (dtr & csr & Hr & Hdr).
  { apply df_where_mean_col, csv_num_mean; done. }
  destruct (series_sum_ok dtr csr Hdr) as (tot & Htot & t & Ht).
  destruct (mean_series_ok _ "Profit_Margin_Percent" Kw) as (dtp & csp & Hp & Hdp).
  { apply df_where_mean_col, csv_num_mean; done. }
  destruct (series_mean_ok dtp csp Hdp) as (pm & Hpmv).
  by exists y, mask, (mk_series dtr csr), tot, t, (mk_series dtp csp), pm.
Qed.

(** The sector tables of lines 325-339, for any rows of the financial
    file. *)
Lemma sector_steps cfr ffr mask keys vcols : dashboard_input cfr ffr -> str_of "Sector" ∈ f_columns cfr ->
  Forall (fun k => k = "Sector" ∨ str_of k ∈ f_columns ffr) keys ->
  Forall (fun col => csv_col ffr col is_num) vcols ->
  ∃ ids merged res, df_select (of_csv cfr) ["Company_ID"; "Sector"] = Ok ids ∧
     merge_inner (df_where (of_csv ffr) mask) ids "Company_ID" = Ok merged ∧
     groupby_mean merged keys vcols = Ok res.
Proof.
  intros [Hc Hf Hid Hemp Hfid Hnums Hnos] Hsec Hkeys Hv.
  apply sector_groupby_ok.
  - by apply of_csv_keys_ok.
  - by apply csv_str_obj.
  - by rewrite of_csv_cols.
  - by apply df_where_keys_ok, of_csv_keys_ok.
  - by apply csv_str_obj.
  - cbn [df_where df_cols]. by rewrite of_csv_cols.
  - eapply Forall_impl; [exact Hkeys|]. intros k [->|Hk]; [by left|right].
    cbn [df_where df_cols]. rewrite of_csv_dtype by done. by eexists.
  - eapply Forall_impl; [exact Hv|]. intros col Hcol. by apply df_where_mean_col, csv_num_mean.
Qed.

(** [df_where] with a mask of [True]s is the frame itself. *)
Lemma df_where_all df : df_where df (replicate (length (df_rows df)) true) = df.
Proof.
  destruct df as [cols rows]. unfold df_where. cbn [df_rows df_cols]. f_equal.
  induction rows as [|r rows IH]; [done|]. cbn [length replicate zip zip_with].
  rewrite filter_cons_True by done. rewrite fmap_cons. by rewrite IH.
Qed.

(** The steps of the dashboard before the pie, on the companies file. *)
Lemma company_steps cfr ffr : dashboard_input cfr ffr ->
  ∃ emp avg, df_col (of_csv cfr) "Employee_Count" = Ok emp ∧ series_mean emp = Ok avg.
Proof.
  intros [Hc Hf Hid Hemp Hfid Hnums Hnos].
  destruct (mean_series_ok (of_csv cfr) "Employee_Count") as (dte & cse & He & Hde);
    [by apply of_csv_keys_ok|by apply csv_num_mean|].
  destruct (series_mean_ok dte cse Hde) as [avg Havg]. eauto.
Qed.

(** C31. On files of the expected shape (string company ids, numeric
    employee counts, years and figures, a sector column in the
    companies file and none in the financial file), the dashboard tab draws its four metrics, the
    sector pie, the performance table and the trend chart, in this
    order, and no error. *)
Theorem dashboard_complete cfr ffr : dashboard_input cfr ffr -> str_of "Sector" ∈ f_columns cfr ->
  ∃ avg_employees revenue margin names table yearly,
    dashboard_tab (Some cfr) (Some ffr) =
      [WSubheader (chart_bar :: str_of " MSME Performance Dashboard");
       WMetric (str_of "Total Companies") (count_str (length (f_rows cfr)));
       WMetric (str_of "Avg Employees") avg_employees;
       WMetric (str_of "Total Revenue (2024)") revenue;
       WMetric (str_of "Avg Profit Margin") margin;
       WSubheader (str_of "Sector Distribution"); WPie names;
       WSubheader (str_of "Financial Performance by Sector (2024)"); WTable (str_of <$> perf_cols) table;
       WSubheader (str_of "Revenue Trends Over Time"); WLine yearly].
Proof.
  intros Hin Hsec. pose proof Hin as [Hc Hf Hid Hemp Hfid Hnums Hnos].
  destruct (financial_steps cfr ffr Hin) as (y & mask & rc & lr & rt & pc & apm & H1 & H2 & H3 & H4 & H5 & H6 & H7).
  destruct (company_steps cfr ffr Hin) as (emp & avg & He & Havg).
  destruct (df_col_ok (of_csv cfr) "Sector" (infer_dtype (omap (fun r => assoc_get (str_of "Sector") r) (f_rows cfr))))
    as (names & Hnames & _); [by apply of_csv_keys_ok|by apply of_csv_dtype|].
  assert (px_pie (of_csv cfr) "Sector" = Ok names) as Hpie by (unfold px_pie; by rewrite Hnames).
  destruct (year_rows_ok (of_csv ffr) (CInt 2024)) as [mask24 Hm24];
    [by apply of_csv_keys_ok|rewrite of_csv_dtype; [by eexists|]; by inversion Hnums as [|? ? [? _] _]|].
  destruct (sector_steps cfr ffr mask24 ["Sector"] perf_cols Hin Hsec) as (ids & merged & res & Hids & Hm & Hres).
  { by repeat constructor. }
  { by inversion Hnums as [|? ? _ Hn]. }
  destruct (sector_steps cfr ffr (replicate (length (f_rows ffr)) true) ["Year"; "Sector"] ["Revenue_Crores"] Hin Hsec)
    as (ids' & merged' & res' & Hids' & Hm' & Hres').
  { constructor; [right; by inversion Hnums as [|? ? [? _] _]|].
    constructor; [by left|constructor]. }
  { inversion Hnums as [|? ? _ Hn]. inversion Hn as [|? ? ? _]. by constructor. }
  rewrite Hids in Hids'. injection Hids' as <-.
  pose proof (df_where_all (of_csv ffr)) as Hall. cbn [df_rows of_csv] in Hall. rewrite Hall in Hm'.
  do 6 eexists. unfold dashboard_tab. f_equal.
  eapply eq_trans; [apply try_render_returns; unfold dashboard_body; rstep|reflexivity].
Qed.

Lemma px_pie_missing df col : str_of col ∉ fst <$> df_cols df -> px_pie df col = Raise ValueError.
Proof.
  intros Hn. unfold px_pie, df_col.
  destruct (assoc_get (str_of col) (df_cols df)) eqn:E; [|done].
  exfalso. apply Hn, assoc_get_is_Some. rewrite E. by eexists.
Qed.

(** C32. Without a [Sector] column in the companies file, the dashboard
    draws its four metrics and the "Sector Distribution" subheader, then
    the error of [px.pie]: the widgets drawn before the exception stay
    on the page, the table and the trend chart are not drawn. *)
Theorem dashboard_missing_sector cfr ffr : dashboard_input cfr ffr -> str_of "Sector" ∉ f_columns cfr ->
  ∃ avg_employees revenue margin,
    dashboard_tab (Some cfr) (Some ffr) =
      [WSubheader (chart_bar :: str_of " MSME Performance Dashboard");
       WMetric (str_of "Total Companies") (count_str (length (f_rows cfr)));
       WMetric (str_of "Avg Employees") avg_employees;
       WMetric (str_of "Total Revenue (2024)") revenue;
       WMetric (str_of "Avg Profit Margin") margin;
       WSubheader (str_of "Sector Distribution");
       WError (str_of "Error loading dashboard data: ") ValueError].
Proof.
  intros Hin Hsec.
  destruct (financial_steps cfr ffr Hin) as (y & mask & rc & lr & rt & pc & apm & H1 & H2 & H3 & H4 & H5 & H6 & H7).
  destruct (company_steps cfr ffr Hin) as (emp & avg & He & Havg).
  pose proof (px_pie_missing (of_csv cfr) "Sector" ltac:(by rewrite of_csv_cols)) as Hpie.
  do 3 eexists. unfold dashboard_tab. f_equal.
  eapply eq_trans; [apply try_render_raises; unfold dashboard_body; rfail|reflexivity].
Qed.

Lemma df_col_nil df col dt : df_rows df = [] -> assoc_get (str_of col) (df_cols df) = Some dt ->
  df_col df col = Ok (mk_series dt []).
Proof. intros Hr Hc. unfold df_col. by rewrite Hc, Hr. Qed.

(** C33. A sector none of whose rows is of 2022 gets no bar in the
    growth chart "Revenue Growth Rate 2022-2024", whatever its 2024
    revenue: its 2022 sum is [0] and the test [revenue_2022 > 0] fails. *)
Theorem growth_skips_sector fws sector :
  keys_ok fws -> str_of "Sector" ∈ fst <$> df_cols fws -> str_of "Year" ∈ fst <$> df_cols fws ->
  mean_col fws "Revenue_Crores" ->
  Forall (fun r => ∀ s y, assoc_get (str_of "Sector") r = Some s -> assoc_get (str_of "Year") r = Some y ->
            year_eq s sector = true -> year_eq y (CInt 2022) = false) (df_rows fws) ->
  sector_growth fws sector = Ok None.
Proof.
  intros Hk [dts Hs]%assoc_get_is_Some [dty Hy]%assoc_get_is_Some Hrev Hno.
  destruct (df_col_ok fws "Sector" dts Hk Hs) as (secs & Hsecs & _).
  unfold sector_growth. rewrite Hsecs. cbn [mbind exc_bind].
  set (sd := df_where fws (series_eq (mk_series dts secs) sector)).
  pose proof (df_where_keys_ok fws (series_eq (mk_series dts secs) sector) Hk) as Ksd.
  destruct (df_col_ok sd "Year" dty Ksd Hy) as (ys & Hys & _).
  destruct (df_where_mean_col fws (series_eq (mk_series dts secs) sector) _ Hrev) as (dtr & Hdtr & Hdr).
  assert (year_revenue sd 2022 = Ok (SInt 0) ∨ year_revenue sd 2022 = Ok (SFloat (B64Zero false))) as H22.
  { unfold year_revenue, year_rows. rewrite Hys. cbn [mbind exc_bind mret exc_ret].
    assert (df_rows (df_where sd (series_eq (mk_series dty ys) (CInt 2022))) = []) as Hnil.
    { destruct (df_rows (df_where sd (series_eq (mk_series dty ys) (CInt 2022)))) as [|r rs] eqn:E; [done|]. exfalso. assert (r ∈ df_rows (df_where sd (series_eq (mk_series dty ys) (CInt 2022)))) as Hr by (rewrite E; left).
      apply (df_where_eq_elem _ "Year") in Hr as [Hr (y & Hry & Hy22)]; [|done].
      apply (df_where_eq_elem _ "Sector") in Hr as [Hr (s & Hrs & Hss)]; [|done].
      eapply Forall_forall in Hno; [|exact Hr]. by rewrite (Hno s y Hrs Hry Hss) in Hy22. }
    rewrite (df_col_nil _ _ dtr Hnil Hdtr). destruct dtr; cbn; auto. }
  assert (∃ r24, year_revenue sd 2024 = Ok r24) as [r24 H24].
  { unfold year_revenue, year_rows. rewrite Hys. cbn [mbind exc_bind mret exc_ret].
    destruct (mean_series_ok (df_where sd (series_eq (mk_series dty ys) (CInt 2024))) "Revenue_Crores") as (dt & cs & Hc & Hd).
    - by apply df_where_keys_ok.
    - apply df_where_mean_col. by exists dtr.
    - rewrite Hc. cbn [mbind exc_bind]. destruct (series_sum_ok dt cs Hd) as (x & Hx & _). eauto. }
  destruct H22 as [H22|H22]; rewrite H22, H24; reflexivity.
Qed.

(** ** Checking a file's shape *)

Definition csv_okb (fr : frame) : bool := forallb (fun r => bool_decide (fst <$> r = f_columns fr)) (f_rows fr).

Definition csv_colb (fr : frame) (col : string) (P : cell -> bool) : bool :=
  bool_decide (str_of col ∈ f_columns fr) &&
  forallb (fun r => match assoc_get (str_of col) r with Some c => P c | None => true end) (f_rows fr).

Lemma csv_okb_sound fr : csv_okb fr = true -> csv_ok fr.
Proof.
  unfold csv_okb, csv_ok. intros H. apply Forall_forall. intros r Hr.
  apply forallb_forall with (x := r) in H; [|by apply list_elem_of_In]. by apply bool_decide_eq_true_1 in H.
Qed.

Lemma csv_colb_sound fr col P : csv_colb fr col P = true -> csv_col fr col P.
Proof.
  unfold csv_colb, csv_col. intros [Hin H]%andb_prop. split; [by apply bool_decide_eq_true_1 in Hin|].
  apply Forall_forall. intros r Hr c Hc.
  apply forallb_forall with (x := r) in H; [|by apply list_elem_of_In]. by rewrite Hc in H.
Qed.

(** ** Examples *)


(** [dashboard_input], decided. *)
Definition dashboard_inputb (cfr ffr : frame) : bool :=
  csv_okb cfr && csv_okb ffr && csv_colb cfr "Company_ID" is_str_cell && csv_colb cfr "Employee_Count" is_num &&
  csv_colb ffr "Company_ID" is_str_cell &&
  forallb (fun col => csv_colb ffr col is_num) ["Year"; "Revenue_Crores"; "Profit_Margin_Percent"; "ROA_Percent"] &&
  bool_decide (str_of "Sector" ∉ f_columns ffr).

Lemma dashboard_inputb_sound cfr ffr : dashboard_inputb cfr ffr = true -> dashboard_input cfr ffr.
Proof.
  unfold dashboard_inputb. intros Hb. repeat (apply andb_prop in Hb as [Hb ?H]).
  split; try by apply csv_okb_sound. 1-3: by apply csv_colb_sound.
  - apply Forall_forall. intros col Hin. apply csv_colb_sound. match goal with Hf : forallb _ _ = true |- _ => exact (proj1 (forallb_forall _ _) Hf col (proj1 (list_elem_of_In _ _) Hin)) end.
  - match goal with Hs : bool_decide _ = true |- _ => exact (bool_decide_eq_true_1 _ Hs) end.
Qed.

Definition company (id : string) (emp : Z) (sector : string) : row :=
  [(str_of "Company_ID", CStr (str_of id)); (str_of "Employee_Count", CInt emp);
   (str_of "Sector", CStr (str_of sector))].

Definition figures (id : string) (y : Z) (rev pm roa : pyfloat) : row :=
  [(str_of "Company_ID", CStr (str_of id)); (str_of "Year", CInt y); (str_of "Revenue_Crores", CFloat rev);
   (str_of "Profit_Margin_Percent", CFloat pm); (str_of "ROA_Percent", CFloat roa)].

Definition demo_companies : frame :=
  mk_frame (fst <$> company "" 0 "")
    [company "M1" 40 "Manufacturing"; company "M2" 25 "Technology"; company "M3" 60 "Manufacturing"].

(** The latest year of this file is 2023. *)
Definition demo_financial : frame :=
  mk_frame (fst <$> figures "" 0 FNan FNan FNan)
    [figures "M1" 2022 (FDec false 105 (-1)) (FDec false 12 0) (FDec false 5 0);
     figures "M1" 2023 (FDec false 2675 (-2)) (FDec false 13 0) (FDec false 6 0);
     figures "M2" 2023 (FDec false 33 0) (FDec false 9 0) (FDec false 4 0)].

Definition no_sector_companies : frame :=
  mk_frame [str_of "Company_ID"; str_of "Employee_Count"]
    [[(str_of "Company_ID", CStr (str_of "M1")); (str_of "Employee_Count", CInt 40)]].

Lemma demo_input cfr : cfr = demo_companies ∨ cfr = no_sector_companies -> dashboard_input cfr demo_financial.
Proof. intros Hc. apply dashboard_inputb_sound. destruct Hc as [->| ->]; vm_compute; reflexivity. Qed.

(** The revenue metric of a file whose latest year is 2023 is labelled
    2024 and shows the 2023 total, [26.75 + 33 = 59.75], as [59.8]. *)
Example revenue_label_latest_year :
  nth 3 (dashboard_tab (Some demo_companies) (Some demo_financial)) (WText [])
  = WMetric (str_of "Total Revenue (2024)") (rupee ++ str_of "59.8Cr").
Proof. vm_compute. reflexivity. Qed.

Lemma dashboard_complete_witness :
  ∃ avg_employees revenue margin names table yearly,
    dashboard_tab (Some demo_companies) (Some demo_financial) =
      [WSubheader (chart_bar :: str_of " MSME Performance Dashboard");
       WMetric (str_of "Total Companies") (count_str (length (f_rows demo_companies)));
       WMetric (str_of "Avg Employees") avg_employees;
       WMetric (str_of "Total Revenue (2024)") revenue;
       WMetric (str_of "Avg Profit Margin") margin;
       WSubheader (str_of "Sector Distribution"); WPie names;
       WSubheader (str_of "Financial Performance by Sector (2024)"); WTable (str_of <$> perf_cols) table;
       WSubheader (str_of "Revenue Trends Over Time"); WLine yearly].
Proof.
  apply dashboard_complete; [apply demo_input; by left|decide_vm].
Defined.

Lemma dashboard_missing_sector_witness :
  ∃ avg_employees revenue margin,
    dashboard_tab (Some no_sector_companies) (Some demo_financial) =
      [WSubheader (chart_bar :: str_of " MSME Performance Dashboard");
       WMetric (str_of "Total Companies") (count_str (length (f_rows no_sector_companies)));
       WMetric (str_of "Avg Employees") avg_employees;
       WMetric (str_of "Total Revenue (2024)") revenue;
       WMetric (str_of "Avg Profit Margin") margin;
       WSubheader (str_of "Sector Distribution");
       WError (str_of "Error loading dashboard data: ") ValueError].
Proof.
  apply dashboard_missing_sector; [apply demo_input; by right|decide_vm].
Defined.

(** The merged frame of the growth analysis: the technology company has
    no row of 2022. *)
Definition demo_with_sector : frame :=
  mk_frame [str_of "Company_ID"; str_of "Year"; str_of "Revenue_Crores"; str_of "Sector"]
    [[(str_of "Company_ID", CStr (str_of "M1")); (str_of "Year", CInt 2022);
      (str_of "Revenue_Crores", CFloat (FDec false 105 (-1))); (str_of "Sector", CStr (str_of "Manufacturing"))];
     [(str_of "Company_ID", CStr (str_of "M2")); (str_of "Year", CInt 2024);
      (str_of "Revenue_Crores", CFloat (FDec false 33 0)); (str_of "Sector", CStr (str_of "Technology"))]].

Lemma growth_skips_sector_witness :
  sector_growth (of_csv demo_with_sector) (CStr (str_of "Technology")) = Ok None.
Proof.
  apply growth_skips_sector.
  - apply of_csv_keys_ok, csv_okb_sound. vm_compute. reflexivity.
  - decide_vm.
  - decide_vm.
  - apply csv_num_mean; [apply csv_okb_sound|apply csv_colb_sound]; vm_compute; reflexivity.
  - repeat constructor; intros s y Hs Hy; vm_compute in Hs, Hy; injection Hs as <-; injection Hy as <-;
      vm_compute; first [reflexivity | discriminate].
Defined.
