(* ===== verification/Notebook.v ===== *)
(** * The notebook cells ([src/script.py], [src/script_1.py], [src/script_11.py])

    The scripts of [src/] are the cells of one notebook, run in order in
    one Python kernel: [script.py] reads the two source datasets,
    [script_1.py] cleans them and writes [cleaned_companies.csv] and
    [cleaned_financial.csv] (the files the vector store and the
    dashboard read), the cells [script_2.py] to [script_10.py] write the
    project's files, and [script_11.py] is the system test.  A cell sees
    the variables the earlier cells assigned ([company_df],
    [financial_df], [companies_df]), so it is a computation over the
    [kernel]: those variables, whether [pd] is bound (by an
    [import pandas as pd] of an earlier cell or of the cell itself;
    [pd.read_csv] is a [NameError] without it), the files on disk, and
    what has been printed.  An exception ends the cell; what it assigned, wrote and
    printed before stays ([nb], a state monad with exceptions).

    A file on disk is the frame of cells [pd.read_csv] reads from it
    ([Companies.frame]); [to_csv] followed by [read_csv] is modelled by
    the frame read back ([to_frame]): the cells of a [float64] column
    are re-read from their [repr] ([csv_cell]), an [int] in such a column
    becomes a float, a NaN stays NaN, and the other cells are taken to
    come back unchanged.  [script.py] and [script_1.py] import pandas
    successfully; the three imports of [script_11.py] are inputs, and
    only an [ImportError] is caught ([nb_try_import]).  What a cell prints is a list of [out] items: text, or
    the [repr] of a DataFrame, an array or a dict, whose layout is not
    modelled.

    The theorems: the cleaning cells leave exactly the two cleaned files
    on disk, and they keep every column the application reads, so the
    files satisfy the dashboard's contract when the sources do; [script_1.py] raises [NameError] unless [script.py] ran
    first; the system test reports the system ready whatever fails, and
    ends with [NameError] when [cleaned_companies.csv] could not be read
    in a fresh kernel. *)

From S2P Require Import Prelude PyStr PyObj Binary64 Config Store Companies Frames Dashboard.

(** ** The kernel *)

(** What [print] writes. *)
Inductive out : Type :=
  | OText (s : pystr)
  | OFrame (cols : list pystr) (rows : list row)   (** [repr] of a DataFrame *)
  | OArray (cells : list cell)                     (** [str] of a numpy array *)
  | OSorted (cells : list cell)                    (** [repr] of [sorted(...)] of numpy scalars *)
  | OStats (s : collection_stats)                  (** [str] of the stats dict *)
  | OError (e : pyexc).                            (** [str(e)] of an exception *)

Record kernel : Type := mk_kernel {
  k_company_df : option dframe;      (** [company_df] *)
  k_financial_df : option dframe;    (** [financial_df] *)
  k_companies_df : option dframe;    (** [companies_df] *)
  k_pd : bool;                       (** the name [pd] is bound *)
  k_files : pystr -> option frame;   (** the CSV files on disk *)
  k_stdout : list out
}.

(** A kernel with no variables. *)
Definition fresh_kernel (files : pystr -> option frame) : kernel := mk_kernel None None None false files [].

(** A cell: the kernel it leaves and how it ended. *)
Definition nb (A : Type) : Type := kernel -> kernel * exc A.

#[export] Instance nb_ret : MRet nb := fun A x k => (k, Ok x).
#[export] Instance nb_bind : MBind nb := fun A B f m k =>
  match m k with
  | (k', Ok x) => f x k'
  | (k', Raise e) => (k', Raise e)
  end.

Definition nb_lift {A} (m : exc A) : nb A := fun k => (k, m).

(** [sep.join(parts)] on lists. *)
Fixpoint join_with {A} (sep : list A) (parts : list (list A)) : list A :=
  match parts with
  | [] => []
  | [p] => p
  | p :: ps => p ++ sep ++ join_with sep ps
  end.

(** [print(a, b, ...)]: the arguments separated by spaces, then a line
    end. *)
Definition print (args : list (list out)) : nb unit := fun k =>
  (mk_kernel (k_company_df k) (k_financial_df k) (k_companies_df k) (k_pd k) (k_files k)
     (k_stdout k ++ join_with [OText (str_of " ")] args ++ [OText newline]), Ok tt).

Definition text (s : string) : list out := [OText (str_of s)].

(** [try: body except Exception as e: handler(e)]. *)
Definition nb_try (body : nb unit) (handler : pyexc -> nb unit) : nb unit := fun k =>
  match body k with
  | (k', Ok _) => (k', Ok tt)
  | (k', Raise e) => handler e k'
  end.

(** Reading a variable: [NameError] when no cell assigned it. *)
Definition get_var (v : option dframe) : nb dframe :=
  nb_lift (match v with Some df => Ok df | None => Raise NameError end).

Definition get_company_df : nb dframe := fun k => get_var (k_company_df k) k.
Definition get_financial_df : nb dframe := fun k => get_var (k_financial_df k) k.
Definition get_companies_df : nb dframe := fun k => get_var (k_companies_df k) k.

Definition set_company_df (df : dframe) : nb unit := fun k =>
  (mk_kernel (Some df) (k_financial_df k) (k_companies_df k) (k_pd k) (k_files k) (k_stdout k), Ok tt).
Definition set_financial_df (df : dframe) : nb unit := fun k =>
  (mk_kernel (k_company_df k) (Some df) (k_companies_df k) (k_pd k) (k_files k) (k_stdout k), Ok tt).
Definition set_companies_df (df : dframe) : nb unit := fun k =>
  (mk_kernel (k_company_df k) (k_financial_df k) (Some df) (k_pd k) (k_files k) (k_stdout k), Ok tt).

(** [import pandas as pd]: [r] is how the import ends; it binds [pd]
    when it succeeds. *)
Definition import_pandas (r : exc unit) : nb unit := fun k =>
  match r with
  | Ok _ => (mk_kernel (k_company_df k) (k_financial_df k) (k_companies_df k) true (k_files k) (k_stdout k), Ok tt)
  | Raise e => (k, Raise e)
  end.

(** [pd.read_csv(path)]: [NameError] when no cell bound [pd]. *)
Definition nb_read_csv (path : string) : nb dframe := fun k =>
  if k_pd k then (k, read_csv (k_files k (str_of path))) else (k, Raise NameError).

(** A [float64] value as [df.to_csv] writes it ([repr]) and [pd.read_csv]
    reads it back; NaN is written as the empty field and read back as
    NaN. *)
Definition reread_float (f : pyfloat) : pyfloat :=
  match f with FNan => FNan | _ => default f (parse_float_lit (float_repr f)) end.

(** A cell of a column of dtype [dt], written and read back: a [float64]
    column holds floats, so an integer cell in it is written as the
    float it holds ([5.0]); [int64] and [object] cells are written as
    they were read. *)
Definition csv_cell (dt : dtype) (c : cell) : cell :=
  match dt, c with
  | DFloat, CInt z => CFloat (reread_float (FDec (z <? 0)%Z (Z.abs_N z) 0))
  | DFloat, CFloat f => CFloat (reread_float f)
  | _, _ => c
  end.

(** [df.to_csv(path, index=False)]: the header and, for each row, its
    cells in the header's order (an empty field, read back as NaN, where
    a row has no cell), as [pd.read_csv] reads them back. *)
Definition to_frame (df : dframe) : frame :=
  mk_frame (fst <$> df_cols df)
    ((fun r => (fun cd => (cd.1, csv_cell cd.2 (default (CFloat FNan) (assoc_get cd.1 r)))) <$> df_cols df)
       <$> df_rows df).
Definition save_file (files : pystr -> option frame) (path : string) (fr : frame) : pystr -> option frame :=
  fun p => if bool_decide (p = str_of path) then Some fr else files p.
Definition to_csv (df : dframe) (path : string) : nb unit := fun k =>
  (mk_kernel (k_company_df k) (k_financial_df k) (k_companies_df k) (k_pd k)
     (save_file (k_files k) path (to_frame df)) (k_stdout k), Ok tt).

(** ** [src/script.py]: the source datasets *)

(** [str(df.shape)]: [(rows, columns)]. *)
Definition shape_str (df : dframe) : pystr :=
  str_of "(" ++ z_str (Z.of_nat (length (df_rows df))) ++ str_of ", " ++
  z_str (Z.of_nat (length (df_cols df))) ++ str_of ")".

(** [print(df.columns.tolist())]: the [repr] of a list of strings. *)
Definition columns_repr (df : dframe) : pystr := py_repr (VList (VStr ∘ fst <$> df_cols df)).

(** [df.head()]. *)
Definition head_out (df : dframe) : out := OFrame (fst <$> df_cols df) (take 5 (df_rows df)).

(** Lines 9-20 for one dataset. *)
Definition describe (name : string) (df : dframe) : nb unit :=
  print [text (name ++ " Dataset Shape:"); [OText (shape_str df)]];;
  print [[OText (newline ++ str_of (name ++ " Dataset Columns:"))]];;
  print [[OText (columns_repr df)]];;
  print [[OText (newline ++ str_of ("First few rows of " ++ name ++ " Dataset:"))]];;
  print [[head_out df]].

(** Lines 1-2 import pandas and numpy, which [requirements.txt] installs;
    [np] is not used. *)
Definition script_cell : nb unit :=
  import_pandas (Ok tt);;
  company_df ← nb_read_csv "NewCompanyDATAset.csv";
  set_company_df company_df;;
  financial_df ← nb_read_csv "msme_financial_data.csv";
  set_financial_df financial_df;;
  describe "Company" company_df;;
  print [[OText (newline ++ repeat 61%N 50)]];;
  describe "Financial" financial_df.

(** ** [src/script_1.py]: cleaning and saving *)

(** [df.drop(cols, axis=1, errors='ignore')]. *)
Definition df_drop (df : dframe) (cols : list pystr) : dframe :=
  mk_dframe (filter (fun cd => cd.1 ∉ cols) (df_cols df))
            ((fun r => filter (fun kv => kv.1 ∉ cols) r) <$> df_rows df).

Definition unnamed_cols : list pystr := str_of <$> ["Unnamed: 28"; "Unnamed: 29"]%string.

Definition sample_companies : list string := ["MSME001"; "MSME010"; "MSME020"; "MSME030"; "MSME040"]%string.

(** [series.iloc[0]]: [IndexError] on an empty series. *)
Definition iloc0 (s : series) : exc cell :=
  match s_cells s with c :: _ => Ok c | [] => Raise IndexError end.

(** Lines 13-17, one company: [company in financial_df['Company_ID'].values]
    compares with [==], then the company's name and sector. *)
Definition sample_line (company_df financial_df : dframe) (company : string) : nb unit :=
  ids ← nb_lift (df_col financial_df "Company_ID");
  if existsb (fun c => year_eq c (CStr (str_of company))) (s_cells ids) then
    own_ids ← nb_lift (df_col company_df "Company_ID");
    let company_info := df_where company_df (series_eq own_ids (CStr (str_of company))) in
    if bool_decide (df_rows company_info = []) then mret tt
    else
      names ← nb_lift (df_col company_info "Company_Name");
      name ← nb_lift (iloc0 names);
      sectors ← nb_lift (df_col company_info "Sector");
      sector ← nb_lift (iloc0 sectors);
      print [[OText (str_of company ++ str_of ": " ++ cell_str name ++ str_of " - " ++ cell_str sector)]]
  else mret tt.

(** [for x in xs: body(x)]. *)
Fixpoint nb_for {A} (body : A -> nb unit) (xs : list A) : nb unit :=
  match xs with [] => mret tt | x :: xs' => body x;; nb_for body xs' end.

Definition script_1_cell : nb unit :=
  company_df0 ← get_company_df;
  let company_df := df_drop company_df0 unnamed_cols in
  set_company_df company_df;;
  sectors ← nb_lift (df_col company_df "Sector");
  print [text "Unique Sectors:"; [OArray (series_unique sectors)]];;
  print [text "Number of companies:"; [OText (z_str (Z.of_nat (length (df_rows company_df))))]];;
  print [[OText (newline ++ str_of "Sample companies with financial data:")]];;
  financial_df ← get_financial_df;
  nb_for (sample_line company_df financial_df) sample_companies;;
  to_csv company_df "cleaned_companies.csv";;
  to_csv financial_df "cleaned_financial.csv";;
  print [[OText (newline ++ str_of "Datasets cleaned and saved!")]].

(** Cells run one after the other in the same kernel; a cell that
    raises does not stop the next one. *)
Definition run_cells (cells : list (nb unit)) (k : kernel) : kernel :=
  foldl (fun k c => (c k).1) k cells.

(** ** [src/script_11.py]: the system test *)

(** The keys of [NEWS_APIS] ([src/config.py], lines 14-55). *)
Definition provider_key (p : provider) : string :=
  match p with
  | Newsdata => "newsdata"
  | Finnhub => "finnhub"
  | AlphaVantage => "alpha_vantage"
  | Marketaux => "marketaux"
  end.

(** [CHROMA_PERSIST_DIRECTORY] ([src/config.py], line 66). *)
Definition CHROMA_PERSIST_DIRECTORY : pystr := str_of "./chroma_db".

(** [print(f"...")]: one line of text. *)
Definition say (parts : list pystr) : nb unit := print [[OText (mjoin parts)]].

(** The three spaces and the mark that start a line of the report. *)
Definition mark (cp : N) (s : string) : pystr := str_of "   " ++ [cp] ++ str_of s.

Definition check_mark : N := 9989.    (** U+2705 *)
Definition cross_mark : N := 10060.   (** U+274C *)

(** [sorted(xs)] of numpy scalars: comparing a string with a number
    raises [TypeError]; a sort that succeeds has compared every pair of
    neighbours of its result, so it raises exactly when the list mixes
    both kinds.  The order of the result is not modelled. *)
Definition py_sorted (cs : list cell) : exc (list cell) :=
  if existsb is_str_cell cs && existsb (fun c => negb (is_str_cell c)) cs then Raise TypeError else Ok cs.

Definition len_str (df : dframe) : pystr := z_str (Z.of_nat (length (df_rows df))).

Section SystemTest.
Context `{SimilaritySearch}.

(** The imports the test makes, as the environment answers them:
    [import pandas as pd], [import chromadb], [import requests]; [from vector_store import
    MSMEVectorStore] with [MSMEVectorStore()], which opens the persistent
    collection; [from news_fetcher import NewsAggregator]; [import
    config]. *)
Variables pandas_import chromadb_import requests_import : exc unit.
Variable store_init : exc vstore.
Variable news_import : exc unit.
Variable config_import : exc unit.

(** [try: body except ImportError as e: handler(e)]: any other
    exception ends the cell. *)
Definition nb_try_import (body : nb unit) (handler : pyexc -> nb unit) : nb unit := fun k =>
  match body k with
  | (k', Ok _) => (k', Ok tt)
  | (k', Raise ImportError) => handler ImportError k'
  | (k', Raise e) => (k', Raise e)
  end.

(** Lines 5-13: the three imports in order, the first that fails ends
    the [try]; only [ImportError] is caught. *)
Definition step_imports : nb unit :=
  say [str_of "1. Testing imports..."];;
  nb_try_import
    (import_pandas pandas_import;;
     nb_lift chromadb_import;;
     nb_lift requests_import;;
     say [mark check_mark " All basic imports successful"])
    (fun e => print [[OText (mark cross_mark " Import error: "); OError e]]).

(** Lines 15-28. *)
Definition step_data : nb unit :=
  say [newline; str_of "2. Testing data loading..."];;
  nb_try
    (companies_df ← nb_read_csv "cleaned_companies.csv";
     set_companies_df companies_df;;
     financial_df ← nb_read_csv "cleaned_financial.csv";
     set_financial_df financial_df;;
     say [mark check_mark " Companies loaded: "; len_str companies_df; str_of " records"];;
     say [mark check_mark " Financial data loaded: "; len_str financial_df; str_of " records"];;
     sectors ← nb_lift (df_col companies_df "Sector");
     print [[OText (mark 128202%N " Sectors: "); OArray (series_unique sectors)]];;
     years ← nb_lift (df_col financial_df "Year");
     sorted_years ← nb_lift (py_sorted (series_unique years));
     print [[OText (mark 128200%N " Financial years: "); OSorted sorted_years]])
    (fun e => print [[OText (mark cross_mark " Data loading error: "); OError e]]).

(** Lines 30-39. *)
Definition step_store : nb unit :=
  say [newline; str_of "3. Testing vector store..."];;
  nb_try
    (store ← nb_lift store_init;
     say [mark check_mark " Vector store created successfully"];;
     print [[OText (mark 128202%N " Current collection stats: "); OStats (get_collection_stats store)]])
    (fun e => print [[OText (mark cross_mark " Vector store error: "); OError e]]).

(** Lines 41-50. *)
Definition step_news : nb unit :=
  say [newline; str_of "4. Testing news fetcher structure..."];;
  nb_try
    (nb_lift news_import;;
     say [mark check_mark " News aggregator created successfully"];;
     say [mark 128225%N " Configured APIs: ";
          py_repr (VList ((fun p => VStr (str_of (provider_key p))) <$> NEWS_APIS))];;
     say [str_of "   " ++ [127991; 65039]%N ++ str_of " Sector keywords: "; py_repr (VList (VStr <$> sector_names))])
    (fun e => print [[OText (mark cross_mark " News fetcher error: "); OError e]]).

(** Lines 52-61. *)
Definition step_config : nb unit :=
  say [newline; str_of "5. Testing configuration..."];;
  nb_try
    (nb_lift config_import;;
     say [mark check_mark " Configuration loaded successfully"];;
     say [mark 128295%N " ChromaDB directory: "; CHROMA_PERSIST_DIRECTORY];;
     say [mark 128202%N " Collection name: "; COLLECTION_NAME];;
     say [str_of "   " ++ [128450; 65039]%N ++ str_of " Sector keywords configured: ";
          z_str (Z.of_nat (length SECTOR_KEYWORDS))])
    (fun e => print [[OText (mark cross_mark " Configuration error: "); OError e]]).

Definition files_created : list string :=
  ["requirements.txt"; "config.py"; "news_fetcher.py"; "vector_store.py"; "rag_pipeline.py"; "app.py";
   ".env.example"; "README.md"]%string.

Definition ready_line : pystr := 127919%N :: str_of " SYSTEM READY FOR TESTING!".

(** Lines 63-82: the report, whatever the steps found; the last two
    lines read [companies_df] and [financial_df] outside any [try]. *)
Definition summary : nb unit :=
  say [newline; repeat 61%N 50];;
  say [ready_line];;
  say [newline; str_of "Next Steps:"];;
  say [str_of "1. Copy .env.example to .env and add your OpenAI API key"];;
  say [str_of "2. Run: streamlit run app.py"];;
  say [str_of "3. Initialize the system in the app sidebar"];;
  say [str_of "4. Start chatting with your MSME data!"];;
  say [newline; [128193%N]; str_of " Files created:"];;
  nb_for (fun f => say [mark check_mark (" " ++ f)]) files_created;;
  say [newline; [128202%N]; str_of " Data files:"];;
  companies_df ← get_companies_df;
  say [mark check_mark " cleaned_companies.csv ("; len_str companies_df; str_of " companies)"];;
  financial_df ← get_financial_df;
  say [mark check_mark " cleaned_financial.csv ("; len_str financial_df; str_of " financial records)"].

Definition script_11_cell : nb unit :=
  say [[129514%N]; str_of " Testing System Components..."];;
  say [repeat 61%N 50];;
  step_imports;;
  step_data;;
  step_store;;
  step_news;;
  step_config;;
  summary.

End SystemTest.

(** ** Specification of the cleaning *)

(** The file [script_1.py] should write: the columns [cols] removed from
    the header and from every row. *)
Definition drop_frame (fr : frame) (cols : list pystr) : frame :=
  mk_frame (filter (fun c => c ∉ cols) (f_columns fr)) ((fun r => filter (fun kv => kv.1 ∉ cols) r) <$> f_rows fr).

(** The dtype [pd.read_csv] gives a column of a file. *)
Definition col_dtype (fr : frame) (c : pystr) : dtype := infer_dtype (omap (fun r => assoc_get c r) (f_rows fr)).

(** A file written by [to_csv] and read back: every cell written and
    read as the dtype of its column makes it. *)
Definition csv_normalize (fr : frame) : frame :=
  mk_frame (f_columns fr) ((fun r : row => (fun kv => (kv.1, csv_cell (col_dtype fr kv.1) kv.2)) <$> r) <$> f_rows fr).

(** ** Lemmas: frames written and read back *)

Lemma fst_filter_keys {V} (cols : list pystr) (l : list (pystr * V)) :
  fst <$> filter (fun kv => kv.1 ∉ cols) l = filter (fun c => c ∉ cols) (fst <$> l).
Proof.
  induction l as [|[c v] l IH]; [done|]. cbn [fmap list_fmap fst].
  destruct (decide (c ∉ cols)).
  - rewrite !filter_cons_True by done. cbn. by rewrite IH.
  - rewrite !filter_cons_False by done. done.
Qed.

Lemma assoc_get_filter_keep {V} (cols : list pystr) (l : list (pystr * V)) k :
  k ∉ cols -> assoc_get k (filter (fun kv => kv.1 ∉ cols) l) = assoc_get k l.
Proof.
  intros Hk. induction l as [|[c v] l IH]; [done|]. cbn [assoc_get].
  destruct (decide (c ∉ cols)).
  - rewrite filter_cons_True by done. cbn [assoc_get]. by rewrite IH.
  - rewrite filter_cons_False by done. rewrite IH. case_decide; [subst; done|done].
Qed.

(** The cleaning keeps the dashboard's contract: the columns it drops
    are none of those the dashboard reads. *)
Lemma drop_frame_ok fr cols : csv_ok fr -> csv_ok (drop_frame fr cols).
Proof.
  intros Hok. unfold csv_ok, drop_frame. cbn. apply Forall_fmap.
  eapply Forall_impl; [exact Hok|]. intros r Hr. cbn. by rewrite fst_filter_keys, Hr.
Qed.

Lemma drop_frame_col fr cols col P : str_of col ∉ cols -> csv_col fr col P -> csv_col (drop_frame fr cols) col P.
Proof.
  intros Hc [Hin Hr]. split; [cbn; by apply list_elem_of_filter|].
  cbn. apply Forall_fmap. eapply Forall_impl; [exact Hr|]. intros r Hr' c. cbn.
  rewrite assoc_get_filter_keep by done. apply Hr'.
Qed.

(** A row written in the order of its own keys is the row, each cell
    written and read back. *)
Lemma row_reorder d (f : pystr -> cell -> cell) (r : row) : NoDup (fst <$> r) ->
  (fun c => (c, f c (default d (assoc_get c r)))) <$> (fst <$> r) = (fun kv => (kv.1, f kv.1 kv.2)) <$> r.
Proof.
  induction r as [|[c v] r IH]; [done|]. cbn [fmap list_fmap fst snd]. intros Hnd.
  apply NoDup_cons in Hnd as [Hc Hnd]. cbn [assoc_get]. rewrite decide_True by done. f_equal.
  rewrite <- IH by done. apply list_fmap_ext. intros i c' Hi.
  assert (c' ≠ c) by (intros ->; apply Hc; by eapply list_elem_of_lookup_2). cbn. by rewrite decide_False.
Qed.

Lemma omap_filter_keep (cols : list pystr) (rows : list row) col : col ∉ cols ->
  omap (fun r => assoc_get col r) ((fun r => filter (fun kv => kv.1 ∉ cols) r) <$> rows)
  = omap (fun r => assoc_get col r) rows.
Proof.
  intros Hc. induction rows as [|r rows IH]; [done|]. cbn [fmap list_fmap omap list_omap].
  by rewrite assoc_get_filter_keep, IH.
Qed.

(** Dropping columns commutes with reading the file. *)
Lemma df_drop_of_csv fr cols : df_drop (of_csv fr) cols = of_csv (drop_frame fr cols).
Proof.
  unfold df_drop, of_csv, drop_frame. cbn [df_cols df_rows f_columns f_rows]. f_equal.
  induction (f_columns fr) as [|c cs IH]; [done|]. cbn [fmap list_fmap].
  destruct (decide (c ∈ cols)).
  - rewrite !filter_cons_False by (cbn; tauto). done.
  - rewrite !filter_cons_True by done. cbn [fmap list_fmap]. by rewrite omap_filter_keep, IH.
Qed.

(** [to_csv] of a frame [read_csv] read gives the file with its
    [float64] cells written and read back. *)
Lemma to_frame_of_csv fr : csv_ok fr -> NoDup (f_columns fr) -> to_frame (of_csv fr) = csv_normalize fr.
Proof.
  intros Hok Hnd. destruct fr as [cols rows]. unfold to_frame, csv_normalize. rewrite of_csv_cols.
  cbn [f_columns f_rows of_csv df_cols df_rows]. f_equal. apply list_fmap_ext. intros i r Hi.
  eapply Forall_lookup_1 in Hok as Hr; [|exact Hi]. cbn in Hr.
  rewrite <- list_fmap_compose.
  rewrite <- (row_reorder (CFloat FNan) (fun c v => csv_cell (col_dtype (mk_frame cols rows) c) v) r)
    by (by rewrite Hr).
  by rewrite Hr.
Qed.

Lemma to_frame_drop fr cols : csv_ok fr -> NoDup (f_columns fr) ->
  to_frame (df_drop (of_csv fr) cols) = csv_normalize (drop_frame fr cols).
Proof.
  intros Hok Hnd. rewrite df_drop_of_csv. apply to_frame_of_csv; [by apply drop_frame_ok|].
  by apply NoDup_filter.
Qed.

Lemma assoc_get_map_vals (f : pystr -> cell -> cell) (r : row) k :
  assoc_get k ((fun kv => (kv.1, f kv.1 kv.2)) <$> r) = f k <$> assoc_get k r.
Proof. induction r as [|[c v] r IH]; [done|]. cbn. case_decide; [by subst|done]. Qed.

Lemma csv_normalize_ok fr : csv_ok fr -> csv_ok (csv_normalize fr).
Proof.
  intros Hok. unfold csv_ok, csv_normalize. cbn. apply Forall_fmap.
  eapply Forall_impl; [exact Hok|]. intros r Hr. cbn. by rewrite <- list_fmap_compose.
Qed.

(** A column test that writing and reading back keeps. *)
Lemma csv_normalize_col fr col P : (∀ dt c, P (csv_cell dt c) = P c) ->
  csv_col fr col P -> csv_col (csv_normalize fr) col P.
Proof.
  intros HP [Hin Hr]. split; [done|]. unfold csv_normalize. cbn [f_rows]. apply Forall_fmap.
  eapply Forall_impl; [exact Hr|]. intros r Hr' c. cbn beta.
  rewrite (assoc_get_map_vals (fun k v => csv_cell (col_dtype fr k) v)).
  destruct (assoc_get (str_of col) r) as [c0|] eqn:E; [|done]. intros [= <-]. rewrite HP. by apply Hr'.
Qed.

Lemma is_str_csv_cell dt c : is_str_cell (csv_cell dt c) = is_str_cell c.
Proof. by destruct dt, c. Qed.

Lemma is_num_csv_cell dt c : is_num (csv_cell dt c) = is_num c.
Proof. by destruct dt, c. Qed.

(** ** Lemmas: running cells *)

Definition with_out (k : kernel) (o : list out) : kernel :=
  mk_kernel (k_company_df k) (k_financial_df k) (k_companies_df k) (k_pd k) (k_files k) (k_stdout k ++ o).

Lemma with_out_app k o1 o2 : with_out (with_out k o1) o2 = with_out k (o1 ++ o2).
Proof. unfold with_out. cbn. by rewrite app_assoc. Qed.

(** [m] only prints, and returns [x], whatever the kernel. *)
Definition quiet {A} (m : nb A) (x : A) : Prop := ∀ k, ∃ o, m k = (with_out k o, Ok x).

Lemma quiet_bind {A B} (m : nb A) (f : A -> nb B) x y : quiet m x -> quiet (f x) y -> quiet (m ≫= f) y.
Proof.
  intros Hm Hf k. destruct (Hm k) as [o1 E1]. destruct (Hf (with_out k o1)) as [o2 E2].
  exists (o1 ++ o2). unfold mbind, nb_bind. by rewrite E1, E2, with_out_app.
Qed.

Lemma quiet_print args : quiet (print args) tt.
Proof. intros k. eexists. reflexivity. Qed.

Lemma quiet_lift {A} (m : exc A) x : m = Ok x -> quiet (nb_lift m) x.
Proof. intros -> k. exists []. unfold with_out. destruct k. cbn. by rewrite app_nil_r. Qed.

Lemma quiet_ret {A} (x : A) : quiet (mret x) x.
Proof. apply (quiet_lift (Ok x)). done. Qed.

Lemma quiet_for {A} (body : A -> nb unit) xs : Forall (fun x => quiet (body x) tt) xs -> quiet (nb_for body xs) tt.
Proof. induction 1 as [|x xs Hx _ IH]; [apply quiet_ret|]. by eapply quiet_bind. Qed.

Lemma bind_runs {A B} (m : nb A) (f : A -> nb B) k k' x : m k = (k', Ok x) -> (m ≫= f) k = f x k'.
Proof. intros E. unfold mbind, nb_bind. by rewrite E. Qed.

Lemma bind_quiet {A B} (m : nb A) (f : A -> nb B) x k : quiet m x -> ∃ o, (m ≫= f) k = f x (with_out k o).
Proof. intros Hm. destruct (Hm k) as [o E]. exists o. by apply bind_runs. Qed.

Lemma describe_quiet name df : quiet (describe name df) tt.
Proof. unfold describe. repeat (eapply quiet_bind; [apply quiet_print|]). apply quiet_print. Qed.

#[export] Hint Resolve quiet_bind quiet_print quiet_ret quiet_for describe_quiet : notebook.

(** A column the frame has: [df[col]] returns as many cells as rows. *)
Lemma df_col_present df col : keys_ok df -> str_of col ∈ fst <$> df_cols df ->
  ∃ s, df_col df col = Ok s ∧ length (s_cells s) = length (df_rows df).
Proof.
  intros Hk Hin. apply assoc_get_is_Some in Hin as [dt Hdt].
  destruct (df_col_ok df col dt Hk Hdt) as (cs & Hcs & H2). exists (mk_series dt cs).
  split; [done|]. cbn. symmetry. by eapply Forall2_length.
Qed.

(** The sample loop of [script_1.py] only prints when the company file
    has the columns it reads. *)
Lemma sample_line_quiet cdf fdf company :
  keys_ok cdf -> keys_ok fdf -> str_of "Company_ID" ∈ fst <$> df_cols fdf ->
  Forall (fun col => str_of col ∈ fst <$> df_cols cdf) ["Company_ID"; "Company_Name"; "Sector"] ->
  quiet (sample_line cdf fdf company) tt.
Proof.
  intros Hc Hf Hfid Hcols. apply Forall_cons in Hcols as [Hid Hcols].
  apply Forall_cons in Hcols as [Hname Hcols]. apply Forall_cons in Hcols as [Hsec _].
  destruct (df_col_present fdf "Company_ID" Hf Hfid) as (ids & Eids & _).
  unfold sample_line. eapply quiet_bind; [by apply quiet_lift|].
  destruct (existsb _ _); [|apply quiet_ret].
  destruct (df_col_present cdf "Company_ID" Hc Hid) as (own & Eown & _).
  eapply quiet_bind; [by apply quiet_lift|]. cbv zeta. case_bool_decide as Hne; [apply quiet_ret|].
  set (info := df_where cdf _).
  assert (Hk : keys_ok info) by apply df_where_keys_ok, Hc.
  destruct (df_col_present info "Company_Name" Hk Hname) as (names & En & Ln).
  destruct (df_col_present info "Sector" Hk Hsec) as (secs & Es & Ls).
  destruct (s_cells names) as [|name ns] eqn:Ns; [cbn [length] in Ln; exfalso; by apply Hne, nil_length_inv|].
  destruct (s_cells secs) as [|sec ss] eqn:Ss; [cbn [length] in Ls; exfalso; by apply Hne, nil_length_inv|].
  eapply quiet_bind; [by apply quiet_lift|].
  eapply quiet_bind; [apply quiet_lift; unfold iloc0; by rewrite Ns|].
  eapply quiet_bind; [by apply quiet_lift|].
  eapply quiet_bind; [apply quiet_lift; unfold iloc0; by rewrite Ss|].
  apply quiet_print.
Qed.

(** The variables and files of a kernel, what a cell leaves behind
    besides its output. *)
Definition vars (k : kernel) : option dframe * option dframe * option dframe * bool * (pystr -> option frame) :=
  (k_company_df k, k_financial_df k, k_companies_df k, k_pd k, k_files k).

(** [m] ends normally with [x], leaving the variables and files [v]. *)
Definition runs_to {A} (m : nb A) (k : kernel) v (x : A) : Prop := ∃ k', m k = (k', Ok x) ∧ vars k' = v.

Lemma runs_bind {A B} (m : nb A) (f : A -> nb B) k k' x v y :
  m k = (k', Ok x) -> runs_to (f x) k' v y -> runs_to (m ≫= f) k v y.
Proof. intros E [k'' [E' Hv]]. exists k''. split; [|done]. by rewrite (bind_runs _ _ _ _ _ E). Qed.

Lemma runs_bind_quiet {A B} (m : nb A) (f : A -> nb B) k x v y :
  quiet m x -> (∀ o, runs_to (f x) (with_out k o) v y) -> runs_to (m ≫= f) k v y.
Proof. intros Hm Hf. destruct (Hm k) as [o E]. by eapply runs_bind. Qed.

Lemma runs_quiet {A} (m : nb A) k x : quiet m x -> runs_to m k (vars k) x.
Proof. intros Hm. destruct (Hm k) as [o E]. by exists (with_out k o). Qed.

Lemma read_runs path k fr : k_pd k = true -> k_files k (str_of path) = Some fr ->
  nb_read_csv path k = (k, Ok (of_csv fr)).
Proof. intros Hpd E. unfold nb_read_csv. by rewrite Hpd, E. Qed.

Lemma lift_runs {A} (m : exc A) x k : m = Ok x -> nb_lift m k = (k, Ok x).
Proof. by intros ->. Qed.

(** One step of a cell that runs to its end: a step computed outright,
    a file read, a pandas operation that succeeds, or a step that only
    prints. *)
Ltac nb_step :=
  cbv beta zeta;
  first
  [ eapply runs_bind_quiet; [solve [eauto with notebook] | intros ?]
  | eapply runs_bind; [apply read_runs; [reflexivity|eassumption] |]
  | eapply runs_bind; [apply lift_runs; eassumption |]
  | eapply runs_bind; [reflexivity |] ].

Lemma df_drop_keys_ok df cols : keys_ok df -> keys_ok (df_drop df cols).
Proof.
  unfold keys_ok, df_drop. cbn. intros Hk. apply Forall_fmap.
  eapply Forall_impl; [exact Hk|]. intros r Hr. cbn. by rewrite !fst_filter_keys, Hr.
Qed.

Lemma df_drop_has df cols col : str_of col ∉ cols -> str_of col ∈ fst <$> df_cols df ->
  str_of col ∈ fst <$> df_cols (df_drop df cols).
Proof. intros Hn Hin. cbn. rewrite fst_filter_keys. by apply list_elem_of_filter. Qed.

(** [script.py] run in a fresh kernel: both source files are read. *)
Lemma script_cell_runs files cfr ffr :
  files (str_of "NewCompanyDATAset.csv") = Some cfr -> files (str_of "msme_financial_data.csv") = Some ffr ->
  runs_to script_cell (fresh_kernel files) (Some (of_csv cfr), Some (of_csv ffr), None, true, files) tt.
Proof.
  intros H1 H2. unfold script_cell. do 7 nb_step.
  apply runs_quiet, describe_quiet.
Qed.

(** [script_1.py] after [script.py]: the unnamed columns are dropped and
    both frames are saved. *)
Lemma script_1_runs cdf fdf kc pd files o :
  keys_ok cdf -> keys_ok fdf -> str_of "Company_ID" ∈ fst <$> df_cols fdf ->
  Forall (fun col => str_of col ∈ fst <$> df_cols cdf) ["Company_ID"; "Company_Name"; "Sector"]%string ->
  runs_to script_1_cell (mk_kernel (Some cdf) (Some fdf) kc pd files o)
    (Some (df_drop cdf unnamed_cols), Some fdf, kc, pd,
     save_file (save_file files "cleaned_companies.csv" (to_frame (df_drop cdf unnamed_cols)))
       "cleaned_financial.csv" (to_frame fdf)) tt.
Proof.
  intros Hc Hf Hfid Hcols.
  assert (Hd : Forall (fun col => str_of col ∈ fst <$> df_cols (df_drop cdf unnamed_cols))
                 ["Company_ID"; "Company_Name"; "Sector"]%string).
  { apply Forall_forall. intros col Hin. apply df_drop_has; [|exact (proj1 (Forall_forall _ _) Hcols col Hin)].
    repeat (apply elem_of_cons in Hin as [->|Hin]; [decide_vm|]). by apply elem_of_nil in Hin. }
  pose proof (df_drop_keys_ok cdf unnamed_cols Hc) as Hdk.
  destruct (df_col_present _ "Sector" Hdk) as (secs & Es & _); [apply (proj1 (Forall_forall _ _) Hd); set_solver|].
  unfold script_1_cell. do 7 nb_step.
  eapply runs_bind_quiet; [|intros ?].
  { apply quiet_for, Forall_forall. intros c _. by apply sample_line_quiet. }
  do 2 nb_step. apply runs_quiet, quiet_print.
Qed.

Lemma kernel_vars k c f cs pd fl : vars k = (c, f, cs, pd, fl) -> k = mk_kernel c f cs pd fl (k_stdout k).
Proof. destruct k. unfold vars. cbn. congruence. Qed.

Lemma drop_frame_input cfr ffr : dashboard_input cfr ffr -> dashboard_input (drop_frame cfr unnamed_cols) ffr.
Proof.
  intros []. split; [by apply drop_frame_ok|done| | |done|done|done]; (apply drop_frame_col; [decide_vm|done]).
Qed.

Lemma csv_normalize_input cfr ffr : dashboard_input cfr ffr ->
  dashboard_input (csv_normalize cfr) (csv_normalize ffr).
Proof.
  intros [Hc Hf Hid Hemp Hfid Hnums Hns]. split; try by apply csv_normalize_ok.
  1-3: apply csv_normalize_col; [intros; apply is_str_csv_cell || apply is_num_csv_cell|done].
  - eapply Forall_impl; [exact Hnums|]. intros col Hcol. apply csv_normalize_col; [apply is_num_csv_cell|done].
  - done.
Qed.

(** A company file of the shape [NewCompanyDATAset.csv] has: the
    columns the notebook reads and an unnamed trailing column. *)
Definition raw_company (id name : string) (emp : Z) (sector : string) : row :=
  [(str_of "Company_ID", CStr (str_of id)); (str_of "Company_Name", CStr (str_of name));
   (str_of "Employee_Count", CInt emp); (str_of "Sector", CStr (str_of sector));
   (str_of "Unnamed: 28", CFloat FNan)].

Definition raw_companies : frame :=
  mk_frame (fst <$> raw_company EmptyString EmptyString 0 EmptyString)
    [raw_company "M1" "Acme Tools" 40 "Manufacturing"; raw_company "M2" "Byte Works" 25 "Technology"].

Definition source_files : pystr -> option frame :=
  save_file (save_file (fun _ => None) "NewCompanyDATAset.csv" raw_companies) "msme_financial_data.csv" demo_financial.

(** C34. Data preparation: in a fresh kernel whose disk holds the two
    source files, [script.py] and then [script_1.py] both run to the end;
    the disk then holds [cleaned_companies.csv], the company file without
    its unnamed columns, and [cleaned_financial.csv], the financial file,
    each as [to_csv] writes it and [read_csv] reads it back, and nothing
    else changed; these two files are inputs the dashboard accepts, and
    the company file keeps its [Sector] column. *)
Theorem cleaning_cells files cfr ffr :
  files (str_of "NewCompanyDATAset.csv") = Some cfr ->
  files (str_of "msme_financial_data.csv") = Some ffr ->
  dashboard_input cfr ffr -> NoDup (f_columns cfr) -> NoDup (f_columns ffr) ->
  str_of "Company_Name" ∈ f_columns cfr -> str_of "Sector" ∈ f_columns cfr ->
  ∃ k1 k2, script_cell (fresh_kernel files) = (k1, Ok tt) ∧ script_1_cell k1 = (k2, Ok tt) ∧
    k_files k2 = save_file (save_file files "cleaned_companies.csv" (csv_normalize (drop_frame cfr unnamed_cols)))
                   "cleaned_financial.csv" (csv_normalize ffr) ∧
    dashboard_input (csv_normalize (drop_frame cfr unnamed_cols)) (csv_normalize ffr) ∧
    str_of "Sector" ∈ f_columns (csv_normalize (drop_frame cfr unnamed_cols)).
Proof.
  intros H1 H2 Hdi Hnc Hnf Hname Hsec. pose proof Hdi as [Hcok Hfok [Hcid _] _ [Hfid _] _ _].
  destruct (script_cell_runs files cfr ffr H1 H2) as [k1 [E1 V1%kernel_vars]].
  assert (Hcols : Forall (fun col => str_of col ∈ fst <$> df_cols (of_csv cfr))
                    ["Company_ID"; "Company_Name"; "Sector"]%string)
    by (rewrite of_csv_cols; by repeat constructor).
  destruct (script_1_runs (of_csv cfr) (of_csv ffr) None true files (k_stdout k1) (of_csv_keys_ok _ Hcok)
              (of_csv_keys_ok _ Hfok) ltac:(by rewrite of_csv_cols) Hcols) as [k2 [E2 V2]].
  rewrite <- V1 in E2. exists k1, k2. do 2 (split; [done|]). split.
  - apply kernel_vars in V2. rewrite V2. cbn [k_files]. by rewrite to_frame_drop, to_frame_of_csv.
  - split; [by apply csv_normalize_input, drop_frame_input|].
    cbn. apply list_elem_of_filter. split; [decide_vm|done].
Qed.

Lemma cleaning_cells_witness :
  ∃ k1 k2, script_cell (fresh_kernel source_files) = (k1, Ok tt) ∧ script_1_cell k1 = (k2, Ok tt) ∧
    k_files k2 = save_file (save_file source_files "cleaned_companies.csv"
                              (csv_normalize (drop_frame raw_companies unnamed_cols)))
                   "cleaned_financial.csv" (csv_normalize demo_financial) ∧
    dashboard_input (csv_normalize (drop_frame raw_companies unnamed_cols)) (csv_normalize demo_financial) ∧
    str_of "Sector" ∈ f_columns (csv_normalize (drop_frame raw_companies unnamed_cols)).
Proof.
  apply (cleaning_cells source_files raw_companies demo_financial);
    [vm_compute; reflexivity|vm_compute; reflexivity
    |apply dashboard_inputb_sound; vm_compute; reflexivity|decide_vm|decide_vm|decide_vm|decide_vm].
Defined.

(** ** Lemmas: what every step of a cell keeps *)

Section Preserves.
Context (R : kernel -> kernel -> Prop) `{!PreOrder R}.
(** Printing is an [R]-step. *)
Hypothesis R_out : ∀ k o, R k (with_out k o).

(** Whatever [m] does, raising or not, it makes an [R]-step. *)
Definition preserves {A} (m : nb A) : Prop := ∀ k, R k (m k).1.

Lemma preserves_bind {A B} (m : nb A) (f : A -> nb B) :
  preserves m -> (∀ x, preserves (f x)) -> preserves (m ≫= f).
Proof.
  intros Hm Hf k. specialize (Hm k). unfold mbind, nb_bind.
  destruct (m k) as [k' [x|e]]; cbn in *; [|done]. etrans; [exact Hm|apply Hf].
Qed.

Lemma preserves_try body handler : preserves body -> (∀ e, preserves (handler e)) -> preserves (nb_try body handler).
Proof.
  intros Hb Hh k. specialize (Hb k). unfold nb_try.
  destruct (body k) as [k' [x|e]]; cbn in *; [done|]. etrans; [exact Hb|apply Hh].
Qed.

Lemma preserves_try_import body handler :
  preserves body -> (∀ e, preserves (handler e)) -> preserves (nb_try_import body handler).
Proof.
  intros Hb Hh k. specialize (Hb k). unfold nb_try_import.
  destruct (body k) as [k' [x|e]]; cbn in *; [done|].
  destruct e; try done. etrans; [exact Hb|apply Hh].
Qed.

Lemma preserves_lift {A} (m : exc A) : preserves (nb_lift m).
Proof. intros k. cbn. reflexivity. Qed.

Lemma preserves_quiet {A} (m : nb A) x : quiet m x -> preserves m.
Proof. intros Hm k. destruct (Hm k) as [o ->]. apply R_out. Qed.

Lemma preserves_print args : preserves (print args).
Proof. eapply preserves_quiet, quiet_print. Qed.

Lemma preserves_for {A} (body : A -> nb unit) xs : (∀ x, preserves (body x)) -> preserves (nb_for body xs).
Proof. intros Hb. induction xs; cbn; [apply preserves_lift|by apply preserves_bind]. Qed.

Lemma preserves_read path : preserves (nb_read_csv path).
Proof. intros k. unfold nb_read_csv. destruct (k_pd k); cbn; reflexivity. Qed.

Lemma preserves_get_company : preserves get_company_df.
Proof. intros k. apply preserves_lift. Qed.
Lemma preserves_get_financial : preserves get_financial_df.
Proof. intros k. apply preserves_lift. Qed.
Lemma preserves_get_companies : preserves get_companies_df.
Proof. intros k. apply preserves_lift. Qed.

End Preserves.

(** The output only grows. *)
Definition out_grows (k k' : kernel) : Prop := k_stdout k `prefix_of` k_stdout k'.
(** [companies_df] and the files are unchanged, and [pd] stays bound
    once bound. *)
Definition keeps_data (k k' : kernel) : Prop :=
  k_companies_df k' = k_companies_df k ∧ k_files k' = k_files k ∧ (k_pd k = true -> k_pd k' = true).

#[export] Instance out_grows_preorder : PreOrder out_grows.
Proof. split; [intros k; unfold out_grows; done|intros k1 k2 k3 H12 H23; unfold out_grows in *; by etrans]. Qed.

#[export] Instance keeps_data_preorder : PreOrder keeps_data.
Proof.
  split; [intros k; by split_and!|].
  intros k1 k2 k3 (H1 & H2 & H3) (H1' & H2' & H3'). split_and!; [congruence|congruence|auto].
Qed.

Lemma out_grows_out k o : out_grows k (with_out k o).
Proof. unfold out_grows. cbn. by apply prefix_app_r. Qed.

Lemma keeps_data_out k o : keeps_data k (with_out k o).
Proof. by split_and!. Qed.

Lemma grows_import r : preserves out_grows (import_pandas r).
Proof. intros k. unfold out_grows. by destruct r. Qed.

Lemma keeps_import r : preserves keeps_data (import_pandas r).
Proof. intros k. destruct r; cbn; by split_and!. Qed.

Lemma grows_set_company df : preserves out_grows (set_company_df df).
Proof. intros k. unfold out_grows. done. Qed.
Lemma grows_set_financial df : preserves out_grows (set_financial_df df).
Proof. intros k. unfold out_grows. done. Qed.
Lemma grows_set_companies df : preserves out_grows (set_companies_df df).
Proof. intros k. unfold out_grows. done. Qed.
Lemma grows_to_csv df path : preserves out_grows (to_csv df path).
Proof. intros k. unfold out_grows. done. Qed.

(** Applies a lemma of [Preserves], discharging its [PreOrder] premise. *)
Ltac papply H := apply H; try exact _.

(** A cell made of the steps above makes an [R]-step. *)
Ltac preserves_tac :=
  repeat (cbv beta; first
    [ progress intros
    | papply preserves_bind | papply preserves_try_import | papply preserves_try | papply preserves_for
    | progress unfold say
    | apply preserves_print; first [assumption|exact out_grows_out|exact keeps_data_out]
    | apply grows_import | apply keeps_import
    | papply preserves_lift | papply preserves_read
    | papply preserves_get_company | papply preserves_get_financial | papply preserves_get_companies
    | apply grows_set_company | apply grows_set_financial | apply grows_set_companies | apply grows_to_csv ]).

Lemma print_then {B} args (f : nb B) k :
  (print args;; f) k = f (with_out k (join_with [OText (str_of " ")] args ++ [OText newline])).
Proof. reflexivity. Qed.

Lemma bind_raise {A B} (m : nb A) (f : A -> nb B) k k' e : m k = (k', Raise e) -> (m ≫= f) k = (k', Raise e).
Proof. intros E. unfold mbind, nb_bind. by rewrite E. Qed.

Lemma grows_elem {A} (m : nb A) k x : preserves out_grows m -> x ∈ k_stdout k -> x ∈ k_stdout (m k).1.
Proof. intros Hm Hx. destruct (Hm k) as [o ->]. apply elem_of_app. by left. Qed.

(** [m] always ends normally. *)
Definition step_ok (m : nb unit) : Prop := ∀ k, ∃ k', m k = (k', Ok tt).

Lemma step_ok_quiet m : quiet m tt -> step_ok m.
Proof. intros Hm k. destruct (Hm k) as [o E]. by eexists. Qed.

Lemma step_ok_try body handler : (∀ e, step_ok (handler e)) -> step_ok (nb_try body handler).
Proof. intros Hh k. unfold nb_try. destruct (body k) as [k' [x|e]]; [by eexists|apply Hh]. Qed.

Lemma step_ok_seq m m' : step_ok m -> step_ok m' -> step_ok (m;; m').
Proof. intros Hm Hm' k. destruct (Hm k) as [k' E]. rewrite (bind_runs _ _ _ _ _ E). apply Hm'. Qed.

(** A step that ends normally, only prints, and is followed by [f]. *)
Lemma seq_same {B} (m : nb unit) (f : nb B) k :
  step_ok m -> preserves keeps_data m -> preserves out_grows m ->
  ∃ k', (m;; f) k = f k' ∧ keeps_data k k' ∧ out_grows k k'.
Proof.
  intros Hm Hs Hg. destruct (Hm k) as [k' E]. specialize (Hs k). specialize (Hg k).
  rewrite E in Hs, Hg. exists k'. by rewrite (bind_runs _ _ _ _ _ E).
Qed.

Lemma out_grows_elem k k' x : out_grows k k' -> x ∈ k_stdout k -> x ∈ k_stdout k'.
Proof. intros [o ->] Hx. apply elem_of_app. by left. Qed.

(** A [try ... except ImportError] whose handler only prints leaves
    [pd] bound when its body did. *)
Lemma try_import_pd body handler k : k_pd (body k).1 = true ->
  (∀ e, preserves keeps_data (handler e)) -> k_pd (nb_try_import body handler k).1 = true.
Proof.
  intros Hb Hh. unfold nb_try_import. destruct (body k) as [k' [x|e]]; cbn in *; [done|].
  destruct e; try done. by apply (Hh ImportError k').
Qed.

Section SystemTestRuns.
Context `{SimilaritySearch}.
Variables (pandas_import chromadb_import requests_import : exc unit) (store_init : exc vstore)
  (news_import config_import : exc unit).

(** The imports succeed or raise [ImportError]. *)
Hypothesis pandas_import_error : ∀ e, pandas_import = Raise e -> e = ImportError.
Hypothesis chromadb_import_error : ∀ e, chromadb_import = Raise e -> e = ImportError.
Hypothesis requests_import_error : ∀ e, requests_import = Raise e -> e = ImportError.

Lemma step_imports_ok : step_ok (step_imports pandas_import chromadb_import requests_import).
Proof.
  unfold step_imports, say. apply step_ok_seq; [apply step_ok_quiet, quiet_print|]. intros k.
  unfold nb_try_import.
  lazymatch goal with |- ∃ _, match ?b k with _ => _ end = _ => destruct (b k) as [k' [[]|e]] eqn:Eb end;
    [by eexists|].
  assert (e = ImportError) as ->.
  { unfold mbind, nb_bind, import_pandas, nb_lift in Eb.
    destruct pandas_import as [[]|e1]; [|simplify_eq; by apply pandas_import_error].
    destruct chromadb_import as [[]|e2]; [|simplify_eq; by apply chromadb_import_error].
    destruct requests_import as [[]|e3]; [simplify_eq|simplify_eq; by apply requests_import_error]. }
  eexists. reflexivity.
Qed.

Lemma step_imports_preserve :
  preserves out_grows (step_imports pandas_import chromadb_import requests_import) ∧
  preserves keeps_data (step_imports pandas_import chromadb_import requests_import).
Proof. unfold step_imports. split; preserves_tac. Qed.

(** After the imports [pd] is bound when it was, or when pandas
    imports. *)
Lemma step_imports_pd k : pandas_import = Ok tt ∨ k_pd k = true ->
  k_pd (step_imports pandas_import chromadb_import requests_import k).1 = true.
Proof.
  intros [Hp|Hk]; [|by apply (proj2 step_imports_preserve k)].
  unfold step_imports, say. rewrite print_then. apply try_import_pd; [|intros e; preserves_tac].
  rewrite Hp. set (k1 := with_out k _).
  assert (E : import_pandas (Ok tt) k1 = (mk_kernel (k_company_df k1) (k_financial_df k1) (k_companies_df k1)
                                          true (k_files k1) (k_stdout k1), Ok tt)) by reflexivity.
  rewrite (bind_runs _ _ _ _ _ E). cbv beta.
  match goal with |- k_pd (?m ?kp).1 = true =>
    assert (Hr : preserves keeps_data m) by preserves_tac; by apply (Hr kp) end.
Qed.

Lemma steps_ok : step_ok (step_data) ∧ step_ok (step_store store_init) ∧ step_ok (step_news news_import) ∧
  step_ok (step_config config_import).
Proof.
  unfold step_data, step_store, step_news, step_config, say.
  repeat split; (apply step_ok_seq; [apply step_ok_quiet, quiet_print|]);
    apply step_ok_try; intros e; apply step_ok_quiet, quiet_print.
Qed.

(** The steps after the first two only print, whatever they meet. *)
Lemma steps_print_only R `{!PreOrder R} : (∀ k o, R k (with_out k o)) ->
  preserves R (step_store store_init) ∧ preserves R (step_news news_import) ∧
  preserves R (step_config config_import) ∧ preserves R summary.
Proof. intros Hout. unfold step_store, step_news, step_config, summary. repeat split; preserves_tac. Qed.

Lemma step_data_missing k : k_pd k = true -> k_files k (str_of "cleaned_companies.csv") = None ->
  ∃ k', step_data k = (k', Ok tt) ∧ keeps_data k k' ∧ out_grows k k' ∧ OError FileNotFoundError ∈ k_stdout k'.
Proof.
  intros Hpd Hf. unfold step_data, say. rewrite print_then. unfold nb_try.
  set (k1 := with_out k _).
  assert (Er : nb_read_csv "cleaned_companies.csv" k1 = (k1, Raise FileNotFoundError))
    by (unfold nb_read_csv; change (k_pd k1) with (k_pd k); change (k_files k1) with (k_files k);
        by rewrite Hpd, Hf).
  rewrite (bind_raise _ _ _ _ _ Er). eexists. split; [reflexivity|]. split; [by split_and!|].
  split; [etrans; [apply (out_grows_out k)|apply (out_grows_out k1)]|].
  cbn [k_stdout join_with]. set_solver.
Qed.

Lemma summary_ready k : OText ready_line ∈ k_stdout (summary k).1.
Proof.
  unfold summary, say. rewrite 2!print_then. eapply grows_elem; [preserves_tac|].
  cbn [with_out k_stdout join_with]. change (mjoin [ready_line]) with (ready_line ++ []).
  rewrite app_nil_r. set_solver.
Qed.

Lemma summary_name_error k : k_companies_df k = None -> (summary k).2 = Raise NameError.
Proof. destruct k as [c f cs pd fl o]. cbn. intros ->. reflexivity. Qed.

(** Runs the first step of the goal, which ends normally and only
    prints. *)
Ltac run_same Hok Hvars Hgrows k' V G :=
  lazymatch goal with
  | |- context [mbind (fun _ => ?f) ?m ?k] =>
      let E := fresh "E" in
      destruct (seq_same m f k Hok Hvars Hgrows) as (k' & E & V & G); rewrite E
  end.

(** Runs the first step of the goal, [H] saying it ends normally. *)
Ltac run_ok H :=
  lazymatch goal with
  | |- context [mbind ?f ?m ?k] =>
      let k' := fresh "k" in let E := fresh "E" in
      destruct (H k) as [k' E]; rewrite (bind_runs m f k k' tt E)
  end.

(** C35. The system test reports the system ready whatever its steps
    find: when each of the three imports of step 1 succeeds or fails
    with [ImportError], the output holds the line [SYSTEM READY FOR
    TESTING!], for every answer of the vector store, the news fetcher,
    the configuration and the data files. *)
Theorem system_test_ready k :
  OText ready_line ∈ k_stdout (script_11_cell pandas_import chromadb_import requests_import store_init
                                 news_import config_import k).1.
Proof.
  destruct steps_ok as (Hd & Hs & Hn & Hc). pose proof step_imports_ok as Hi.
  unfold script_11_cell, say. rewrite 2!print_then.
  run_ok Hi. run_ok Hd. run_ok Hs. run_ok Hn. run_ok Hc. apply summary_ready.
Qed.

(** C36. In a kernel where no cell assigned [companies_df], with no
    [cleaned_companies.csv] on disk and [pd] bound (by an earlier cell or
    by the test's own [import pandas as pd]), the system test prints the
    data loading error [FileNotFoundError] and then fails with
    [NameError] at its last lines, which read [companies_df] outside any
    [try]. *)
Theorem system_test_name_error k :
  k_companies_df k = None -> k_files k (str_of "cleaned_companies.csv") = None ->
  pandas_import = Ok tt ∨ k_pd k = true ->
  (script_11_cell pandas_import chromadb_import requests_import store_init news_import config_import k).2
    = Raise NameError ∧
  OError FileNotFoundError ∈ k_stdout (script_11_cell pandas_import chromadb_import requests_import store_init
                                         news_import config_import k).1.
Proof.
  intros Hnone Hfile Hpd. destruct steps_ok as (_ & Hs & Hn & Hc).
  destruct (steps_print_only keeps_data keeps_data_out) as (Vs & Vn & Vc & _).
  destruct (steps_print_only out_grows out_grows_out) as (Gs & Gn & Gc & Gsum).
  unfold script_11_cell, say. rewrite 2!print_then. set (k2 := with_out (with_out k _) _).
  destruct (step_imports_ok k2) as [k3 E3].
  pose proof (step_imports_pd k2 Hpd) as P3. pose proof (proj2 step_imports_preserve k2) as V3.
  rewrite E3 in P3, V3. cbn [fst] in P3, V3. rewrite (bind_runs _ _ _ _ _ E3).
  destruct V3 as (C3 & F3 & _).
  destruct (step_data_missing k3 P3) as (k4 & E4 & (C4 & _) & _ & Hfnf); [rewrite F3; apply Hfile|].
  rewrite (bind_runs _ _ _ _ _ E4).
  run_same Hs Vs Gs k5 V5 G5. run_same Hn Vn Gn k6 V6 G6. run_same Hc Vc Gc k7 V7 G7. split.
  - apply summary_name_error. rewrite (proj1 V7), (proj1 V6), (proj1 V5), C4, C3. apply Hnone.
  - apply grows_elem; [apply Gsum|]. by do 3 (eapply out_grows_elem; [eassumption|]).
Qed.

End SystemTestRuns.


Lemma system_test_ready_witness :
  OText ready_line ∈ k_stdout (@script_11_cell demo_knn (Ok tt) (Raise ImportError) (Ok tt)
                                 (Raise RuntimeError) (Raise RuntimeError) (Raise RuntimeError)
                                 (fresh_kernel source_files)).1.
Proof. apply system_test_ready; [discriminate|intros e He; by injection He|discriminate]. Defined.

Lemma system_test_name_error_witness :
  (@script_11_cell demo_knn (Ok tt) (Ok tt) (Raise ImportError) (Raise RuntimeError) (Ok tt) (Ok tt)
     (fresh_kernel (fun _ => None))).2 = Raise NameError ∧
  OError FileNotFoundError ∈ k_stdout (@script_11_cell demo_knn (Ok tt) (Ok tt) (Raise ImportError)
     (Raise RuntimeError) (Ok tt) (Ok tt) (fresh_kernel (fun _ => None))).1.
Proof.
  apply system_test_name_error; [discriminate|discriminate|intros e He; by injection He
                                |reflexivity|reflexivity|by left].
Defined.

(** [script_1.py] is not a script of its own: in a kernel where no
    cell assigned [company_df] (a fresh one, or one where [script.py] has
    not run), its first line raises [NameError]; nothing is printed and
    no file is written. *)
Theorem script_1_needs_script k : k_company_df k = None -> script_1_cell k = (k, Raise NameError).
Proof. destruct k as [c f cs pd fl o]. cbn. intros ->. reflexivity. Qed.

Lemma script_1_needs_script_witness :
  script_1_cell (fresh_kernel source_files) = (fresh_kernel source_files, Raise NameError).
Proof. apply script_1_needs_script. reflexivity. Defined.
