(* ===== verification/Pipeline.v ===== *)
(** * The query pipeline ([MSMERAGPipeline], [src/script_7.py])

    [process_query] (lines 47-59) runs, in this order: the classifier
    [_analyze_query] ([Intent]), the semantic retrieval
    [_retrieve_context] (lines 100-125) on the vector store ([Store]),
    the news lookup [_get_relevant_news] (lines 132-149) through the
    aggregator ([News]) when the query calls for it, the context
    assembly [_build_context] (lines 151-175), the generation call
    [_generate_response] (lines 177-211) with the history excerpt
    ([History]), and last the history update.  The pipeline's state is
    the vector store and the conversation history ([pipeline]).

    The language model and the clock are inputs: [LLM] gives the model's
    answer to a list of messages, or the text of the exception it
    raised; [process_query] takes the [str(pd.Timestamp.now())] of the
    moment it appends the turn.

    The theorems: the retrieval deduplicates by id with first-seen
    precedence and keeps at most 15 documents; a news source that fails
    for one sector only removes that sector's articles; the context has
    no size budget; a query either raises before touching the state or
    appends exactly one turn; over a whole session, the history the
    pipeline keeps is the one of [History]'s model, and the store's ids
    stay unique. *)

From S2P Require Import Prelude PyStr PyObj Config Intent History News Store Companies.

(** ** Interfaces *)

Inductive message : Type :=
  | SystemMessage (content : pystr)
  | HumanMessage (content : pystr).

(** What [self.llm(messages)] gave: a response's [content], or the
    [str(e)] of the exception it raised. *)
Inductive llm_result : Type :=
  | LlmOk (content : pystr)
  | LlmError (error_text : pystr).

Class LLM : Type := { llm_invoke : list message -> llm_result }.

(** [self.vector_store] and [self.conversation_history]; the LLM client
    and the aggregator hold no state. *)
Record pipeline : Type := mk_pipeline {
  vector_store : vstore;
  conversation_history : list turn
}.

(** ** Construction *)

(** Lines 14-28: [__init__] refuses a missing or empty
    [OPENAI_API_KEY]; the persistent collection is opened as it is. *)
Definition new_pipeline (env : pystr -> option pystr) (collection : vstore) : exc pipeline :=
  if py_truthy (getenv env (str_of "OPENAI_API_KEY"))
  then mret (mk_pipeline collection [])
  else Raise ValueError.

(** ** Retrieval *)

Definition financial_suffix : pystr := str_of " financial performance metrics".

(** Lines 101-116: the base search, one search per sector, and the
    financial search, in this order. *)
Definition _collect_context_docs `{SimilaritySearch} (vs : vstore) (query : pystr) (a : analysis)
    : exc (list sresult) :=
  base_results ← search_similar vs query 8 [];
  sector_results ← exc_map (fun sector => search_by_sector vs query sector 5) (an_sectors a);
  financial_results ←
    (if an_needs_financial a || bool_decide (an_query_type a = FinancialAnalysis)
     then search_similar vs (query ++ financial_suffix) 5
            [(str_of "type", MStr (str_of "company"))]
     else mret []);
  mret (base_results ++ concat sector_results ++ financial_results).

(** Lines 100-125: first occurrence of each id, then [[:15]]. *)
Definition _retrieve_context `{SimilaritySearch} (vs : vstore) (query : pystr) (a : analysis)
    : exc (list sresult) :=
  context_docs ← _collect_context_docs vs query a;
  mret (py_slice_to 15 (uniq_by sr_id ∅ context_docs)).

(** Lines 132-149: one [try] per sector, and [fetch_all_news(limit=8)]
    only when no sector was recognised. *)
Definition _get_relevant_news `{NewsAdapters} `{ListSortRuntime} (a : analysis) : list article :=
  let sector_news :=
    concat ((fun sector => py_try (fetch_sector_news sector 5) (fun _ => [])) <$> an_sectors a) in
  let general_news :=
    if bool_decide (an_sectors a = []) then py_try (fetch_all_news 8) (fun _ => []) else [] in
  py_slice_to 10 (sector_news ++ general_news).

(** ** Context assembly *)

(** ["• "] *)
Definition bullet : pystr := [8226%N; 32%N].

(** [metadata.get(k, d)] *)
Definition mget (md : metadata) (k d : string) : mval :=
  default (MStr (str_of d)) (assoc_get (str_of k) md).

(** [f"{v}"] of a metadata value. *)
Definition mval_str (v : mval) : pystr :=
  match v with
  | MStr s => s
  | MInt z => z_str z
  | MFloat f => float_repr f
  | MBool b => if b then str_of "True" else str_of "False"
  end.

(** Lines 157-164: the lines of one retrieved document. *)
Definition render_doc (doc : sresult) : list pystr :=
  let md := sr_metadata doc in
  if bool_decide (mget md "type" "unknown" = MStr (str_of "company")) then
    [bullet ++ mval_str (mget md "company_name" "Unknown Company") ++ str_of " ("
       ++ mval_str (mget md "sector" "Unknown Sector") ++ str_of "):";
     str_of "  " ++ py_slice_to 500 (sr_document doc) ++ str_of "..."]
  else [bullet ++ py_slice_to 300 (sr_document doc) ++ str_of "..."].

(** Lines 169-173: the lines of one article; [article['description'][:200]]
    raises on a truthy description that cannot be sliced. *)
Definition render_article (a : article) : exc (list pystr) :=
  desc ← (if py_truthy (a_description a)
          then d ← py_slice_val 200 (a_description a); mret [str_of "  " ++ py_str d ++ str_of "..."]
          else mret []);
  let sentiment :=
    match a_sentiment a with
    | Some (lab, _) => if py_truthy lab then [str_of "  Sentiment: " ++ py_str lab] else []
    | None => []
    end in
  mret ([bullet ++ str_of "[" ++ a_source a ++ str_of "] " ++ py_str (a_title a)] ++ desc
        ++ sentiment).

Definition company_heading : pystr := str_of "=== COMPANY AND FINANCIAL DATA ===".
Definition news_heading : pystr := newline ++ str_of "=== RECENT NEWS AND MARKET UPDATES ===".

(** Lines 151-175. *)
Definition _build_context (context_docs : list sresult) (news_context : list article) : exc pystr :=
  let doc_parts :=
    if bool_decide (context_docs = []) then []
    else company_heading :: (py_slice_to 10 context_docs ≫= render_doc) in
  news_parts ←
    (if bool_decide (news_context = []) then mret []
     else ps ← exc_map render_article (py_slice_to 8 news_context);
          mret (news_heading :: concat ps));
  mret (py_join newline (doc_parts ++ news_parts)).

(** ** Generation *)

(** Lines 180-194. *)
Definition user_prompt (query context : pystr) : pystr :=
  py_join newline
    [str_of "Based on the following context about MSME companies, financial data, and market news, please answer the user's question comprehensively.";
     []; str_of "CONTEXT:"; context; [];
     str_of "USER QUESTION: " ++ query; [];
     str_of "Please provide a detailed, accurate response that:";
     str_of "1. Directly answers the user's question";
     str_of "2. Uses specific data and examples from the context";
     str_of "3. Provides actionable insights where relevant";
     str_of "4. Mentions sources when citing specific information";
     str_of "5. Highlights any important trends or patterns";
     []; str_of "Response:"].

(** Lines 196-205: the messages, with the history excerpt inserted at
    index 1 when there is a history. *)
Definition response_messages (history : list turn) (query context : pystr) (a : analysis)
    : list message :=
  let system := SystemMessage (_build_system_prompt a) in
  let user := HumanMessage (user_prompt query context) in
  if bool_decide (history = []) then [system; user]
  else [system; HumanMessage (str_of "Previous conversation context:" ++ newline
                              ++ history_text history); user].

Definition apology (error_text : pystr) : pystr :=
  str_of "I apologize, but I encountered an error while processing your request: "
  ++ error_text ++ str_of ". Please try rephrasing your question.".

(** Lines 177-211. *)
Definition _generate_response `{LLM} (history : list turn) (query context : pystr) (a : analysis)
    : pystr :=
  match llm_invoke (response_messages history query context a) with
  | LlmOk content => content
  | LlmError e => apology e
  end.

(** ** The entry points *)

Section Entry.
Context `{SimilaritySearch} `{NewsAdapters} `{ListSortRuntime} `{LLM}.

(** Lines 47-59; [ts] is [str(pd.Timestamp.now())] at line 235. *)
Definition process_query (ts : pystr) (p : pipeline) (user_query : pystr) (include_news : bool)
    : exc (pystr * pipeline) :=
  let query_analysis := _analyze_query user_query in
  context_docs ← _retrieve_context (vector_store p) user_query query_analysis;
  let news_context :=
    if include_news && _should_include_news query_analysis
    then _get_relevant_news query_analysis else [] in
  full_context ← _build_context context_docs news_context;
  let response :=
    _generate_response (conversation_history p) user_query full_context query_analysis in
  mret (response,
        mk_pipeline (vector_store p)
          (_update_conversation_history (conversation_history p) user_query response ts)).

(** Lines 241-243. *)
Definition sector_summary_query (sector : pystr) : pystr :=
  str_of "Provide a comprehensive overview of " ++ sector
  ++ str_of " sector companies, their performance, and market trends".

Definition get_sector_summary (ts : pystr) (p : pipeline) (sector : pystr) : exc (pystr * pipeline) :=
  process_query ts p (sector_summary_query sector) true.

(** Lines 245-247. *)
Definition company_analysis_query (company_name : pystr) : pystr :=
  str_of "Provide detailed analysis of " ++ company_name
  ++ str_of " including financial performance, market position, and recent developments".

Definition get_company_analysis (ts : pystr) (p : pipeline) (company_name : pystr)
    : exc (pystr * pipeline) :=
  process_query ts p (company_analysis_query company_name) true.

(** Lines 249-250. *)
Definition pipeline_clear_history (p : pipeline) : pipeline :=
  mk_pipeline (vector_store p) (clear_history (conversation_history p)).

(** Lines 34-43, the news part of [initialize_knowledge_base]: any
    exception of the fetch or of the insertion is caught and leaves the
    store as it was. *)
Definition initialize_news (uuid_hex : nat -> pystr) (p : pipeline) : pipeline :=
  let loaded :=
    recent_news ← fetch_all_news 30;
    if bool_decide (recent_news = []) then mret (vector_store p)
    else add_news_articles uuid_hex recent_news (vector_store p) in
  match loaded with
  | Ok vs => mk_pipeline vs (conversation_history p)
  | Raise _ => p
  end.

(** Lines 30-45: the companies are loaded outside the [try], so a
    failing load raises out of the method; the news are loaded inside. *)
Definition initialize_knowledge_base (companies_df financial_df : frame) (uuid_hex : nat -> pystr)
    (p : pipeline) : exc pipeline :=
  vs ← load_company_data companies_df financial_df (vector_store p);
  mret (initialize_news uuid_hex (mk_pipeline vs (conversation_history p))).

(** A session of the application: answered queries (sector summaries
    and company analyses are queries too), history clears and news
    loads, in order, with the history operations they perform.  A query
    that raises changes nothing and is left out. *)
Inductive session : pipeline -> list hist_op -> pipeline -> Prop :=
  | session_start p : session p [] p
  | session_query p ops p1 ts q inc r p2 :
      session p ops p1 -> process_query ts p1 q inc = Ok (r, p2) ->
      session p (ops ++ [OpAppend q r ts]) p2
  | session_clear p ops p1 :
      session p ops p1 -> session p (ops ++ [OpClear]) (pipeline_clear_history p1)
  | session_news p ops p1 u :
      session p ops p1 -> session p ops (initialize_news u p1).

(** The invariant of a pipeline: unique record ids, at most ten turns. *)
Definition pipeline_wf (p : pipeline) : Prop :=
  store_wf (vector_store p) ∧ length (conversation_history p) ≤ 10.

End Entry.

(** ** Specification helpers *)

(** The analysis with another list of sectors. *)
Definition with_sectors (a : analysis) (sectors : list pystr) : analysis :=
  mk_analysis (an_query_type a) sectors (an_companies a) (an_metrics a) (an_time_focus a)
    (an_needs_news a) (an_needs_financial a) (an_needs_comparison a).

(** A value [v[:200]] accepts. *)
Definition sliceable (v : pyval) : bool :=
  match v with VStr _ | VList _ => true | _ => false end.

(** A company hit whose [company_name] metadata has [n] characters. *)
Definition long_name_doc (n : nat) : sresult :=
  mk_sresult (str_of "Company: X") [(str_of "type", MStr (str_of "company"));
                                    (str_of "company_name", MStr (replicate n 65%N))]
    None (str_of "company_MSME001").

(** ** Lemmas *)

Lemma py_slice_to_take {A} (n : nat) (l : list A) : py_slice_to (Z.of_nat n) l = take n l.
Proof. unfold py_slice_to. rewrite (proj2 (Z.leb_le _ _)) by lia. by rewrite Nat2Z.id. Qed.

Lemma exc_map_concat_elem {A B} (f : A -> exc (list B)) l ys y :
  exc_map f l = Ok ys -> y ∈ concat ys -> ∃ x r, x ∈ l ∧ f x = Ok r ∧ y ∈ r.
Proof.
  revert ys; induction l as [|x l IH]; intros ys Hm Hy; simpl in Hm.
  { injection Hm as <-. by apply elem_of_nil in Hy. }
  destruct (f x) as [r|] eqn:Hx; cbn [mbind exc_bind] in Hm; [|done].
  destruct (exc_map f l) as [rs|]; cbn [mbind exc_bind mret exc_ret] in Hm; [|done].
  injection Hm as <-. simpl in Hy. apply elem_of_app in Hy as [Hy|Hy].
  - exists x, r. split_and!; [left|done|done].
  - destruct (IH rs eq_refl Hy) as (x' & r' & ? & ? & ?). exists x', r'. split_and!; [by right|done|done].
Qed.

Section Lemmas.
Context `{SimilaritySearch}.

Lemma collect_context_docs_hit vs q a all d :
  _collect_context_docs vs q a = Ok all -> d ∈ all ->
  ∃ e, e ∈ vs_entries vs ∧ sr_id d = e_id e ∧ sr_document d = e_document e
       ∧ sr_metadata d = e_metadata e.
Proof.
  unfold _collect_context_docs.
  destruct (search_similar vs q 8 []) as [base|] eqn:Hb; cbn [mbind exc_bind]; [|done].
  destruct (exc_map (fun sector => search_by_sector vs q sector 5) (an_sectors a))
    as [secs|] eqn:Hs; cbn [mbind exc_bind]; [|done].
  destruct (if an_needs_financial a || bool_decide (an_query_type a = FinancialAnalysis)
            then search_similar vs (q ++ financial_suffix) 5
                   [(str_of "type", MStr (str_of "company"))]
            else mret []) as [fin|] eqn:Hf; cbn [mbind exc_bind mret exc_ret]; [|done].
  intros [= <-] Hd. apply elem_of_app in Hd as [Hd|[Hd|Hd]%elem_of_app].
  - destruct (search_similar_hit _ _ _ _ _ _ Hb Hd) as (e & ? & _ & ?). eauto.
  - destruct (exc_map_concat_elem _ _ _ _ Hs Hd) as (s & r & _ & Hr & Hdr).
    destruct (search_similar_hit _ _ _ _ _ _ Hr Hdr) as (e & ? & _ & ?). eauto.
  - destruct (an_needs_financial a || _); [|cbn in Hf; injection Hf as <-; by apply elem_of_nil in Hd].
    destruct (search_similar_hit _ _ _ _ _ _ Hf Hd) as (e & ? & _ & ?). eauto.
Qed.

(** The searches of [_collect_context_docs] ask for 8 and 5 results, so
    none of them raises. *)
Lemma collect_context_docs_ok vs q a : ∃ all, _collect_context_docs vs q a = Ok all.
Proof.
  unfold _collect_context_docs. rewrite (search_similar_ok vs q 8 []) by lia. cbn [mbind exc_bind].
  destruct (proj2 (exc_map_ok_iff (fun sector => search_by_sector vs q sector 5) (an_sectors a)))
    as [secs ->].
  { apply Forall_forall. intros s _. unfold search_by_sector. rewrite search_similar_ok by lia. eauto. }
  cbn [mbind exc_bind]. destruct (an_needs_financial a || bool_decide _).
  - rewrite search_similar_ok by lia. cbn [mbind exc_bind mret exc_ret]. eauto.
  - cbn [mbind exc_bind mret exc_ret]. eauto.
Qed.

(** C13. The retrieval keeps at most 15 documents, no two with the same
    id; each is the first document with its id in the concatenation of
    the base, sector and financial searches, and each is a record of the
    vector store. *)
Theorem retrieve_context_first_seen vs q a docs :
  _retrieve_context vs q a = Ok docs ->
  ∃ all, _collect_context_docs vs q a = Ok all
    ∧ NoDup (sr_id <$> docs) ∧ length docs ≤ 15
    ∧ ∀ d, d ∈ docs ->
        (∃ l1 l2, all = l1 ++ d :: l2 ∧ ∀ z, z ∈ l1 -> sr_id z ≠ sr_id d)
        ∧ ∃ e, e ∈ vs_entries vs ∧ sr_id d = e_id e ∧ sr_document d = e_document e
               ∧ sr_metadata d = e_metadata e.
Proof.
  unfold _retrieve_context. destruct (collect_context_docs_ok vs q a) as [all Hall].
  rewrite Hall. cbn [mbind exc_bind mret exc_ret]. intros [= <-].
  change 15%Z with (Z.of_nat 15). rewrite py_slice_to_take.
  exists all. split_and!; [done| | |].
  - eapply sublist_NoDup; [apply (uniq_by_NoDup sr_id ∅ all)|apply fmap_sublist, sublist_take].
  - rewrite length_take. lia.
  - intros d Hd. assert (Hu : d ∈ uniq_by sr_id ∅ all)
      by (eapply elem_of_sublist; [exact Hd|apply sublist_take]).
    split; [by apply (uniq_by_first sr_id ∅)|].
    eapply collect_context_docs_hit; [exact Hall|].
    eapply elem_of_sublist; [exact Hu|apply uniq_by_sublist].
Qed.
End Lemmas.

(** Partial failure: when the aggregator raises for one sector, the
    news of the query are those of the other sectors, as if that sector
    had not been recognised (as long as another one was, which keeps
    the general feed out). *)
Theorem relevant_news_isolation `{NewsAdapters} `{ListSortRuntime} a pre s post e :
  fetch_sector_news s 5 = Raise e -> pre ++ post ≠ [] ->
  _get_relevant_news (with_sectors a (pre ++ s :: post))
  = _get_relevant_news (with_sectors a (pre ++ post)).
Proof.
  intros Hs Hne. unfold _get_relevant_news. cbn [an_sectors with_sectors].
  rewrite !bool_decide_false by (by destruct pre).
  rewrite !fmap_app, fmap_cons, !concat_app. cbn [concat]. rewrite Hs. done.
Qed.

Lemma render_article_ok a :
  (∃ ls, render_article a = Ok ls)
  <-> (py_truthy (a_description a) = true -> sliceable (a_description a) = true).
Proof.
  unfold render_article. destruct (py_truthy (a_description a)); [|naive_solver].
  destruct (a_description a); cbn [py_slice_val sliceable mbind exc_bind mret exc_ret];
    naive_solver.
Qed.

(** [_build_context] raises exactly when one of the first eight
    articles has a truthy description that cannot be sliced (a number,
    [true] or an object sent by the provider): [article['description'][:200]]
    is evaluated outside any [try]. *)
Theorem build_context_ok_iff docs news :
  (∃ c, _build_context docs news = Ok c)
  <-> Forall (fun a => py_truthy (a_description a) = true -> sliceable (a_description a) = true)
             (py_slice_to 8 news).
Proof.
  unfold _build_context. destruct (decide (news = [])) as [->|Hn].
  { rewrite (bool_decide_true (@nil article = [])) by done. cbn [mbind exc_bind mret exc_ret].
    split; [intros _; by rewrite py_slice_to_nil|eauto]. }
  rewrite (bool_decide_false (news = [])) by done. rewrite bind_ok_ex.
  assert (HF : Forall (fun a => py_truthy (a_description a) = true
                                -> sliceable (a_description a) = true) (py_slice_to 8 news)
      <-> Forall (fun a => ∃ ls, render_article a = Ok ls) (py_slice_to 8 news))
    by (apply Forall_iff; intros; symmetry; apply render_article_ok).
  rewrite HF, <-exc_map_ok_iff.
  split; [intros (? & Hp & _); destruct (exc_map _ _); [eauto|done]|].
  intros [ps Hps]. rewrite Hps. cbn [mbind exc_bind mret exc_ret]. eauto.
Qed.

(** C15. The context has no size budget: company names, sectors, sources
    and titles are copied whole, so for every bound some retrieval gives
    a longer context; and a query with no document and no article gets
    an empty context, not a "no supporting data" marker. *)
Theorem build_context_no_budget :
  _build_context [] [] = Ok []
  ∧ ∀ B : nat, ∃ c, _build_context [long_name_doc B] [] = Ok c ∧ B < length c.
Proof.
  split; [reflexivity|]. intros B. eexists. split; [reflexivity|].
  simpl. rewrite !length_app, length_replicate. simpl. lia.
Qed.

Lemma exc_map_raise_inv {A B} (f : A -> exc B) l e :
  exc_map f l = Raise e -> ∃ x, x ∈ l ∧ f x = Raise e.
Proof.
  induction l as [|x l IH]; simpl; [done|].
  destruct (f x) eqn:Hx; cbn [mbind exc_bind]; [|intros [= <-]; exists x; split; [left|done]].
  destruct (exc_map f l); cbn [mbind exc_bind mret exc_ret]; [done|].
  intros [= <-]. destruct IH as (y & ? & ?); [done|]. exists y. split; [by right|done].
Qed.

Lemma render_article_raise a e : render_article a = Raise e -> e = TypeError.
Proof.
  unfold render_article. destruct (py_truthy (a_description a)); cbn [mbind exc_bind mret exc_ret];
    [|done].
  destruct (a_description a); cbn [py_slice_val mbind exc_bind mret exc_ret]; intros H; try done; injection H; done.
Qed.

Section Outcome.
Context `{SimilaritySearch} `{NewsAdapters} `{ListSortRuntime} `{LLM}.

Lemma retrieve_context_ok vs q a : ∃ docs, _retrieve_context vs q a = Ok docs.
Proof.
  unfold _retrieve_context. destruct (collect_context_docs_ok vs q a) as [all ->]. eauto.
Qed.

Lemma process_query_ok_inv ts p q inc r p' :
  process_query ts p q inc = Ok (r, p') ->
  vector_store p' = vector_store p
  ∧ conversation_history p' = _update_conversation_history (conversation_history p) q r ts.
Proof.
  unfold process_query. destruct (retrieve_context_ok (vector_store p) q (_analyze_query q))
    as [docs ->]. cbn [mbind exc_bind].
  destruct (_build_context docs _); cbn [mbind exc_bind mret exc_ret]; [|done].
  intros [= <- <-]. done.
Qed.

Lemma build_context_raise_inv docs news e :
  _build_context docs news = Raise e ->
  e = TypeError ∧ ∃ a, a ∈ py_slice_to 8 news ∧ py_truthy (a_description a) = true
                       ∧ sliceable (a_description a) = false.
Proof.
  unfold _build_context. destruct (decide (news = [])) as [->|Hn].
  { rewrite (bool_decide_true (@nil article = [])) by done. done. }
  rewrite (bool_decide_false (news = [])) by done.
  destruct (exc_map render_article _) as [ps|e'] eqn:Hps; cbn [mbind exc_bind mret exc_ret];
    [done|].
  intros [= <-]. apply exc_map_raise_inv in Hps as (a & Ha & Hr).
  split; [by eapply render_article_raise|]. exists a. split; [done|].
  destruct (py_truthy (a_description a)) eqn:Ht.
  - split; [done|]. destruct (sliceable (a_description a)) eqn:Hs; [|done].
    destruct (proj2 (render_article_ok a)) as [ls Hls]; [by rewrite Hs|congruence].
  - destruct (proj2 (render_article_ok a)) as [ls Hls]; [by rewrite Ht|congruence].
Qed.

Lemma get_relevant_news_strs `{NewsAdapters} `{ListSortRuntime} a :
  an_sectors a ≠ [] -> Forall (fun art => is_str (a_description art) = true) (_get_relevant_news a).
Proof.
  intros Hs. unfold _get_relevant_news. rewrite bool_decide_false by done. rewrite app_nil_r.
  rewrite Forall_forall. intros art Hart.
  eapply elem_of_sublist in Hart; [|apply py_slice_to_sublist]. revert art Hart.
  apply Forall_forall, Forall_concat_fmap. intros s _.
  destruct (fetch_sector_news s 5) as [out|] eqn:Hf; cbn [py_try]; [|constructor].
  apply fetch_sector_news_strs in Hf. eapply Forall_impl; [exact Hf|].
  intros x Hx. by apply andb_true_iff in Hx as [[_ ?]%andb_true_iff _].
Qed.

Lemma process_query_raise_inv ts p q inc e :
  process_query ts p q inc = Raise e ->
  e = TypeError ∧ inc && _should_include_news (_analyze_query q) = true
  ∧ an_sectors (_analyze_query q) = [].
Proof.
  unfold process_query.
  destruct (retrieve_context_ok (vector_store p) q (_analyze_query q)) as [docs ->].
  cbn [mbind exc_bind].
  destruct (_build_context docs _) as [c|e'] eqn:Hc; cbn [mbind exc_bind mret exc_ret]; [done|].
  intros [= <-]. apply build_context_raise_inv in Hc as [-> (a & Ha & Ht & Hsl)].
  destruct (inc && _); [|by rewrite py_slice_to_nil in Ha; apply elem_of_nil in Ha].
  split_and!; [done|done|]. destruct (decide (an_sectors (_analyze_query q) = [])) as [|Hs]; [done|].
  pose proof (get_relevant_news_strs (_analyze_query q) Hs) as Hstr.
  rewrite Forall_forall in Hstr.
  assert (Hin : a ∈ _get_relevant_news (_analyze_query q))
    by (eapply elem_of_sublist; [exact Ha|apply py_slice_to_sublist]).
  specialize (Hstr a Hin). by destruct (a_description a).
Qed.

(** C12. A query either raises [TypeError], and only when it fetched the
    general news because no sector was recognised (an article description
    that cannot be sliced; the sector path drops such articles), or
    returns a response and appends exactly one turn (the query, that
    response and the timestamp) to the history, leaving the vector store
    unchanged.  Retrieval and generation never make it raise. *)
Theorem process_query_outcome ts p q inc :
  match process_query ts p q inc with
  | Ok (r, p') =>
      vector_store p' = vector_store p
      ∧ conversation_history p' = _update_conversation_history (conversation_history p) q r ts
  | Raise e =>
      e = TypeError ∧ inc && _should_include_news (_analyze_query q) = true
      ∧ an_sectors (_analyze_query q) = []
  end.
Proof.
  destruct (process_query ts p q inc) as [[r p']|e] eqn:Hq;
    [by eapply process_query_ok_inv|by apply process_query_raise_inv in Hq].
Qed.

(** C14. A failing generation call does not fail the query: the response
    is the apology carrying the error's text, and that apology is the
    turn appended last to the history. *)
Theorem generation_failure_apology ts p q inc err r p' :
  (∀ msgs, llm_invoke msgs = LlmError err) ->
  process_query ts p q inc = Ok (r, p') ->
  r = apology err ∧ last (conversation_history p') = Some (mk_turn q (apology err) ts).
Proof.
  intros Hllm Hq. pose proof (process_query_ok_inv _ _ _ _ _ _ Hq) as [_ Hh].
  revert Hq. unfold process_query.
  destruct (retrieve_context_ok (vector_store p) q (_analyze_query q)) as [docs ->].
  cbn [mbind exc_bind].
  destruct (_build_context docs _); cbn [mbind exc_bind mret exc_ret]; [|done].
  unfold _generate_response. rewrite Hllm. intros [= <- <-]. split; [done|].
  rewrite Hh, update_lastn, (lastn_app_one 9). apply last_snoc.
Qed.

End Outcome.

Section Session.
Context `{SimilaritySearch} `{NewsAdapters} `{ListSortRuntime} `{LLM}.

Lemma initialize_news_history u p :
  conversation_history (initialize_news u p) = conversation_history p.
Proof. unfold initialize_news. by destruct (_ ≫= _). Qed.

Lemma initialize_news_wf u p : store_wf (vector_store p) -> store_wf (vector_store (initialize_news u p)).
Proof.
  intros Hwf. unfold initialize_news.
  destruct (fetch_all_news 30) as [news|]; cbn [mbind exc_bind]; [|done].
  case_bool_decide; cbn [mret exc_ret]; [done|].
  destruct (add_news_articles u news (vector_store p)) eqn:Ha; [|done].
  by eapply add_news_articles_wf.
Qed.

Lemma run_ops_snoc h ops op : run_ops h (ops ++ [op]) = apply_op (run_ops h ops) op.
Proof. unfold run_ops. by rewrite foldl_app. Qed.

(** C10. Refinement: along any session, the history the pipeline keeps
    is the one [History]'s model computes from the same appends and
    clears: queries that raise and news loads do not touch it. *)
Theorem session_history p ops p' :
  session p ops p' -> conversation_history p' = run_ops (conversation_history p) ops.
Proof.
  induction 1 as [p|p ops p1 ts q inc r p2 _ IH Hq|p ops p1 _ IH|p ops p1 u _ IH].
  - done.
  - rewrite run_ops_snoc, <-IH. by apply process_query_ok_inv in Hq as [_ ->].
  - by rewrite run_ops_snoc, <-IH.
  - by rewrite initialize_news_history.
Qed.

(** C11. Invariant: every pipeline a session reaches from a well-formed
    one (unique record ids, at most ten turns) is well formed. *)
Theorem session_wf p ops p' : pipeline_wf p -> session p ops p' -> pipeline_wf p'.
Proof.
  intros Hwf Hs. induction Hs as [p|p ops p1 ts q inc r p2 _ IH Hq|p ops p1 _ IH|p ops p1 u _ IH];
    [done| | |].
  - destruct (IH Hwf) as [Hst Hlen]. apply process_query_ok_inv in Hq as [Hv Hh].
    unfold pipeline_wf. rewrite Hv, Hh, update_lastn, length_lastn. split; [done|lia].
  - destruct (IH Hwf). split; [done|]. simpl. lia.
  - destruct (IH Hwf). split; [by apply initialize_news_wf|by rewrite initialize_news_history].
Qed.

End Session.

(** ** Examples *)

Definition answering_llm : LLM :=
  {| llm_invoke := fun _ => LlmOk (str_of "Lakshmi Looms and Sutlej Spinners lead the textile sector.") |}.

Definition failing_llm : LLM :=
  {| llm_invoke := fun _ => LlmError (str_of "Rate limit reached") |}.

(** NewsData.io answers the Textiles keywords with an item whose title
    is [null]; the other sectors get a dairy story. *)
Definition textile_null_adapters : NewsAdapters :=
  {| fetch_newsdata_io := fun kws =>
       if bool_decide (kws = sector_keywords_get (str_of "Textiles")) then [null_title_item]
       else [t1_item];
     fetch_finnhub := fun _ => []; fetch_alpha_vantage := fun _ => [];
     fetch_marketaux := fun _ => [] |}.

Definition demo_pipeline : pipeline := mk_pipeline demo_store [].
Definition demo_query : pystr := str_of "Compare textile companies".
Definition demo_ts : pystr := str_of "2024-01-15 10:30:00.000000".

Definition query_with (L : LLM) : exc (pystr * pipeline) :=
  @process_query demo_knn textile_null_adapters keep_order_runtime L demo_ts demo_pipeline
    demo_query true.

Definition demo_answer : pystr :=
  match query_with answering_llm with Ok (r, _) => r | Raise _ => [] end.
Definition demo_after : pipeline :=
  match query_with answering_llm with Ok (_, p) => p | Raise _ => demo_pipeline end.
Definition failed_after : pipeline :=
  match query_with failing_llm with Ok (_, p) => p | Raise _ => demo_pipeline end.

Definition demo_docs : list sresult :=
  match @_retrieve_context demo_knn (vector_store demo_pipeline) demo_query
          (_analyze_query demo_query) with
  | Ok d => d
  | Raise _ => []
  end.

Lemma retrieve_context_first_seen_witness :
  NoDup (sr_id <$> demo_docs) ∧ length demo_docs ≤ 15.
Proof.
  destruct (@retrieve_context_first_seen demo_knn (vector_store demo_pipeline) demo_query
              (_analyze_query demo_query) demo_docs ltac:(vm_compute; reflexivity))
    as (all & _ & Hnd & Hlen & _).
  split; [exact Hnd|exact Hlen].
Defined.

Lemma relevant_news_isolation_witness :
  @_get_relevant_news textile_null_adapters keep_order_runtime
    (with_sectors (_analyze_query demo_query) [str_of "Food Processing"; str_of "Textiles"])
  = @_get_relevant_news textile_null_adapters keep_order_runtime
      (with_sectors (_analyze_query demo_query) [str_of "Food Processing"]).
Proof.
  apply (@relevant_news_isolation textile_null_adapters keep_order_runtime
           (_analyze_query demo_query) [str_of "Food Processing"] (str_of "Textiles") []
           AttributeError); [vm_compute; reflexivity|done].
Defined.

Lemma generation_failure_apology_witness :
  apology (str_of "Rate limit reached") = apology (str_of "Rate limit reached")
  ∧ last (conversation_history failed_after)
    = Some (mk_turn demo_query (apology (str_of "Rate limit reached")) demo_ts).
Proof.
  apply (@generation_failure_apology demo_knn textile_null_adapters keep_order_runtime failing_llm
           demo_ts demo_pipeline demo_query true (str_of "Rate limit reached")
           (apology (str_of "Rate limit reached")) failed_after);
    [done|vm_compute; reflexivity].
Defined.

Lemma demo_session :
  @session demo_knn textile_null_adapters keep_order_runtime answering_llm demo_pipeline
    ([] ++ [OpAppend demo_query demo_answer demo_ts]) demo_after.
Proof.
  apply (@session_query demo_knn textile_null_adapters keep_order_runtime answering_llm
           demo_pipeline [] demo_pipeline demo_ts demo_query true demo_answer demo_after);
    [apply session_start|vm_compute; reflexivity].
Qed.

Lemma session_history_witness :
  conversation_history demo_after = run_ops [] ([] ++ [OpAppend demo_query demo_answer demo_ts]).
Proof.
  apply (@session_history demo_knn textile_null_adapters keep_order_runtime answering_llm
           demo_pipeline _ demo_after demo_session).
Defined.

Lemma session_wf_witness : pipeline_wf demo_after.
Proof.
  apply (@session_wf demo_knn textile_null_adapters keep_order_runtime answering_llm
           demo_pipeline ([] ++ [OpAppend demo_query demo_answer demo_ts]) demo_after);
    [|exact demo_session].
  split; [apply (bool_decide_unpack _); vm_compute; reflexivity|simpl; lia].
Defined.
