(* ===== verification/App.v ===== *)
(** * The Streamlit session ([src/app.py])

    Streamlit reruns [app.py] from the top on every interaction and
    keeps [st.session_state] between runs (lines 78-83): the pipeline
    object [rag_pipeline], the displayed [chat_history] and the flag
    [knowledge_base_loaded]; the news tab adds [latest_news].  One run
    that handles one interaction is [app_step]: the "Initialize System"
    button (lines 142-159), the chat input (lines 242-256), the three
    quick-action buttons (lines 262-284), "Clear Chat History" (lines
    287-290) and "Refresh News" (lines 350-364).  A run that raises
    aborts: Streamlit shows the traceback and the session state keeps
    what the run had stored before the exception.

    The process environment is in the state: the sidebar writes the keys
    typed in it to [os.environ] (lines 121-131), but [config.py] read
    them once, when it was imported ([config_env]); [MSMERAGPipeline()]
    and the news adapters only see that copy.  The sidebar writes on
    every run; the model records the write on the run of the
    "Initialize System" button, the only one that could read it.  The persistent Chroma
    collection is in the state as well ([collection]): a new pipeline
    opens the same directory.

    The theorems: the replies the chat shows are the ones the pipeline
    remembers, as long as the system is not initialised again; a key
    typed only in the sidebar never initialises the system; a second
    initialisation adds every news article again under new ids; the
    handling of an interaction never raises, although the quick actions
    call the pipeline without [try] ([View] draws the page and shows how
    the page can abort). *)

From S2P Require Import Prelude PyStr PyObj Config Intent History News Store Companies Pipeline.

Inductive role : Type := RoleUser | RoleAssistant.

#[export] Instance role_eq_dec : EqDecision role.
Proof. solve_decision. Defined.

(** [{"role": ..., "content": ...}] *)
Record chat_message : Type := mk_msg { m_role : role; m_content : pystr }.

Record app_state : Type := mk_app {
  os_environ : pystr -> option pystr;
  rag_pipeline : option pipeline;
  chat_history : list chat_message;
  knowledge_base_loaded : bool;
  latest_news : option (list article);
  collection : vstore
}.

(** Lines 78-83, on the first run. *)
Definition initial_state (env : pystr -> option pystr) (disk : vstore) : app_state :=
  mk_app env None [] false None disk.

Inductive quick_action : Type := QuickManufacturing | QuickTechnology | QuickHealthcare.

Definition quick_sector (q : quick_action) : pystr :=
  match q with
  | QuickManufacturing => str_of "Manufacturing"
  | QuickTechnology => str_of "Technology"
  | QuickHealthcare => str_of "Healthcare"
  end.

Definition quick_label (q : quick_action) : pystr :=
  match q with
  | QuickManufacturing => str_of "Manufacturing sector overview"
  | QuickTechnology => str_of "Technology sector trends"
  | QuickHealthcare => str_of "Healthcare sector analysis"
  end.

(** The interaction a run handles, with the inputs it reads: the key
    in the sidebar, the [uuid4] draws, the clock. *)
Inductive app_event : Type :=
  | Initialize (openai_key : pystr) (uuid_hex : nat -> pystr)
  | ChatInput (prompt ts : pystr)
  | QuickAction (q : quick_action) (ts : pystr)
  | ClearChat
  | RefreshNews.

(** Lines 127-128: [os.environ['OPENAI_API_KEY'] = openai_key]. *)
Definition set_environ (env : pystr -> option pystr) (k v : pystr) : pystr -> option pystr :=
  fun k' => if decide (k' = k) then Some v else env k'.

Definition with_pipeline (s : app_state) (p : pipeline) : app_state :=
  mk_app (os_environ s) (Some p) (chat_history s) (knowledge_base_loaded s) (latest_news s)
    (vector_store p).

Definition with_chat (s : app_state) (chat : list chat_message) : app_state :=
  mk_app (os_environ s) (rag_pipeline s) chat (knowledge_base_loaded s) (latest_news s)
    (collection s).

Section Run.
Context `{SimilaritySearch} `{NewsAdapters} `{ListSortRuntime} `{LLM}.

(** What the run finds outside the session: the environment [config.py]
    was imported with, whether the two CSV files exist, and their
    contents. *)
Variable config_env : pystr -> option pystr.
Variable data_files_exist : bool.
Variables companies_df financial_df : frame.

(** Lines 142-159. *)
Definition initialize_system (s : app_state) (uuid_hex : nat -> pystr) : app_state :=
  match new_pipeline config_env (collection s) with
  | Raise _ => s
  | Ok p =>
      let s1 := with_pipeline s p in
      if data_files_exist then
        match initialize_knowledge_base companies_df financial_df
                uuid_hex p with
        | Ok p' =>
            mk_app (os_environ s1) (Some p') (chat_history s1) true (latest_news s1)
              (vector_store p')
        | Raise _ => s1
        end
      else s1
  end.

(** Lines 242-256: the prompt is shown before the query runs. *)
Definition chat_input (s : app_state) (p : pipeline) (prompt ts : pystr) : app_state :=
  let s1 := with_chat s (chat_history s ++ [mk_msg RoleUser prompt]) in
  match process_query ts p prompt true with
  | Ok (response, p') =>
      with_chat (with_pipeline s1 p') (chat_history s1 ++ [mk_msg RoleAssistant response])
  | Raise _ => s1
  end.

(** Lines 262-284: no [try] around [get_sector_summary]. *)
Definition quick_action_run (s : app_state) (p : pipeline) (q : quick_action) (ts : pystr)
    : exc app_state :=
  '(response, p') ← get_sector_summary ts p (quick_sector q);
  mret (with_chat (with_pipeline s p')
          (chat_history s ++ [mk_msg RoleUser (quick_label q); mk_msg RoleAssistant response])).

(** Lines 350-364. *)
Definition refresh_news (s : app_state) : app_state :=
  match fetch_all_news 20 with
  | Ok all_news =>
      if bool_decide (all_news = []) then s
      else mk_app (os_environ s) (rag_pipeline s) (chat_history s) (knowledge_base_loaded s)
             (Some all_news) (collection s)
  | Raise _ => s
  end.

(** One run of [app.py] handling one interaction; the main area (chat,
    quick actions, news tab) only exists once [rag_pipeline] is set. *)
Definition app_step (s : app_state) (ev : app_event) : exc app_state :=
  match ev with
  | Initialize key u =>
      let env := if bool_decide (key = []) then os_environ s
                 else set_environ (os_environ s) (str_of "OPENAI_API_KEY") key in
      let s0 := mk_app env (rag_pipeline s) (chat_history s) (knowledge_base_loaded s)
                  (latest_news s) (collection s) in
      if bool_decide (key = []) then mret s0 else mret (initialize_system s0 u)
  | ChatInput prompt ts =>
      match rag_pipeline s with Some p => mret (chat_input s p prompt ts) | None => mret s end
  | QuickAction q ts =>
      match rag_pipeline s with Some p => quick_action_run s p q ts | None => mret s end
  | ClearChat =>
      match rag_pipeline s with
      | Some p => mret (with_chat (with_pipeline s (pipeline_clear_history p)) [])
      | None => mret s
      end
  | RefreshNews =>
      match rag_pipeline s with Some _ => mret (refresh_news s) | None => mret s end
  end.

End Run.

(** ** Specification *)

(** The contents of the assistant messages, in order. *)
Definition replies (chat : list chat_message) : list pystr :=
  m_content <$> filter (fun m => m_role m = RoleAssistant) chat.

(** The chat shows the replies the pipeline remembers: the last ten of
    them are the answers of the pipeline's history. *)
Definition app_inv (s : app_state) : Prop :=
  match rag_pipeline s with
  | Some p => t_assistant <$> conversation_history p = lastn 10 (replies (chat_history s))
              ∧ vector_store p = collection s
  | None => chat_history s = []
  end.

(** How many records of a collection hold a document, or an id. *)
Definition doc_count (st : vstore) (d : pystr) : nat :=
  length (filter (fun e => e_document e = d) (vs_entries st)).
Definition id_count (st : vstore) (i : pystr) : nat :=
  length (filter (fun e => e_id e = i) (vs_entries st)).

Definition is_initialize (ev : app_event) : bool :=
  match ev with Initialize _ _ => true | _ => false end.

Lemma fmap_lastn {A B} (f : A -> B) n l : f <$> lastn n l = lastn n (f <$> l).
Proof. unfold lastn. by rewrite fmap_drop, length_fmap. Qed.

Lemma lastn_snoc_lastn {A} (l : list A) x : lastn 10 (lastn 10 l ++ [x]) = lastn 10 (l ++ [x]).
Proof. rewrite !(lastn_app_one 9), lastn_lastn by lia. done. Qed.

Lemma update_replies h q r ts :
  t_assistant <$> _update_conversation_history h q r ts = lastn 10 ((t_assistant <$> h) ++ [r]).
Proof. by rewrite update_lastn, fmap_lastn, fmap_app. Qed.

Lemma replies_app c1 c2 : replies (c1 ++ c2) = replies c1 ++ replies c2.
Proof. unfold replies. by rewrite filter_app, fmap_app. Qed.

Lemma filter_Forall_nil {A} (P : A -> Prop) `{∀ x, Decision (P x)} l :
  Forall (fun x => ¬ P x) l -> filter P l = [].
Proof. induction 1; [done|]. by rewrite filter_cons, decide_False. Qed.

Lemma filter_length_pos {A} (P : A -> Prop) `{∀ x, Decision (P x)} l x :
  x ∈ l -> P x -> 0 < length (filter P l).
Proof.
  intros Hx HP. assert (Hf : x ∈ filter P l) by (by apply list_elem_of_filter).
  destruct (filter P l); [by apply not_elem_of_nil in Hf|simpl; lia].
Qed.

(** Loading news, whether or not the fetch returned any. *)
Lemma add_news_if_empty u arts st :
  (if bool_decide (arts = []) then mret st else add_news_articles u arts st)
  = add_news_articles u arts st.
Proof. unfold add_news_articles. by case_bool_decide. Qed.

(** ** Lemmas *)

Section Lemmas.
Context `{SimilaritySearch} `{NewsAdapters} `{ListSortRuntime} `{LLM}.

Lemma initialize_knowledge_base_history cdf fdf u p p' :
  initialize_knowledge_base cdf fdf u p = Ok p' ->
  conversation_history p' = conversation_history p.
Proof.
  unfold initialize_knowledge_base.
  destruct (load_company_data _ _ _); cbn [mbind exc_bind mret exc_ret]; [|done].
  intros [= <-]. by rewrite initialize_news_history.
Qed.

Lemma new_pipeline_ok env st p : new_pipeline env st = Ok p -> p = mk_pipeline st [].
Proof. unfold new_pipeline. by destruct (py_truthy _); intros [= <-]. Qed.

Lemma inv_after_query s s1 p q r p' ts extra :
  app_inv s -> rag_pipeline s = Some p -> process_query ts p q true = Ok (r, p') ->
  replies extra = [] ->
  app_inv (with_chat (with_pipeline s1 p') (chat_history s ++ extra ++ [mk_msg RoleAssistant r])).
Proof.
  intros Hinv Hp Hq Hx. unfold app_inv in *. rewrite Hp in Hinv. destruct Hinv as [Hh _].
  apply process_query_ok_inv in Hq as [_ Hh'].
  unfold with_chat, with_pipeline. cbn [rag_pipeline chat_history collection].
  split; [|done]. rewrite Hh', update_replies, Hh, !replies_app, Hx.
  by rewrite lastn_snoc_lastn.
Qed.


Lemma refresh_news_inv s : app_inv s -> app_inv (refresh_news s).
Proof.
  unfold refresh_news. destruct (fetch_all_news 20); [|done]. by case_bool_decide.
Qed.

(** C16. Invariant: as long as the system is not initialised a second
    time, the replies shown in the chat and the pipeline's memory agree:
    the answers of the pipeline's history are the last ten replies of
    the chat, and the pipeline's store is the persistent collection.  A
    chat query that raises leaves its question without a reply in the
    chat and the pipeline untouched, which keeps the invariant. *)
Theorem app_step_inv config_env files cdf fdf s ev s' :
  app_inv s -> (is_initialize ev = false ∨ rag_pipeline s = None) ->
  app_step config_env files cdf fdf s ev = Ok s' -> app_inv s'.
Proof.
  intros Hinv Hev. destruct ev as [key u|prompt ts|q ts| |]; cbn [app_step].
  - destruct Hev as [[=]|Hnone]. unfold app_inv in Hinv. rewrite Hnone in Hinv.
    case_bool_decide; intros [= <-]; [by unfold app_inv; cbn; rewrite Hnone|].
    unfold initialize_system. cbn [collection].
    destruct (new_pipeline _ _) as [p|] eqn:Hp; [|by unfold app_inv; cbn; rewrite Hnone].
    apply new_pipeline_ok in Hp as ->.
    destruct files; [destruct (initialize_knowledge_base _ _ _ _) as [p'|] eqn:Hk|].
    + unfold app_inv. cbn. rewrite (initialize_knowledge_base_history _ _ _ _ _ Hk), Hinv.
      done.
    + unfold app_inv. cbn. by rewrite Hinv.
    + unfold app_inv. cbn. by rewrite Hinv.
  - destruct (rag_pipeline s) as [p|] eqn:Hp; [|by intros [= <-]]. intros [= <-].
    unfold chat_input. destruct (process_query ts p prompt true) as [[r p']|e] eqn:Hq.
    + cbn [chat_history with_chat]. rewrite <-app_assoc.
      by apply (inv_after_query s _ p prompt r p' ts [mk_msg RoleUser prompt]).
    + unfold app_inv in *. unfold with_chat. cbn [rag_pipeline chat_history collection].
      rewrite Hp in Hinv |- *. destruct Hinv as [Hh Hc]. rewrite replies_app.
      change (replies [mk_msg RoleUser prompt]) with (@nil pystr). by rewrite app_nil_r.
  - destruct (rag_pipeline s) as [p|] eqn:Hp; [|by intros [= <-]].
    unfold quick_action_run, get_sector_summary.
    destruct (process_query ts p _ true) as [[r p']|e] eqn:Hq; cbn [mbind exc_bind]; [|done].
    cbn [mret exc_ret]. intros [= <-].
    change [mk_msg RoleUser (quick_label q); mk_msg RoleAssistant r]
      with ([mk_msg RoleUser (quick_label q)] ++ [mk_msg RoleAssistant r]).
    by apply (inv_after_query s _ p (sector_summary_query (quick_sector q)) r p' ts).
  - destruct (rag_pipeline s) as [p|] eqn:Hp; [|by intros [= <-]]. intros [= <-].
    unfold app_inv. cbn. done.
  - destruct (rag_pipeline s) as [p|] eqn:Hp; intros [= <-]; [|done].
    by apply refresh_news_inv.
Qed.


Lemma quick_query_sectors q : an_sectors (_analyze_query (sector_summary_query (quick_sector q))) ≠ [].
Proof. destruct q; vm_compute; discriminate. Qed.

(** C17. The handling of an interaction, [app_step], never raises,
    whatever the state and the event: the initialisation, the chat input
    and the news refresh catch every exception, and the quick actions,
    which call [get_sector_summary] without [try], cannot raise, because
    their queries always name a sector and the sector news only hold
    articles whose description is a string.  This covers the handler
    alone: the page the same run draws afterwards ([View.page]) can
    still abort, on a news article it cannot draw. *)
Theorem app_step_total config_env files cdf fdf s ev :
  ∃ s', app_step config_env files cdf fdf s ev = Ok s'.
Proof.
  destruct ev as [key u|prompt ts|q ts| |]; cbn [app_step]; try (case_bool_decide; by eauto);
    destruct (rag_pipeline s) as [p|]; eauto.
  unfold quick_action_run, get_sector_summary.
  destruct (process_query ts p _ true) as [[r p']|e] eqn:Hq; cbn [mbind exc_bind mret exc_ret];
    [eauto|].
  apply process_query_raise_inv in Hq as (_ & _ & Hs). by apply quick_query_sectors in Hs.
Qed.

(** C18. A key typed only in the sidebar never starts the system: the run
    copies it to [os.environ], but [MSMERAGPipeline()] checks the value
    [config.py] read when it was imported, raises [ValueError], and the
    [except] leaves [rag_pipeline] unset. *)
Theorem sidebar_key_ignored config_env files cdf fdf s key u :
  py_truthy (getenv config_env (str_of "OPENAI_API_KEY")) = false -> rag_pipeline s = None ->
  key ≠ [] ->
  ∃ s', app_step config_env files cdf fdf s (Initialize key u) = Ok s'
        ∧ rag_pipeline s' = None ∧ os_environ s' (str_of "OPENAI_API_KEY") = Some key.
Proof.
  intros Henv Hnone Hkey. cbn [app_step]. rewrite bool_decide_false by done.
  eexists. split; [reflexivity|]. unfold initialize_system, new_pipeline.
  rewrite Henv. cbn. split; [done|]. unfold set_environ. by rewrite decide_True.
Qed.

(** C19. Clicking "Initialize System" again (the button stays in the
    sidebar) stores the news again: whenever the click builds the
    pipeline, the data files are there, the companies load and the news
    fetch returns storable articles, every fetched article's document is
    held by one more record than before, under a new [uuid4] id, while a
    record id the collection already held (a company's
    [company_<Company_ID>]) is held no more often than before.  After the
    first initialisation the collection thus holds each news document
    twice, which the retrieval's dedup by id cannot merge. *)
Theorem reinit_duplicates_news config_env files cdf fdf s key u vs arts :
  key ≠ [] -> py_truthy (getenv config_env (str_of "OPENAI_API_KEY")) = true ->
  files = true -> load_company_data cdf fdf (collection s) = Ok vs ->
  fetch_all_news 30 = Ok arts -> Forall (fun a => news_storable a = true) arts ->
  NoDup (news_id u <$> seq 0 (length arts)) ->
  (∀ i, i < length arts -> news_id u i ∉ e_id <$> vs_entries vs) ->
  ∃ s', app_step config_env files cdf fdf s (Initialize key u) = Ok s'
        ∧ knowledge_base_loaded s' = true
        ∧ (∀ a, a ∈ arts -> doc_count (collection s) (_create_news_document a)
                             < doc_count (collection s') (_create_news_document a))
        ∧ ∀ i, i ∈ e_id <$> vs_entries (collection s) -> id_count (collection s') i = id_count (collection s) i.
Proof.
  intros Hkey Henv -> Hload Hnews Hst Hnd Hfresh.
  destruct (proj2 (add_news_articles_ok_iff u arts vs) (or_intror (conj Hst Hnd))) as [vs' Hadd].
  destruct (load_company_data_extends _ _ _ _ Hload) as (cnew & Hvs & Hc).
  destruct (add_news_articles_entries _ _ _ _ Hadd Hfresh) as (nnew & Hvs' & _ & Hid & Hdoc).
  cbn [app_step]. rewrite bool_decide_false by done. eexists. split; [reflexivity|].
  unfold initialize_system, new_pipeline. cbn [collection]. rewrite Henv.
  unfold initialize_knowledge_base, initialize_news. cbn [mret exc_ret vector_store].
  rewrite Hload. cbn [mbind exc_bind mret exc_ret]. rewrite Hnews. cbn [mbind exc_bind vector_store].
  rewrite add_news_if_empty, Hadd. cbn [knowledge_base_loaded collection vector_store].
  unfold doc_count, id_count. rewrite Hvs', Hvs. split_and!; [done| |].
  - intros a (e & He & Hd & _)%Hdoc. rewrite !filter_app, !length_app.
    pose proof (filter_length_pos (fun e => e_document e = _create_news_document a) nnew e He Hd). lia.
  - intros i Hi. rewrite !filter_app, !length_app.
    rewrite (filter_Forall_nil _ cnew), (filter_Forall_nil _ nnew); [simpl; lia| |].
    + apply Forall_forall. intros e (j & Hj & Hej)%Hid Heq. apply (Hfresh j Hj).
      rewrite <-Hej, Heq, Hvs, fmap_app. apply elem_of_app. by left.
    + eapply Forall_impl; [exact Hc|]. intros e Hn Heq. apply Hn. by rewrite Heq.
Qed.

End Lemmas.

(** ** Examples *)

(** [config.py] imported with a key in the environment, or without. *)
Definition env_with_key : pystr -> option pystr :=
  fun k => if decide (k = str_of "OPENAI_API_KEY") then Some (str_of "sk-demo") else None.
Definition env_without_key : pystr -> option pystr := fun _ => None.

Definition company_row : row :=
  [(str_of "Company_ID", CStr (str_of "MSME001"));
   (str_of "Company_Name", CStr (str_of "Shakti Dairy"));
   (str_of "Sector", CStr (str_of "Food Processing"));
   (str_of "Location", CStr (str_of "Pune"));
   (str_of "Founded_Year", CInt 2009); (str_of "Employee_Count", CInt 120);
   (str_of "Primary_Products", CStr (str_of "Milk products"))].

Definition companies_csv : frame := mk_frame (fst <$> company_row) [company_row].
Definition financial_csv : frame :=
  mk_frame [str_of "Company_ID"; str_of "Year"; str_of "Revenue_Crores"] [].

Definition one_story : NewsAdapters := fixed_adapters [t1_item] [] [] [].

(** One run of the application with these inputs. *)
Definition demo_step (s : app_state) (ev : app_event) : exc app_state :=
  @app_step demo_knn one_story keep_order_runtime answering_llm env_with_key true
    companies_csv financial_csv s ev.

Definition fresh_state : app_state := initial_state env_with_key (mk_vstore []).

Definition first_uuids (i : nat) : pystr := str_of "a1" ++ n_str (N.of_nat i).
Definition second_uuids (i : nat) : pystr := str_of "b2" ++ n_str (N.of_nat i).

Definition after_init : app_state :=
  match demo_step fresh_state (Initialize (str_of "sk-demo") first_uuids) with
  | Ok s => s
  | Raise _ => fresh_state
  end.

Lemma app_step_inv_witness : app_inv after_init.
Proof.
  apply (@app_step_inv demo_knn one_story keep_order_runtime answering_llm env_with_key true
           companies_csv financial_csv fresh_state
           (Initialize (str_of "sk-demo") first_uuids) after_init);
    [reflexivity|right; reflexivity|vm_compute; reflexivity].
Defined.

Lemma sidebar_key_ignored_witness :
  ∃ s', @app_step demo_knn one_story keep_order_runtime answering_llm env_without_key true
          companies_csv financial_csv (initial_state env_without_key (mk_vstore []))
          (Initialize (str_of "sk-live") first_uuids) = Ok s'
        ∧ rag_pipeline s' = None ∧ os_environ s' (str_of "OPENAI_API_KEY") = Some (str_of "sk-live").
Proof.
  apply (@sidebar_key_ignored demo_knn one_story keep_order_runtime answering_llm env_without_key);
    [reflexivity|reflexivity|discriminate].
Defined.

Lemma reinit_duplicates_news_witness :
  ∃ s', demo_step after_init (Initialize (str_of "sk-demo") second_uuids) = Ok s'
        ∧ knowledge_base_loaded s' = true
        ∧ (∀ a, a ∈ [t1_item] -> doc_count (collection after_init) (_create_news_document a)
                                 < doc_count (collection s') (_create_news_document a))
        ∧ ∀ i, i ∈ e_id <$> vs_entries (collection after_init) ->
               id_count (collection s') i = id_count (collection after_init) i.
Proof.
  eapply (@reinit_duplicates_news demo_knn one_story keep_order_runtime answering_llm env_with_key true
            companies_csv financial_csv after_init (str_of "sk-demo") second_uuids).
  - discriminate.
  - reflexivity.
  - reflexivity.
  - reflexivity.
  - reflexivity.
  - decide_vm.
  - decide_vm.
  - intros i Hi. assert (i = 0) as -> by (cbn in Hi; lia). decide_vm.
Defined.
