(* ===== verification/View.v ===== *)
(** * The page of one run ([src/app.py], lines 160-459)

    After the sidebar, [app.py] draws the main area from the session
    state: without a pipeline the setup instructions and a preview of
    the two CSV files (lines 160-218); with one, four tabs (lines
    220-459): the chat history and the quick actions, the dashboard,
    the news feed, the analytics.  [App] handles the interaction of a
    run ([app_step]); this file draws the page of the state it leaves
    ([page]) and puts the two together ([run], [runs]).

    The news feed (lines 366-394) is drawn outside any [try]: a stored
    article whose category is not a string, whose sentiment is not a
    string, or whose score cannot be formatted raises out of the run.
    The interaction that follows a button or a chat message reruns the
    script ([st.rerun()]); the page of the rerun is the page of the
    state the interaction left, which is what [run] draws.

    The theorems: the news feed draws every stored article exactly when
    each is displayable; once an undisplayable article is stored (and
    a refresh would store one again), every later run aborts in the
    news tab, before the analytics tab; a configured key always brings
    the tabs up. *)

From S2P Require Import Prelude PyStr PyObj Binary64 Config News Store Companies Frames Dashboard Pipeline App.

(** ** The news feed (lines 348-394) *)

Definition news_icon : N := 128240%N.   (** U+1F4F0 *)

(** [v.title()]: only a string has it. *)
Definition py_title_val (v : pyval) : exc pystr :=
  match v with VStr s => Ok (py_title s) | _ => Raise AttributeError end.

(** [f"{v:.2f}"]: an [int] (or [bool]) is converted to a float; a string
    has no [f] format ([ValueError]); [None], lists and dicts have no
    format spec at all ([TypeError]). *)
Definition format_2f_val (v : pyval) : exc pystr :=
  match v with
  | VNum n => Ok (format_f 2 (b64_of_Z n))
  | VBool b => Ok (format_f 2 (b64_of_Z (if b then 1 else 0)))
  | VStr _ => Raise ValueError
  | _ => Raise TypeError
  end.

(** Line 386: [sentiment_color.get(label.lower(), "🟡")]. *)
Definition sentiment_icon (label_lower : pystr) : N :=
  if bool_decide (label_lower = str_of "positive") then 128994%N
  else if bool_decide (label_lower = str_of "negative") then 128308%N
  else 128993%N.

(** [if c: body] in the render monad. *)
Definition when (c : bool) (m : render unit) : render unit := if c then m else mret tt.

(** Lines 367-391: one article, in an expander labelled with the first
    100 characters of its title. *)
Definition article_view (a : article) : render unit :=
  title ← lift (py_slice_val 100 (a_title a));
  emit (WExpander ([news_icon; 32%N] ++ py_str title ++ str_of "..."));;
  emit (WText (str_of "**Source:** " ++ py_str (a_source_name a)));;
  category ← lift (py_title_val (a_category a));
  emit (WText (str_of "**Category:** " ++ category));;
  when (py_truthy (a_published_at a))
    (emit (WText (str_of "**Published:** " ++ py_str (a_published_at a))));;
  when (py_truthy (a_description a))
    (emit (WText (str_of "**Description:**"));; emit (WValue (a_description a)));;
  when (py_truthy (a_url a))
    (emit (WText (str_of "[Read Full Article](" ++ py_str (a_url a) ++ str_of ")")));;
  match a_sentiment a with
  | Some (label, score) =>
      when (py_truthy label)
        (low ← lift (py_str_lower label);
         t ← lift (py_title_val label);
         emit (WText (str_of "**Sentiment:** " ++ [sentiment_icon low; 32%N] ++ t));;
         when (py_truthy score)
           (sc ← lift (format_2f_val score); emit (WText (str_of "**Score:** " ++ sc))))
  | None => mret tt
  end.

(** ** The sidebar's key status (lines 134-139) *)

(** One line per provider: the key typed in the sidebar (or read from the
    environment as its default) is shown as connected when non-empty. *)
Definition api_status (openai_key newsdata_key finnhub_key alpha_vantage_key marketaux_key : pystr)
    : list widget :=
  (fun nk : string * pystr =>
     WText (str_of "**" ++ str_of nk.1 ++ str_of "**: " ++
            if bool_decide (nk.2 = []) then 10060%N :: str_of " Not configured"
            else 9989%N :: str_of " Connected"))
  <$> [("OpenAI", openai_key); ("NewsData.io", newsdata_key); ("Finnhub", finnhub_key);
       ("Alpha Vantage", alpha_vantage_key); ("MarketAux", marketaux_key)].

(** A [for] loop of the render monad. *)
Fixpoint render_all {A} (f : A -> render unit) (l : list A) : render unit :=
  match l with [] => mret tt | x :: l' => f x;; render_all f l' end.

Section Page.
Context `{SimilaritySearch} `{NewsAdapters} `{ListSortRuntime} `{LLM}.

(** The environment [config.py] was imported with, and the two CSV files
    on disk ([None] when missing). *)
Variable config_env : pystr -> option pystr.
Variables companies_csv financial_csv : option frame.

(** Lines 352-364: what the "Refresh News" button shows. *)
Definition refresh_feedback : list widget :=
  match fetch_all_news 20 with
  | Ok all_news =>
      if bool_decide (all_news = [])
      then [WWarning (str_of "No news articles fetched. " ++ [67%N] ++ str_of "heck your API keys.")]
      else [WSuccess (str_of "Fetched " ++ count_str (length all_news) ++ str_of " news articles")]
  | Raise e => [WError (str_of "Error fetching news: ") e]
  end.

(** Lines 348-394: the feedback of a refresh of this run, then the
    stored articles. *)
Definition news_tab (s : app_state) (feedback : list widget) : render unit :=
  emit (WSubheader (news_icon :: str_of " Latest Market News"));;
  (feedback, Ok tt);;
  match latest_news s with
  | Some articles => render_all article_view articles
  | None => emit (WInfo (str_of "Click 'Refresh News' to fetch latest market updates."))
  end.

(** Lines 224-240 and 259: the chat history as HTML. *)
Definition message_html (m : chat_message) : pystr :=
  str_of "<div class=" ++ [34%N] ++
  (if bool_decide (m_role m = RoleUser) then str_of "user-message" else str_of "assistant-message") ++
  [34%N] ++ str_of ">" ++ m_content m ++ str_of "</div>".

Definition chat_tab (s : app_state) : list widget :=
  [WSubheader (129302%N :: str_of " MSME Market Intelligence Assistant");
   WMarkdown (str_of "<div class=" ++ [34%N] ++ str_of "chat-container" ++ [34%N] ++ str_of ">")] ++
  ((fun m => WMarkdown (message_html m)) <$> chat_history s) ++
  [WMarkdown (str_of "</div>"); WSubheader (128640%N :: str_of " Quick Actions")].

Definition setup_instructions : pystr :=
  str_of "
    **Step 1: Get API Keys**
    - **OpenAI API Key** (Required): Get from [OpenAI Platform](https://platform.openai.com/api-keys)
    - **NewsData.io API Key** (Optional): Get from [NewsData.io](https://newsdata.io/)
    - **Finnhub API Key** (Optional): Get from [Finnhub](https://finnhub.io/)
    - **Alpha Vantage API Key** (Optional): Get from [Alpha Vantage](https://www.alphavantage.co/)
    - **MarketAux API Key** (Optional): Get from [MarketAux](https://www.marketaux.com/)

    **Step 2: Enter API Keys**
    - Enter your API keys in the sidebar
    - At minimum, you need the OpenAI API key for the chatbot to work
    - News APIs are optional but provide real-time market intelligence

    **Step 3: Initialize System**
    - Click " ++
  [34%N] ++
  [128640%N] ++
  str_of " Initialize System" ++
  [34%N] ++
  str_of " in the sidebar
    - The system will load your MSME company data and fetch recent news
    - Wait for the success message

    **Step 4: Start Chatting**
    - Use the chat interface to ask questions about MSME companies
    - Ask for company analysis, sector trends, financial comparisons, etc.
    ".

(** Lines 160-218: without a pipeline, the instructions and a preview of
    the files; the financial preview has its own bare [except]. *)
Definition preview : list widget :=
  [WInfo (128070%N :: str_of " Please configure API keys and initialize the system using the sidebar.");
   WSubheader (128295%N :: str_of " Setup Instructions");
   WMarkdown setup_instructions;
   WSubheader (128202%N :: str_of " Your MSME Dataset Preview")] ++
  try_render
    (companies_df ← lift (read_csv companies_csv);
     emit (WText (str_of "**Companies loaded:** " ++ count_str (length (df_rows companies_df))));;
     emit (WText (str_of "**Sectors:**"));;
     sectors ← lift (df_col companies_df "Sector");
     emit (WCountBar (value_counts sectors));;
     emit (WText (str_of "**Sample Companies:**"));;
     sample ← lift (df_select companies_df ["Company_Name"; "Sector"; "Location"]);
     emit (WRows (take 5 (df_rows sample)));;
     match read_csv financial_csv with
     | Ok financial_df =>
         emit (WText (str_of "**Financial records:** " ++ count_str (length (df_rows financial_df))));;
         emit (WText (str_of "Latest financial data sample:"));;
         emit (WRows (take 5 (df_rows financial_df)))
     | Raise _ => emit (WWarning (str_of "Financial data file not found."))
     end)
    (str_of "Could not load data preview: ").

(** The main area of a run: the preview, or the four tabs in order.  The
    news feed is not in a [try]: its exception ends the run. *)
Definition page (s : app_state) (feedback : list widget) : render unit :=
  match rag_pipeline s with
  | None => (preview, Ok tt)
  | Some _ =>
      (chat_tab s, Ok tt);;
      (dashboard_tab companies_csv financial_csv, Ok tt);;
      news_tab s feedback;;
      (analytics_tab companies_csv financial_csv, Ok tt)
  end.

(** The files as [app_step] reads them. *)
Definition files_exist : bool := bool_decide (is_Some companies_csv ∧ is_Some financial_csv).

Definition app_step_files (s : app_state) (ev : app_event) : exc app_state :=
  app_step config_env files_exist (default (mk_frame [] []) companies_csv)
    (default (mk_frame [] []) financial_csv) s ev.

(** One run: the interaction, then the page of the state it leaves; the
    refresh shows its feedback in the news tab. *)
Definition run (s : app_state) (ev : app_event) : app_state * render unit :=
  match app_step_files s ev with
  | Ok s' =>
      let feedback := match ev, rag_pipeline s with RefreshNews, Some _ => refresh_feedback | _, _ => [] end in
      (s', page s' feedback)
  | Raise e => (s, ([], Raise e))
  end.

(** The runs of a session, one per interaction. *)
Fixpoint runs (s : app_state) (evs : list app_event) : list (app_state * render unit) :=
  match evs with
  | [] => []
  | ev :: evs' => let r := run s ev in r :: runs r.1 evs'
  end.

End Page.

(** ** Lemmas: the news feed *)

(** An article the feed can draw: a title it can slice, a string
    category, and a sentiment (when there is one) that is a string with
    a score that formats. *)
Definition score_ok (v : pyval) : bool := match v with VNum _ | VBool _ => true | _ => false end.

Definition displayable (a : article) : bool :=
  sliceable (a_title a) && is_str (a_category a) &&
  match a_sentiment a with
  | Some (label, score) => negb (py_truthy label) || is_str label && (negb (py_truthy score) || score_ok score)
  | None => true
  end.

Lemma py_slice_val_ok n v : sliceable v = true -> ∃ x, py_slice_val n v = Ok x.
Proof. destruct v; cbn; try discriminate; eauto. Qed.

Lemma py_slice_val_err n v : sliceable v = false -> py_slice_val n v = Raise TypeError.
Proof. by destruct v. Qed.

Lemma py_title_val_ok v : is_str v = true -> ∃ t, py_title_val v = Ok t.
Proof. destruct v; cbn; try discriminate; eauto. Qed.

Lemma py_title_val_err v : is_str v = false -> py_title_val v = Raise AttributeError.
Proof. by destruct v. Qed.

Lemma lower_val_ok v : is_str v = true -> ∃ t, py_str_lower v = Ok t.
Proof. destruct v; cbn; try discriminate; eauto. Qed.

Lemma lower_val_err v : is_str v = false -> py_str_lower v = Raise AttributeError.
Proof. by destruct v. Qed.

Lemma format_2f_val_ok v : score_ok v = true -> ∃ t, format_2f_val v = Ok t.
Proof. destruct v; cbn; try discriminate; eauto. Qed.

Lemma format_2f_val_err v : score_ok v = false -> ∃ e, format_2f_val v = Raise e.
Proof. destruct v; cbn; try discriminate; eauto. Qed.

(** An article is drawn without exception exactly when it is displayable. *)
Lemma article_view_outcome a : (article_view a).2 = Ok tt <-> displayable a = true.
Proof.
  unfold article_view, displayable.
  destruct (sliceable (a_title a)) eqn:Ht; [|by rewrite py_slice_val_err].
  destruct (py_slice_val_ok 100 _ Ht) as [t ->]. cbn.
  destruct (is_str (a_category a)) eqn:Hc; [|by rewrite py_title_val_err].
  destruct (py_title_val_ok _ Hc) as [c ->]. cbn.
  destruct (py_truthy (a_published_at a)), (py_truthy (a_description a)), (py_truthy (a_url a)); cbn;
    (destruct (a_sentiment a) as [[label score]|]; cbn; [|done]);
    (destruct (py_truthy label) eqn:Hl; cbn; [|done]);
    (destruct (is_str label) eqn:Hs; [|by rewrite lower_val_err]);
    destruct (lower_val_ok _ Hs) as [low ->]; destruct (py_title_val_ok _ Hs) as [tl ->]; cbn;
    (destruct (py_truthy score); cbn; [|done]);
    (destruct (score_ok score) eqn:Hsc;
      [destruct (format_2f_val_ok _ Hsc) as [x ->]|destruct (format_2f_val_err _ Hsc) as [e ->]]; done).
Qed.

Lemma render_all_outcome {A} (f : A -> render unit) l :
  (render_all f l).2 = Ok tt <-> Forall (fun x => (f x).2 = Ok tt) l.
Proof.
  induction l as [|x l IH]; cbn; [split; [constructor|done]|].
  rewrite Forall_cons, <- IH. destruct (f x) as [ws [[]|e]]; cbn; naive_solver.
Qed.

(** ** Lemmas: what a run keeps *)

Ltac keep_news := split; [cbn; by try congruence | left; reflexivity].

(** Once there is a pipeline, a run keeps one, and only a refresh that
    fetched articles changes the stored ones. *)
Lemma app_step_news `{SimilaritySearch} `{NewsAdapters} `{ListSortRuntime} `{LLM}
    cenv files cdf fdf s ev s' :
  app_step cenv files cdf fdf s ev = Ok s' -> rag_pipeline s ≠ None ->
  rag_pipeline s' ≠ None ∧
  (latest_news s' = latest_news s ∨ ∃ l, fetch_all_news 20 = Ok l ∧ l ≠ [] ∧ latest_news s' = Some l).
Proof.
  intros Hs Hp. destruct ev as [key u|prompt ts|q ts| |]; cbn [app_step] in Hs.
  - case_bool_decide; injection Hs as <-; [keep_news|].
    unfold initialize_system. destruct (new_pipeline _ _) as [p|]; [|keep_news].
    destruct files; [destruct (initialize_knowledge_base _ _ _ _)|]; keep_news.
  - destruct (rag_pipeline s) as [p|] eqn:E; [|done]. injection Hs as <-. unfold chat_input.
    destruct (process_query _ _ _ _) as [[r p']|]; keep_news.
  - destruct (rag_pipeline s) as [p|] eqn:E; [|done]. unfold quick_action_run in Hs.
    destruct (get_sector_summary _ _ _) as [[r p']|]; [|done]. injection Hs as <-. keep_news.
  - destruct (rag_pipeline s) as [p|] eqn:E; [|done]. injection Hs as <-. keep_news.
  - destruct (rag_pipeline s) as [p|] eqn:E; [|done]. injection Hs as <-. unfold refresh_news.
    destruct (fetch_all_news 20) as [l|] eqn:Hf; [|keep_news].
    case_bool_decide; [keep_news|]. split; [by rewrite E|right; eauto].
Qed.

Lemma forallb_displayable_outcome arts :
  Forall (fun a => (article_view a).2 = Ok tt) arts <-> forallb displayable arts = true.
Proof.
  rewrite forallb_forall, Forall_forall. setoid_rewrite article_view_outcome.
  by setoid_rewrite list_elem_of_In.
Qed.

Lemma initialize_system_pipeline `{SimilaritySearch} `{NewsAdapters} `{ListSortRuntime} `{LLM}
    cenv files cdf fdf s u :
  py_truthy (getenv cenv (str_of "OPENAI_API_KEY")) = true ->
  rag_pipeline (initialize_system cenv files cdf fdf s u) ≠ None.
Proof.
  intros Hkey. unfold initialize_system, new_pipeline. rewrite Hkey. cbn [mret exc_ret].
  destruct files; [destruct (initialize_knowledge_base _ _ _ _)|]; done.
Qed.

Section PageTheorems.
Context `{SimilaritySearch} `{NewsAdapters} `{ListSortRuntime} `{LLM}.
Variable config_env : pystr -> option pystr.
Variables companies_csv financial_csv : option frame.

Lemma news_tab_outcome s fb arts : latest_news s = Some arts ->
  (news_tab s fb).2 = Ok tt <-> forallb displayable arts = true.
Proof.
  intros Hl. unfold news_tab. rewrite Hl. cbn. by rewrite render_all_outcome, forallb_displayable_outcome.
Qed.

(** With a pipeline and stored articles, the run ends normally exactly
    when every stored article is displayable. *)
Lemma page_status s fb arts : rag_pipeline s ≠ None -> latest_news s = Some arts ->
  (page companies_csv financial_csv s fb).2 = Ok tt <-> forallb displayable arts = true.
Proof.
  intros Hp Hl. rewrite <- (news_tab_outcome s fb arts Hl).
  unfold page. destruct (rag_pipeline s) as [p|]; [|done]. cbn [mbind render_bind fst snd].
  by destruct (news_tab s fb) as [ws [[]|e]].
Qed.

(** C28. With a pipeline and stored articles, the page draws the chat,
    the dashboard and the news feed, and the analytics tab only when
    every stored article is displayable; otherwise the run ends with
    the exception of the news feed. *)
Theorem page_outcome s fb arts : rag_pipeline s ≠ None -> latest_news s = Some arts ->
  ((page companies_csv financial_csv s fb).2 = Ok tt <-> forallb displayable arts = true) ∧
  (page companies_csv financial_csv s fb).1 =
    chat_tab s ++ dashboard_tab companies_csv financial_csv ++ (news_tab s fb).1 ++
    (if forallb displayable arts then analytics_tab companies_csv financial_csv else []).
Proof.
  intros Hp Hl. split; [by apply page_status|]. pose proof (news_tab_outcome s fb arts Hl) as Ho.
  unfold page. destruct (rag_pipeline s) as [p|]; [|done]. cbn [mbind render_bind fst snd].
  destruct (news_tab s fb) as [ws [[]|e]]; cbn [mbind render_bind fst snd] in *.
  - by assert (forallb displayable arts = true) as -> by (by apply Ho).
  - destruct (forallb displayable arts); [by destruct Ho as [_ Hc]; specialize (Hc eq_refl)|].
    by rewrite !app_nil_r.
Qed.

(** The news feed is stuck: there is a pipeline and a stored article the
    feed cannot draw. *)
Definition feed_stuck (s : app_state) : Prop :=
  rag_pipeline s ≠ None ∧ ∃ arts, latest_news s = Some arts ∧ forallb displayable arts = false.

Lemma run_stuck s ev :
  (∀ l, fetch_all_news 20 = Ok l -> l ≠ [] -> forallb displayable l = false) ->
  feed_stuck s -> feed_stuck (run config_env companies_csv financial_csv s ev).1
    ∧ ∃ e, (run config_env companies_csv financial_csv s ev).2.2 = Raise e.
Proof.
  intros Hfetch [Hp (arts & Hl & Hd)]. unfold run.
  destruct (app_step_files _ _ _ s ev) as [s'|e] eqn:Hs; cbn [fst snd]; [|by split; [split; [|exists arts]|eauto]].
  unfold app_step_files in Hs. destruct (app_step_news _ _ _ _ _ _ _ Hs Hp) as [Hp' [Hl'|(l & Hf & Hne & Hl')]].
  - assert (feed_stuck s') as Hst by (split; [done|exists arts; by rewrite Hl']). split; [done|].
    match goal with |- context [page _ _ s' ?fb] =>
      pose proof (page_status s' fb arts Hp' ltac:(by rewrite Hl')) as Ho end.
    rewrite Hd in Ho. revert Ho. destruct ((page _ _ _ _).2) as [[]|e]; intros Ho;
      [discriminate (proj1 Ho eq_refl)|eauto].
  - pose proof (Hfetch l Hf Hne) as Hd'. split; [split; [done|by exists l]|].
    match goal with |- context [page _ _ s' ?fb] => pose proof (page_status s' fb l Hp' Hl') as Ho end.
    rewrite Hd' in Ho. revert Ho. destruct ((page _ _ _ _).2) as [[]|e]; intros Ho;
      [discriminate (proj1 Ho eq_refl)|eauto].
Qed.

(** C29. Once the news feed holds an article it cannot draw, and a
    refresh would fetch such an article again, every later run of the
    session aborts in the news tab, whatever the user does: the display
    loop is outside the [try] of the refresh and the stored list is only
    replaced by a refresh. *)
Theorem news_crash_persists s evs :
  (∀ l, fetch_all_news 20 = Ok l -> l ≠ [] -> forallb displayable l = false) ->
  feed_stuck s ->
  Forall (fun r => ∃ e, r.2.2 = Raise e) (runs config_env companies_csv financial_csv s evs).
Proof.
  intros Hfetch. revert s. induction evs as [|ev evs IH]; intros s Hs; cbn; [constructor|].
  destruct (run_stuck s ev Hfetch Hs) as [Hs' He]. constructor; [done|]. by apply IH.
Qed.

(** C30. Whatever state a session is in, the "Initialize System" button
    with a key typed in the sidebar brings the tabs up when [config.py]
    read a key at import: the run sets a pipeline and the page starts
    with the chat and the dashboard. *)
Theorem initialize_shows_tabs s key u :
  py_truthy (getenv config_env (str_of "OPENAI_API_KEY")) = true -> key ≠ [] ->
  ∃ s', app_step_files config_env companies_csv financial_csv s (Initialize key u) = Ok s'
        ∧ rag_pipeline s' ≠ None
        ∧ ∃ ws, (page companies_csv financial_csv s' []).1 =
                 chat_tab s' ++ dashboard_tab companies_csv financial_csv ++ ws.
Proof.
  intros Hkey Hne. unfold app_step_files. cbn [app_step].
  rewrite bool_decide_false by done. eexists. split; [reflexivity|].
  pose proof (initialize_system_pipeline config_env (files_exist companies_csv financial_csv)
    (default (mk_frame [] []) companies_csv) (default (mk_frame [] []) financial_csv)
    (mk_app (set_environ (os_environ s) (str_of "OPENAI_API_KEY") key) (rag_pipeline s)
       (chat_history s) (knowledge_base_loaded s) (latest_news s) (collection s)) u Hkey) as Hp.
  split; [done|]. unfold page. destruct (rag_pipeline _) as [p|]; [|done].
  cbn [mbind render_bind fst snd]. eexists. reflexivity.
Qed.

End PageTheorems.

(** ** Examples *)

(** A NewsData.io story whose category list starts with [null]:
    [newsdata_category] keeps the [None], and [.title()] of the display
    raises. *)
Definition null_category_item : article :=
  mk_article (str_of "NewsData.io") (VStr (str_of "Dairy exports rise")) (VStr []) (VStr []) (VStr [])
    (VStr (str_of "2024-01-15 10:30:00")) (VStr []) VNone None.

Definition null_category_feed : NewsAdapters := fixed_adapters [null_category_item] [] [] [].

Definition stuck_state : app_state :=
  mk_app env_with_key (Some (mk_pipeline (mk_vstore []) [])) [] true (Some [null_category_item]) (mk_vstore []).

Lemma page_outcome_witness :
  ((page (Some companies_csv) (Some financial_csv) stuck_state []).2 = Ok tt
     <-> forallb displayable [null_category_item] = true) ∧
  (page (Some companies_csv) (Some financial_csv) stuck_state []).1 =
    chat_tab stuck_state ++ dashboard_tab (Some companies_csv) (Some financial_csv)
    ++ (news_tab stuck_state []).1 ++
    (if forallb displayable [null_category_item] then analytics_tab (Some companies_csv) (Some financial_csv) else []).
Proof. apply page_outcome; [discriminate|reflexivity]. Defined.

Lemma news_crash_persists_witness :
  Forall (fun r => ∃ e, r.2.2 = Raise e)
    (@runs demo_knn null_category_feed keep_order_runtime answering_llm env_with_key
       (Some companies_csv) (Some financial_csv) stuck_state
       [ClearChat; RefreshNews; ChatInput (str_of "hello") (str_of "t0")]).
Proof.
  apply news_crash_persists.
  - intros l Hl _. vm_compute in Hl. injection Hl as <-. reflexivity.
  - split; [discriminate|exists [null_category_item]; split; reflexivity].
Defined.

Lemma initialize_shows_tabs_witness :
  ∃ s', @app_step_files demo_knn one_story keep_order_runtime answering_llm env_with_key
          (Some companies_csv) (Some financial_csv) fresh_state (Initialize (str_of "sk-demo") first_uuids) = Ok s'
        ∧ rag_pipeline s' ≠ None
        ∧ ∃ ws, (page (Some companies_csv) (Some financial_csv) s' []).1 =
                 chat_tab s' ++ dashboard_tab (Some companies_csv) (Some financial_csv) ++ ws.
Proof. apply initialize_shows_tabs; [reflexivity|discriminate]. Defined.
