(* ===== verification/Setup.v ===== *)
(** * Setting up from the template

    [src/script_9.py] writes [.env.example] with one placeholder per key
    ([Dotenv.env_example]); the instructions ask to copy it to [.env]
    and to put the real keys in.  This file follows a copy left as it is
    through the program: [load_dotenv()] at the top of [src/config.py]
    ([Dotenv.load_dotenv]); the key fields of the sidebar, whose initial
    values are [os.getenv(name, '')] ([src/app.py], lines 96-120,
    [sidebar_status]), and the status lines drawn from them (lines
    134-139, [View.api_status]); [MSMERAGPipeline.__init__]
    ([Pipeline.new_pipeline]); the keys of [NEWS_APIS] ([Config.news_api]).
    The placeholders are non-empty strings, so the sidebar shows every
    provider as connected, the pipeline starts, and every news request
    carries a placeholder as its key. *)

From S2P Require Import Prelude PyStr PyObj Config Dotenv Store Pipeline Dashboard View.

(** [os.getenv(name, default)]. *)
Definition getenv_or (env : pystr -> option pystr) (name : string) (d : pystr) : pystr :=
  default d (env (str_of name)).

(** Lines 96-139 of [src/app.py]: the five key fields start with the
    environment's values, and each is shown as connected when
    non-empty. *)
Definition sidebar_status (env : pystr -> option pystr) : list widget :=
  api_status (getenv_or env "OPENAI_API_KEY" []) (getenv_or env "NEWSDATA_API_KEY" [])
    (getenv_or env "FINNHUB_API_KEY" []) (getenv_or env "ALPHA_VANTAGE_API_KEY" [])
    (getenv_or env "MARKETAUX_API_KEY" []).

(** The environment after [load_dotenv()] with [.env] a copy of
    [.env.example]. *)
Definition template_env (environ : pystr -> option pystr) : pystr -> option pystr :=
  load_dotenv environ (Some env_example).

Definition placeholder (p : provider) : pystr :=
  str_of match p with
  | Newsdata => "your_newsdata_api_key_here"
  | Finnhub => "your_finnhub_api_key_here"
  | AlphaVantage => "your_alpha_vantage_api_key_here"
  | Marketaux => "your_marketaux_api_key_here"
  end.

(** ** Lemmas *)

Lemma template_env_get environ k v : (k, Some v) ∈ template_values -> environ k = None ->
  template_env environ k = Some v.
Proof. intros Hin Hk. by apply load_template. Qed.

Section Template.
Variable environ : pystr -> option pystr.
(** The process environment sets none of the five keys. *)
Hypothesis keys_unset : ∀ k, k ∈ fst <$> template_values -> environ k = None.

Lemma template_openai :
  template_env environ (str_of "OPENAI_API_KEY") = Some (str_of "your_openai_api_key_here").
Proof. apply template_env_get; [decide_vm|apply keys_unset; decide_vm]. Qed.

Lemma template_provider p : template_env environ (api_key_name p) = Some (placeholder p).
Proof. destruct p; (apply template_env_get; [decide_vm|apply keys_unset; decide_vm]). Qed.

(** C20. A copy of [.env.example] left as it is counts as configured:
    when the process environment sets none of the five keys, the sidebar
    shows every provider as connected, [MSMERAGPipeline()] accepts the
    placeholder as its OpenAI key, and each news provider is called with
    its placeholder as the key. *)
Theorem template_counts_as_configured coll :
  sidebar_status (template_env environ) =
    (fun name => WText (str_of "**" ++ str_of name ++ str_of "**: " ++ 9989%N :: str_of " Connected"))
      <$> ["OpenAI"; "NewsData.io"; "Finnhub"; "Alpha Vantage"; "MarketAux"]%string ∧
  new_pipeline (template_env environ) coll = Ok (mk_pipeline coll []) ∧
  (fun p => api_key (news_api (template_env environ) p)) <$> NEWS_APIS = (fun p => VStr (placeholder p)) <$> NEWS_APIS.
Proof.
  split; [|split].
  - unfold sidebar_status, getenv_or. rewrite template_openai.
    rewrite (template_provider Newsdata : template_env environ (str_of "NEWSDATA_API_KEY") = _),
      (template_provider Finnhub : template_env environ (str_of "FINNHUB_API_KEY") = _),
      (template_provider AlphaVantage : template_env environ (str_of "ALPHA_VANTAGE_API_KEY") = _),
      (template_provider Marketaux : template_env environ (str_of "MARKETAUX_API_KEY") = _).
    vm_compute. reflexivity.
  - unfold new_pipeline, getenv. by rewrite template_openai.
  - apply list_fmap_ext. intros _ p _. destruct p; unfold news_api, getenv; by rewrite template_provider.
Qed.

End Template.

Lemma template_counts_as_configured_witness :
  (∀ k, k ∈ fst <$> template_values -> (fun _ : pystr => @None pystr) k = None) ∧
  sidebar_status (template_env (fun _ => None)) =
    (fun name => WText (str_of "**" ++ str_of name ++ str_of "**: " ++ 9989%N :: str_of " Connected"))
      <$> ["OpenAI"; "NewsData.io"; "Finnhub"; "Alpha Vantage"; "MarketAux"]%string ∧
  new_pipeline (template_env (fun _ => None)) demo_store = Ok (mk_pipeline demo_store []) ∧
  (fun p => api_key (news_api (template_env (fun _ => None)) p)) <$> NEWS_APIS =
    (fun p => VStr (placeholder p)) <$> NEWS_APIS.
Proof. split; [done|]. apply (template_counts_as_configured (fun _ => None)). done. Defined.
